(** * ReinventCommunity notebooks: configuration building, serialisation,
      tool invocation and log slicing

    The repository consists of six Jupyter notebooks.  Each one builds a
    nested configuration dictionary, writes it with [json.dump], shells
    out to the REINVENT entry point and (in the reinforcement-learning
    notebooks) slices the captured stdout with a regular expression.

    - [Notebook_DRD2]         src/unnamed/part_000 (DRD2 use-case)
    - [Notebook_DockStream]   src/unnamed/part_001
    - [Notebook_Tanimoto]     src/unnamed/part_002
    - [Notebook_Selectivity]  src/notebooks/Reinforcement_Learning_Demo_Selectivity.ipynb
    - [Notebook_Exploration]  src/notebooks/Reinforcement_Learning_Exploration_Demo.ipynb
    - [Notebook_Sampling]     src/notebooks/Sampling_Demo.ipynb

    Python [str] values are modelled as [string]; a character is a code
    point below 256. *)

From Stdlib Require Import ZArith Ascii String List Lia Bool DecimalString DecimalZ DecimalN DecimalPos DecimalFacts.
From stdpp Require Import base tactics option list sorting strings.

Local Open Scope string_scope.
Local Open Scope list_scope.

(** The text-processing functions work on the list of characters of a
    [str]. *)
Abbreviation chars := list_ascii_of_string.
Abbreviation str := string_of_list_ascii.

(* ===================================================================== *)
(** * Python strings and paths *)
(* ===================================================================== *)

Module PyStr.

(** [s.startswith(p)] *)
Definition startswith (s p : string) : bool := String.prefix p s.

(** [s.endswith("/")], the only suffix test [posixpath.join] makes. *)
Fixpoint endswith_sep (s : string) : bool :=
  match s with
  | EmptyString => false
  | String c EmptyString => Ascii.eqb c "/"
  | String _ s' => endswith_sep s'
  end.

(** One iteration of the loop of [posixpath.join]:
<<
    if b.startswith(sep):            path = b
    elif not path or path.endswith(sep): path += b
    else:                            path += sep + b
>> *)
Definition join_step (path b : string) : string :=
  if startswith b "/" then b
  else if (String.eqb path "" || endswith_sep path)%bool then path ++ b
  else path ++ "/" ++ b.

(** [os.path.join(a, *p)] on a POSIX system. *)
Definition os_path_join (a : string) (p : list string) : string :=
  fold_left join_step p a.

(** [sep.join(parts)] *)
Fixpoint str_join (sep : string) (parts : list string) : string :=
  match parts with
  | [] => ""
  | [x] => x
  | x :: rest => x ++ sep ++ str_join sep rest
  end.

End PyStr.

(* ===================================================================== *)
(** * JSON-like Python values *)
(* ===================================================================== *)

(** A float constant, kept as the positional decimal text that
    [float.__repr__] prints for it: sign, integer part, fraction digits.
    Every float constant of the notebooks (0.4, 0.0001, 0.25, 0.5, 7.0,
    2.0) is written in the source in exactly that form. *)
Record pyfloat := PyFloat { f_neg : bool; f_int : N; f_frac : Decimal.uint }.

(** The tree of values that a dictionary display denotes and that
    [json.dump] walks: [None], [bool], [int], [float], [str], [list] and
    [dict] with [str] keys.  A [dict] keeps its items in insertion order. *)
#[warnings="-register-all"]
Inductive json : Type :=
| JNull
| JBool (b : bool)
| JInt (z : Z)
| JFloat (f : pyfloat)
| JStr (s : string)
| JList (items : list json)
| JDict (items : list (string * json)).

(** ** Dictionaries in insertion order *)

Section Dict.
Context {V : Type}.

(** [d[k]]; [None] stands for [KeyError]. *)
Fixpoint dict_getitem (k : string) (d : list (string * V)) : option V :=
  match d with
  | [] => None
  | (k', v) :: d' => if String.eqb k' k then Some v else dict_getitem k d'
  end.

(** [d[k] = v]: an existing key keeps its position, a new key goes last. *)
Fixpoint dict_setitem (k : string) (v : V) (d : list (string * V))
  : list (string * V) :=
  match d with
  | [] => [(k, v)]
  | (k', v') :: d' =>
      if String.eqb k' k then (k', v) :: d'
      else (k', v') :: dict_setitem k v d'
  end.

(** A dictionary display [{k1: v1, ..., kn: vn}] stores its items left
    to right. *)
Definition dict_display (items : list (string * V)) : list (string * V) :=
  fold_left (fun d kv => dict_setitem (fst kv) (snd kv) d) items [].

Definition dict_keys (d : list (string * V)) : list string := map fst d.

End Dict.

(* ===================================================================== *)
(** * The object store *)
(* ===================================================================== *)

(** Python dictionaries and lists are objects: a variable or a
    container slot holds a reference, and [d[k] = v] updates the object
    in place for every holder of a reference to it.  Scalars are
    immutable and are kept by value. *)

Definition loc := nat.

Inductive pyval : Type :=
| VNone
| VBool (b : bool)
| VInt (z : Z)
| VFloat (f : pyfloat)
| VStr (s : string)
| VRef (l : loc).

Inductive pyobj : Type :=
| OList (items : list pyval)
| ODict (items : list (string * pyval)).

(** The store maps location [l] to the [l]-th allocated object. *)
Definition store := list pyobj.

Definition alloc (o : pyobj) (st : store) : loc * store :=
  (length st, st ++ [o]).

(** A display expression: a literal tree whose leaves may also be values
    already computed (a variable holding a reference to an existing
    object, or a path computed by [os.path.join]). *)
#[warnings="-register-all"]
Inductive pyexp : Type :=
| ENone
| EBool (b : bool)
| EInt (z : Z)
| EFloat (f : pyfloat)
| EStr (s : string)
| EVar (v : pyval)
| EList (items : list pyexp)
| EDict (items : list (string * pyexp)).

(** Evaluating a display allocates one fresh object per [{...}] and
    [[...]], inner displays first, left to right. *)
Fixpoint eval (e : pyexp) (st : store) : pyval * store :=
  match e with
  | ENone => (VNone, st)
  | EBool b => (VBool b, st)
  | EInt z => (VInt z, st)
  | EFloat f => (VFloat f, st)
  | EStr s => (VStr s, st)
  | EVar v => (v, st)
  | EList items =>
      let '(vs, st1) :=
        (fix go (es : list pyexp) (st : store) : list pyval * store :=
           match es with
           | [] => ([], st)
           | e :: es' =>
               let '(v, st1) := eval e st in
               let '(vs, st2) := go es' st1 in
               (v :: vs, st2)
           end) items st in
      let '(l, st2) := alloc (OList vs) st1 in
      (VRef l, st2)
  | EDict items =>
      let '(kvs, st1) :=
        (fix go (es : list (string * pyexp)) (st : store)
           : list (string * pyval) * store :=
           match es with
           | [] => ([], st)
           | (k, e) :: es' =>
               let '(v, st1) := eval e st in
               let '(kvs, st2) := go es' st1 in
               ((k, v) :: kvs, st2)
           end) items st in
      let '(l, st2) := alloc (ODict (dict_display kvs)) st1 in
      (VRef l, st2)
  end.

(** [v[k]] for a value that must be a reference to a dictionary. *)
Definition store_getitem (st : store) (v : pyval) (k : string) : option pyval :=
  match v with
  | VRef l =>
      match st !! l with
      | Some (ODict d) => dict_getitem k d
      | _ => None
      end
  | _ => None
  end.

(** [v[k] = x]: in-place update of the dictionary object behind [v]. *)
Definition store_setitem (st : store) (v : pyval) (k : string) (x : pyval)
  : option store :=
  match v with
  | VRef l =>
      match st !! l with
      | Some (ODict d) => Some (<[l := ODict (dict_setitem k x d)]> st)
      | _ => None
      end
  | _ => None
  end.

(** The tree reachable from a value, as [json.dump] walks it.  The walk
    follows at most [fuel] nested references; a walk that needs more has
    met a cycle ([json] raises [ValueError]) and a dangling reference
    cannot occur, both give [None]. *)
Fixpoint resolve (fuel : nat) (st : store) (v : pyval) : option json :=
  match v with
  | VNone => Some JNull
  | VBool b => Some (JBool b)
  | VInt z => Some (JInt z)
  | VFloat f => Some (JFloat f)
  | VStr s => Some (JStr s)
  | VRef l =>
      match fuel with
      | O => None
      | S fuel' =>
          match st !! l with
          | Some (OList vs) =>
              JList <$> mapM (resolve fuel' st) vs
          | Some (ODict kvs) =>
              JDict <$> mapM (fun kv => pair (fst kv) <$> resolve fuel' st (snd kv)) kvs
          | None => None
          end
      end
  end.

(** A cycle-free walk never nests deeper than the number of objects. *)
Definition snapshot (st : store) (v : pyval) : option json :=
  resolve (S (length st)) st v.

(* ===================================================================== *)
(** * [json.dump(obj, f, indent=n, sort_keys=b)] *)
(* ===================================================================== *)

Module Json.

Definition dquote : ascii := "034"%char.
Definition backslash : ascii := "092"%char.
Definition newline : ascii := "010"%char.

Definition hex_digit (n : N) : ascii :=
  match n with
  | 0 => "0" | 1 => "1" | 2 => "2" | 3 => "3" | 4 => "4" | 5 => "5"
  | 6 => "6" | 7 => "7" | 8 => "8" | 9 => "9" | 10 => "a" | 11 => "b"
  | 12 => "c" | 13 => "d" | 14 => "e" | _ => "f"
  end%N%char.

(** The replacement of one character by [py_encode_basestring_ascii]
    ([ensure_ascii] is left at its default [True]): the pattern
    [ESCAPE_ASCII] selects the backslash, the double quote and every
    character outside the range from space to tilde; the table
    [ESCAPE_DCT] gives the short escapes and the rest becomes a
    four-digit unicode escape. *)
Definition escape_char (c : ascii) : string :=
  let n := N_of_ascii c in
  if (n =? 34)%N then String backslash (String dquote "")
  else if (n =? 92)%N then String backslash (String backslash "")
  else if (n =? 10)%N then String backslash "n"
  else if (n =? 13)%N then String backslash "r"
  else if (n =? 9)%N then String backslash "t"
  else if (n =? 12)%N then String backslash "f"
  else if (n =? 8)%N then String backslash "b"
  else if ((32 <=? n) && (n <=? 126))%N then String c ""
  else String backslash
         (String "u" (String "0" (String "0"
            (String (hex_digit (n / 16)) (String (hex_digit (n mod 16)) ""))))).

Fixpoint escape (s : string) : string :=
  match s with
  | EmptyString => ""
  | String c s' => escape_char c ++ escape s'
  end.

(** [encoder(s)]: the quoted, escaped string. *)
Definition encode_str (s : string) : string :=
  String dquote (escape s ++ String dquote "").

(** [int.__repr__] *)
Definition int_repr (z : Z) : string :=
  DecimalString.NilZero.string_of_int (Z.to_int z).

(** [float.__repr__] of a float kept as its positional decimal text. *)
Definition float_repr (f : pyfloat) : string :=
  (if f_neg f then "-" else "")
    ++ DecimalString.NilZero.string_of_uint (N.to_uint (f_int f))
    ++ "." ++ DecimalString.NilEmpty.string_of_uint (f_frac f).

Fixpoint spaces (n : nat) : string :=
  match n with O => "" | S n' => String " " (spaces n') end.

(** ['\n' + _indent * _current_indent_level] *)
Definition newline_indent (indent level : nat) : string :=
  String newline (spaces (indent * level)).

Section Sorted.
Context {V : Type}.

Fixpoint insert_item (kv : string * V) (l : list (string * V))
  : list (string * V) :=
  match l with
  | [] => [kv]
  | kv' :: l' =>
      if String.leb (fst kv) (fst kv') then kv :: l
      else kv' :: insert_item kv l'
  end.

(** [sorted(dct.items())]: the keys of a dictionary are distinct, so
    the order of the result is decided by the keys alone; strings
    compare by code point. *)
Definition sorted_items (l : list (string * V)) : list (string * V) :=
  foldr insert_item [] l.
End Sorted.

Section Encode.
Variable indent : nat.
Variable sort_keys : bool.

(** [_iterencode_list], for items that are already encoded: an empty
    list is written [[]], any other one item per line. *)
Definition iterencode_list (level : nat) (chunks : list string) : string :=
  match chunks with
  | [] => "[]"
  | _ =>
      "[" ++ newline_indent indent (S level)
          ++ PyStr.str_join ("," ++ newline_indent indent (S level)) chunks
          ++ newline_indent indent level ++ "]"
  end.

(** [_iterencode_dict], for items whose values are already encoded.
    The values play no part in the order of the items, so that
    encoding them first and ordering second gives the text that
    ordering first and encoding second gives. *)
Definition iterencode_dict (level : nat) (items : list (string * string))
  : string :=
  match items with
  | [] => "{}"
  | _ =>
      let items := if sort_keys then sorted_items items else items in
      "{" ++ newline_indent indent (S level)
          ++ PyStr.str_join ("," ++ newline_indent indent (S level))
               (map (fun kv => encode_str (fst kv) +:+ ": " +:+ snd kv) items)
          ++ newline_indent indent level ++ "}"
  end.

(** [_iterencode] with the chunks concatenated. *)
Fixpoint encode (level : nat) (v : json) {struct v} : string :=
  match v with
  | JNull => "null"
  | JBool true => "true"
  | JBool false => "false"
  | JInt z => int_repr z
  | JFloat f => float_repr f
  | JStr s => encode_str s
  | JList items => iterencode_list level (map (encode (S level)) items)
  | JDict items =>
      iterencode_dict level
        (map (fun kv => (fst kv, encode (S level) (snd kv))) items)
  end.

Definition dumps (v : json) : string := encode 0 v.
End Encode.

End Json.

(* ===================================================================== *)
(** * Effects: exceptions, requests to the outside world, programs *)
(* ===================================================================== *)

(** The class of a raised exception.  [OtherException] stands for any
    class that is unrelated to the ones named here. *)
Inductive exn : Type :=
| NameError
| UnboundLocalError
| KeyError
| TypeError
| ValueError
| OSError
| FileExistsError
| FileNotFoundError
| PermissionError
| NotADirectoryError
| IsADirectoryError
| KeyboardInterrupt
| OtherException (name : string).

#[global] Instance exn_eq_dec : EqDecision exn.
Proof. solve_decision. Defined.

(** [issubclass(x, c)] in the built-in hierarchy. *)
Definition issubclass (x c : exn) : bool :=
  if decide (x = c) then true
  else match x, c with
       | UnboundLocalError, NameError => true
       | (FileExistsError | FileNotFoundError | PermissionError
          | NotADirectoryError | IsADirectoryError), OSError => true
       | _, _ => false
       end.

Definition handle := nat.

(** Requests whose answer is given by the world outside the notebook
    code: the process environment, the kernel's namespace as it was
    before the first cell, the file system, the shell, the cell output.
    [eventE X] is a request answered by an [X] or by an exception. *)
Inductive eventE : Type -> Type :=
| Expanduser (path : string) : eventE string   (* os.path.expanduser(path) *)
| NameLookup (name : string) : eventE string   (* evaluating a name not assigned by the notebook *)
| Getcwd : eventE string                       (* os.getcwd() *)
| Mkdir (path : string) : eventE unit          (* os.mkdir(path) *)
| OpenW (path : string) : eventE handle        (* open(path, 'w') *)
| FWrite (f : handle) (text : string) : eventE unit  (* f.write(text) *)
| FClose (f : handle) : eventE unit            (* f.close(), from the with statement *)
| System (cmd : string) : eventE string        (* !cmd ; the answer is what cmd wrote to stdout *)
| Print (text : string) : eventE unit.         (* print(text) *)

(** A program is the tree of its requests: each request waits for its
    answer before the program goes on. *)
Inductive prog (A : Type) : Type :=
| Ret (a : A)
| Raise (x : exn)
| Vis {X : Type} (e : eventE X) (k : exn + X -> prog A).

Arguments Ret {A} a.
Arguments Raise {A} x.
Arguments Vis {A X} e k.

Fixpoint bind {A B} (p : prog A) (f : A -> prog B) : prog B :=
  match p with
  | Ret a => f a
  | Raise x => Raise x
  | Vis e k => Vis e (fun r => bind (k r) f)
  end.

(** A request made outside any [try]: an exception goes up. *)
Definition perform {X} (e : eventE X) : prog X :=
  Vis e (fun r => match r with inl x => Raise x | inr v => Ret v end).

(** [try: p  except c: h] *)
Fixpoint try_except {A} (p : prog A) (c : exn) (h : prog A) : prog A :=
  match p with
  | Ret a => Ret a
  | Raise x => if issubclass x c then h else Raise x
  | Vis e k => Vis e (fun r => try_except (k r) c h)
  end.

(** [p] followed by [cleanup] on every exit, as the [with] statement
    does with [__exit__]. *)
Fixpoint finally {A} (p : prog A) (cleanup : prog unit) : prog A :=
  match p with
  | Ret a => bind cleanup (fun _ => Ret a)
  | Raise x => bind cleanup (fun _ => Raise x)
  | Vis e k => Vis e (fun r => finally (k r) cleanup)
  end.

(** ** Notebook code: a program over the object store *)

Definition nb (A : Type) : Type := store -> prog (A * store).

#[global] Instance nb_ret : MRet nb := fun A a st => Ret (a, st).
#[global] Instance nb_bind : MBind nb :=
  fun A B f m st => bind (m st) (fun '(a, st') => f a st').

Definition lift {A} (p : prog A) : nb A :=
  fun st => bind p (fun a => Ret (a, st)).

Definition raise {A} (x : exn) : nb A := fun _ => Raise x.

Definition request {X} (e : eventE X) : nb X := lift (perform e).

(** [try: m  except c: h].  Objects changed by [m] before it raised stay
    changed; the guarded statements of the notebooks change none. *)
Definition nb_try {A} (m : nb A) (c : exn) (h : nb A) : nb A :=
  fun st => try_except (m st) c (h st).

(** [with open(path, 'w') as f: body] *)
Definition with_open {A} (path : string) (body : handle -> nb A) : nb A :=
  fun st =>
    bind (perform (OpenW path))
         (fun f => finally (body f st) (perform (FClose f))).

(** Evaluate a display. *)
Definition new (e : pyexp) : nb pyval := fun st => Ret (eval e st).

(** [v[k]] *)
Definition getitem (v : pyval) (k : string) : nb pyval :=
  fun st =>
    match v with
    | VRef l =>
        match st !! l with
        | Some (ODict d) =>
            match dict_getitem k d with
            | Some x => Ret (x, st)
            | None => Raise KeyError
            end
        | _ => Raise TypeError
        end
    | _ => Raise TypeError
    end.

(** [v[k] = x] *)
Definition setitem (v : pyval) (k : string) (x : pyval) : nb unit :=
  fun st =>
    match store_setitem st v k x with
    | Some st' => Ret (tt, st')
    | None => Raise TypeError
    end.

(** [json.dump(v, f, indent=n, sort_keys=b)].  The encoder hands its
    chunks to [f.write] one by one; they are written here in one piece. *)
Definition json_dump (v : pyval) (f : handle) (indent : nat) (sort_keys : bool)
  : nb unit :=
  fun st =>
    match snapshot st v with
    | Some j => request (FWrite f (Json.dumps indent sort_keys j)) st
    | None => Raise ValueError
    end.

(** ** Runs *)

(** One answered request. *)
Inductive obs : Type :=
| Obs {X : Type} (e : eventE X) (r : exn + X).

(** [run p tr o]: answered as recorded in [tr], [p] ends with [o]. *)
Fixpoint run {A} (p : prog A) (tr : list obs) (o : exn + A) : Prop :=
  match p with
  | Ret a => tr = [] /\ o = inr a
  | Raise x => tr = [] /\ o = inl x
  | Vis e k => exists r tr', tr = Obs e r :: tr' /\ run (k r) tr' o
  end.

(* ===================================================================== *)
(** * A reference world *)
(* ===================================================================== *)

(** A deterministic outside world that answers every request: a home
    directory, a working directory, the kernel's pre-set names, a file
    system and the programs the shell can run.  The statements about
    the notebooks hold for every way of answering; this world shows
    that complete runs exist and gives [os.mkdir] its POSIX meaning. *)
Module World.

Record world := World {
  home : string;                       (* $HOME *)
  cwd : string;                        (* the working directory *)
  kernel_ipynb_path : option string;   (* ipynb_path, if bound before the first cell *)
  dirs : list string;                  (* the directories that exist *)
  files : list (string * string);      (* the regular files and their contents *)
  open_files : list (handle * string); (* handles open for writing *)
  next_handle : handle;
  tool : string -> string;             (* what a command writes to stdout *)
  printed : list string                (* the cell output *)
}.

Fixpoint rstrip_sep (s : string) : string :=
  match s with
  | EmptyString => ""
  | String c s' =>
      match rstrip_sep s' with
      | EmptyString => if Ascii.eqb c "/" then "" else String c ""
      | t => String c t
      end
  end.

(** [posixpath.expanduser] for [~] and [~/...]; a [~user] prefix is
    left as it is, as for an unknown user. *)
Definition expanduser (home path : string) : string :=
  match path with
  | String "~" rest =>
      match rest with
      | EmptyString | String "/" _ =>
          match rstrip_sep home +:+ rest with
          | EmptyString => "/"
          | t => t
          end
      | _ => path
      end
  | _ => path
  end.

(** The text before the last separator. *)
Fixpoint dirname (p : string) : string :=
  match p with
  | EmptyString => ""
  | String c p' =>
      if existsb (Ascii.eqb "/") (chars p') then String c (dirname p')
      else if Ascii.eqb c "/" then "/" else ""
  end.

Definition parent (p : string) : string :=
  match rstrip_sep (dirname p) with
  | EmptyString => if PyStr.startswith p "/" then "/" else ""
  | d => d
  end.

Definition is_dir (w : world) (p : string) : bool :=
  existsb (String.eqb p) (dirs w).

Definition is_file (w : world) (p : string) : bool :=
  existsb (fun kv => String.eqb p (fst kv)) (files w).

Definition set_dirs (w : world) (d : list string) : world :=
  World (home w) (cwd w) (kernel_ipynb_path w) d (files w) (open_files w)
    (next_handle w) (tool w) (printed w).

Definition set_files (w : world) (f : list (string * string))
    (o : list (handle * string)) (n : handle) : world :=
  World (home w) (cwd w) (kernel_ipynb_path w) (dirs w) f o n (tool w) (printed w).

Definition set_printed (w : world) (p : list string) : world :=
  World (home w) (cwd w) (kernel_ipynb_path w) (dirs w) (files w) (open_files w)
    (next_handle w) (tool w) p.

Fixpoint handle_path (h : handle) (o : list (handle * string)) : option string :=
  match o with
  | [] => None
  | (h', p) :: o' => if Nat.eqb h h' then Some p else handle_path h o'
  end.

(** [os.mkdir(p)] *)
Definition mkdir (p : string) (w : world) : (exn + unit) * world :=
  if (is_dir w p || is_file w p)%bool then (inl FileExistsError, w)
  else if negb (is_dir w (parent p)) then
    (inl (if is_file w (parent p) then NotADirectoryError else FileNotFoundError), w)
  else (inr tt, set_dirs w (dirs w ++ [p])).

(** [open(p, 'w')] *)
Definition open_w (p : string) (w : world) : (exn + handle) * world :=
  if is_dir w p then (inl IsADirectoryError, w)
  else if negb (is_dir w (parent p)) then
    (inl (if is_file w (parent p) then NotADirectoryError else FileNotFoundError), w)
  else (inr (next_handle w),
        set_files w (dict_setitem p "" (files w))
          ((next_handle w, p) :: open_files w) (S (next_handle w))).

Definition write (h : handle) (text : string) (w : world) : (exn + unit) * world :=
  match handle_path h (open_files w) with
  | Some p =>
      (inr tt,
       set_files w
         (dict_setitem p (default "" (dict_getitem p (files w)) +:+ text) (files w))
         (open_files w) (next_handle w))
  | None => (inl ValueError, w)
  end.

Definition close (h : handle) (w : world) : (exn + unit) * world :=
  (inr tt,
   set_files w (files w)
     (List.filter (fun hp => negb (Nat.eqb h (fst hp))) (open_files w)) (next_handle w)).

Definition answer {X} (e : eventE X) : world -> (exn + X) * world :=
  match e in eventE X return world -> (exn + X) * world with
  | Expanduser path => fun w => (inr (expanduser (home w) path), w)
  | NameLookup name => fun w =>
      (if String.eqb name "ipynb_path"
       then match kernel_ipynb_path w with
            | Some v => inr v
            | None => inl NameError
            end
       else inl NameError, w)
  | Getcwd => fun w => (inr (cwd w), w)
  | Mkdir path => mkdir path
  | OpenW path => open_w path
  | FWrite f text => write f text
  | FClose f => close f
  | System cmd => fun w => (inr (tool w cmd), w)
  | Print text => fun w => (inr tt, set_printed w (printed w ++ [text]))
  end.

(** The run of a program in a world: its trace, its outcome, the
    world it leaves. *)
Fixpoint exec {A} (p : prog A) (w : world) : list obs * (exn + A) * world :=
  match p with
  | Ret a => ([], inr a, w)
  | Raise x => ([], inl x, w)
  | Vis e k =>
      let '(r, w1) := answer e w in
      let '(tr, o, w2) := exec (k r) w1 in
      (Obs e r :: tr, o, w2)
  end.

End World.

(* ===================================================================== *)
(** * Slicing the captured stdout *)
(* ===================================================================== *)


Module Re.

(** The part of the pattern language that [r'INFO.*?local'] uses: a
    literal character, and [.*?] compiled with [re.DOTALL], the lazy
    repetition of "any character, newline included". *)
Inductive item : Type :=
| Lit (c : ascii)
| LazyDotAll.

Definition pattern := list item.

(** [re.compile(text, re.DOTALL)] for patterns made of literal
    characters and [.*?]. *)
Fixpoint compile (text : list ascii) : pattern :=
  match text with
  | [] => []
  | c :: rest =>
      match c, rest with
      | "."%char, "*"%char :: "?"%char :: rest' => LazyDotAll :: compile rest'
      | _, _ => Lit c :: compile rest
      end
  end.

(** The lazy repetition: [rest] is the matcher of what follows [.*?];
    try it at once, and after each failure one character later. *)
Fixpoint lazy_star (rest : list ascii -> option nat) (s : list ascii)
  : option nat :=
  match rest s with
  | Some n => Some n
  | None =>
      match s with
      | [] => None
      | _ :: s' => S <$> lazy_star rest s'
      end
  end.

(** The backtracking matcher anchored at the start of [s]: the length
    of the first match found. *)
Fixpoint match_here (p : pattern) (s : list ascii) {struct p} : option nat :=
  match p with
  | [] => Some 0
  | Lit c :: p' =>
      match s with
      | a :: s' => if Ascii.eqb a c then S <$> match_here p' s' else None
      | [] => None
      end
  | LazyDotAll :: p' => lazy_star (match_here p') s
  end.

(** The scan of [findall]: try a match at the current position; after
    a match go on right behind it, otherwise one character further.
    [skip] counts the characters of the last match still to be passed.
    (Patterns that match the empty string get special treatment in
    [re]; [INFO.*?local] never does.) *)
Fixpoint findall_from (p : pattern) (skip : nat) (s : list ascii)
  : list (list ascii) :=
  match skip with
  | S k =>
      match s with
      | [] => []
      | _ :: s' => findall_from p k s'
      end
  | O =>
      match match_here p s with
      | Some n =>
          take n s ::
            match s with
            | [] => []
            | _ :: s' => findall_from p (pred n) s'
            end
      | None =>
          match s with
          | [] => []
          | _ :: s' => findall_from p 0 s'
          end
      end
  end.

(** [re.findall(pattern, text, re.DOTALL)] *)
Definition findall (pattern text : string) : list string :=
  map str (findall_from (compile (chars pattern)) 0 (chars text)).

End Re.

Module Lines.

(** The line boundaries of [str.splitlines] among the code points
    below 256: LF, VT, FF, CR, FS, GS, RS and NEL. *)
Definition is_linebreak (c : ascii) : bool :=
  let n := N_of_ascii c in
  ((n =? 10) || (n =? 11) || (n =? 12) || (n =? 13)
   || (n =? 28) || (n =? 29) || (n =? 30) || (n =? 133))%N.

(** [s.splitlines()]: [cur] is the line being read.  CR LF counts as
    one boundary, and no empty line is reported after the last
    boundary. *)
Fixpoint splitlines_go (cur : list ascii) (s : list ascii)
  : list (list ascii) :=
  match s with
  | [] => match cur with [] => [] | _ => [cur] end
  | c :: s' =>
      if is_linebreak c then
        cur ::
          match s' with
          | c' :: s'' =>
              if (Ascii.eqb c "013" && Ascii.eqb c' "010")%bool
              then splitlines_go [] s''
              else splitlines_go [] s'
          | [] => splitlines_go [] s'
          end
      else splitlines_go (cur ++ [c]) s'
  end.

Definition splitlines (s : string) : list string :=
  map str (splitlines_go [] (chars s)).

End Lines.

(** [enumerate(l, start)] *)
Fixpoint enumerate {A} (start : nat) (l : list A) : list (nat * A) :=
  match l with
  | [] => []
  | x :: l' => (start, x) :: enumerate (S start) l'
  end.

(** [idx in idxs] *)
Definition py_in (idx : nat) (idxs : list nat) : bool :=
  existsb (Nat.eqb idx) idxs.

(** [[epoch for idx, epoch in enumerate(list_epochs) if idx in idxs]] *)
Definition select_epochs (idxs : list nat) (list_epochs : list string)
  : list string :=
  map snd (List.filter (fun p => py_in (fst p) idxs) (enumerate 0 list_epochs)).

(** The element that index [i] selects from a list enumerated from [n]. *)
Definition at_index {A} (n : nat) (l : list A) (i : nat) : option A :=
  if Nat.ltb i n then None else l !! (i - n).

(** [[:-1]] *)
Definition all_but_last {A} (l : list A) : list A := removelast l.

(** ["\n".join(element.splitlines()[:-1])] *)
Definition drop_last_line (element : string) : string :=
  PyStr.str_join (String Json.newline "") (all_but_last (Lines.splitlines element)).


(* ===================================================================== *)
(** * The notebooks *)
(* ===================================================================== *)

(** Code that the notebooks share word for word, up to a constant. *)
Module Common.
Export PyStr.

(** The path variables of the first code cell. *)
Record paths := Paths {
  reinvent_dir : string;
  reinvent_env : string;
  output_dir : string;
  ipynb_path : string
}.

(** The names a notebook has bound when its last cell is done.
    [list_epochs] and [data] are never assigned by the sampling
    notebook. *)
Record namespace := Namespace {
  ns_paths : paths;
  configuration : pyval;
  configuration_JSON_path : string;
  captured_err_stream : string;
  list_epochs : option (list string);
  data : option (list string)
}.

(**
<<
    try: ipynb_path
    except NameError: ipynb_path = os.getcwd()
>> *)
Definition get_ipynb_path : nb string :=
  nb_try (request (NameLookup "ipynb_path")) NameError (request Getcwd).

(**
<<
    try:
        os.mkdir(d)
    except FileExistsError:
        pass
>> *)
Definition mkdir_unless_exists (d : string) : nb unit :=
  nb_try (request (Mkdir d)) FileExistsError (mret tt).

(** The first code cell of every notebook but the DockStream one. *)
Definition setup (output_dir_text : string) : nb paths :=
  reinvent_dir ← request (Expanduser "~/Desktop/Reinvent");
  reinvent_env ← request (Expanduser "~/miniconda3/envs/reinvent.v3.0");
  output_dir ← request (Expanduser output_dir_text);
  ipynb_path ← get_ipynb_path;
  mkdir_unless_exists output_dir;;
  mret (Paths reinvent_dir reinvent_env output_dir ipynb_path).

(**
<<
    configuration_JSON_path = os.path.join(output_dir, name)
    with open(configuration_JSON_path, 'w') as f:
        json.dump(configuration, f, indent=4, sort_keys=True)
>> *)
Definition write_configuration (output_dir : string) (configuration : pyval)
    (name : string) : nb string :=
  let configuration_JSON_path := os_path_join output_dir [name] in
  with_open configuration_JSON_path
    (fun f => json_dump configuration f 4 true);;
  mret configuration_JSON_path.

(** [!cmd] *)
Definition shell (cmd : string) : nb string := request (System cmd).

(**
<<
    %%capture captured_err_stream --no-stderr
    !{reinvent_env}/bin/python {reinvent_dir}/input.py {configuration_JSON_path}
>> *)
Definition run_reinvent (p : paths) (configuration_JSON_path : string)
  : nb string :=
  shell (reinvent_env p +:+ "/bin/python " +:+ reinvent_dir p
           +:+ "/input.py " +:+ configuration_JSON_path).

(**
<<
    with open(os.path.join(output_dir, "run.err"), 'w') as file:
        file.write(captured_err_stream.stdout)
>> *)
Definition save_output (output_dir stdout : string) : nb unit :=
  with_open (os_path_join output_dir ["run.err"])
    (fun file => request (FWrite file stdout)).

(**
<<
    list_epochs = re.findall(r'INFO.*?local', captured_err_stream.stdout, re.DOTALL)
    data = [epoch for idx, epoch in enumerate(list_epochs) if idx in idxs]
    data = ["\n".join(element.splitlines()[:-1]) for element in data]
>>
    The DockStream notebook has no [if] in the comprehension: [None]. *)
Definition parse_output (output_dir stdout : string)
    (idxs : option (list nat)) : nb (list string * list string) :=
  save_output output_dir stdout;;
  let list_epochs := Re.findall "INFO.*?local" stdout in
  let data :=
    match idxs with
    | Some idxs => select_epochs idxs list_epochs
    | None => map snd (enumerate 0 list_epochs)
    end in
  let data := map drop_last_line data in
  mret (list_epochs, data).

(**
<<
    for element in data:
        print(element)
>> *)
Fixpoint print_all (data : list string) : nb unit :=
  match data with
  | [] => mret tt
  | element :: rest => request (Print element);; print_all rest
  end.

End Common.
Import Common.

Module Notebook_DRD2.

(** src/unnamed/part_000: the DRD2 use-case *)

(** cell 1 *)
Definition cell_1 : nb paths :=
  setup "~/Desktop/REINVENT_Use-Case-DRD2_demo".

(** cell 3 *)
Definition cell_3 (ipynb_path : string) : nb pyval :=
  component_DRD2_prediction ← new (EDict [
        ("component_type", EStr "predictive_property");
        ("name", EStr "DRD2_pred_activity");
        ("weight", EInt 7);
        ("specific_parameters", EDict [
          ("model_path", EStr (os_path_join ipynb_path ["models/drd2.pkl"]));
          ("scikit", EStr "classification");
          ("descriptor_type", EStr "ecfp_counts");
          ("size", EInt 2048);
          ("radius", EInt 3);
          ("use_counts", EBool true);
          ("use_features", EBool true);
          ("transformation", EDict [
            ("transformation_type", EStr "no_transformation")])])]);
  mret component_DRD2_prediction.

(** cell 5 *)
Definition cell_5 : nb pyval :=
  diversity_filter ← new (EDict [
        ("name", EStr "IdenticalMurckoScaffold");
        ("nbmax", EInt 25);
        ("minscore", EFloat (PyFloat false 0 (Decimal.D4 Decimal.Nil)));
        ("minsimilarity", EFloat (PyFloat false 0 (Decimal.D4 Decimal.Nil)))]);
  mret diversity_filter.

(** cell 7 *)
Definition cell_7 : nb pyval :=
  inception ← new (EDict [
        ("memory_size", EInt 20);
        ("sample_size", EInt 5);
        ("smiles", EList [
          EStr "OCCN1CCN(CCCN2c3ccccc3Sc3ccc(Cl)cc32)CC1";
          EStr "C=CCN1CCC2c3cccc(OC)c3CCC21";
          EStr "CCCN(Cc1ccc(OC)cc1)C1CCc2c(cccc2OC)C1";
          EStr "N#Cc1ccc2[nH]c(CN3CCN(c4ccc(Cl)c(Cl)c4)CC3)cc2c1";
          EStr "O=C(CCCN1CCN(c2ncccn2)CC1)c1ccc(F)cc1";
          EStr "Cc1ccc2c(c1)C(N1CCN(C)CC1)=Nc1cccnc1N2";
          EStr "COc1ccc(-c2cccc(CN3CCN(c4ncccn4)CC3)c2)cc1";
          EStr "Oc1[nH]cc2ccc(OCCCCN3CCN(c4cccc5cccc(F)c45)CC3)c(Cl)c12";
          EStr "CCCN1CCN(c2cccc(OC)c2)CC1";
          EStr "O=C(Nc1cccc(SC(F)(F)F)c1)N1CCC(N2CCC(n3c(O)nc4c(F)cccc43)CC2)CC1";
          EStr "CC1CCN(C2=Cc3cc(Cl)ccc3Cc3ccccc32)CC1";
          EStr "CCCN1CCOC2Cc3c(O)cccc3CC21";
          EStr "c1ccc(N2CCN(C3CCC(Nc4ncccn4)CC3)CC2)cc1";
          EStr "O=S(=O)(NC1CCC(N2CCC(c3ccccc3OCC(F)(F)F)CC2)CC1)c1ccc(OC(F)F)cc1";
          EStr "COc1ccccc1N1CCN(CCCCc2cc(-c3ccccc3)no2)CC1";
          EStr "c1ccc(CCC2CCN(Cc3c[nH]c4ncccc34)CC2)cc1";
          EStr "CC1CN(c2cccc3cc(F)ccc23)CCN1CCC1OCCc2c1sc(C(N)=O)c2Cl";
          EStr "COc1ccccc1N1CCCN(CCCCNC(=O)c2cc3ccccc3o2)CC1";
          EStr "O=C1CCc2ccc(OCCCCN3CCN(c4ccccc4C(F)(F)F)CC3)cc2N1";
          EStr "CCCCCCCCCC(=O)N1c2ccc(Cl)cc2N=C(N2CCN(C)CC2)c2ccccc21";
          EStr "O=C1N(CCN2CCC(C(F)(F)F)CC2)CCN1c1cccc(Cl)c1";
          EStr "CN1CCc2cccc3c2C1Cc1cccc(-c2c(OS(=O)(=O)C(F)(F)F)cccc2OS(=O)(=O)C(F)(F)F)c1-3";
          EStr "Cc1nn(C2CCN(Cc3cccc(C#N)c3)CC2)cc1-c1ccccc1";
          EStr "COc1ccc(-c2cc3c(O)n(CCN4CCN(c5ccccc5Cl)CC4)c(O)nc-3n2)cc1";
          EStr "OC1(c2cccc(Cl)c2Cl)CCN(Cc2c[nH]c3ccccc23)CC1";
          EStr "FC(F)(F)c1ccc2c(c1)N(Cc1ccc(CNc3cccc(Oc4ccccc4)c3)cc1)c1ccccc1S2";
          EStr "CCCSc1ccccc1N1CCN(CCCOc2ccc(-c3nc4ccccc4[nH]3)cc2)CC1";
          EStr "O=S(=O)(NCCCCN1CCN(c2cccc(Cl)c2Cl)CC1)c1cc2ccccc2cn1";
          EStr "COc1ccc(CN2CCN(CC(=O)N3c4ccccc4CC3C)CC2)cc1";
          EStr "CC1Cc2ccccc2N1C(=O)CC1CCN(Cc2ccc(Cl)cc2)CC1";
          EStr "CC(C)c1ccccc1N1CCN(CCCCCC(=O)NCc2ccccc2)CC1";
          EStr "Cc1ncoc1-c1nnc(SCCCN2CCc3cc4nc(C5CC5)oc4cc3CC2)n1C";
          EStr "O=C1CC(c2ccccc2)c2cccc(CCN3CCN(c4nsc5ccccc45)CC3)c2N1";
          EStr "O=C1NCN(c2ccccc2)C12CCN(CCCOc1ccc(F)cc1)CC2";
          EStr "CCON=C(CCN1CCN(c2nccs2)CC1)c1ccccc1";
          EStr "Cc1ccc2c(-c3nnc(SCCCN4CCc5cc6nc(-c7cc(C)nn7C)oc6cc5CC4)n3C)cccc2n1";
          EStr "CCCN(CCCCNC(=O)c1ccc(-c2ccccc2)cc1)C1Cc2cccn3ncc(c23)C1";
          EStr "Cc1ccc(OCCNCCCOc2ccccc2)cc1"])]);
  mret inception.

(** cell 9 *)
Definition cell_9 : nb (pyval * pyval) :=
  component_rotatable_bonds ← new (EDict [
        ("component_type", EStr "num_rotatable_bonds");
        ("name", EStr "Number of rotatable bonds");
        ("weight", EInt 1);
        ("specific_parameters", EDict [
          ("transformation", EDict [
            ("transformation_type", EStr "step");
            ("high", EInt 9);
            ("low", EInt 0)])])]);
  component_num_hbd ← new (EDict [
        ("component_type", EStr "num_hbd_lipinski");
        ("name", EStr "HB-donors (Lipinski)");
        ("weight", EInt 1);
        ("specific_parameters", EDict [
          ("transformation", EDict [
            ("transformation_type", EStr "step");
            ("high", EInt 6);
            ("low", EInt 0)])])]);
  mret (component_rotatable_bonds, component_num_hbd).

(** cell 11 *)
Definition cell_11 : nb pyval :=
  component_custom_alerts ← new (EDict [
        ("component_type", EStr "custom_alerts");
        ("name", EStr "Custom_alerts");
        ("weight", EInt 1);
        ("specific_parameters", EDict [
          ("smiles", EList [
            EStr "[*;r8]";
            EStr "[*;r9]";
            EStr "[*;r10]";
            EStr "[*;r11]";
            EStr "[*;r12]";
            EStr "[*;r13]";
            EStr "[*;r14]";
            EStr "[*;r15]";
            EStr "[*;r16]";
            EStr "[*;r17]";
            EStr "[#8][#8]";
            EStr "[#6;+]";
            EStr "[#16][#16]";
            EStr "[#7;!n][S;!$(S(=O)=O)]";
            EStr "[#7;!n][#7;!n]";
            EStr "C#C";
            EStr "C(=[O,S])[O,S]";
            EStr "[#7;!n][C;!$(C(=[O,N])[N,O])][#16;!s]";
            EStr "[#7;!n][C;!$(C(=[O,N])[N,O])][#7;!n]";
            EStr "[#7;!n][C;!$(C(=[O,N])[N,O])][#8;!o]";
            EStr "[#8;!o][C;!$(C(=[O,N])[N,O])][#16;!s]";
            EStr "[#8;!o][C;!$(C(=[O,N])[N,O])][#8;!o]";
            EStr "[#16;!s][C;!$(C(=[O,N])[N,O])][#16;!s]"])])]);
  mret component_custom_alerts.

(** cell 13 *)
Definition cell_13 (component_DRD2_prediction component_num_hbd
    component_rotatable_bonds component_custom_alerts : pyval) : nb pyval :=
  scoring_function ← new (EDict [
        ("name", EStr "custom_sum");
        ("parallel", EBool true);
        ("parameters", EList [
          EVar component_DRD2_prediction;
          EVar component_num_hbd;
          EVar component_rotatable_bonds;
          EVar component_custom_alerts])]);
  mret scoring_function.

(** cell 15 *)
Definition cell_15 (scoring_function : pyval) : nb pyval :=
  configuration ← new (EDict [
        ("version", EInt 3);
        ("run_type", EStr "reinforcement_learning");
        ("parameters", EDict [
          ("scoring_function", EVar scoring_function)])]);
  mret configuration.

(** cell 17, first statement *)
Definition set_diversity_filter (configuration diversity_filter : pyval) : nb unit :=
  d ← getitem configuration "parameters";
  setitem d "diversity_filter" diversity_filter;;
  mret tt.

(** cell 17, second statement *)
Definition set_inception (configuration inception : pyval) : nb unit :=
  d ← getitem configuration "parameters";
  setitem d "inception" inception;;
  mret tt.

Definition cell_17 (configuration diversity_filter inception : pyval) : nb unit :=
  set_diversity_filter configuration diversity_filter;;
  set_inception configuration inception.

(** cell 19 *)
Definition cell_19 (ipynb_path : string) (configuration : pyval) : nb unit :=
  x ← new (EDict [
        ("prior", EStr (os_path_join ipynb_path ["models/random.prior.new"]));
        ("agent", EStr (os_path_join ipynb_path ["models/random.prior.new"]));
        ("n_steps", EInt 300);
        ("sigma", EInt 128);
        ("learning_rate", EFloat (PyFloat false 0 (Decimal.D0 (Decimal.D0 (Decimal.D0 (Decimal.D1 Decimal.Nil))))));
        ("batch_size", EInt 128);
        ("reset", EInt 0);
        ("reset_score_cutoff", EFloat (PyFloat false 0 (Decimal.D5 Decimal.Nil)));
        ("margin_threshold", EInt 50)]);
  d ← getitem configuration "parameters";
  setitem d "reinforcement_learning" x;;
  mret tt.

(** cell 21 *)
Definition cell_21 (output_dir : string) (configuration : pyval) : nb unit :=
  x ← new (EDict [
        ("sender", EStr "http://127.0.0.1");
        ("recipient", EStr "local");
        ("logging_frequency", EInt 0);
        ("logging_path", EStr (os_path_join output_dir ["progress.log"]));
        ("result_folder", EStr (os_path_join output_dir ["results"]));
        ("job_name", EStr "Use-case DRD2 Demo");
        ("job_id", EStr "demo")]);
  setitem configuration "logging" x;;
  mret tt.

(** Cells 3 to 21: the configuration is built without any request
    to the outside. *)
Definition build (p : paths) : nb pyval :=
  component_DRD2_prediction ← cell_3 (ipynb_path p);
  diversity_filter ← cell_5;
  inception ← cell_7;
  '(component_rotatable_bonds, component_num_hbd) ← cell_9;
  component_custom_alerts ← cell_11;
  scoring_function ← cell_13 component_DRD2_prediction component_num_hbd
                       component_rotatable_bonds component_custom_alerts;
  configuration ← cell_15 scoring_function;
  cell_17 configuration diversity_filter inception;;
  cell_19 (ipynb_path p) configuration;;
  cell_21 (output_dir p) configuration;;
  mret configuration.

(** Cells 23 to 31. *)
Definition notebook : nb namespace :=
  p ← cell_1;
  configuration ← build p;
  configuration_JSON_path ← write_configuration (output_dir p) configuration "DRD2_config.json";
  captured_err_stream ← run_reinvent p configuration_JSON_path;
  '(list_epochs, data) ← parse_output (output_dir p) captured_err_stream (Some [1; 150; 299]);
  print_all data;;
  shell ("head -n 3 " +:+ output_dir p +:+ "/results/scaffold_memory.csv");;
  mret (Namespace p configuration configuration_JSON_path captured_err_stream
          (Some list_epochs) (Some data)).

End Notebook_DRD2.

Module Notebook_DockStream.

(** src/unnamed/part_001: reinforcement learning with a DockStream component *)

(** The DockStream variables of cell 2. *)
Record dock_paths := DockPaths {
  dockstream_env : string;
  docker_path : string;
  grid_file_path : string;
  output_ligands_docked_poses_path : string;
  output_ligands_docking_scores_path : string;
  docking_configuration_path : string
}.

(** cell 2 *)
Definition cell_2 : nb (paths * dock_paths) :=
  reinvent_dir ← request (Expanduser "~/Desktop/Reinvent");
  reinvent_env ← request (Expanduser "~/miniconda3/envs/reinvent.v3.0");
  dockstream_dir ← request (Expanduser "~/Desktop/ProjectData/DockStream");
  dockstream_env ← request (Expanduser "~/miniconda3/envs/DockStream/bin/python");
  let docker_path := os_path_join dockstream_dir ["docker.py"] in
  output_dir ← request (Expanduser "~/Desktop/REINVENT_RL_DockStream_demo");
  ipynb_path ← get_ipynb_path;
  mkdir_unless_exists output_dir;;
  grid_file_path ← request (Expanduser "~/Desktop/ReinventCommunity/notebooks/data/DockStream/1UYD_grid.zip");
  output_ligands_docked_poses_path ← request (Expanduser "~/Desktop/REINVENT_RL_DockStream_demo/docked_poses");
  output_ligands_docking_scores_path ← request (Expanduser "~/Desktop/REINVENT_RL_DockStream_demo/docking_scores");
  mkdir_unless_exists output_ligands_docked_poses_path;;
  mkdir_unless_exists output_ligands_docking_scores_path;;
  let docking_configuration_path := os_path_join output_dir ["Glide_DockStream_Conf.json"] in
  mret (Paths reinvent_dir reinvent_env output_dir ipynb_path,
        DockPaths dockstream_env docker_path grid_file_path
          output_ligands_docked_poses_path output_ligands_docking_scores_path
          docking_configuration_path).

(** cell 4: the DockStream configuration, written with [indent=2] and
    without [sort_keys] *)
Definition ed_dict_display (grid_file_path output_ligands_docked_poses_path
    output_ligands_docking_scores_path : string) : pyexp :=
  EDict [
        ("docking", EDict [
          ("header", EDict [
            ("environment", EDict [])]);
          ("ligand_preparation", EDict [
            ("embedding_pools", EList [
              EDict [
                ("pool_id", EStr "Ligprep_pool");
                ("type", EStr "Ligprep");
                ("parameters", EDict [
                  ("prefix_execution", EStr "module load schrodinger/2019-4");
                  ("parallelization", EDict [
                    ("number_cores", EInt 2)]);
                  ("use_epik", EDict [
                    ("target_pH", EFloat (PyFloat false 7 (Decimal.D0 Decimal.Nil)));
                    ("pH_tolerance", EFloat (PyFloat false 2 (Decimal.D0 Decimal.Nil)))]);
                  ("force_field", EStr "OPLS3e")]);
                ("input", EDict [
                  ("standardize_smiles", EBool false);
                  ("type", EStr "console")])]])]);
          ("docking_runs", EList [
            EDict [
              ("backend", EStr "Glide");
              ("run_id", EStr "Glide_run");
              ("input_pools", EList [
                EStr "Ligprep_pool"]);
              ("parameters", EDict [
                ("prefix_execution", EStr "module load schrodinger/2019-4");
                ("parallelization", EDict [
                  ("number_cores", EInt 2)]);
                ("glide_flags", EDict [
                  ("-HOST", EStr "localhost")]);
                ("glide_keywords", EDict [
                  ("GRIDFILE", EStr grid_file_path);
                  ("POSE_OUTTYPE", EStr "ligandlib_sd");
                  ("PRECISION", EStr "HTVS")])]);
              ("output", EDict [
                ("poses", EDict [
                  ("poses_path", EStr (os_path_join output_ligands_docked_poses_path ["docked_poses.sdf"]))]);
                ("scores", EDict [
                  ("scores_path", EStr (os_path_join output_ligands_docking_scores_path ["docking_scores.csv"]))])])]])])].

Definition cell_4 (grid_file_path output_ligands_docked_poses_path
    output_ligands_docking_scores_path docking_configuration_path : string) : nb unit :=
  ed_dict ← new (ed_dict_display grid_file_path output_ligands_docked_poses_path
                   output_ligands_docking_scores_path);
  with_open docking_configuration_path
    (fun f => json_dump ed_dict f 2 false).

(** cell 7 *)
Definition cell_7 : nb pyval :=
  configuration ← new (EDict [
        ("version", EInt 3);
        ("run_type", EStr "reinforcement_learning")]);
  mret configuration.

(** cell 9 *)
Definition cell_9 (output_dir : string) (configuration : pyval) : nb unit :=
  x ← new (EDict [
        ("sender", EStr "http://0.0.0.1");
        ("recipient", EStr "local");
        ("logging_frequency", EInt 1);
        ("logging_path", EStr (os_path_join output_dir ["progress.log"]));
        ("result_folder", EStr (os_path_join output_dir ["results"]));
        ("job_name", EStr "Reinforcement learning DockStream demo");
        ("job_id", EStr "demo")]);
  setitem configuration "logging" x;;
  mret tt.

(** cell 11 *)
Definition cell_11 (configuration : pyval) : nb unit :=
  x ← new (EDict []);
  setitem configuration "parameters" x;;
  mret tt.

(** cell 13 *)
Definition cell_13 (configuration : pyval) : nb unit :=
  x ← new (EDict [
        ("name", EStr "IdenticalMurckoScaffold");
        ("nbmax", EInt 25);
        ("minscore", EFloat (PyFloat false 0 (Decimal.D4 Decimal.Nil)));
        ("minsimilarity", EFloat (PyFloat false 0 (Decimal.D4 Decimal.Nil)))]);
  d ← getitem configuration "parameters";
  setitem d "diversity_filter" x;;
  mret tt.

(** cell 15 *)
Definition cell_15 (configuration : pyval) : nb unit :=
  x ← new (EDict [
        ("smiles", EList []);
        ("memory_size", EInt 100);
        ("sample_size", EInt 10)]);
  d ← getitem configuration "parameters";
  setitem d "inception" x;;
  mret tt.

(** cell 17 *)
Definition cell_17 (ipynb_path : string) (configuration : pyval) : nb unit :=
  x ← new (EDict [
        ("prior", EStr (os_path_join ipynb_path ["models/random.prior.new"]));
        ("agent", EStr (os_path_join ipynb_path ["models/random.prior.new"]));
        ("n_steps", EInt 2);
        ("sigma", EInt 128);
        ("learning_rate", EFloat (PyFloat false 0 (Decimal.D0 (Decimal.D0 (Decimal.D0 (Decimal.D1 Decimal.Nil))))));
        ("batch_size", EInt 32);
        ("reset", EInt 0);
        ("reset_score_cutoff", EFloat (PyFloat false 0 (Decimal.D5 Decimal.Nil)));
        ("margin_threshold", EInt 50)]);
  d ← getitem configuration "parameters";
  setitem d "reinforcement_learning" x;;
  mret tt.

(** cell 19 *)
Definition cell_19 (docking_configuration_path docker_path dockstream_env : string)
    (configuration : pyval) : nb unit :=
  scoring_function ← new (EDict [
        ("name", EStr "custom_product");
        ("parallel", EBool false);
        ("parameters", EList [
          EDict [
            ("component_type", EStr "dockstream");
            ("name", EStr "Glide LigPrep Docking");
            ("weight", EInt 1);
            ("specific_parameters", EDict [
              ("transformation", EDict [
                ("transformation_type", EStr "reverse_sigmoid");
                ("low", EInt (-11));
                ("high", EInt (-5));
                ("k", EFloat (PyFloat false 0 (Decimal.D2 (Decimal.D5 Decimal.Nil))))]);
              ("configuration_path", EStr docking_configuration_path);
              ("docker_script_path", EStr docker_path);
              ("environment_path", EStr dockstream_env)])]])]);
  d ← getitem configuration "parameters";
  setitem d "scoring_function" scoring_function;;
  mret tt.

(** Cells 7 to 19: the configuration is built without any request to
    the outside. *)
Definition build (p : paths) (q : dock_paths) : nb pyval :=
  configuration ← cell_7;
  cell_9 (output_dir p) configuration;;
  cell_11 configuration;;
  cell_13 configuration;;
  cell_15 configuration;;
  cell_17 (ipynb_path p) configuration;;
  cell_19 (docking_configuration_path q) (docker_path q) (dockstream_env q) configuration;;
  mret configuration.

Definition notebook : nb namespace :=
  '(p, q) ← cell_2;
  cell_4 (grid_file_path q) (output_ligands_docked_poses_path q)
    (output_ligands_docking_scores_path q) (docking_configuration_path q);;
  configuration ← build p q;
  configuration_JSON_path ← write_configuration (output_dir p) configuration "RL_DockStream_config.json";
  captured_err_stream ← run_reinvent p configuration_JSON_path;
  '(list_epochs, data) ← parse_output (output_dir p) captured_err_stream None;
  print_all data;;
  shell ("head -n 15 " +:+ output_dir p +:+ "/results/memory.csv");;
  mret (Namespace p configuration configuration_JSON_path captured_err_stream
          (Some list_epochs) (Some data)).

End Notebook_DockStream.

Module Notebook_Tanimoto.

(** src/unnamed/part_002: reinforcement learning with a Tanimoto similarity component *)

(** cell 2 *)
Definition cell_2 : nb paths :=
  setup "~/Desktop/REINVENT_RL_Tanimoto_Similarity_demo".

(** cell 5: initialize the dictionary *)
Definition cell_5 : nb pyval :=
  configuration ← new (EDict [
        ("version", EInt 3);
        ("run_type", EStr "reinforcement_learning")]);
  mret configuration.

(** cell 7: the logging block *)
Definition cell_7 (output_dir : string) (configuration : pyval) : nb unit :=
  x ← new (EDict [
        ("sender", EStr "http://0.0.0.1");
        ("recipient", EStr "local");
        ("logging_frequency", EInt 10);
        ("logging_path", EStr (os_path_join output_dir ["progress.log"]));
        ("result_folder", EStr (os_path_join output_dir ["results"]));
        ("job_name", EStr "Reinforcement learning demo");
        ("job_id", EStr "demo")]);
  setitem configuration "logging" x;;
  mret tt.

(** cell 9: the empty parameters block *)
Definition cell_9 (configuration : pyval) : nb unit :=
  x ← new (EDict []);
  setitem configuration "parameters" x;;
  mret tt.

(** cell 11: the diversity filter *)
Definition cell_11 (configuration : pyval) : nb unit :=
  x ← new (EDict [
        ("name", EStr "IdenticalMurckoScaffold");
        ("nbmax", EInt 25);
        ("minscore", EFloat (PyFloat false 0 (Decimal.D4 Decimal.Nil)));
        ("minsimilarity", EFloat (PyFloat false 0 (Decimal.D4 Decimal.Nil)))]);
  d ← getitem configuration "parameters";
  setitem d "diversity_filter" x;;
  mret tt.

(** cell 13: inception *)
Definition cell_13 (configuration : pyval) : nb unit :=
  x ← new (EDict [
        ("smiles", EList []);
        ("memory_size", EInt 100);
        ("sample_size", EInt 10)]);
  d ← getitem configuration "parameters";
  setitem d "inception" x;;
  mret tt.

(** cell 15: the reinforcement-learning parameters *)
Definition cell_15 (ipynb_path : string) (configuration : pyval) : nb unit :=
  x ← new (EDict [
        ("prior", EStr (os_path_join ipynb_path ["models/random.prior.new"]));
        ("agent", EStr (os_path_join ipynb_path ["models/random.prior.new"]));
        ("n_steps", EInt 125);
        ("sigma", EInt 128);
        ("learning_rate", EFloat (PyFloat false 0 (Decimal.D0 (Decimal.D0 (Decimal.D0 (Decimal.D1 Decimal.Nil))))));
        ("batch_size", EInt 128);
        ("reset", EInt 0);
        ("reset_score_cutoff", EFloat (PyFloat false 0 (Decimal.D5 Decimal.Nil)));
        ("margin_threshold", EInt 50)]);
  d ← getitem configuration "parameters";
  setitem d "reinforcement_learning" x;;
  mret tt.

(** cell 17: the scoring function *)
Definition cell_17 (ipynb_path : string) (configuration : pyval) : nb unit :=
  scoring_function ← new (EDict [
        ("name", EStr "custom_product");
        ("parallel", EBool false);
        ("parameters", EList [
          EDict [
            ("component_type", EStr "tanimoto_similarity");
            ("name", EStr "Tanimoto similarity");
            ("weight", EInt 1);
            ("specific_parameters", EDict [
              ("smiles", EList [
                EStr "O=S(=O)(c3ccc(n1nc(cc1c2ccc(cc2)C)C(F)(F)F)cc3)N"])])]])]);
  d ← getitem configuration "parameters";
  setitem d "scoring_function" scoring_function;;
  mret tt.

(** Cells 5 to 17: the configuration is built without any
    request to the outside. *)
Definition build (p : paths) : nb pyval :=
  configuration ← cell_5;
  cell_7 (output_dir p) configuration;;
  cell_9 configuration;;
  cell_11 configuration;;
  cell_13 configuration;;
  cell_15 (ipynb_path p) configuration;;
  cell_17 (ipynb_path p) configuration;;
  mret configuration.

(** Cell 2 and the cells after cell 17. *)
Definition notebook : nb namespace :=
  p ← cell_2;
  configuration ← build p;
  configuration_JSON_path ← write_configuration (output_dir p) configuration "RL_config.json";
  captured_err_stream ← run_reinvent p configuration_JSON_path;
  '(list_epochs, data) ← parse_output (output_dir p) captured_err_stream (Some [1; 75; 124]);
  print_all data;;
  shell ("head -n 15 " +:+ output_dir p +:+ "/results/memory.csv");;
  mret (Namespace p configuration configuration_JSON_path captured_err_stream
          (Some list_epochs) (Some data)).

End Notebook_Tanimoto.

Module Notebook_Selectivity.

(** src/notebooks/Reinforcement_Learning_Demo_Selectivity.ipynb *)

(** cell 2 *)
Definition cell_2 : nb paths :=
  setup "~/Desktop/REINVENT_RL_Selectivity_demo".

(** cell 5: initialize the dictionary *)
Definition cell_5 : nb pyval :=
  configuration ← new (EDict [
        ("version", EInt 3);
        ("run_type", EStr "reinforcement_learning")]);
  mret configuration.

(** cell 7: the logging block *)
Definition cell_7 (output_dir : string) (configuration : pyval) : nb unit :=
  x ← new (EDict [
        ("sender", EStr "http://0.0.0.1");
        ("recipient", EStr "local");
        ("logging_frequency", EInt 10);
        ("logging_path", EStr (os_path_join output_dir ["progress.log"]));
        ("result_folder", EStr (os_path_join output_dir ["results"]));
        ("job_name", EStr "Reinforcement learning demo");
        ("job_id", EStr "demo")]);
  setitem configuration "logging" x;;
  mret tt.

(** cell 9: the empty parameters block *)
Definition cell_9 (configuration : pyval) : nb unit :=
  x ← new (EDict []);
  setitem configuration "parameters" x;;
  mret tt.

(** cell 11: the diversity filter *)
Definition cell_11 (configuration : pyval) : nb unit :=
  x ← new (EDict [
        ("name", EStr "IdenticalMurckoScaffold");
        ("nbmax", EInt 25);
        ("minscore", EFloat (PyFloat false 0 (Decimal.D4 Decimal.Nil)));
        ("minsimilarity", EFloat (PyFloat false 0 (Decimal.D4 Decimal.Nil)))]);
  d ← getitem configuration "parameters";
  setitem d "diversity_filter" x;;
  mret tt.

(** cell 13: inception *)
Definition cell_13 (configuration : pyval) : nb unit :=
  x ← new (EDict [
        ("smiles", EList []);
        ("memory_size", EInt 100);
        ("sample_size", EInt 10)]);
  d ← getitem configuration "parameters";
  setitem d "inception" x;;
  mret tt.

(** cell 15: the reinforcement-learning parameters *)
Definition cell_15 (ipynb_path : string) (configuration : pyval) : nb unit :=
  x ← new (EDict [
        ("prior", EStr (os_path_join ipynb_path ["models/random.prior.new"]));
        ("agent", EStr (os_path_join ipynb_path ["models/random.prior.new"]));
        ("n_steps", EInt 1000);
        ("sigma", EInt 128);
        ("learning_rate", EFloat (PyFloat false 0 (Decimal.D0 (Decimal.D0 (Decimal.D0 (Decimal.D1 Decimal.Nil))))));
        ("batch_size", EInt 128);
        ("reset", EInt 0);
        ("reset_score_cutoff", EFloat (PyFloat false 0 (Decimal.D5 Decimal.Nil)));
        ("margin_threshold", EInt 50)]);
  d ← getitem configuration "parameters";
  setitem d "reinforcement_learning" x;;
  mret tt.

(** cell 17: the scoring function *)
Definition cell_17 (ipynb_path : string) (configuration : pyval) : nb unit :=
  scoring_function ← new (EDict [
        ("name", EStr "custom_product");
        ("parallel", EBool false);
        ("parameters", EList [
          EDict [
            ("component_type", EStr "predictive_property");
            ("name", EStr "Aurora kinase");
            ("weight", EInt 6);
            ("specific_parameters", EDict [
              ("model_path", EStr (os_path_join ipynb_path ["models/Aurora_model.pkl"]));
              ("transformation", EDict [
                ("transformation_type", EStr "sigmoid");
                ("high", EInt 9);
                ("low", EInt 4);
                ("k", EFloat (PyFloat false 0 (Decimal.D2 (Decimal.D5 Decimal.Nil))))]);
              ("scikit", EStr "regression");
              ("descriptor_type", EStr "ecfp_counts");
              ("size", EInt 2048);
              ("radius", EInt 3);
              ("use_counts", EBool true);
              ("use_features", EBool true)])];
          EDict [
            ("component_type", EStr "matching_substructure");
            ("name", EStr "Matching substructure");
            ("weight", EInt 1);
            ("specific_parameters", EDict [
              ("smiles", EList [
                EStr "c1ccccc1CC"])])];
          EDict [
            ("component_type", EStr "custom_alerts");
            ("name", EStr "Custom alerts");
            ("weight", EInt 1);
            ("specific_parameters", EDict [
              ("smiles", EList [
                EStr "[*;r8]";
                EStr "[*;r9]";
                EStr "[*;r10]";
                EStr "[*;r11]";
                EStr "[*;r12]";
                EStr "[*;r13]";
                EStr "[*;r14]";
                EStr "[*;r15]";
                EStr "[*;r16]";
                EStr "[*;r17]";
                EStr "[#8][#8]";
                EStr "[#6;+]";
                EStr "[#16][#16]";
                EStr "[#7;!n][S;!$(S(=O)=O)]";
                EStr "[#7;!n][#7;!n]";
                EStr "C#C";
                EStr "C(=[O,S])[O,S]";
                EStr "[#7;!n][C;!$(C(=[O,N])[N,O])][#16;!s]";
                EStr "[#7;!n][C;!$(C(=[O,N])[N,O])][#7;!n]";
                EStr "[#7;!n][C;!$(C(=[O,N])[N,O])][#8;!o]";
                EStr "[#8;!o][C;!$(C(=[O,N])[N,O])][#16;!s]";
                EStr "[#8;!o][C;!$(C(=[O,N])[N,O])][#8;!o]";
                EStr "[#16;!s][C;!$(C(=[O,N])[N,O])][#16;!s]"])])];
          EDict [
            ("component_type", EStr "selectivity");
            ("name", EStr "B-RAF selectivity");
            ("weight", EInt 3);
            ("specific_parameters", EDict [
              ("activity_specific_parameters", EDict [
                ("model_path", EStr (os_path_join ipynb_path ["models/Aurora_model.pkl"]));
                ("scikit", EStr "regression");
                ("descriptor_type", EStr "ecfp_counts");
                ("size", EInt 2048);
                ("radius", EInt 3);
                ("use_counts", EBool true);
                ("use_features", EBool true)]);
              ("offtarget_specific_parameters", EDict [
                ("model_path", EStr (os_path_join ipynb_path ["models/B-RAF_model.pkl"]));
                ("scikit", EStr "regression");
                ("descriptor_type", EStr "ecfp_counts");
                ("size", EInt 2048);
                ("radius", EInt 3);
                ("use_counts", EBool true);
                ("use_features", EBool true)]);
              ("delta_transformation_parameters", EDict [
                ("transformation_type", EStr "sigmoid");
                ("high", EInt 3);
                ("k", EFloat (PyFloat false 0 (Decimal.D2 (Decimal.D5 Decimal.Nil))));
                ("low", EInt 0)])])]])]);
  d ← getitem configuration "parameters";
  setitem d "scoring_function" scoring_function;;
  mret tt.

(** Cells 5 to 17: the configuration is built without any
    request to the outside. *)
Definition build (p : paths) : nb pyval :=
  configuration ← cell_5;
  cell_7 (output_dir p) configuration;;
  cell_9 configuration;;
  cell_11 configuration;;
  cell_13 configuration;;
  cell_15 (ipynb_path p) configuration;;
  cell_17 (ipynb_path p) configuration;;
  mret configuration.

(** Cell 2 and the cells after cell 17. *)
Definition notebook : nb namespace :=
  p ← cell_2;
  configuration ← build p;
  configuration_JSON_path ← write_configuration (output_dir p) configuration "RL_config.json";
  captured_err_stream ← run_reinvent p configuration_JSON_path;
  '(list_epochs, data) ← parse_output (output_dir p) captured_err_stream (Some [1; 75; 124]);
  print_all data;;
  shell ("head -n 15 " +:+ output_dir p +:+ "/results/memory.csv");;
  mret (Namespace p configuration configuration_JSON_path captured_err_stream
          (Some list_epochs) (Some data)).

End Notebook_Selectivity.

Module Notebook_Exploration.

(** src/notebooks/Reinforcement_Learning_Exploration_Demo.ipynb *)

(** cell 2 *)
Definition cell_2 : nb paths :=
  setup "~/Desktop/REINVENT_RL_Exploration_demo".

(** cell 5: initialize the dictionary *)
Definition cell_5 : nb pyval :=
  configuration ← new (EDict [
        ("version", EInt 3);
        ("run_type", EStr "reinforcement_learning")]);
  mret configuration.

(** cell 7: the logging block *)
Definition cell_7 (output_dir : string) (configuration : pyval) : nb unit :=
  x ← new (EDict [
        ("sender", EStr "http://0.0.0.1");
        ("recipient", EStr "local");
        ("logging_frequency", EInt 10);
        ("logging_path", EStr (os_path_join output_dir ["progress.log"]));
        ("result_folder", EStr (os_path_join output_dir ["results"]));
        ("job_name", EStr "Reinforcement learning demo");
        ("job_id", EStr "demo")]);
  setitem configuration "logging" x;;
  mret tt.

(** cell 9: the empty parameters block *)
Definition cell_9 (configuration : pyval) : nb unit :=
  x ← new (EDict []);
  setitem configuration "parameters" x;;
  mret tt.

(** cell 11: the diversity filter *)
Definition cell_11 (configuration : pyval) : nb unit :=
  x ← new (EDict [
        ("name", EStr "IdenticalMurckoScaffold");
        ("nbmax", EInt 25);
        ("minscore", EFloat (PyFloat false 0 (Decimal.D4 Decimal.Nil)));
        ("minsimilarity", EFloat (PyFloat false 0 (Decimal.D4 Decimal.Nil)))]);
  d ← getitem configuration "parameters";
  setitem d "diversity_filter" x;;
  mret tt.

(** cell 13: inception *)
Definition cell_13 (configuration : pyval) : nb unit :=
  x ← new (EDict [
        ("smiles", EList []);
        ("memory_size", EInt 100);
        ("sample_size", EInt 10)]);
  d ← getitem configuration "parameters";
  setitem d "inception" x;;
  mret tt.

(** cell 15: the reinforcement-learning parameters *)
Definition cell_15 (ipynb_path : string) (configuration : pyval) : nb unit :=
  x ← new (EDict [
        ("prior", EStr (os_path_join ipynb_path ["models/random.prior.new"]));
        ("agent", EStr (os_path_join ipynb_path ["models/random.prior.new"]));
        ("n_steps", EInt 1000);
        ("sigma", EInt 128);
        ("learning_rate", EFloat (PyFloat false 0 (Decimal.D0 (Decimal.D0 (Decimal.D0 (Decimal.D1 Decimal.Nil))))));
        ("batch_size", EInt 128);
        ("reset", EInt 0);
        ("reset_score_cutoff", EFloat (PyFloat false 0 (Decimal.D5 Decimal.Nil)));
        ("margin_threshold", EInt 50)]);
  d ← getitem configuration "parameters";
  setitem d "reinforcement_learning" x;;
  mret tt.

(** cell 17: the scoring function *)
Definition cell_17 (ipynb_path : string) (configuration : pyval) : nb unit :=
  scoring_function ← new (EDict [
        ("name", EStr "custom_product");
        ("parallel", EBool false);
        ("parameters", EList [
          EDict [
            ("component_type", EStr "predictive_property");
            ("name", EStr "Aurora kinase");
            ("weight", EInt 6);
            ("specific_parameters", EDict [
              ("model_path", EStr (os_path_join ipynb_path ["models/Aurora_model.pkl"]));
              ("transformation", EDict [
                ("transformation_type", EStr "sigmoid");
                ("high", EInt 9);
                ("low", EInt 4);
                ("k", EFloat (PyFloat false 0 (Decimal.D2 (Decimal.D5 Decimal.Nil))))]);
              ("scikit", EStr "regression");
              ("descriptor_type", EStr "ecfp_counts");
              ("size", EInt 2048);
              ("radius", EInt 3);
              ("use_counts", EBool true);
              ("use_features", EBool true)])];
          EDict [
            ("component_type", EStr "qed_score");
            ("name", EStr "QED");
            ("weight", EInt 2)];
          EDict [
            ("component_type", EStr "custom_alerts");
            ("name", EStr "Custom alerts");
            ("weight", EInt 1);
            ("specific_parameters", EDict [
              ("smiles", EList [
                EStr "[*;r8]";
                EStr "[*;r9]";
                EStr "[*;r10]";
                EStr "[*;r11]";
                EStr "[*;r12]";
                EStr "[*;r13]";
                EStr "[*;r14]";
                EStr "[*;r15]";
                EStr "[*;r16]";
                EStr "[*;r17]";
                EStr "[#8][#8]";
                EStr "[#6;+]";
                EStr "[#16][#16]";
                EStr "[#7;!n][S;!$(S(=O)=O)]";
                EStr "[#7;!n][#7;!n]";
                EStr "C#C";
                EStr "C(=[O,S])[O,S]";
                EStr "[#7;!n][C;!$(C(=[O,N])[N,O])][#16;!s]";
                EStr "[#7;!n][C;!$(C(=[O,N])[N,O])][#7;!n]";
                EStr "[#7;!n][C;!$(C(=[O,N])[N,O])][#8;!o]";
                EStr "[#8;!o][C;!$(C(=[O,N])[N,O])][#16;!s]";
                EStr "[#8;!o][C;!$(C(=[O,N])[N,O])][#8;!o]";
                EStr "[#16;!s][C;!$(C(=[O,N])[N,O])][#16;!s]"])])]])]);
  d ← getitem configuration "parameters";
  setitem d "scoring_function" scoring_function;;
  mret tt.

(** Cells 5 to 17: the configuration is built without any
    request to the outside. *)
Definition build (p : paths) : nb pyval :=
  configuration ← cell_5;
  cell_7 (output_dir p) configuration;;
  cell_9 configuration;;
  cell_11 configuration;;
  cell_13 configuration;;
  cell_15 (ipynb_path p) configuration;;
  cell_17 (ipynb_path p) configuration;;
  mret configuration.

(** Cell 2 and the cells after cell 17. *)
Definition notebook : nb namespace :=
  p ← cell_2;
  configuration ← build p;
  configuration_JSON_path ← write_configuration (output_dir p) configuration "RL_config.json";
  captured_err_stream ← run_reinvent p configuration_JSON_path;
  '(list_epochs, data) ← parse_output (output_dir p) captured_err_stream (Some [1; 75; 124]);
  print_all data;;
  shell ("head -n 15 " +:+ output_dir p +:+ "/results/memory.csv");;
  mret (Namespace p configuration configuration_JSON_path captured_err_stream
          (Some list_epochs) (Some data)).

End Notebook_Exploration.

Module Notebook_Sampling.

(** src/notebooks/Sampling_Demo.ipynb *)

(** cell 1 *)
Definition cell_1 : nb paths :=
  setup "~/Desktop/REINVENT_sampling_demo".

(** cell 3 *)
Definition cell_3 : nb pyval :=
  configuration ← new (EDict [
        ("version", EInt 3);
        ("run_type", EStr "sampling")]);
  mret configuration.

(** cell 4 *)
Definition cell_4 (output_dir : string) (configuration : pyval) : nb unit :=
  x ← new (EDict [
        ("sender", EStr "http://127.0.0.1");
        ("recipient", EStr "local");
        ("logging_path", EStr (os_path_join output_dir ["progress.log"]));
        ("job_name", EStr "Scoring mode demo");
        ("job_id", EStr "demo")]);
  setitem configuration "logging" x;;
  mret tt.

(** cell 6 *)
Definition cell_6 (output_dir ipynb_path : string) (configuration : pyval) : nb unit :=
  let output_SMILES_path := os_path_join output_dir ["sampled"; "sampled.smi"] in
  x ← new (EDict [
        ("model_path", EStr (os_path_join ipynb_path ["models"; "random.prior.new"]));
        ("output_smiles_path", EStr output_SMILES_path);
        ("num_smiles", EInt 1024);
        ("batch_size", EInt 128);
        ("with_likelihood", EBool false)]);
  setitem configuration "parameters" x;;
  mret tt.

(** Cells 3 to 6. *)
Definition build (p : paths) : nb pyval :=
  configuration ← cell_3;
  cell_4 (output_dir p) configuration;;
  cell_6 (output_dir p) (ipynb_path p) configuration;;
  mret configuration.

Definition notebook : nb namespace :=
  p ← cell_1;
  configuration ← build p;
  configuration_JSON_path ← write_configuration (output_dir p) configuration "sampling_config.json";
  captured_err_stream ← run_reinvent p configuration_JSON_path;
  save_output (output_dir p) captured_err_stream;;
  shell ("head -n 15 " +:+ output_dir p +:+ "/sampled/sampled.smi");;
  mret (Namespace p configuration configuration_JSON_path captured_err_stream
          None None).

End Notebook_Sampling.

(** The five reinforcement-learning notebooks, and all six. *)
Definition rl_notebooks : list (nb namespace) :=
  [ Notebook_DRD2.notebook; Notebook_DockStream.notebook;
    Notebook_Tanimoto.notebook; Notebook_Selectivity.notebook;
    Notebook_Exploration.notebook ].

Definition all_notebooks : list (nb namespace) :=
  rl_notebooks ++ [ Notebook_Sampling.notebook ].

(* ===================================================================== *)
(** * What a trace shows *)
(* ===================================================================== *)

(** The commands given to the shell, in order. *)
Definition obs_command (ob : obs) : option string :=
  match ob with
  | @Obs X e _ =>
      match e with
      | System cmd => Some cmd
      | _ => None
      end
  end.

Definition commands (tr : list obs) : list string := omap obs_command tr.

(** The exception a request was answered with, if any. *)
Definition obs_exn (ob : obs) : option exn :=
  match ob with
  | @Obs X e (inl x) => Some x
  | _ => None
  end.

Definition obs_is_mkdir (ob : obs) : bool :=
  match ob with
  | @Obs X e _ => match e with Mkdir _ => true | _ => false end
  end.

Definition obs_is_lookup (name : string) (ob : obs) : bool :=
  match ob with
  | @Obs X e _ => match e with NameLookup n => String.eqb n name | _ => false end
  end.

Definition obs_is_close (ob : obs) : bool :=
  match ob with
  | @Obs X e _ => match e with FClose _ => true | _ => false end
  end.

(** The files as the answered requests of a trace leave them:
    [open(p, 'w')] creates or empties [p], a write appends to the file
    its handle was opened for, [close] retires the handle. *)
Record fstate := FState {
  opened : list (handle * string);
  contents : list (string * string)
}.

Definition fstep (s : fstate) (ob : obs) : fstate :=
  match ob with
  | @Obs X e r =>
      match e in eventE X return exn + X -> fstate with
      | OpenW path => fun r =>
          match r with
          | inr h => FState ((h, path) :: opened s) (dict_setitem path "" (contents s))
          | inl _ => s
          end
      | FWrite h text => fun r =>
          match r, World.handle_path h (opened s) with
          | inr _, Some path =>
              FState (opened s)
                (dict_setitem path
                   (default "" (dict_getitem path (contents s)) +:+ text)
                   (contents s))
          | _, _ => s
          end
      | FClose h => fun r =>
          match r with
          | inr _ =>
              FState (List.filter (fun hp => negb (Nat.eqb h (fst hp))) (opened s))
                (contents s)
          | inl _ => s
          end
      | _ => fun _ => s
      end r
  end.

Definition fstate_after (tr : list obs) : fstate :=
  fold_left fstep tr (FState [] []).

(** The content of the file at [path] after the trace; [None] if the
    trace never opened it. *)
Definition file_content (tr : list obs) (path : string) : option string :=
  dict_getitem path (contents (fstate_after tr)).

(** The result of a notebook fragment that makes no request. *)
Definition pure_run {A} (m : nb A) (st : store) : option (A * store) :=
  match m st with
  | Ret r => Some r
  | _ => None
  end.

(* ===================================================================== *)
(** * Properties of configuration values *)
(* ===================================================================== *)

(** [j[k]] for a dictionary [j]. *)
Definition json_get (k : string) (j : json) : option json :=
  match j with
  | JDict d => dict_getitem k d
  | _ => None
  end.

Definition is_block (j : json) : bool :=
  match j with JDict _ => true | _ => false end.

Definition has_field (k : string) (j : json) : bool :=
  match json_get k j with Some _ => true | None => false end.

Definition has_block (k : string) (j : json) : bool :=
  match json_get k j with Some b => is_block b | None => false end.

(** The fields the REINVENT reinforcement-learning schema names. *)
Definition rl_schema (j : json) : bool :=
  has_field "version" j && has_field "run_type" j && has_block "logging" j
  && match json_get "parameters" j with
     | Some params =>
         is_block params
         && has_block "scoring_function" params
         && has_block "diversity_filter" params
         && has_block "inception" params
         && has_block "reinforcement_learning" params
     | None => false
     end.

(** The same, spelled out. *)
Definition has_rl_fields (j : json) : Prop :=
  exists version run_type logging parameters
         scoring_function diversity_filter inception reinforcement_learning,
    json_get "version" j = Some version
    /\ json_get "run_type" j = Some run_type
    /\ json_get "logging" j = Some (JDict logging)
    /\ json_get "parameters" j = Some (JDict parameters)
    /\ dict_getitem "scoring_function" parameters = Some (JDict scoring_function)
    /\ dict_getitem "diversity_filter" parameters = Some (JDict diversity_filter)
    /\ dict_getitem "inception" parameters = Some (JDict inception)
    /\ dict_getitem "reinforcement_learning" parameters
       = Some (JDict reinforcement_learning).

(** The names under which the notebooks write their configuration. *)
Definition config_names : list string :=
  [ "DRD2_config.json"; "RL_DockStream_config.json"; "RL_config.json";
    "sampling_config.json" ].

(** No key occurs twice in a dictionary: the invariant of [dict]. *)
Fixpoint distinct_keys (j : json) : bool :=
  match j with
  | JList items => forallb distinct_keys items
  | JDict items =>
      bool_decide (NoDup (map fst items))
      && forallb (fun kv => distinct_keys (snd kv)) items
  | _ => true
  end.

#[global] Instance uint_eq_dec : EqDecision Decimal.uint := Decimal.uint_eq_dec.

#[global] Instance pyfloat_eq_dec : EqDecision pyfloat.
Proof. solve_decision. Defined.

(** Whether two trees are the same value, whatever the order in which
    the keys of their dictionaries were inserted.  Two lists are the
    same if their items are, one by one; two dictionaries as [dict]
    compares them: they have as many items, and every key of the first
    is a key of the second with the same value.  A scalar is the same
    only as a scalar of its own type: [json.dump] writes [1], [True]
    and [1.0] differently. *)
Fixpoint same_value (a b : json) {struct a} : bool :=
  match a, b with
  | JNull, JNull => true
  | JBool x, JBool y => Bool.eqb x y
  | JInt x, JInt y => Z.eqb x y
  | JFloat f, JFloat g => bool_decide (f = g)
  | JStr s, JStr t => String.eqb s t
  | JList l, JList l' =>
      (fix items (l l' : list json) : bool :=
         match l, l' with
         | [], [] => true
         | x :: l, y :: l' => same_value x y && items l l'
         | _, _ => false
         end) l l'
  | JDict d, JDict d' =>
      Nat.eqb (length d) (length d')
      && forallb (fun kv =>
                    match dict_getitem (fst kv) d' with
                    | Some y => same_value (snd kv) y
                    | None => false
                    end) d
  | _, _ => false
  end.

(** The tree with the items of every dictionary put in the order of
    their keys. *)
Fixpoint sorted_tree (j : json) : json :=
  match j with
  | JList items => JList (map sorted_tree items)
  | JDict items =>
      JDict (Json.sorted_items (map (fun kv => (fst kv, sorted_tree (snd kv))) items))
  | _ => j
  end.

Fixpoint ascending (keys : list string) : bool :=
  match keys with
  | a :: (b :: _) as rest => String.leb a b && ascending rest
  | _ => true
  end.

(** Every dictionary of the tree has its keys in ascending order. *)
Fixpoint keys_sorted (j : json) : bool :=
  match j with
  | JList items => forallb keys_sorted items
  | JDict items =>
      ascending (map fst items)
      && forallb (fun kv => keys_sorted (snd kv)) items
  | _ => true
  end.

Definition json_keys (j : json) : list string :=
  match j with
  | JDict d => dict_keys d
  | _ => []
  end.

(** The order of two items by their keys. *)
Definition key_le {V} (x y : string * V) : Prop :=
  String.leb (fst x) (fst y) = true.

(** The top-level keys of every REINVENT configuration, in the order in
    which they are written. *)
Definition top_level_keys : list string :=
  [ "logging"; "parameters"; "run_type"; "version" ].

(* ===================================================================== *)
(** * Reading a JSON text *)
(* ===================================================================== *)

(** No notebook reads its configuration back: the external tool does.
    The reader below is the one of Python's [json] package
    ([json.load], that is [json.decoder] and [json.scanner]), on the
    values of this development: code points below 256, numbers
    without exponent.  It refuses what lies outside ([NaN], [Infinity],
    exponents, higher code points), which [json.dump] does not write
    for any value of type [json]. *)
Module Reader.

(** The whitespace of [json.decoder.WHITESPACE]. *)
Definition is_ws (c : ascii) : bool :=
  Ascii.eqb c " " || Ascii.eqb c "009" || Ascii.eqb c "010" || Ascii.eqb c "013".

Fixpoint skip_ws (s : list ascii) : list ascii :=
  match s with
  | c :: s' => if is_ws c then skip_ws s' else s
  | [] => []
  end.

Definition digit_of (c : ascii) : option (Decimal.uint -> Decimal.uint) :=
  match c with
  | "0" => Some Decimal.D0
  | "1" => Some Decimal.D1
  | "2" => Some Decimal.D2
  | "3" => Some Decimal.D3
  | "4" => Some Decimal.D4
  | "5" => Some Decimal.D5
  | "6" => Some Decimal.D6
  | "7" => Some Decimal.D7
  | "8" => Some Decimal.D8
  | "9" => Some Decimal.D9
  | _ => None
  end%char.

(** The longest run of digits. *)
Fixpoint digits (s : list ascii) : Decimal.uint * list ascii :=
  match s with
  | c :: s' =>
      match digit_of c with
      | Some d => let '(u, r) := digits s' in (d u, r)
      | None => (Decimal.Nil, s)
      end
  | [] => (Decimal.Nil, [])
  end.

(** The integer part of [NUMBER_RE]: a zero, or digits that start with
    another digit. *)
Definition int_part (s : list ascii) : option (Decimal.uint * list ascii) :=
  match s with
  | c :: r =>
      if Ascii.eqb c "0" then Some (Decimal.D0 Decimal.Nil, r)
      else match digit_of c with
           | Some _ => Some (digits s)
           | None => None
           end
  | [] => None
  end.

Definition is_exponent (s : list ascii) : bool :=
  match s with
  | c :: _ => Ascii.eqb c "e" || Ascii.eqb c "E"
  | [] => false
  end.

(** What [NUMBER_RE] matches after the sign: an [int] unless a fraction
    follows. *)
Definition unsigned (neg : bool) (s : list ascii) : option (json * list ascii) :=
  match int_part s with
  | Some (i, s2) =>
      let int_value :=
        JInt (Z.of_int (if neg then Decimal.Neg i else Decimal.Pos i)) in
      match s2 with
      | c :: s3 =>
          if Ascii.eqb c "." then
            match digits s3 with
            | (Decimal.Nil, _) => None
            | (frac, s4) =>
                if is_exponent s4 then None
                else Some (JFloat (PyFloat neg (N.of_uint i) frac), s4)
            end
          else if is_exponent s2 then None
          else Some (int_value, s2)
      | [] => Some (int_value, s2)
      end
  | None => None
  end.

Definition number (s : list ascii) : option (json * list ascii) :=
  match s with
  | c :: r => if Ascii.eqb c "-" then unsigned true r else unsigned false s
  | [] => None
  end.

Definition hex_value (c : ascii) : option N :=
  let n := N_of_ascii c in
  if ((48 <=? n) && (n <=? 57))%N then Some (n - 48)%N
  else if ((97 <=? n) && (n <=? 102))%N then Some (n - 87)%N
  else if ((65 <=? n) && (n <=? 70))%N then Some (n - 55)%N
  else None.

(** [BACKSLASH] of [json.decoder]. *)
Definition simple_escape (c : ascii) : option ascii :=
  if Ascii.eqb c Json.dquote then Some Json.dquote
  else if Ascii.eqb c Json.backslash then Some Json.backslash
  else match c with
       | "/" => Some "/"
       | "b" => Some "008"
       | "f" => Some "012"
       | "n" => Some "010"
       | "r" => Some "013"
       | "t" => Some "009"
       | _ => None
       end%char.

Definition unicode_escape (h1 h2 h3 h4 : ascii) : option ascii :=
  match hex_value h1, hex_value h2, hex_value h3, hex_value h4 with
  | Some a, Some b, Some c, Some d =>
      let n := (((a * 16 + b) * 16 + c) * 16 + d)%N in
      if (n <? 256)%N then Some (ascii_of_N n) else None
  | _, _, _, _ => None
  end.

Definition cons_char (c : ascii) (r : option (string * list ascii))
  : option (string * list ascii) :=
  match r with
  | Some (t, s) => Some (String c t, s)
  | None => None
  end.

(** [py_scanstring] after the opening quote, in strict mode: up to the
    closing quote, with the escapes undone; a control character is an
    error. *)
Fixpoint string_body (s : list ascii) : option (string * list ascii) :=
  match s with
  | [] => None
  | c :: s1 =>
      if Ascii.eqb c Json.dquote then Some (EmptyString, s1)
      else if Ascii.eqb c Json.backslash then
        match s1 with
        | [] => None
        | e :: s2 =>
            if Ascii.eqb e "u" then
              match s2 with
              | h1 :: h2 :: h3 :: h4 :: s3 =>
                  match unicode_escape h1 h2 h3 h4 with
                  | Some x => cons_char x (string_body s3)
                  | None => None
                  end
              | _ => None
              end
            else
              match simple_escape e with
              | Some x => cons_char x (string_body s2)
              | None => None
              end
        end
      else if (N_of_ascii c <? 32)%N then None
      else cons_char c (string_body s1)
  end.

Fixpoint strip (prefix s : list ascii) : option (list ascii) :=
  match prefix, s with
  | [], _ => Some s
  | p :: prefix', c :: s' => if Ascii.eqb p c then strip prefix' s' else None
  | _ :: _, [] => None
  end.

(** [scan_once], [JSONArray] after the first item's start and
    [JSONObject] after the first key's start.  The pairs of an object
    become a [dict]. *)
Fixpoint value (fuel : nat) (s : list ascii) {struct fuel}
  : option (json * list ascii) :=
  match fuel with
  | O => None
  | S fuel' =>
      match s with
      | [] => None
      | c :: r =>
          if Ascii.eqb c Json.dquote then
            match string_body r with
            | Some (t, r') => Some (JStr t, r')
            | None => None
            end
          else if Ascii.eqb c "{" then
            match skip_ws r with
            | [] => None
            | c' :: r' =>
                if Ascii.eqb c' "}" then Some (JDict [], r')
                else match members fuel' (c' :: r') with
                     | Some (l, r'') => Some (JDict (dict_display l), r'')
                     | None => None
                     end
            end
          else if Ascii.eqb c "[" then
            match skip_ws r with
            | [] => None
            | c' :: r' =>
                if Ascii.eqb c' "]" then Some (JList [], r')
                else match items fuel' (c' :: r') with
                     | Some (l, r'') => Some (JList l, r'')
                     | None => None
                     end
            end
          else
            match strip (chars "null") s with
            | Some r' => Some (JNull, r')
            | None =>
                match strip (chars "true") s with
                | Some r' => Some (JBool true, r')
                | None =>
                    match strip (chars "false") s with
                    | Some r' => Some (JBool false, r')
                    | None => number s
                    end
                end
            end
      end
  end
with items (fuel : nat) (s : list ascii) {struct fuel}
  : option (list json * list ascii) :=
  match fuel with
  | O => None
  | S fuel' =>
      match value fuel' s with
      | Some (x, r) =>
          match skip_ws r with
          | [] => None
          | c :: r' =>
              if Ascii.eqb c "]" then Some ([x], r')
              else if Ascii.eqb c "," then
                match items fuel' (skip_ws r') with
                | Some (l, r'') => Some (x :: l, r'')
                | None => None
                end
              else None
          end
      | None => None
      end
  end
with members (fuel : nat) (s : list ascii) {struct fuel}
  : option (list (string * json) * list ascii) :=
  match fuel with
  | O => None
  | S fuel' =>
      match s with
      | [] => None
      | c :: r =>
          if Ascii.eqb c Json.dquote then
            match string_body r with
            | Some (k, r1) =>
                match skip_ws r1 with
                | [] => None
                | c1 :: r2 =>
                    if Ascii.eqb c1 ":" then
                      match value fuel' (skip_ws r2) with
                      | Some (x, r3) =>
                          match skip_ws r3 with
                          | [] => None
                          | c3 :: r4 =>
                              if Ascii.eqb c3 "}" then Some ([(k, x)], r4)
                              else if Ascii.eqb c3 "," then
                                match members fuel' (skip_ws r4) with
                                | Some (l, r5) => Some ((k, x) :: l, r5)
                                | None => None
                                end
                              else None
                          end
                      | None => None
                      end
                    else None
                end
            | None => None
            end
          else None
      end
  end.

(** [json.loads(s)]: one value between optional whitespace.  The
    length of the text is the fuel; it is enough for the texts that
    [json.dump] writes, as shown below. *)
Definition loads (s : string) : option json :=
  match value (String.length s) (skip_ws (chars s)) with
  | Some (j, r) =>
      match skip_ws r with
      | [] => Some j
      | _ => None
      end
  | None => None
  end.

End Reader.

(** A float has digits after the point, as [float.__repr__] writes it. *)
Definition proper_float (f : pyfloat) : bool :=
  match f_frac f with
  | Decimal.Nil => false
  | _ => true
  end.

Fixpoint proper_floats (j : json) : bool :=
  match j with
  | JFloat f => proper_float f
  | JList items => forallb proper_floats items
  | JDict items => forallb (fun kv => proper_floats (snd kv)) items
  | _ => true
  end.

(** The fuel that reading a value back takes. *)
Fixpoint json_size (j : json) : nat :=
  match j with
  | JList items => S (list_sum (map (fun x => S (json_size x)) items))
  | JDict items => S (list_sum (map (fun kv => S (json_size (snd kv))) items))
  | _ => 1
  end.

(** What may follow a value in a text that [json.dump] writes. *)
Definition ends_value (rest : list ascii) : Prop :=
  match rest with
  | [] => True
  | c :: _ => c = ","%char \/ c = Json.newline
  end.

Definition not_digit (rest : list ascii) : Prop :=
  match rest with
  | [] => True
  | c :: _ => Reader.digit_of c = None
  end.

(** Digits that [int.__repr__] writes for a positive number. *)
Definition nonzero_head (d : Decimal.uint) : Prop :=
  match d with
  | Decimal.Nil | Decimal.D0 _ => False
  | _ => True
  end.

(** The first character of a number, and of a value. *)
Definition starts_number (c : ascii) : bool :=
  match Reader.digit_of c with
  | Some _ => true
  | None => Ascii.eqb c "-"
  end.

Definition starts_value (c : ascii) : bool :=
  starts_number c || Ascii.eqb c Json.dquote || Ascii.eqb c "[" || Ascii.eqb c "{"
  || Ascii.eqb c "n" || Ascii.eqb c "t" || Ascii.eqb c "f".

(** A value that is read back as it was written, by any fuel that
    covers its size. *)
Definition reads_back (indent : nat) (x : json) : Prop :=
  forall fuel level rest,
    json_size x <= fuel -> ends_value rest ->
    Reader.value fuel (chars (Json.encode indent false level x) ++ rest)
    = Some (x, rest).

(** What [print] was given, in order: the cell output. *)
Definition obs_print (ob : obs) : option string :=
  match ob with
  | @Obs X e _ =>
      match e with
      | Print text => Some text
      | _ => None
      end
  end.

Definition printed (tr : list obs) : list string := omap obs_print tr.

(** Requests that neither run a command nor touch a file's content. *)
Definition obs_quiet (ob : obs) : bool :=
  match ob with
  | @Obs X e _ =>
      match e with
      | System _ | OpenW _ | FWrite _ _ | FClose _ | Print _ => false
      | _ => true
      end
  end.

(** The command line of the REINVENT cell. *)
Definition reinvent_command (p : paths) (configuration_JSON_path : string) : string :=
  reinvent_env p +:+ "/bin/python " +:+ reinvent_dir p
    +:+ "/input.py " +:+ configuration_JSON_path.

(** What the cells after the construction of the configuration ask of
    the outside in a complete run: write the configuration, run
    REINVENT, keep its output, print the selected blocks, look at a
    result file. *)
Definition tail_trace (p : paths) (path text stdout : string) (f1 f2 : handle)
    (shown : list string) (head_cmd head_out : string) : list obs :=
  [ Obs (OpenW path) (inr f1);
    Obs (FWrite f1 text) (inr tt);
    Obs (FClose f1) (inr tt);
    Obs (System (reinvent_command p path)) (inr stdout);
    Obs (OpenW (os_path_join (output_dir p) ["run.err"])) (inr f2);
    Obs (FWrite f2 stdout) (inr tt);
    Obs (FClose f2) (inr tt) ]
  ++ map (fun element => Obs (Print element) (inr tt)) shown
  ++ [ Obs (System head_cmd) (inr head_out) ].

(** The cells of a reinforcement-learning notebook that follow the
    construction of the configuration. *)
Definition finish_rl (p : paths) (configuration : pyval) (name : string)
    (idxs : option (list nat)) (head_cmd : string) : nb namespace :=
  configuration_JSON_path ← write_configuration (output_dir p) configuration name;
  captured_err_stream ← run_reinvent p configuration_JSON_path;
  '(list_epochs, data) ← parse_output (output_dir p) captured_err_stream idxs;
  print_all data;;
  shell head_cmd;;
  mret (Namespace p configuration configuration_JSON_path captured_err_stream
          (Some list_epochs) (Some data)).

(** The same for the sampling notebook, which shows no epochs. *)
Definition finish_sampling (p : paths) (configuration : pyval) (name : string)
    (head_cmd : string) : nb namespace :=
  configuration_JSON_path ← write_configuration (output_dir p) configuration name;
  captured_err_stream ← run_reinvent p configuration_JSON_path;
  save_output (output_dir p) captured_err_stream;;
  shell head_cmd;;
  mret (Namespace p configuration configuration_JSON_path captured_err_stream
          None None).

(** [data] as the post-processing cell computes it from [list_epochs]. *)
Definition shown_data (idxs : option (list nat)) (list_epochs : list string)
  : list string :=
  map drop_last_line
    match idxs with
    | Some idxs => select_epochs idxs list_epochs
    | None => map snd (enumerate 0 list_epochs)
    end.

(** The summary of a complete run that serialises the value [j]: the
    trace is some preparation [pre] that runs no command, prints
    nothing and leaves no file open, followed by [tail_trace]; the final names hold what the
    trace shows. *)
Definition complete_run (name : string) (head_cmd : string -> string)
    (j : json) (tr : list obs) (ns : namespace) (st : store) : Prop :=
  configuration_JSON_path ns = os_path_join (output_dir (ns_paths ns)) [name]
  /\ snapshot st (configuration ns) = Some j
  /\ exists pre f1 f2 head_out,
       tr = pre ++ tail_trace (ns_paths ns) (configuration_JSON_path ns)
                     (Json.dumps 4 true j) (captured_err_stream ns) f1 f2
                     (default [] (data ns))
                     (head_cmd (output_dir (ns_paths ns))) head_out
       /\ commands pre = []
       /\ printed pre = []
       /\ opened (fstate_after pre) = [].

(** The epochs found and shown, as the post-processing cell leaves them. *)
Definition epochs_parsed (idxs : option (list nat)) (ns : namespace) : Prop :=
  list_epochs ns = Some (Re.findall "INFO.*?local" (captured_err_stream ns))
  /\ data ns = Some (shown_data idxs
                      (Re.findall "INFO.*?local" (captured_err_stream ns))).

(* ===================================================================== *)
(** * The epochs of a log, in the words of the specification *)
(* ===================================================================== *)

(** [s[i:j]] and [s[i:]] *)
Definition slice (s : string) (i j : nat) : string :=
  str (take (j - i) (drop i (chars s))).

Definition slice_from (s : string) (i : nat) : string :=
  str (drop i (chars s)).

(** The word [w] occurs in [s] at index [i]. *)
Definition occurs_at (w s : string) (i : nat) : Prop :=
  slice s i (i + String.length w) = w.

(** A match of [INFO.*?local] in [s]: an occurrence of [INFO] at [i],
    and at [j] the nearest occurrence of [local] that follows it. *)
Definition match_at (s : string) (i j : nat) : Prop :=
  occurs_at "INFO" s i
  /\ i + 4 <= j
  /\ occurs_at "local" s j
  /\ forall j', i + 4 <= j' -> occurs_at "local" s j' -> j <= j'.

(** The leftmost matches, one after the other: the first match of [s]
    is the one that starts leftmost, the others are the matches of the
    text behind it. *)
Inductive epochs : string -> list string -> Prop :=
| epochs_done s :
    (forall i j, ~ match_at s i j) -> epochs s []
| epochs_next s i j rest :
    match_at s i j ->
    (forall i' j', match_at s i' j' -> i <= i') ->
    epochs (slice_from s (j + 5)) rest ->
    epochs s (slice s i (j + 5) :: rest).

(** Two functions on character lists that the proofs about the matcher
    use: [starts w s] tests whether [s] begins with [w], and [find w s]
    is the index of the first occurrence of [w] in [s]. *)
Fixpoint starts (w s : list ascii) : bool :=
  match w, s with
  | [], _ => true
  | a :: w', b :: s' => Ascii.eqb b a && starts w' s'
  | _ :: _, [] => false
  end.

Fixpoint find (w s : list ascii) : option nat :=
  if starts w s then Some 0
  else match s with
       | [] => None
       | _ :: s' => S <$> find w s'
       end.

(** The notebooks that show selected epochs, with the indices they
    select. *)
Definition selecting_notebooks : list (nb namespace * list nat) :=
  [ (Notebook_DRD2.notebook, [1; 150; 299]);
    (Notebook_Tanimoto.notebook, [1; 75; 124]);
    (Notebook_Selectivity.notebook, [1; 75; 124]);
    (Notebook_Exploration.notebook, [1; 75; 124]) ].

(** A text without line boundary. *)
Definition one_line (s : string) : Prop :=
  Forall (fun c => Lines.is_linebreak c = false) (chars s).

(* ===================================================================== *)
(** * The growth of a configuration *)
(* ===================================================================== *)

(** [j[k1]...[kn]] *)
Fixpoint json_get_path (q : list string) (j : json) : option json :=
  match q with
  | [] => Some j
  | k :: q' =>
      match json_get k j with
      | Some x => json_get_path q' x
      | None => None
      end
  end.

(** The tree [j] with the entry [key] of the dictionary at [path] set to
    [v] and nothing else touched. *)
Fixpoint json_set (path : list string) (key : string) (v j : json) : json :=
  match j with
  | JDict d =>
      match path with
      | [] => JDict (dict_setitem key v d)
      | k :: path' =>
          match dict_getitem k d with
          | Some x => JDict (dict_setitem k (json_set path' key v x) d)
          | None => j
          end
      end
  | _ => j
  end.

(** Two key paths that part at some key: neither leads through the other. *)
Fixpoint diverges (q r : list string) : bool :=
  match q, r with
  | a :: q', b :: r' => if String.eqb a b then diverges q' r' else true
  | _, _ => false
  end.

(** The DRD2 use-case builds its configuration in five steps: the
    display of cell 15 and four later assignments. *)
Module DRD2_steps.
Import Notebook_DRD2.

(** Cells 3 to 15, with the names that the later cells read. *)
Definition cells_3_15 (p : paths) : nb (pyval * pyval * pyval) :=
  component_DRD2_prediction ← cell_3 (ipynb_path p);
  diversity_filter ← cell_5;
  inception ← cell_7;
  '(component_rotatable_bonds, component_num_hbd) ← cell_9;
  component_custom_alerts ← cell_11;
  scoring_function ← cell_13 component_DRD2_prediction component_num_hbd
                       component_rotatable_bonds component_custom_alerts;
  configuration ← cell_15 scoring_function;
  mret (configuration, diversity_filter, inception).

(** The assignments of cells 17, 19 and 21, in program order. *)
Definition later_assignments (p : paths)
    (configuration diversity_filter inception : pyval) : list (nb unit) :=
  [ set_diversity_filter configuration diversity_filter;
    set_inception configuration inception;
    cell_19 (ipynb_path p) configuration;
    cell_21 (output_dir p) configuration ].

(** The dictionary and the key that each of them names. *)
Definition later_keys : list (list string * string) :=
  [ (["parameters"], "diversity_filter");
    (["parameters"], "inception");
    (["parameters"], "reinforcement_learning");
    ([], "logging") ].

(** The entries that cell 15 stores. *)
Definition first_entries : list (list string) :=
  [ ["version"]; ["run_type"]; ["parameters"; "scoring_function"] ].

Fixpoint in_turn (l : list (nb unit)) : nb unit :=
  match l with
  | [] => mret tt
  | m :: l' => m;; in_turn l'
  end.

(** [build] cut after the first [n] later assignments. *)
Definition build_upto (n : nat) (p : paths) : nb pyval :=
  '(configuration, diversity_filter, inception) ← cells_3_15 p;
  in_turn (take n (later_assignments p configuration diversity_filter inception));;
  mret configuration.

(** The configuration as a tree at that point. *)
Definition stage (n : nat) (p : paths) : option json :=
  match pure_run (build_upto n p) [] with
  | Some (configuration, st) => snapshot st configuration
  | None => None
  end.

End DRD2_steps.

(* ===================================================================== *)
(** * Where exceptions are caught *)
(* ===================================================================== *)

(** [dies q]: whatever the answers, [q] ends with an exception, after
    at most the closing of files that a [with] statement asks for. *)
Definition dies {A} (q : prog A) : Prop :=
  forall tr o, run q tr o ->
    (exists y, o = inl y) /\ Forall (fun ob => obs_is_close ob = true) tr.

(** [guards P p]: at every request of [p], an exception given as the
    answer either is one that [P] allows to be caught, or ends the
    program. *)
Fixpoint guards {A} (P : obs -> exn -> Prop) (p : prog A) : Prop :=
  match p with
  | Vis e k =>
      (forall x, P (Obs e (inl x)) x \/ dies (k (inl x)))
      /\ (forall r, guards P (k r))
  | _ => True
  end.

(** The only handlers: [except FileExistsError] around [os.mkdir], and
    [except NameError] around the evaluation of [ipynb_path]. *)
Definition notebook_handlers (ob : obs) (x : exn) : Prop :=
  (obs_is_mkdir ob = true /\ x = FileExistsError)
  \/ (obs_is_lookup "ipynb_path" ob = true /\ issubclass x NameError = true).

(** The handler that the claim names, alone. *)
Definition mkdir_handler (ob : obs) (x : exn) : Prop :=
  obs_is_mkdir ob = true.

(** The directory and the answer of an [os.mkdir] request. *)
Definition obs_mkdir (ob : obs) : option (string * (exn + unit)) :=
  match ob with
  | @Obs X e r =>
      match e in eventE X return exn + X -> option (string * (exn + unit)) with
      | Mkdir d => fun r => Some (d, r)
      | _ => fun _ => None
      end r
  end.

(** [mkdir_guarded p]: at every [os.mkdir] request of [p], the program
    goes on after [FileExistsError] exactly as after success, and any
    other exception is the end of the program. *)
Fixpoint mkdir_guarded {A} (p : prog A) : Prop :=
  match p with
  | Vis e k =>
      match e in eventE X return (exn + X -> prog A) -> Prop with
      | Mkdir d => fun k =>
          k (inl FileExistsError) = k (inr tt)
          /\ (forall x, x <> FileExistsError -> k (inl x) = Raise x)
      | _ => fun _ => True
      end k
      /\ (forall r, mkdir_guarded (k r))
  | _ => True
  end.

(* ===================================================================== *)
(** * Two sample sessions *)
(* ===================================================================== *)

(** A fresh kernel on a machine where the output folder does not exist
    yet, and a REINVENT stand-in that logs two epochs. *)
Definition demo_stdout : string :=
  "starting
INFO step 0
score 0.1
local INFO step 1
score 0.2
local done".

Definition demo_world : World.world :=
  World.World "/home/u" "/home/u/ReinventCommunity/notebooks" None
    ["/"; "/home"; "/home/u"; "/home/u/Desktop"] [] [] 3
    (fun cmd => if PyStr.startswith cmd "head " then "" else demo_stdout) [].

(** The same machine on a second session: the folders are there, and
    the kernel was given [ipynb_path]. *)
Definition demo_world_again : World.world :=
  World.World "/home/u" "/" (Some "/home/u/ReinventCommunity/notebooks")
    ["/"; "/home"; "/home/u"; "/home/u/Desktop";
     "/home/u/Desktop/REINVENT_Use-Case-DRD2_demo"] [] [] 3
    (fun cmd => if PyStr.startswith cmd "head " then "" else demo_stdout) [].

Definition demo_trace : list obs :=
  Eval vm_compute in (World.exec (Notebook_Tanimoto.notebook []) demo_world).1.1.

Definition demo_outcome : exn + namespace * store :=
  Eval vm_compute in (World.exec (Notebook_Tanimoto.notebook []) demo_world).1.2.

Definition demo_ns : namespace :=
  match demo_outcome with
  | inr (ns, _) => ns
  | inl _ => Namespace (Paths "" "" "" "") VNone "" "" None None
  end.

Definition demo_st : store :=
  match demo_outcome with
  | inr (_, st) => st
  | inl _ => []
  end.

Definition drd2_trace : list obs :=
  Eval vm_compute in (World.exec (Notebook_DRD2.notebook []) demo_world_again).1.1.

Definition drd2_outcome : exn + namespace * store :=
  Eval vm_compute in (World.exec (Notebook_DRD2.notebook []) demo_world_again).1.2.

Definition drd2_ns : namespace :=
  match drd2_outcome with
  | inr (ns, _) => ns
  | inl _ => Namespace (Paths "" "" "" "") VNone "" "" None None
  end.

Definition drd2_st : store :=
  match drd2_outcome with
  | inr (_, st) => st
  | inl _ => []
  end.

(* ===================================================================== *)
(** * Further sample sessions *)
(* ===================================================================== *)

(** A session on a machine without a Desktop folder: [os.mkdir] fails. *)
Definition broken_world : World.world :=
  World.World "/home/u" "/home/u/ReinventCommunity/notebooks" None
    ["/"; "/home"; "/home/u"] [] [] 3
    (fun cmd => if PyStr.startswith cmd "head " then "" else demo_stdout) [].

Definition broken_trace : list obs :=
  Eval vm_compute in (World.exec (Notebook_Tanimoto.notebook []) broken_world).1.1.

(** Sample sessions of the DockStream and the sampling notebook. *)
Definition dock_trace : list obs :=
  Eval vm_compute in (World.exec (Notebook_DockStream.notebook []) demo_world).1.1.

Definition dock_outcome : exn + namespace * store :=
  Eval vm_compute in (World.exec (Notebook_DockStream.notebook []) demo_world).1.2.

Definition dock_ns : namespace :=
  match dock_outcome with
  | inr (ns, _) => ns
  | inl _ => Namespace (Paths "" "" "" "") VNone "" "" None None
  end.

Definition dock_st : store :=
  match dock_outcome with
  | inr (_, st) => st
  | inl _ => []
  end.

Definition sampling_trace : list obs :=
  Eval vm_compute in (World.exec (Notebook_Sampling.notebook []) demo_world).1.1.

Definition sampling_outcome : exn + namespace * store :=
  Eval vm_compute in (World.exec (Notebook_Sampling.notebook []) demo_world).1.2.

Definition sampling_ns : namespace :=
  match sampling_outcome with
  | inr (ns, _) => ns
  | inl _ => Namespace (Paths "" "" "" "") VNone "" "" None None
  end.

Definition sampling_st : store :=
  match sampling_outcome with
  | inr (_, st) => st
  | inl _ => []
  end.

(** The Tanimoto notebook on the machine of the second session: the
    kernel knows [ipynb_path]. *)
Definition again_trace : list obs :=
  Eval vm_compute in (World.exec (Notebook_Tanimoto.notebook []) demo_world_again).1.1.

Definition again_outcome : exn + namespace * store :=
  Eval vm_compute in (World.exec (Notebook_Tanimoto.notebook []) demo_world_again).1.2.

Definition again_ns : namespace :=
  match again_outcome with
  | inr (ns, _) => ns
  | inl _ => Namespace (Paths "" "" "" "") VNone "" "" None None
  end.

Definition again_st : store :=
  match again_outcome with
  | inr (_, st) => st
  | inl _ => []
  end.

(* ===================================================================== *)
(** * Runs that end early *)
(* ===================================================================== *)

(** The exception a run ended with. *)
Definition exn_of {A} (o : exn + A) : option exn :=
  match o with
  | inl x => Some x
  | inr _ => None
  end.

(** A stage of a notebook: the runs of [q] that end with the value [a]
    ([None]) or with an exception. *)
Definition ends_as {A} (q : prog A) (a : A) (tr : list obs) (o : option exn)
  : Prop :=
  run q tr (match o with Some x => inl x | None => inr a end).

(** A run of stages in sequence: some complete stages, then the end or
    a stage that ends with an exception. *)
Inductive seq_run
  : list (list obs -> option exn -> Prop) -> list obs -> option exn -> Prop :=
| seq_done : seq_run [] [] None
| seq_fail Q rest tr x : Q tr (Some x) -> seq_run (Q :: rest) tr (Some x)
| seq_step Q rest tr1 tr2 o :
    Q tr1 None -> seq_run rest tr2 o -> seq_run (Q :: rest) (tr1 ++ tr2) o.

(** [x] was the answer to a request of the trace, after which files
    were closed and nothing else was asked. *)
Definition answered_with (tr : list obs) (x : exn) : Prop :=
  exists pre ob post,
    tr = pre ++ ob :: post /\ obs_exn ob = Some x
    /\ Forall (fun ob => obs_is_close ob = true) post.

(** A [close] that was answered with an exception. *)
Definition close_failed (ob : obs) : bool :=
  obs_is_close ob && match obs_exn ob with Some _ => true | None => false end.

(** No [close] of the trace failed. *)
Definition closes_ok (tr : list obs) : Prop :=
  forallb (fun ob => negb (close_failed ob)) tr = true.

(** The paths given to [open(..., 'w')]. *)
Definition obs_open (ob : obs) : option string :=
  match ob with
  | @Obs X e _ =>
      match e with
      | OpenW path => Some path
      | _ => None
      end
  end.

Definition opens (tr : list obs) : list string := omap obs_open tr.

(** The names of the files that the notebooks write. *)
Definition written_names : list string :=
  config_names ++ ["run.err"; "Glide_DockStream_Conf.json"].

Definition in_folder (folder path : string) : Prop :=
  exists name, name ∈ written_names /\ path = os_path_join folder [name].

(** What every stage of a notebook keeps to: an exception it ends with
    was the answer to a request; it leaves no file open unless a
    [close] failed; it opens files in [folder] only. *)
Definition tidy (folder : string) (Q : list obs -> option exn -> Prop) : Prop :=
  (forall tr x, Q tr (Some x) -> answered_with tr x)
  /\ (forall tr o s, Q tr o -> o = None \/ closes_ok tr ->
        opened s = [] -> opened (fold_left fstep tr s) = [])
  /\ (forall tr o, Q tr o -> Forall (in_folder folder) (opens tr)).

(** A stage that gives the shell nothing. *)
Definition silent (Q : list obs -> option exn -> Prop) : Prop :=
  forall tr o, Q tr o -> commands tr = [].

(** The cells after the construction of the configuration. *)
Definition finish_stages (p : paths) (conf : pyval) (st : store)
    (name out : string) (shown : list string) (head_cmd head_out : string)
  : list (list obs -> option exn -> Prop) :=
  [ ends_as (write_configuration (output_dir p) conf name st)
      (os_path_join (output_dir p) [name], st);
    ends_as (run_reinvent p (os_path_join (output_dir p) [name]) st) (out, st);
    ends_as (save_output (output_dir p) out st) (tt, st);
    ends_as (print_all shown st) (tt, st);
    ends_as (shell head_cmd st) (head_out, st) ].

(** The stages of a notebook: preparation that gives the shell nothing,
    then the cells that write, launch and show. *)
Definition notebook_stages (p : paths) (name : string) (j : json)
    (stages : list (list obs -> option exn -> Prop)) : Prop :=
  exists pre conf st out shown head_cmd head_out,
    stages = pre ++ finish_stages p conf st name out shown head_cmd head_out
    /\ Forall (fun Q => tidy (output_dir p) Q /\ silent Q) pre
    /\ snapshot st conf = Some j
    /\ distinct_keys j = true
    /\ json_keys (sorted_tree j) = top_level_keys
    /\ name ∈ config_names
    /\ PyStr.startswith head_cmd "head -n " = true.

(** A program that only asks for what touches no file and runs no
    command, and that ends with an exception only as the answer to a
    request. *)
Definition quiet_prog {A} (q : prog A) : Prop :=
  forall tr o, run q tr o ->
    Forall (fun ob => obs_quiet ob = true) tr
    /\ forall x, o = inl x -> answered_with tr x.

(** Requests that touch no file, run no command and print nothing. *)
Definition event_quiet {X} (e : eventE X) : bool :=
  match e with
  | System _ | OpenW _ | FWrite _ _ | FClose _ | Print _ => false
  | _ => true
  end.

(** A character that a text file of plain ASCII holds: the newline or a
    printable character from space to tilde. *)
Definition plain_ascii (c : ascii) : bool :=
  let n := N_of_ascii c in
  ((n =? 10) || ((32 <=? n) && (n <=? 126)))%N.

Definition plain_text (s : string) : Prop :=
  Forall (fun c => plain_ascii c = true) (chars s).

(** A line boundary of [splitlines] other than the newline. *)
Definition other_linebreak (c : ascii) : bool :=
  Lines.is_linebreak c && negb (Ascii.eqb c Json.newline).

(** One step into a tree: a key of a dictionary or an index of a list. *)
Definition json_item (k : string + nat) (j : json) : option json :=
  match k, j with
  | inl key, JDict d => dict_getitem key d
  | inr i, JList l => l !! i
  | _, _ => None
  end.

(** [j[k1]...[kn]] with keys and indices. *)
Fixpoint json_at (q : list (string + nat)) (j : json) : option json :=
  match q with
  | [] => Some j
  | k :: q' =>
      match json_item k j with
      | Some x => json_at q' x
      | None => None
      end
  end.

(** Where the DockStream component of the scoring function names its
    configuration file. *)
Definition dockstream_configuration_path : list (string + nat) :=
  [ inl "parameters"; inl "scoring_function"; inl "parameters"; inr 0;
    inl "specific_parameters"; inl "configuration_path" ].

(** The file that the last cell of each notebook shows with [head]:
    the entry of the configuration that names the folder or the file,
    what the command appends to it, and the number of lines. *)
Definition shown_files : list (nb namespace * (list string * string * string)) :=
  [ (Notebook_DRD2.notebook,
      (["logging"; "result_folder"], "/scaffold_memory.csv", "3"));
    (Notebook_DockStream.notebook,
      (["logging"; "result_folder"], "/memory.csv", "15"));
    (Notebook_Tanimoto.notebook,
      (["logging"; "result_folder"], "/memory.csv", "15"));
    (Notebook_Selectivity.notebook,
      (["logging"; "result_folder"], "/memory.csv", "15"));
    (Notebook_Exploration.notebook,
      (["logging"; "result_folder"], "/memory.csv", "15"));
    (Notebook_Sampling.notebook,
      (["parameters"; "output_smiles_path"], "", "15")) ].

(** ** The growth of the other configurations *)

(** A configuration that is built in place: the store before, the cell
    that creates the dictionary, the cells that add to it in program
    order, the dictionary and the key that each of them names, and the
    construction of the notebook as a whole. *)
Record growth := Growth {
  g_store : store;
  g_first : nb pyval;
  g_later : pyval -> list (nb unit);
  g_keys : list (list string * string);
  g_build : nb pyval
}.

Definition rl_keys : list (list string * string) :=
  [ ([], "logging");
    ([], "parameters");
    (["parameters"], "diversity_filter");
    (["parameters"], "inception");
    (["parameters"], "reinforcement_learning");
    (["parameters"], "scoring_function") ].

Definition Tanimoto_growth (p : paths) : growth :=
  Growth [] Notebook_Tanimoto.cell_5
    (fun configuration =>
       [ Notebook_Tanimoto.cell_7 (output_dir p) configuration;
         Notebook_Tanimoto.cell_9 configuration;
         Notebook_Tanimoto.cell_11 configuration;
         Notebook_Tanimoto.cell_13 configuration;
         Notebook_Tanimoto.cell_15 (ipynb_path p) configuration;
         Notebook_Tanimoto.cell_17 (ipynb_path p) configuration ])
    rl_keys (Notebook_Tanimoto.build p).

Definition Selectivity_growth (p : paths) : growth :=
  Growth [] Notebook_Selectivity.cell_5
    (fun configuration =>
       [ Notebook_Selectivity.cell_7 (output_dir p) configuration;
         Notebook_Selectivity.cell_9 configuration;
         Notebook_Selectivity.cell_11 configuration;
         Notebook_Selectivity.cell_13 configuration;
         Notebook_Selectivity.cell_15 (ipynb_path p) configuration;
         Notebook_Selectivity.cell_17 (ipynb_path p) configuration ])
    rl_keys (Notebook_Selectivity.build p).

Definition Exploration_growth (p : paths) : growth :=
  Growth [] Notebook_Exploration.cell_5
    (fun configuration =>
       [ Notebook_Exploration.cell_7 (output_dir p) configuration;
         Notebook_Exploration.cell_9 configuration;
         Notebook_Exploration.cell_11 configuration;
         Notebook_Exploration.cell_13 configuration;
         Notebook_Exploration.cell_15 (ipynb_path p) configuration;
         Notebook_Exploration.cell_17 (ipynb_path p) configuration ])
    rl_keys (Notebook_Exploration.build p).

(** The DockStream notebook builds its configuration when the
    DockStream dictionary of cell 4 is already there. *)
Definition DockStream_growth (p : paths) (q : Notebook_DockStream.dock_paths)
  : growth :=
  Growth
    (eval (Notebook_DockStream.ed_dict_display
             (Notebook_DockStream.grid_file_path q)
             (Notebook_DockStream.output_ligands_docked_poses_path q)
             (Notebook_DockStream.output_ligands_docking_scores_path q)) []).2
    Notebook_DockStream.cell_7
    (fun configuration =>
       [ Notebook_DockStream.cell_9 (output_dir p) configuration;
         Notebook_DockStream.cell_11 configuration;
         Notebook_DockStream.cell_13 configuration;
         Notebook_DockStream.cell_15 configuration;
         Notebook_DockStream.cell_17 (ipynb_path p) configuration;
         Notebook_DockStream.cell_19
           (Notebook_DockStream.docking_configuration_path q)
           (Notebook_DockStream.docker_path q)
           (Notebook_DockStream.dockstream_env q) configuration ])
    rl_keys (Notebook_DockStream.build p q).

Definition Sampling_growth (p : paths) : growth :=
  Growth [] Notebook_Sampling.cell_3
    (fun configuration =>
       [ Notebook_Sampling.cell_4 (output_dir p) configuration;
         Notebook_Sampling.cell_6 (output_dir p) (ipynb_path p) configuration ])
    [ ([], "logging"); ([], "parameters") ]
    (Notebook_Sampling.build p).

Definition in_place_growths (p : paths) (q : Notebook_DockStream.dock_paths)
  : list growth :=
  [ DockStream_growth p q; Tanimoto_growth p; Selectivity_growth p;
    Exploration_growth p; Sampling_growth p ].

(** The construction cut after the first [n] later cells. *)
Definition grown (n : nat) (g : growth) : nb pyval :=
  configuration ← g_first g;
  DRD2_steps.in_turn (take n (g_later g configuration));;
  mret configuration.

(** The configuration as a tree at that point. *)
Definition growth_stage (n : nat) (g : growth) : option json :=
  match pure_run (grown n g) (g_store g) with
  | Some (configuration, st) => snapshot st configuration
  | None => None
  end.

(** What one later cell does to the tree. *)
Definition adds_entry (g : growth) (n : nat) (path : list string) (key : string)
  : Prop :=
  exists a b v,
    growth_stage n g = Some a
    /\ growth_stage (S n) g = Some b
    /\ json_get_path (path ++ [key]) a = None
    /\ json_get_path (path ++ [key]) b = Some v
    /\ b = json_set path key v a.

(** ** The cells that fill the [parameters] block *)

(** Every cell that stores a block under [configuration["parameters"]],
    with the key it sets.  The two statements of cell 17 of the DRD2
    use-case store dictionaries made by earlier cells; the other cells
    make the block themselves. *)
Definition parameter_cells (p : paths) (q : Notebook_DockStream.dock_paths)
    (diversity_filter inception : pyval) : list (string * (pyval -> nb unit)) :=
  [ ("diversity_filter",
      fun configuration => Notebook_DRD2.set_diversity_filter configuration diversity_filter);
    ("inception",
      fun configuration => Notebook_DRD2.set_inception configuration inception);
    ("reinforcement_learning", Notebook_DRD2.cell_19 (ipynb_path p));
    ("diversity_filter", Notebook_DockStream.cell_13);
    ("inception", Notebook_DockStream.cell_15);
    ("reinforcement_learning", Notebook_DockStream.cell_17 (ipynb_path p));
    ("scoring_function",
      Notebook_DockStream.cell_19
        (Notebook_DockStream.docking_configuration_path q)
        (Notebook_DockStream.docker_path q)
        (Notebook_DockStream.dockstream_env q));
    ("diversity_filter", Notebook_Tanimoto.cell_11);
    ("inception", Notebook_Tanimoto.cell_13);
    ("reinforcement_learning", Notebook_Tanimoto.cell_15 (ipynb_path p));
    ("scoring_function", Notebook_Tanimoto.cell_17 (ipynb_path p));
    ("diversity_filter", Notebook_Selectivity.cell_11);
    ("inception", Notebook_Selectivity.cell_13);
    ("reinforcement_learning", Notebook_Selectivity.cell_15 (ipynb_path p));
    ("scoring_function", Notebook_Selectivity.cell_17 (ipynb_path p));
    ("diversity_filter", Notebook_Exploration.cell_11);
    ("inception", Notebook_Exploration.cell_13);
    ("reinforcement_learning", Notebook_Exploration.cell_15 (ipynb_path p));
    ("scoring_function", Notebook_Exploration.cell_17 (ipynb_path p)) ].

(** A value on which [v[k]] and [v[k] = x] raise [TypeError]: a scalar,
    or a list. *)
Definition no_dict (st : store) (v : pyval) : Prop :=
  match v with
  | VRef l => exists items, st !! l = Some (OList items)
  | _ => True
  end.

(** A dictionary object of the store. *)
Definition is_dict (st : store) (v : pyval) (d : list (string * pyval)) : Prop :=
  exists l, v = VRef l /\ st !! l = Some (ODict d).

(** What a cell that stores a block under [parameters] does to a
    configuration in a given state. *)
Definition fills_parameters (key : string) (cell : pyval -> nb unit) : Prop :=
  forall (configuration : pyval) (st : store),
    (no_dict st configuration -> cell configuration st = Raise TypeError)
    /\ (forall d,
          is_dict st configuration d -> dict_getitem "parameters" d = None ->
          cell configuration st = Raise KeyError)
    /\ (forall d parameters,
          is_dict st configuration d ->
          dict_getitem "parameters" d = Some parameters ->
          no_dict st parameters ->
          cell configuration st = Raise TypeError)
    /\ (forall d parameters dp,
          is_dict st configuration d ->
          dict_getitem "parameters" d = Some parameters ->
          is_dict st parameters dp ->
          exists x st',
            cell configuration st = Ret (tt, st')
            /\ store_getitem st' configuration "parameters" = Some parameters
            /\ store_getitem st' parameters key = Some x
            /\ (forall k, k <> key ->
                  store_getitem st' parameters k = dict_getitem k dp)
            /\ (forall l o, VRef l <> parameters -> st !! l = Some o ->
                  st' !! l = Some o)).

(** ** The first cell *)

(** The notebooks whose first cell is [setup], with the text of their
    [output_dir]. *)
Definition setup_notebooks : list (nb namespace * string) :=
  [ (Notebook_DRD2.notebook, "~/Desktop/REINVENT_Use-Case-DRD2_demo");
    (Notebook_Tanimoto.notebook, "~/Desktop/REINVENT_RL_Tanimoto_Similarity_demo");
    (Notebook_Selectivity.notebook, "~/Desktop/REINVENT_RL_Selectivity_demo");
    (Notebook_Exploration.notebook, "~/Desktop/REINVENT_RL_Exploration_demo");
    (Notebook_Sampling.notebook, "~/Desktop/REINVENT_sampling_demo") ].

(** How [ipynb_path] gets its value: the kernel has the name, or the
    lookup raises a [NameError] and [os.getcwd()] is asked. *)
Definition ipynb_answers (ip : string) (tr : list obs) : Prop :=
  tr = [Obs (NameLookup "ipynb_path") (inr ip)]
  \/ exists x, issubclass x NameError = true
               /\ tr = [Obs (NameLookup "ipynb_path") (inl x); Obs Getcwd (inr ip)].

(** How the output folder comes to be there: it is made, or it exists. *)
Definition mkdir_answers (d : string) (tr : list obs) : Prop :=
  tr = [Obs (Mkdir d) (inr tt)] \/ tr = [Obs (Mkdir d) (inl FileExistsError)].

(** What a first cell that ends normally has asked, and the paths it
    leaves. *)
Definition setup_trace (text : string) (p : paths) (tr : list obs) : Prop :=
  exists t1 t2,
    tr = [ Obs (Expanduser "~/Desktop/Reinvent") (inr (reinvent_dir p));
           Obs (Expanduser "~/miniconda3/envs/reinvent.v3.0") (inr (reinvent_env p));
           Obs (Expanduser text) (inr (output_dir p)) ] ++ t1 ++ t2
    /\ ipynb_answers (ipynb_path p) t1
    /\ mkdir_answers (output_dir p) t2.

(** Where the DockStream configuration names the files of its results. *)
Definition poses_path : list (string + nat) :=
  [ inl "docking"; inl "docking_runs"; inr 0; inl "output"; inl "poses";
    inl "poses_path" ].

Definition scores_path : list (string + nat) :=
  [ inl "docking"; inl "docking_runs"; inr 0; inl "output"; inl "scores";
    inl "scores_path" ].

(** What the first cell of the DockStream notebook has asked when it
    ends normally, and the paths it leaves. *)
Definition DockStream_setup_trace (p : paths) (q : Notebook_DockStream.dock_paths)
    (tr : list obs) : Prop :=
  exists dockstream_dir t1 t2 t3 t4,
    tr = [ Obs (Expanduser "~/Desktop/Reinvent") (inr (reinvent_dir p));
           Obs (Expanduser "~/miniconda3/envs/reinvent.v3.0") (inr (reinvent_env p));
           Obs (Expanduser "~/Desktop/ProjectData/DockStream") (inr dockstream_dir);
           Obs (Expanduser "~/miniconda3/envs/DockStream/bin/python")
               (inr (Notebook_DockStream.dockstream_env q));
           Obs (Expanduser "~/Desktop/REINVENT_RL_DockStream_demo")
               (inr (output_dir p)) ]
         ++ t1 ++ t2
         ++ [ Obs (Expanduser "~/Desktop/ReinventCommunity/notebooks/data/DockStream/1UYD_grid.zip")
                  (inr (Notebook_DockStream.grid_file_path q));
              Obs (Expanduser "~/Desktop/REINVENT_RL_DockStream_demo/docked_poses")
                  (inr (Notebook_DockStream.output_ligands_docked_poses_path q));
              Obs (Expanduser "~/Desktop/REINVENT_RL_DockStream_demo/docking_scores")
                  (inr (Notebook_DockStream.output_ligands_docking_scores_path q)) ]
         ++ t3 ++ t4
    /\ ipynb_answers (ipynb_path p) t1
    /\ mkdir_answers (output_dir p) t2
    /\ mkdir_answers (Notebook_DockStream.output_ligands_docked_poses_path q) t3
    /\ mkdir_answers (Notebook_DockStream.output_ligands_docking_scores_path q) t4
    /\ Notebook_DockStream.docker_path q = os_path_join dockstream_dir ["docker.py"]
    /\ Notebook_DockStream.docking_configuration_path q
       = os_path_join (output_dir p) ["Glide_DockStream_Conf.json"].

(* ===================================================================== *)
(** * The words of a command line *)
(* ===================================================================== *)

(** The line after [!] goes to the system shell as it is, the paths
    put in without quotes.  The shell splits an unquoted line into
    words at blanks: the first word names the program, the others are
    its arguments. *)
Definition is_blank (c : ascii) : bool :=
  let n := N_of_ascii c in
  ((n =? 32) || (n =? 9) || (n =? 10))%N.

Fixpoint shell_words_go (cur : list ascii) (s : list ascii)
  : list (list ascii) :=
  match s with
  | [] => match cur with [] => [] | _ => [cur] end
  | c :: s' =>
      if is_blank c then
        match cur with
        | [] => shell_words_go [] s'
        | _ => cur :: shell_words_go [] s'
        end
      else shell_words_go (cur ++ [c]) s'
  end.

(** The words of a line in which nothing is quoted or expanded. *)
Definition shell_words (cmd : string) : list string :=
  map str (shell_words_go [] (chars cmd)).

(** A character that the shell takes as it is inside a word: a letter,
    a digit, or one of [-], [.], [/] and [_]. *)
Definition shell_plain (c : ascii) : bool :=
  let n := N_of_ascii c in
  (((48 <=? n) && (n <=? 57)) || ((65 <=? n) && (n <=? 90))
   || ((97 <=? n) && (n <=? 122))
   || (n =? 45) || (n =? 46) || (n =? 47) || (n =? 95))%N.

Definition all_plain (s : string) : Prop :=
  Forall (fun c => shell_plain c = true) (chars s).

(** A machine whose home directory has a blank in its name. *)
Definition blank_world : World.world :=
  World.World "/home/my user" "/home/my user/ReinventCommunity/notebooks" None
    ["/"; "/home"; "/home/my user"; "/home/my user/Desktop"] [] [] 3
    (fun cmd => if PyStr.startswith cmd "head " then "" else demo_stdout) [].

Definition blank_trace : list obs :=
  Eval vm_compute in (World.exec (Notebook_Tanimoto.notebook []) blank_world).1.1.

Definition blank_outcome : exn + namespace * store :=
  Eval vm_compute in (World.exec (Notebook_Tanimoto.notebook []) blank_world).1.2.

Definition blank_ns : namespace :=
  match blank_outcome with
  | inr (ns, _) => ns
  | inl _ => Namespace (Paths "" "" "" "") VNone "" "" None None
  end.

Definition blank_st : store :=
  match blank_outcome with
  | inr (_, st) => st
  | inl _ => []
  end.

(* ===================================================================== *)
(** * Runs of composed programs *)
(* ===================================================================== *)

Lemma run_bind {A B} (p : prog A) (f : A -> prog B) tr o :
  run (bind p f) tr o <->
  (exists x, run p tr (inl x) /\ o = inl x)
  \/ (exists a tr1 tr2, tr = tr1 ++ tr2 /\ run p tr1 (inr a) /\ run (f a) tr2 o).
Proof.
  revert tr. induction p as [a|x|X e k IH]; intros tr; simpl.
  - split.
    + intros H. right. exists a, [], tr. auto.
    + intros [(x & [_ Hx] & _)|(a' & tr1 & tr2 & -> & [-> Ha] & H)]; [done|].
      by injection Ha as ->.
  - split.
    + intros [-> ->]. left. eauto.
    + intros [(x' & [-> Hx] & ->)|(a' & tr1 & tr2 & _ & [_ Ha] & _)]; [|done].
      by injection Hx as ->.
  - split.
    + intros (r & tr' & -> & H). apply IH in H
        as [(x & H & ->)|(a & tr1 & tr2 & -> & H1 & H2)].
      * left. exists x. split; [|done]. eauto.
      * right. exists a, (Obs e r :: tr1), tr2. split; [done|]. split; [|done].
        eauto.
    + intros [(x & (r & tr' & -> & H) & ->)
             |(a & tr1 & tr2 & -> & (r & tr' & -> & H1) & H2)].
      * exists r, tr'. split; [done|]. apply IH. left. eauto.
      * exists r, (tr' ++ tr2). split; [done|]. apply IH. right.
        exists a, tr', tr2. auto.
Qed.

Lemma exec_run {A} (p : prog A) w :
  run p (World.exec p w).1.1 (World.exec p w).1.2.
Proof.
  revert w. induction p as [a|x|X e k IH]; intros w; simpl; [done..|].
  destruct (World.answer e w) as [r w1].
  specialize (IH r w1). destruct (World.exec (k r) w1) as [[tr o] w2].
  simpl in *. eauto.
Qed.

Lemma run_Ret_iff {A} (a : A) tr o : run (Ret a) tr o <-> tr = [] /\ o = inr a.
Proof. done. Qed.

Lemma run_nb_bind {A B} (m : nb A) (f : A -> nb B) st tr o :
  run ((m ≫= f) st) tr o <->
  (exists x, run (m st) tr (inl x) /\ o = inl x)
  \/ (exists a st1 tr1 tr2,
        tr = tr1 ++ tr2 /\ run (m st) tr1 (inr (a, st1)) /\ run (f a st1) tr2 o).
Proof.
  unfold mbind, nb_bind. rewrite run_bind. split.
  - intros [H|(a & tr1 & tr2 & H)]; [by left|]. destruct a as [a st1].
    right. by exists a, st1, tr1, tr2.
  - intros [H|(a & st1 & tr1 & tr2 & H)]; [by left|].
    right. by exists (a, st1), tr1, tr2.
Qed.

(** Complete runs of a sequence: both parts complete. *)
Lemma run_nb_bind_ok {A B} (m : nb A) (f : A -> nb B) st tr r :
  run ((m ≫= f) st) tr (inr r) ->
  exists a st1 tr1 tr2,
    tr = tr1 ++ tr2 /\ run (m st) tr1 (inr (a, st1)) /\ run (f a st1) tr2 (inr r).
Proof. rewrite run_nb_bind. intros [(x & _ & ?)|H]; [done|exact H]. Qed.

Lemma run_mret {A} (a : A) st tr o :
  run ((mret a : nb A) st) tr o <-> tr = [] /\ o = inr (a, st).
Proof. done. Qed.

Lemma run_request {X} (e : eventE X) st tr o :
  run (request e st) tr o <->
  exists r, tr = [Obs e r]
            /\ o = match r with inl x => inl x | inr v => inr (v, st) end.
Proof.
  unfold request, lift, perform. simpl. split.
  - intros (r & tr' & -> & H). exists r. destruct r as [x|v]; simpl in H;
      destruct H as [-> ->]; done.
  - intros (r & -> & ->). exists r, []. split; [done|]. by destruct r.
Qed.

Lemma run_request_ok {X} (e : eventE X) st tr v st' :
  run (request e st) tr (inr (v, st')) -> tr = [Obs e (inr v)] /\ st' = st.
Proof.
  rewrite run_request. intros ([x|v'] & -> & H); [done|].
  by injection H as -> ->.
Qed.

Lemma run_nb_try_request_ok {X} (e : eventE X) c (h : nb X) st tr v st' :
  run (nb_try (request e) c h st) tr (inr (v, st')) ->
  (tr = [Obs e (inr v)] /\ st' = st)
  \/ (exists x tr', tr = Obs e (inl x) :: tr' /\ issubclass x c = true
                    /\ run (h st) tr' (inr (v, st'))).
Proof.
  unfold nb_try, request, lift, perform. simpl.
  intros ([x|v'] & tr' & -> & H); simpl in H.
  - right. exists x, tr'. split; [done|].
    destruct (issubclass x c); [done|]. by destruct H.
  - left. destruct H as [-> H]. by injection H as -> ->.
Qed.

Lemma run_finally_ok {A} (p : prog A) (c : prog unit) tr a :
  run (finally p c) tr (inr a) ->
  exists tr1 tr2, tr = tr1 ++ tr2 /\ run p tr1 (inr a) /\ run c tr2 (inr tt).
Proof.
  revert tr. induction p as [a'|x|X e k IH]; intros tr; simpl.
  - rewrite run_bind. intros [(x & _ & ?)|(u & tr1 & tr2 & -> & H1 & [-> H2])];
      [done|]. injection H2 as ->. destruct u.
    exists [], tr1. by rewrite app_nil_r.
  - rewrite run_bind. intros [(x' & _ & ?)|(u & tr1 & tr2 & _ & _ & [_ ?])]; done.
  - intros (r & tr' & -> & H). apply IH in H as (tr1 & tr2 & -> & H1 & H2).
    exists (Obs e r :: tr1), tr2. split; [done|]. split; [|done]. eauto.
Qed.

Lemma run_perform_ok {X} (e : eventE X) tr v :
  run (perform e) tr (inr v) -> tr = [Obs e (inr v)].
Proof.
  simpl. intros ([x|v'] & tr' & -> & [-> H]); [done|]. by injection H as ->.
Qed.

Lemma run_with_open_ok {A} path (body : handle -> nb A) st tr r :
  run (with_open path body st) tr (inr r) ->
  exists f tr1,
    tr = Obs (OpenW path) (inr f) :: tr1 ++ [Obs (FClose f) (inr tt)]
    /\ run (body f st) tr1 (inr r).
Proof.
  unfold with_open. rewrite run_bind.
  intros [(x & _ & ?)|(f & tr0 & tr2 & -> & H0 & H)]; [done|].
  apply run_perform_ok in H0 as ->.
  apply run_finally_ok in H as (tr1 & tr3 & -> & H1 & H3).
  apply run_perform_ok in H3 as ->. by exists f, tr1.
Qed.

Lemma run_pure {A} (m : nb A) st r tr o :
  pure_run m st = Some r -> run (m st) tr o -> tr = [] /\ o = inr r.
Proof.
  unfold pure_run. destruct (m st); [|done..]. intros [= ->]. done.
Qed.

Lemma run_json_dump_ok v f n b st tr u st' :
  run (json_dump v f n b st) tr (inr (u, st')) ->
  exists j, snapshot st v = Some j
            /\ tr = [Obs (FWrite f (Json.dumps n b j)) (inr tt)] /\ st' = st.
Proof.
  unfold json_dump. destruct (snapshot st v) as [j|]; [|by intros [_ ?]].
  intros H. apply run_request_ok in H as [-> ->]. exists j. by destruct u.
Qed.

Lemma run_print_all_ok data st tr u st' :
  run (print_all data st) tr (inr (u, st')) ->
  tr = map (fun element => Obs (Print element) (inr tt)) data /\ st' = st.
Proof.
  revert st tr. induction data as [|element rest IH]; intros st tr.
  - intros [-> H]. by injection H as _ ->.
  - intros H.
    change (run ((request (Print element) ≫= fun _ => print_all rest) st)
              tr (inr (u, st'))) in H.
    apply run_nb_bind_ok in H as (a & st1 & tr1 & tr2 & -> & H1 & H2).
    apply run_request_ok in H1 as [-> ->]. apply IH in H2 as [-> ->].
    by destruct a.
Qed.

(** ** Quiet prefixes *)

Lemma quiet_commands tr :
  Forall (fun ob => obs_quiet ob = true) tr -> commands tr = [].
Proof.
  unfold commands. induction 1 as [|ob tr Hq _ IH]; [done|].
  destruct ob as [X e r]. by destruct e.
Qed.

Lemma quiet_printed tr :
  Forall (fun ob => obs_quiet ob = true) tr -> printed tr = [].
Proof.
  unfold printed. induction 1 as [|ob tr Hq _ IH]; [done|].
  destruct ob as [X e r]. by destruct e.
Qed.

Lemma quiet_fstep s ob : obs_quiet ob = true -> fstep s ob = s.
Proof. destruct ob as [X e r]. by destruct e. Qed.

Lemma quiet_fold tr s :
  Forall (fun ob => obs_quiet ob = true) tr -> fold_left fstep tr s = s.
Proof.
  intros H. revert s. induction H as [|ob tr Hq _ IH]; intros s; [done|].
  simpl. by rewrite quiet_fstep.
Qed.

(** ** The shared cells *)

Lemma get_ipynb_path_ok st tr v st' :
  run (get_ipynb_path st) tr (inr (v, st')) ->
  st' = st /\ Forall (fun ob => obs_quiet ob = true) tr.
Proof.
  intros H. apply run_nb_try_request_ok in H
    as [[-> ->]|(x & tr' & -> & _ & H)].
  - split; [done|]. by repeat constructor.
  - apply run_request_ok in H as [-> ->]. split; [done|]. by repeat constructor.
Qed.

Lemma mkdir_unless_exists_ok d st tr u st' :
  run (mkdir_unless_exists d st) tr (inr (u, st')) ->
  st' = st /\ Forall (fun ob => obs_quiet ob = true) tr.
Proof.
  intros H. apply run_nb_try_request_ok in H
    as [[-> ->]|(x & tr' & -> & _ & [-> H])].
  - split; [done|]. by repeat constructor.
  - injection H as _ ->. split; [done|]. by repeat constructor.
Qed.

Lemma setup_ok text st tr p st' :
  run (setup text st) tr (inr (p, st')) ->
  st' = st /\ Forall (fun ob => obs_quiet ob = true) tr.
Proof.
  unfold setup. intros H.
  apply run_nb_bind_ok in H as (rd & s1 & t1 & t & -> & H1 & H).
  apply run_request_ok in H1 as [-> ->].
  apply run_nb_bind_ok in H as (re & s1 & t1 & t2 & -> & H1 & H).
  apply run_request_ok in H1 as [-> ->].
  apply run_nb_bind_ok in H as (od & s1 & t1 & t3 & -> & H1 & H).
  apply run_request_ok in H1 as [-> ->].
  apply run_nb_bind_ok in H as (ip & s1 & t1 & t4 & -> & H1 & H).
  apply get_ipynb_path_ok in H1 as [-> Q1].
  apply run_nb_bind_ok in H as (u & s1 & t5 & t6 & -> & H1 & H).
  apply mkdir_unless_exists_ok in H1 as [-> Q2].
  destruct H as [-> H]. injection H as _ ->. split; [done|].
  rewrite app_nil_r. repeat (apply Forall_cons; split; [done|]). simpl.
  by apply Forall_app.
Qed.

Lemma write_configuration_ok output_dir conf name st tr path st' :
  run (write_configuration output_dir conf name st) tr (inr (path, st')) ->
  st' = st /\ path = os_path_join output_dir [name]
  /\ exists f j, snapshot st conf = Some j
       /\ tr = [ Obs (OpenW path) (inr f);
                 Obs (FWrite f (Json.dumps 4 true j)) (inr tt);
                 Obs (FClose f) (inr tt) ].
Proof.
  unfold write_configuration. intros H.
  apply run_nb_bind_ok in H as (u & s1 & t1 & t2 & -> & H1 & [-> H]).
  injection H as Hp Hs. subst path st'.
  apply run_with_open_ok in H1 as (f & t & -> & H1).
  apply run_json_dump_ok in H1 as (j & Hj & -> & ->).
  rewrite app_nil_r. split; [done|]. split; [done|]. by exists f, j.
Qed.

Lemma save_output_ok output_dir stdout st tr u st' :
  run (save_output output_dir stdout st) tr (inr (u, st')) ->
  st' = st
  /\ exists f, tr = [ Obs (OpenW (os_path_join output_dir ["run.err"])) (inr f);
                      Obs (FWrite f stdout) (inr tt);
                      Obs (FClose f) (inr tt) ].
Proof.
  unfold save_output. intros H.
  apply run_with_open_ok in H as (f & t & -> & H).
  apply run_request_ok in H as [-> ->]. destruct u. eauto.
Qed.

Lemma finish_rl_ok p conf name idxs head_cmd st tr ns st' :
  run (finish_rl p conf name idxs head_cmd st) tr (inr (ns, st')) ->
  st' = st /\ ns_paths ns = p /\ configuration ns = conf
  /\ configuration_JSON_path ns = os_path_join (output_dir p) [name]
  /\ list_epochs ns = Some (Re.findall "INFO.*?local" (captured_err_stream ns))
  /\ data ns = Some (shown_data idxs (Re.findall "INFO.*?local" (captured_err_stream ns)))
  /\ exists f1 f2 head_out j,
       snapshot st conf = Some j
       /\ tr = tail_trace p (configuration_JSON_path ns) (Json.dumps 4 true j)
                 (captured_err_stream ns) f1 f2 (default [] (data ns))
                 head_cmd head_out.
Proof.
  unfold finish_rl. intros H.
  apply run_nb_bind_ok in H as (path & s1 & t1 & t & -> & H1 & H).
  apply write_configuration_ok in H1 as (-> & -> & f1 & j & Hj & ->).
  apply run_nb_bind_ok in H as (out & s1 & t1 & t2 & -> & H1 & H).
  apply run_request_ok in H1 as [-> ->].
  apply run_nb_bind_ok in H as ([l d] & s1 & t1 & t3 & -> & H1 & H).
  unfold parse_output in H1.
  apply run_nb_bind_ok in H1 as (u & s2 & t4 & t5 & -> & H1 & [-> H2]).
  apply save_output_ok in H1 as (-> & f2 & ->).
  injection H2 as Hl Hd Hs. subst l d s1.
  apply run_nb_bind_ok in H as (u1 & s1 & t1 & t6 & -> & H1 & H).
  apply run_print_all_ok in H1 as [-> ->].
  apply run_nb_bind_ok in H as (head_out & s1 & t1 & t7 & -> & H1 & [-> H]).
  apply run_request_ok in H1 as [-> ->].
  injection H as Hn Hs. subst ns st'. simpl.
  repeat (split; [done|]). exists f1, f2, head_out, j. split; [done|].
  unfold tail_trace. simpl. rewrite <- ?app_assoc. simpl.
  by rewrite ?app_nil_r.
Qed.

Lemma finish_sampling_ok p conf name head_cmd st tr ns st' :
  run (finish_sampling p conf name head_cmd st) tr (inr (ns, st')) ->
  st' = st /\ ns_paths ns = p /\ configuration ns = conf
  /\ configuration_JSON_path ns = os_path_join (output_dir p) [name]
  /\ list_epochs ns = None /\ data ns = None
  /\ exists f1 f2 head_out j,
       snapshot st conf = Some j
       /\ tr = tail_trace p (configuration_JSON_path ns) (Json.dumps 4 true j)
                 (captured_err_stream ns) f1 f2 (default [] (data ns))
                 head_cmd head_out.
Proof.
  unfold finish_sampling. intros H.
  apply run_nb_bind_ok in H as (path & s1 & t1 & t & -> & H1 & H).
  apply write_configuration_ok in H1 as (-> & -> & f1 & j & Hj & ->).
  apply run_nb_bind_ok in H as (out & s1 & t1 & t2 & -> & H1 & H).
  apply run_request_ok in H1 as [-> ->].
  apply run_nb_bind_ok in H as (u & s1 & t1 & t3 & -> & H1 & H).
  apply save_output_ok in H1 as (-> & f2 & ->).
  apply run_nb_bind_ok in H as (head_out & s1 & t1 & t7 & -> & H1 & [-> H]).
  apply run_request_ok in H1 as [-> ->].
  injection H as Hn Hs. subst ns st'. simpl.
  repeat (split; [done|]). by exists f1, f2, head_out, j.
Qed.

(** ** The notebooks as compositions of their parts *)

Lemma rl_notebook_ok text (build : paths -> nb pyval) name idxs
    (head : string -> string) tr ns st :
  (forall p, is_Some (pure_run (build p) [])) ->
  run ((setup text ≫= fun p =>
        build p ≫= fun configuration =>
        finish_rl p configuration name idxs (head (output_dir p))) [])
      tr (inr (ns, st)) ->
  pure_run (build (ns_paths ns)) [] = Some (configuration ns, st)
  /\ epochs_parsed idxs ns
  /\ exists j, complete_run name head j tr ns st.
Proof.
  intros Hb H.
  apply run_nb_bind_ok in H as (p & s1 & t1 & t & -> & H1 & H).
  apply setup_ok in H1 as [-> Q].
  apply run_nb_bind_ok in H as (conf & s1 & t2 & t3 & -> & H1 & H).
  destruct (Hb p) as [r Hr].
  destruct (run_pure _ _ _ _ _ Hr H1) as [-> Heq]. injection Heq as <-.
  apply finish_rl_ok in H as (-> & Hp & Hc & Hpath & Hl & Hd & f1 & f2 & ho & j & Hj & ->).
  subst p conf. split; [done|]. split; [done|]. exists j.
  split; [done|]. split; [done|]. exists t1, f1, f2, ho.
  split; [done|]. split; [by apply quiet_commands|].
  split; [by apply quiet_printed|].
  unfold fstate_after. by rewrite quiet_fold.
Qed.

Lemma sampling_notebook_ok text (build : paths -> nb pyval) name
    (head : string -> string) tr ns st :
  (forall p, is_Some (pure_run (build p) [])) ->
  run ((setup text ≫= fun p =>
        build p ≫= fun configuration =>
        finish_sampling p configuration name (head (output_dir p))) [])
      tr (inr (ns, st)) ->
  pure_run (build (ns_paths ns)) [] = Some (configuration ns, st)
  /\ list_epochs ns = None /\ data ns = None
  /\ exists j, complete_run name head j tr ns st.
Proof.
  intros Hb H.
  apply run_nb_bind_ok in H as (p & s1 & t1 & t & -> & H1 & H).
  apply setup_ok in H1 as [-> Q].
  apply run_nb_bind_ok in H as (conf & s1 & t2 & t3 & -> & H1 & H).
  destruct (Hb p) as [r Hr].
  destruct (run_pure _ _ _ _ _ Hr H1) as [-> Heq]. injection Heq as <-.
  apply finish_sampling_ok in H as (-> & Hp & Hc & Hpath & Hl & Hd & f1 & f2 & ho & j & Hj & ->).
  subst p conf. split; [done|]. split; [done|]. split; [done|]. exists j.
  split; [done|]. split; [done|]. exists t1, f1, f2, ho.
  split; [done|]. split; [by apply quiet_commands|].
  split; [by apply quiet_printed|].
  unfold fstate_after. by rewrite quiet_fold.
Qed.

(** ** The configuration each notebook builds *)

(** The construction cells make no request, and the value they build
    is found by running them; the paths stay symbolic. *)
Ltac run_build :=
  eexists _, _, _;
  split; [vm_compute; reflexivity|];
  split; [vm_compute; reflexivity|];
  split; [vm_compute; reflexivity|];
  split; [vm_compute; reflexivity|];
  split; vm_compute; reflexivity.

Lemma DRD2_build p :
  exists conf st j,
    pure_run (Notebook_DRD2.build p) [] = Some (conf, st)
    /\ snapshot st conf = Some j
    /\ rl_schema j = true /\ distinct_keys j = true
    /\ json_keys (sorted_tree j) = top_level_keys
    /\ proper_floats j = true.
Proof. run_build. Qed.

Lemma Tanimoto_build p :
  exists conf st j,
    pure_run (Notebook_Tanimoto.build p) [] = Some (conf, st)
    /\ snapshot st conf = Some j
    /\ rl_schema j = true /\ distinct_keys j = true
    /\ json_keys (sorted_tree j) = top_level_keys
    /\ proper_floats j = true.
Proof. run_build. Qed.

Lemma Selectivity_build p :
  exists conf st j,
    pure_run (Notebook_Selectivity.build p) [] = Some (conf, st)
    /\ snapshot st conf = Some j
    /\ rl_schema j = true /\ distinct_keys j = true
    /\ json_keys (sorted_tree j) = top_level_keys
    /\ proper_floats j = true.
Proof. run_build. Qed.

Lemma Exploration_build p :
  exists conf st j,
    pure_run (Notebook_Exploration.build p) [] = Some (conf, st)
    /\ snapshot st conf = Some j
    /\ rl_schema j = true /\ distinct_keys j = true
    /\ json_keys (sorted_tree j) = top_level_keys
    /\ proper_floats j = true.
Proof. run_build. Qed.

Lemma DockStream_build p q :
  exists conf st j,
    pure_run (Notebook_DockStream.build p q)
      (eval (Notebook_DockStream.ed_dict_display
               (Notebook_DockStream.grid_file_path q)
               (Notebook_DockStream.output_ligands_docked_poses_path q)
               (Notebook_DockStream.output_ligands_docking_scores_path q)) []).2
    = Some (conf, st)
    /\ snapshot st conf = Some j
    /\ rl_schema j = true /\ distinct_keys j = true
    /\ json_keys (sorted_tree j) = top_level_keys
    /\ proper_floats j = true.
Proof. run_build. Qed.

(** The sampling configuration has a flat [parameters] block. *)
Lemma Sampling_build p :
  exists conf st j,
    pure_run (Notebook_Sampling.build p) [] = Some (conf, st)
    /\ snapshot st conf = Some j
    /\ rl_schema j = false /\ distinct_keys j = true
    /\ json_keys (sorted_tree j) = top_level_keys
    /\ proper_floats j = true.
Proof. run_build. Qed.

(** ** Complete runs of each notebook *)

Definition head_memory (n : string) (output_dir : string) : string :=
  "head -n " +:+ n +:+ " " +:+ output_dir +:+ "/results/memory.csv".

Lemma DRD2_ok tr ns st :
  run (Notebook_DRD2.notebook []) tr (inr (ns, st)) ->
  exists j,
    complete_run "DRD2_config.json"
      (fun od => "head -n 3 " +:+ od +:+ "/results/scaffold_memory.csv") j tr ns st
    /\ epochs_parsed (Some [1; 150; 299]) ns
    /\ pure_run (Notebook_DRD2.build (ns_paths ns)) [] = Some (configuration ns, st)
    /\ rl_schema j = true /\ distinct_keys j = true
    /\ json_keys (sorted_tree j) = top_level_keys
    /\ proper_floats j = true.
Proof.
  intros H.
  apply (rl_notebook_ok _ Notebook_DRD2.build _ _
           (fun od => "head -n 3 " +:+ od +:+ "/results/scaffold_memory.csv"))
    in H as (Hb & Hp & j & Hc).
  - destruct (DRD2_build (ns_paths ns)) as (c & s & j' & Hb' & Hj & Hs & Hd & Hk & Hfl).
    rewrite Hb in Hb'. injection Hb' as <- <-.
    assert (j' = j) as ->.
    { destruct Hc as (_ & Hj2 & _). rewrite Hj in Hj2. by injection Hj2. }
    exists j. split; [exact Hc|]. split; [exact Hp|]. split; [exact Hb|].
    split; [exact Hs|]. split; [exact Hd|]. split; [exact Hk|exact Hfl].
  - intros p. destruct (DRD2_build p) as (c & s & j & -> & _). eauto.
Qed.

Lemma Tanimoto_ok tr ns st :
  run (Notebook_Tanimoto.notebook []) tr (inr (ns, st)) ->
  exists j,
    complete_run "RL_config.json" (head_memory "15") j tr ns st
    /\ epochs_parsed (Some [1; 75; 124]) ns
    /\ pure_run (Notebook_Tanimoto.build (ns_paths ns)) [] = Some (configuration ns, st)
    /\ rl_schema j = true /\ distinct_keys j = true
    /\ json_keys (sorted_tree j) = top_level_keys
    /\ proper_floats j = true.
Proof.
  intros H.
  apply (rl_notebook_ok _ Notebook_Tanimoto.build _ _ (head_memory "15"))
    in H as (Hb & Hp & j & Hc).
  - destruct (Tanimoto_build (ns_paths ns)) as (c & s & j' & Hb' & Hj & Hs & Hd & Hk & Hfl).
    rewrite Hb in Hb'. injection Hb' as <- <-.
    assert (j' = j) as ->.
    { destruct Hc as (_ & Hj2 & _). rewrite Hj in Hj2. by injection Hj2. }
    exists j. split; [exact Hc|]. split; [exact Hp|]. split; [exact Hb|].
    split; [exact Hs|]. split; [exact Hd|]. split; [exact Hk|exact Hfl].
  - intros p. destruct (Tanimoto_build p) as (c & s & j & -> & _). eauto.
Qed.

Lemma Selectivity_ok tr ns st :
  run (Notebook_Selectivity.notebook []) tr (inr (ns, st)) ->
  exists j,
    complete_run "RL_config.json" (head_memory "15") j tr ns st
    /\ epochs_parsed (Some [1; 75; 124]) ns
    /\ pure_run (Notebook_Selectivity.build (ns_paths ns)) [] = Some (configuration ns, st)
    /\ rl_schema j = true /\ distinct_keys j = true
    /\ json_keys (sorted_tree j) = top_level_keys
    /\ proper_floats j = true.
Proof.
  intros H.
  apply (rl_notebook_ok _ Notebook_Selectivity.build _ _ (head_memory "15"))
    in H as (Hb & Hp & j & Hc).
  - destruct (Selectivity_build (ns_paths ns)) as (c & s & j' & Hb' & Hj & Hs & Hd & Hk & Hfl).
    rewrite Hb in Hb'. injection Hb' as <- <-.
    assert (j' = j) as ->.
    { destruct Hc as (_ & Hj2 & _). rewrite Hj in Hj2. by injection Hj2. }
    exists j. split; [exact Hc|]. split; [exact Hp|]. split; [exact Hb|].
    split; [exact Hs|]. split; [exact Hd|]. split; [exact Hk|exact Hfl].
  - intros p. destruct (Selectivity_build p) as (c & s & j & -> & _). eauto.
Qed.

Lemma Exploration_ok tr ns st :
  run (Notebook_Exploration.notebook []) tr (inr (ns, st)) ->
  exists j,
    complete_run "RL_config.json" (head_memory "15") j tr ns st
    /\ epochs_parsed (Some [1; 75; 124]) ns
    /\ pure_run (Notebook_Exploration.build (ns_paths ns)) [] = Some (configuration ns, st)
    /\ rl_schema j = true /\ distinct_keys j = true
    /\ json_keys (sorted_tree j) = top_level_keys
    /\ proper_floats j = true.
Proof.
  intros H.
  apply (rl_notebook_ok _ Notebook_Exploration.build _ _ (head_memory "15"))
    in H as (Hb & Hp & j & Hc).
  - destruct (Exploration_build (ns_paths ns)) as (c & s & j' & Hb' & Hj & Hs & Hd & Hk & Hfl).
    rewrite Hb in Hb'. injection Hb' as <- <-.
    assert (j' = j) as ->.
    { destruct Hc as (_ & Hj2 & _). rewrite Hj in Hj2. by injection Hj2. }
    exists j. split; [exact Hc|]. split; [exact Hp|]. split; [exact Hb|].
    split; [exact Hs|]. split; [exact Hd|]. split; [exact Hk|exact Hfl].
  - intros p. destruct (Exploration_build p) as (c & s & j & -> & _). eauto.
Qed.

Lemma Sampling_ok tr ns st :
  run (Notebook_Sampling.notebook []) tr (inr (ns, st)) ->
  exists j,
    complete_run "sampling_config.json"
      (fun od => "head -n 15 " +:+ od +:+ "/sampled/sampled.smi") j tr ns st
    /\ list_epochs ns = None /\ data ns = None
    /\ pure_run (Notebook_Sampling.build (ns_paths ns)) [] = Some (configuration ns, st)
    /\ distinct_keys j = true
    /\ json_keys (sorted_tree j) = top_level_keys
    /\ proper_floats j = true.
Proof.
  intros H.
  apply (sampling_notebook_ok _ Notebook_Sampling.build _
           (fun od => "head -n 15 " +:+ od +:+ "/sampled/sampled.smi"))
    in H as (Hb & Hl & Hd0 & j & Hc).
  - destruct (Sampling_build (ns_paths ns)) as (c & s & j' & Hb' & Hj & Hs & Hd & Hk & Hfl).
    rewrite Hb in Hb'. injection Hb' as <- <-.
    assert (j' = j) as ->.
    { destruct Hc as (_ & Hj2 & _). rewrite Hj in Hj2. by injection Hj2. }
    exists j. split; [exact Hc|]. split; [exact Hl|]. split; [exact Hd0|].
    split; [exact Hb|]. split; [exact Hd|]. split; [exact Hk|exact Hfl].
  - intros p. destruct (Sampling_build p) as (c & s & j & -> & _). eauto.
Qed.

(** The DockStream notebook: more preparation, and a first file written. *)

Lemma DockStream_cell_2_ok st tr p q st' :
  run (Notebook_DockStream.cell_2 st) tr (inr ((p, q), st')) ->
  st' = st /\ Forall (fun ob => obs_quiet ob = true) tr.
Proof.
  unfold Notebook_DockStream.cell_2. intros H.
  apply run_nb_bind_ok in H as (rd & s1 & t1 & t & -> & H1 & H).
  apply run_request_ok in H1 as [-> ->].
  apply run_nb_bind_ok in H as (re & s1 & t1 & t2 & -> & H1 & H).
  apply run_request_ok in H1 as [-> ->].
  apply run_nb_bind_ok in H as (dd & s1 & t1 & t3 & -> & H1 & H).
  apply run_request_ok in H1 as [-> ->].
  apply run_nb_bind_ok in H as (de & s1 & t1 & t4 & -> & H1 & H).
  apply run_request_ok in H1 as [-> ->].
  apply run_nb_bind_ok in H as (od & s1 & t1 & t5 & -> & H1 & H).
  apply run_request_ok in H1 as [-> ->].
  apply run_nb_bind_ok in H as (ip & s1 & t1 & t6 & -> & H1 & H).
  apply get_ipynb_path_ok in H1 as [-> Q1].
  apply run_nb_bind_ok in H as (u & s1 & t7 & t8 & -> & H1 & H).
  apply mkdir_unless_exists_ok in H1 as [-> Q2].
  apply run_nb_bind_ok in H as (gf & s1 & t9 & t10 & -> & H1 & H).
  apply run_request_ok in H1 as [-> ->].
  apply run_nb_bind_ok in H as (dp & s1 & t9 & t11 & -> & H1 & H).
  apply run_request_ok in H1 as [-> ->].
  apply run_nb_bind_ok in H as (ds & s1 & t9 & t12 & -> & H1 & H).
  apply run_request_ok in H1 as [-> ->].
  apply run_nb_bind_ok in H as (u1 & s1 & t13 & t14 & -> & H1 & H).
  apply mkdir_unless_exists_ok in H1 as [-> Q3].
  apply run_nb_bind_ok in H as (u2 & s1 & t15 & t16 & -> & H1 & H).
  apply mkdir_unless_exists_ok in H1 as [-> Q4].
  destruct H as [-> H]. injection H as _ _ ->. split; [done|].
  rewrite app_nil_r.
  repeat (apply Forall_cons; split; [done|]); simpl.
  apply Forall_app; split; [done|].
  apply Forall_app; split; [done|].
  repeat (apply Forall_cons; split; [done|]); simpl.
  apply Forall_app; split; [done|]. done.
Qed.

Lemma run_new_ok e st tr v st' :
  run (new e st) tr (inr (v, st')) -> tr = [] /\ eval e st = (v, st').
Proof. unfold new. simpl. intros [-> H]. by injection H. Qed.

Lemma DockStream_cell_4_ok g dp ds path st tr u st' :
  run (Notebook_DockStream.cell_4 g dp ds path st) tr (inr (u, st')) ->
  st' = (eval (Notebook_DockStream.ed_dict_display g dp ds) st).2
  /\ exists f j,
       tr = [ Obs (OpenW path) (inr f);
              Obs (FWrite f (Json.dumps 2 false j)) (inr tt);
              Obs (FClose f) (inr tt) ].
Proof.
  unfold Notebook_DockStream.cell_4. intros H.
  apply run_nb_bind_ok in H as (ed & s1 & t1 & t & -> & H1 & H).
  apply run_new_ok in H1 as [-> He].
  apply run_with_open_ok in H as (f & t2 & -> & H).
  apply run_json_dump_ok in H as (j & Hj & -> & ->).
  rewrite He. split; [done|]. by exists f, j.
Qed.

(** ** Dictionaries *)

Section DictFacts.
Context {V : Type}.
Implicit Types d : list (string * V).

Lemma dict_getitem_setitem_eq k (v : V) d :
  dict_getitem k (dict_setitem k v d) = Some v.
Proof.
  induction d as [|[k' v'] d IH]; simpl.
  - by rewrite String.eqb_refl.
  - destruct (String.eqb k' k) eqn:E; simpl; by rewrite E.
Qed.

Lemma dict_getitem_setitem_ne k k' (v : V) d :
  k <> k' -> dict_getitem k' (dict_setitem k v d) = dict_getitem k' d.
Proof.
  intros Hne. induction d as [|[k0 v0] d IH]; simpl.
  - destruct (String.eqb k k') eqn:E; [|done].
    by apply String.eqb_eq in E.
  - destruct (String.eqb k0 k) eqn:E; simpl.
    + apply String.eqb_eq in E as ->.
      destruct (String.eqb k k') eqn:E'; [|done].
      by apply String.eqb_eq in E'.
    + by rewrite IH.
Qed.

Lemma dict_setitem_setitem k (v v' : V) d :
  dict_setitem k v (dict_setitem k v' d) = dict_setitem k v d.
Proof.
  induction d as [|[k0 v0] d IH]; simpl.
  - by rewrite String.eqb_refl.
  - destruct (String.eqb k0 k) eqn:E; simpl; rewrite E; [done|].
    by rewrite IH.
Qed.

Lemma dict_keys_setitem k (v : V) d :
  dict_keys (dict_setitem k v d)
  = if bool_decide (k ∈ dict_keys d) then dict_keys d else dict_keys d ++ [k].
Proof.
  induction d as [|[k0 v0] d IH]; simpl; [done|].
  destruct (String.eqb k0 k) eqn:E; simpl.
  - apply String.eqb_eq in E as ->. rewrite bool_decide_eq_true_2; [done|].
    by left.
  - apply String.eqb_neq in E. unfold dict_keys in *. rewrite IH.
    destruct (bool_decide (k ∈ map fst d)) eqn:B.
    + apply bool_decide_eq_true in B. rewrite bool_decide_eq_true_2; [done|].
      by right.
    + apply bool_decide_eq_false in B. rewrite bool_decide_eq_false_2; [done|].
      intros [?|?]%elem_of_cons; [congruence|done].
Qed.

End DictFacts.

(** ** Files after a trace *)

(** A complete session on a file: opened, written once, closed. *)
Lemma fstate_session s path f text :
  opened s = [] ->
  fold_left fstep
    [ Obs (OpenW path) (inr f); Obs (FWrite f text) (inr tt);
      Obs (FClose f) (inr tt) ] s
  = FState [] (dict_setitem path text (contents s)).
Proof.
  destruct s as [o c]. simpl. intros ->. simpl.
  rewrite Nat.eqb_refl. simpl. rewrite Nat.eqb_refl. simpl.
  by rewrite dict_getitem_setitem_eq, dict_setitem_setitem.
Qed.

Lemma DockStream_ok tr ns st :
  run (Notebook_DockStream.notebook []) tr (inr (ns, st)) ->
  exists j,
    complete_run "RL_DockStream_config.json" (head_memory "15") j tr ns st
    /\ epochs_parsed None ns
    /\ rl_schema j = true /\ distinct_keys j = true
    /\ json_keys (sorted_tree j) = top_level_keys
    /\ proper_floats j = true.
Proof.
  unfold Notebook_DockStream.notebook. intros H.
  apply run_nb_bind_ok in H as ([p q] & s1 & t1 & t & -> & H1 & H).
  apply DockStream_cell_2_ok in H1 as [-> Q].
  apply run_nb_bind_ok in H as (u & s1 & t2 & t3 & -> & H1 & H).
  apply DockStream_cell_4_ok in H1 as (-> & f & jd & ->).
  apply run_nb_bind_ok in H as (conf & s1 & t4 & t5 & -> & H1 & H).
  destruct (DockStream_build p q) as (c & s & j & Hb & Hj & Hs & Hd & Hk & Hfl).
  destruct (run_pure _ _ _ _ _ Hb H1) as [-> Heq]. injection Heq as -> ->.
  apply (finish_rl_ok p c "RL_DockStream_config.json" None
           (head_memory "15" (output_dir p))) in H
    as (-> & Hp & Hc & Hpath & Hl & Hda & f1 & f2 & ho & j' & Hj' & ->).
  rewrite Hj in Hj'. injection Hj' as <-. subst p c.
  clear H1 Hb.
  exists j. split; [|by repeat split].
  split; [exact Hpath|]. split; [exact Hj|].
  exists (t1 ++ [ Obs (OpenW (Notebook_DockStream.docking_configuration_path q)) (inr f);
                  Obs (FWrite f (Json.dumps 2 false jd)) (inr tt);
                  Obs (FClose f) (inr tt) ]), f1, f2, ho.
  split.
  { rewrite <- !app_assoc. reflexivity. }
  split; [|split].
  - unfold commands. rewrite omap_app. fold (commands t1).
    rewrite quiet_commands by exact Q. reflexivity.
  - unfold printed. rewrite omap_app. fold (printed t1).
    rewrite quiet_printed by exact Q. reflexivity.
  - unfold fstate_after. rewrite fold_left_app. rewrite (quiet_fold t1) by exact Q.
    by rewrite fstate_session.
Qed.

(** ** All notebooks at once *)

Lemma all_notebooks_ok nbk tr ns st :
  nbk ∈ all_notebooks ->
  run (nbk []) tr (inr (ns, st)) ->
  exists name head j,
    complete_run name head j tr ns st
    /\ name ∈ config_names
    /\ (forall od, PyStr.startswith (head od) "head -n " = true)
    /\ distinct_keys j = true
    /\ json_keys (sorted_tree j) = top_level_keys
    /\ proper_floats j = true.
Proof.
  unfold all_notebooks, rl_notebooks. simpl. intros Hin H.
  repeat (apply elem_of_cons in Hin as [->|Hin]).
  - apply DRD2_ok in H as (j & Hc & _ & _ & _ & Hd & Hk & Hfl).
    eexists _, _, j. split; [exact Hc|]. split; [apply list_elem_of_In; simpl; tauto|]. by repeat split.
  - apply DockStream_ok in H as (j & Hc & _ & _ & Hd & Hk & Hfl).
    eexists _, _, j. split; [exact Hc|]. split; [apply list_elem_of_In; simpl; tauto|]. by repeat split.
  - apply Tanimoto_ok in H as (j & Hc & _ & _ & _ & Hd & Hk & Hfl).
    eexists _, _, j. split; [exact Hc|]. split; [apply list_elem_of_In; simpl; tauto|]. by repeat split.
  - apply Selectivity_ok in H as (j & Hc & _ & _ & _ & Hd & Hk & Hfl).
    eexists _, _, j. split; [exact Hc|]. split; [apply list_elem_of_In; simpl; tauto|]. by repeat split.
  - apply Exploration_ok in H as (j & Hc & _ & _ & _ & Hd & Hk & Hfl).
    eexists _, _, j. split; [exact Hc|]. split; [apply list_elem_of_In; simpl; tauto|]. by repeat split.
  - apply Sampling_ok in H as (j & Hc & _ & _ & _ & Hd & Hk & Hfl).
    eexists _, _, j. split; [exact Hc|]. split; [apply list_elem_of_In; simpl; tauto|]. by repeat split.
  - by apply elem_of_nil in Hin.
Qed.

Lemma rl_notebooks_ok nbk tr ns st :
  nbk ∈ rl_notebooks ->
  run (nbk []) tr (inr (ns, st)) ->
  exists name head idxs j,
    complete_run name head j tr ns st
    /\ name ∈ config_names
    /\ epochs_parsed idxs ns
    /\ rl_schema j = true.
Proof.
  unfold rl_notebooks. intros Hin H.
  repeat (apply elem_of_cons in Hin as [->|Hin]).
  - apply DRD2_ok in H as (j & Hc & He & _ & Hs & _). eexists _, _, _, j.
    split; [exact Hc|]. split; [apply list_elem_of_In; simpl; tauto|]. by split.
  - apply DockStream_ok in H as (j & Hc & He & Hs & _). eexists _, _, _, j.
    split; [exact Hc|]. split; [apply list_elem_of_In; simpl; tauto|]. by split.
  - apply Tanimoto_ok in H as (j & Hc & He & _ & Hs & _). eexists _, _, _, j.
    split; [exact Hc|]. split; [apply list_elem_of_In; simpl; tauto|]. by split.
  - apply Selectivity_ok in H as (j & Hc & He & _ & Hs & _). eexists _, _, _, j.
    split; [exact Hc|]. split; [apply list_elem_of_In; simpl; tauto|]. by split.
  - apply Exploration_ok in H as (j & Hc & He & _ & Hs & _). eexists _, _, _, j.
    split; [exact Hc|]. split; [apply list_elem_of_In; simpl; tauto|]. by split.
  - by apply elem_of_nil in Hin.
Qed.

Lemma rl_schema_spec j : rl_schema j = true -> has_rl_fields j.
Proof.
  unfold rl_schema, has_rl_fields, has_field, has_block.
  destruct (json_get "version" j) as [v|]; [|done].
  destruct (json_get "run_type" j) as [r|]; [|done].
  destruct (json_get "logging" j) as [[ |?|?|?|?|?|l]|]; try done.
  destruct (json_get "parameters" j) as [[ |?|?|?|?|?|ps]|]; try done.
  simpl.
  destruct (dict_getitem "scoring_function" ps) as [[ |?|?|?|?|?|sf]|] eqn:E1;
    try done.
  destruct (dict_getitem "diversity_filter" ps) as [[ |?|?|?|?|?|df]|] eqn:E2;
    try done.
  destruct (dict_getitem "inception" ps) as [[ |?|?|?|?|?|inc]|] eqn:E3;
    try done.
  destruct (dict_getitem "reinforcement_learning" ps) as [[ |?|?|?|?|?|rl]|]
    eqn:E4; try done.
  intros _. exists v, r, l, ps, sf, df, inc, rl. repeat split; assumption.
Qed.

(** ** Paths *)

Lemma append_cancel_l a x y : a +:+ x = a +:+ y -> x = y.
Proof. induction a as [|c a IH]; simpl; [done|]. intros [= H]. auto. Qed.

Lemma os_path_join_inj a x y :
  PyStr.startswith x "/" = false -> PyStr.startswith y "/" = false ->
  os_path_join a [x] = os_path_join a [y] -> x = y.
Proof.
  unfold os_path_join, join_step. simpl. intros -> ->.
  destruct (String.eqb a "" || endswith_sep a)%bool.
  - apply append_cancel_l.
  - intros H%append_cancel_l. by injection H.
Qed.

(** ** What a complete run leaves behind *)

Lemma fold_prints s shown :
  fold_left fstep (map (fun element => Obs (Print element) (inr tt)) shown) s = s.
Proof. revert s. induction shown as [|e l IH]; intros s; simpl; [done|]. apply IH. Qed.

Lemma fstate_system cmd r s :
  fold_left fstep [Obs (System cmd) r] s = s.
Proof. done. Qed.

Lemma fstate_tail s0 p path text out f1 f2 shown hc ho :
  opened s0 = [] ->
  fold_left fstep (tail_trace p path text out f1 f2 shown hc ho) s0
  = FState [] (dict_setitem (os_path_join (output_dir p) ["run.err"]) out
                 (dict_setitem path text (contents s0))).
Proof.
  intros Ho. unfold tail_trace.
  change [Obs (OpenW path) (inr f1); Obs (FWrite f1 text) (inr ());
          Obs (FClose f1) (inr ());
          Obs (System (reinvent_command p path)) (inr out);
          Obs (OpenW (os_path_join (output_dir p) ["run.err"])) (inr f2);
          Obs (FWrite f2 out) (inr ()); Obs (FClose f2) (inr ())]
    with ([Obs (OpenW path) (inr f1); Obs (FWrite f1 text) (inr ());
           Obs (FClose f1) (inr ())]
          ++ [Obs (System (reinvent_command p path)) (inr out)]
          ++ [Obs (OpenW (os_path_join (output_dir p) ["run.err"])) (inr f2);
              Obs (FWrite f2 out) (inr ()); Obs (FClose f2) (inr ())]).
  rewrite !fold_left_app. rewrite (fstate_session s0) by exact Ho.
  rewrite fstate_system.
  rewrite fstate_session by reflexivity.
  rewrite fold_prints, fstate_system.
  done.
Qed.

Lemma complete_run_files name head j tr ns st :
  complete_run name head j tr ns st ->
  PyStr.startswith name "/" = false -> name <> "run.err" ->
  file_content tr (configuration_JSON_path ns) = Some (Json.dumps 4 true j)
  /\ file_content tr (os_path_join (output_dir (ns_paths ns)) ["run.err"])
     = Some (captured_err_stream ns).
Proof.
  intros (Hpath & Hj & pre & f1 & f2 & ho & -> & Hc & Hpr & Ho) Hs Hne.
  unfold file_content, fstate_after. rewrite fold_left_app.
  rewrite fstate_tail by exact Ho. simpl contents. split.
  - rewrite dict_getitem_setitem_ne, dict_getitem_setitem_eq; [done|].
    rewrite Hpath. intros E. apply os_path_join_inj in E; done.
  - by rewrite dict_getitem_setitem_eq.
Qed.

Lemma commands_prints shown :
  commands (map (fun element => Obs (Print element) (inr tt)) shown) = [].
Proof. by induction shown. Qed.

Lemma complete_run_commands name head j tr ns st :
  complete_run name head j tr ns st ->
  commands tr
  = [ reinvent_command (ns_paths ns) (configuration_JSON_path ns);
      head (output_dir (ns_paths ns)) ].
Proof.
  intros (Hpath & Hj & pre & f1 & f2 & ho & -> & Hc & Hpr & Ho).
  unfold commands in *. rewrite omap_app, Hc. unfold tail_trace.
  rewrite !omap_app. fold (commands (map (fun element => Obs (Print element) (inr tt))
                                       (default [] (data ns)))).
  by rewrite commands_prints.
Qed.

Lemma config_names_ok name :
  name ∈ config_names -> PyStr.startswith name "/" = false /\ name <> "run.err".
Proof.
  unfold config_names. intros H.
  repeat (apply elem_of_cons in H as [->|H]); try done.
  by apply elem_of_nil in H.
Qed.

(** ** The sample sessions are runs *)

Lemma demo_run :
  run (Notebook_Tanimoto.notebook []) demo_trace (inr (demo_ns, demo_st)).
Proof.
  exact (exec_run (Notebook_Tanimoto.notebook []) demo_world
         <: run (Notebook_Tanimoto.notebook []) demo_trace (inr (demo_ns, demo_st))).
Qed.

Lemma drd2_run :
  run (Notebook_DRD2.notebook []) drd2_trace (inr (drd2_ns, drd2_st)).
Proof.
  exact (exec_run (Notebook_DRD2.notebook []) demo_world_again
         <: run (Notebook_DRD2.notebook []) drd2_trace (inr (drd2_ns, drd2_st))).
Qed.

(** ** Exceptions that end the program *)

Lemma run_exists {A} (p : prog A) : exists tr o, run p tr o.
Proof.
  induction p as [a|x|X e k IH]; simpl; [by eexists _, _..|].
  destruct (IH (inl KeyboardInterrupt)) as (tr & o & H).
  exists (Obs e (inl KeyboardInterrupt) :: tr), o. eauto.
Qed.

Lemma dies_Raise {A} x : dies (@Raise A x).
Proof. intros tr o [-> ->]. split; [eauto|constructor]. Qed.

Lemma dies_Vis {A X} (e : eventE X) (k : exn + X -> prog A) :
  dies (Vis e k) <->
  obs_is_close (Obs e (inl KeyboardInterrupt)) = true /\ forall r, dies (k r).
Proof.
  split.
  - intros Hq. split.
    + destruct (run_exists (k (inl KeyboardInterrupt))) as (tr & o & H).
      destruct (Hq (Obs e (inl KeyboardInterrupt) :: tr) o) as [_ Hc];
        [simpl; eauto|]. by inversion Hc.
    + intros r tr o H. destruct (Hq (Obs e r :: tr) o) as [Hy Hc];
        [simpl; eauto|]. split; [done|]. by inversion Hc.
  - intros [He Hk] tr o (r & tr' & -> & H). apply Hk in H as [Hy Hc].
    split; [done|]. constructor; [|done]. by destruct e.
Qed.

Lemma dies_bind {A B} (q : prog A) (f : A -> prog B) : dies q -> dies (bind q f).
Proof.
  intros Hq tr o H. apply run_bind in H
    as [(x & H & ->)|(a & tr1 & tr2 & -> & H1 & _)].
  - split; [eauto|]. by apply Hq in H as [_ ?].
  - apply Hq in H1 as [[y ?] _]. done.
Qed.

Lemma dies_finally_close {A} (q : prog A) f :
  dies q -> dies (finally q (perform (FClose f))).
Proof.
  induction q as [a|x|X e k IH]; intros Hq.
  - destruct (Hq [] (inr a)) as [[y ?] _]; done.
  - intros tr o. simpl. intros (r & tr' & -> & H).
    destruct r as [y|[]]; simpl in H; destruct H as [-> ->];
      (split; [eauto|by repeat constructor]).
  - apply dies_Vis in Hq as [He Hk]. simpl. apply dies_Vis. split; [done|].
    intros r. apply IH, Hk.
Qed.

(** ** Where the notebooks catch *)

Section Guards.
Variable P : obs -> exn -> Prop.

Lemma guards_bind {A B} (p : prog A) (f : A -> prog B) :
  guards P p -> (forall a, guards P (f a)) -> guards P (bind p f).
Proof.
  intros Hp Hf. induction p as [a|x|X e k IH]; simpl; [apply Hf|done|].
  destruct Hp as [Hx Hr]. split.
  - intros x. destruct (Hx x) as [?|Hd]; [by left|right]. by apply dies_bind.
  - intros r. apply IH, Hr.
Qed.

Lemma guards_nb_bind {A B} (m : nb A) (f : A -> nb B) st :
  guards P (m st) -> (forall a st', guards P (f a st')) ->
  guards P ((m ≫= f) st).
Proof.
  intros Hm Hf. unfold mbind, nb_bind. apply guards_bind; [done|].
  intros [a st']. apply Hf.
Qed.

Lemma guards_mret {A} (a : A) st : guards P ((mret a : nb A) st).
Proof. done. Qed.

Lemma guards_request {X} (e : eventE X) st : guards P (request e st).
Proof.
  unfold request, lift, perform. simpl. split.
  - intros x. right. apply dies_Raise.
  - by intros [x|v].
Qed.

Lemma guards_new e st : guards P (new e st).
Proof. done. Qed.

Lemma guards_getitem v k st : guards P (getitem v k st).
Proof.
  unfold getitem. destruct v; try done.
  destruct (st !! l) as [[|d]|]; try done. by destruct (dict_getitem k d).
Qed.

Lemma guards_setitem v k x st : guards P (setitem v k x st).
Proof. unfold setitem. by destruct (store_setitem st v k x). Qed.

Lemma guards_json_dump v f n b st : guards P (json_dump v f n b st).
Proof.
  unfold json_dump. destruct (snapshot st v); [|done]. apply guards_request.
Qed.

Lemma guards_finally_close {A} (p : prog A) f :
  guards P p -> guards P (finally p (perform (FClose f))).
Proof.
  induction p as [a|x|X e k IH]; simpl.
  - intros _. split; [|by intros [y|[]]]. intros y. right. apply dies_Raise.
  - intros _. split; [|by intros [y|[]]]. intros y. right. apply dies_Raise.
  - intros [Hx Hr]. split.
    + intros x. destruct (Hx x) as [?|Hd]; [by left|right].
      by apply dies_finally_close.
    + intros r. apply IH, Hr.
Qed.

Lemma guards_with_open {A} path (body : handle -> nb A) st :
  (forall f, guards P (body f st)) -> guards P (with_open path body st).
Proof.
  intros Hb. unfold with_open, perform. simpl. split.
  - intros x. right. apply dies_Raise.
  - intros [x|f]; simpl; [done|]. apply guards_finally_close, Hb.
Qed.

Lemma guards_print_all data st : guards P (print_all data st).
Proof.
  revert st. induction data as [|element rest IH]; intros st; [done|].
  change (guards P ((request (Print element) ≫= fun _ => print_all rest) st)).
  apply guards_nb_bind; [apply guards_request|]. intros _ st'. apply IH.
Qed.

End Guards.

Lemma issubclass_FileExistsError x :
  issubclass x FileExistsError = true -> x = FileExistsError.
Proof. by destruct x. Qed.

Lemma guards_mkdir_unless_exists (P : obs -> exn -> Prop) d st :
  (forall ob x, obs_is_mkdir ob = true -> x = FileExistsError -> P ob x) ->
  guards P (mkdir_unless_exists d st).
Proof.
  intros HP. unfold mkdir_unless_exists, nb_try, request, lift, perform. simpl.
  split.
  - intros x. destruct (issubclass x FileExistsError) eqn:E.
    + left. apply HP; [done|]. by apply issubclass_FileExistsError.
    + right. apply dies_Raise.
  - intros [x|[]]; simpl; [|done]. by destruct (issubclass x FileExistsError).
Qed.

Lemma guards_get_ipynb_path (P : obs -> exn -> Prop) st :
  (forall ob x, obs_is_lookup "ipynb_path" ob = true ->
                issubclass x NameError = true -> P ob x) ->
  guards P (get_ipynb_path st).
Proof.
  intros HP. unfold get_ipynb_path, nb_try. simpl. split.
  - intros x. destruct (issubclass x NameError) eqn:E.
    + left. by apply HP.
    + right. apply dies_Raise.
  - intros [x|v]; simpl; [|done]. destruct (issubclass x NameError); [|done].
    apply guards_request.
Qed.

(** From the tree to the runs. *)
Lemma guards_run {A} (P : obs -> exn -> Prop) (p : prog A) tr1 ob tr2 o x :
  guards P p ->
  run p (tr1 ++ ob :: tr2) o ->
  obs_exn ob = Some x ->
  P ob x
  \/ ((exists y, o = inl y) /\ Forall (fun ob => obs_is_close ob = true) tr2).
Proof.
  revert p. induction tr1 as [|ob1 tr1 IH]; intros p Hg H Hx.
  - destruct p as [a|y|X e k]; simpl in H; [by destruct H..|].
    destruct H as (r & tr' & [= -> ->] & H). destruct Hg as [Hg _].
    destruct r as [x'|v]; [|done]. injection Hx as ->.
    destruct (Hg x) as [?|Hd]; [by left|right]. by apply Hd.
  - destruct p as [a|y|X e k]; simpl in H; [by destruct H..|].
    destruct H as (r & tr' & [= -> <-] & H). destruct Hg as [_ Hg].
    by eapply IH.
Qed.

Lemma notebook_handlers_mkdir ob x :
  obs_is_mkdir ob = true -> x = FileExistsError -> notebook_handlers ob x.
Proof. intros. by left. Qed.

Lemma notebook_handlers_lookup ob x :
  obs_is_lookup "ipynb_path" ob = true -> issubclass x NameError = true ->
  notebook_handlers ob x.
Proof. intros. by right. Qed.

Ltac guards_step :=
  lazymatch goal with
  | |- guards _ ((let '(_, _) := ?x in _) _) => destruct x
  | |- guards _ ((_ ≫= _) _) => apply guards_nb_bind; [|intros ? ?]
  | |- guards _ (mkdir_unless_exists _ _) =>
      apply guards_mkdir_unless_exists, notebook_handlers_mkdir
  | |- guards _ (get_ipynb_path _) =>
      apply guards_get_ipynb_path, notebook_handlers_lookup
  | |- guards _ (with_open _ _ _) => apply guards_with_open; intros ?
  | |- guards _ (request _ _) => apply guards_request
  | |- guards _ (shell _ _) => apply guards_request
  | |- guards _ (new _ _) => apply guards_new
  | |- guards _ (getitem _ _ _) => apply guards_getitem
  | |- guards _ (setitem _ _ _ _) => apply guards_setitem
  | |- guards _ (json_dump _ _ _ _ _) => apply guards_json_dump
  | |- guards _ (print_all _ _) => apply guards_print_all
  | |- guards _ (mret _ _) => apply guards_mret
  end.

Lemma DRD2_guards st : guards notebook_handlers (Notebook_DRD2.notebook st).
Proof.
  unfold Notebook_DRD2.notebook, Notebook_DRD2.build, Notebook_DRD2.cell_1,
    Notebook_DRD2.cell_3, Notebook_DRD2.cell_5, Notebook_DRD2.cell_7,
    Notebook_DRD2.cell_9, Notebook_DRD2.cell_11, Notebook_DRD2.cell_13,
    Notebook_DRD2.cell_15, Notebook_DRD2.cell_17,
    Notebook_DRD2.set_diversity_filter, Notebook_DRD2.set_inception,
    Notebook_DRD2.cell_19, Notebook_DRD2.cell_21, setup,
    write_configuration, run_reinvent, parse_output, save_output.
  lazy zeta. repeat guards_step.
Qed.

Lemma DockStream_guards st : guards notebook_handlers (Notebook_DockStream.notebook st).
Proof.
  unfold Notebook_DockStream.notebook, Notebook_DockStream.build,
    Notebook_DockStream.cell_2, Notebook_DockStream.cell_4,
    Notebook_DockStream.cell_7, Notebook_DockStream.cell_9,
    Notebook_DockStream.cell_11, Notebook_DockStream.cell_13,
    Notebook_DockStream.cell_15, Notebook_DockStream.cell_17,
    Notebook_DockStream.cell_19, setup, write_configuration, run_reinvent,
    parse_output, save_output.
  lazy zeta. repeat guards_step.
Qed.

Lemma Tanimoto_guards st : guards notebook_handlers (Notebook_Tanimoto.notebook st).
Proof.
  unfold Notebook_Tanimoto.notebook, Notebook_Tanimoto.build,
    Notebook_Tanimoto.cell_2, Notebook_Tanimoto.cell_5,
    Notebook_Tanimoto.cell_7, Notebook_Tanimoto.cell_9,
    Notebook_Tanimoto.cell_11, Notebook_Tanimoto.cell_13,
    Notebook_Tanimoto.cell_15, Notebook_Tanimoto.cell_17, setup,
    write_configuration, run_reinvent, parse_output, save_output.
  lazy zeta. repeat guards_step.
Qed.

Lemma Selectivity_guards st : guards notebook_handlers (Notebook_Selectivity.notebook st).
Proof.
  unfold Notebook_Selectivity.notebook, Notebook_Selectivity.build,
    Notebook_Selectivity.cell_2, Notebook_Selectivity.cell_5,
    Notebook_Selectivity.cell_7, Notebook_Selectivity.cell_9,
    Notebook_Selectivity.cell_11, Notebook_Selectivity.cell_13,
    Notebook_Selectivity.cell_15, Notebook_Selectivity.cell_17, setup,
    write_configuration, run_reinvent, parse_output, save_output.
  lazy zeta. repeat guards_step.
Qed.

Lemma Exploration_guards st : guards notebook_handlers (Notebook_Exploration.notebook st).
Proof.
  unfold Notebook_Exploration.notebook, Notebook_Exploration.build,
    Notebook_Exploration.cell_2, Notebook_Exploration.cell_5,
    Notebook_Exploration.cell_7, Notebook_Exploration.cell_9,
    Notebook_Exploration.cell_11, Notebook_Exploration.cell_13,
    Notebook_Exploration.cell_15, Notebook_Exploration.cell_17, setup,
    write_configuration, run_reinvent, parse_output, save_output.
  lazy zeta. repeat guards_step.
Qed.

Lemma Sampling_guards st : guards notebook_handlers (Notebook_Sampling.notebook st).
Proof.
  unfold Notebook_Sampling.notebook, Notebook_Sampling.build,
    Notebook_Sampling.cell_1, Notebook_Sampling.cell_3,
    Notebook_Sampling.cell_4, Notebook_Sampling.cell_6, setup,
    write_configuration, run_reinvent, parse_output, save_output.
  lazy zeta. repeat guards_step.
Qed.

Lemma all_notebooks_guards nbk st :
  nbk ∈ all_notebooks -> guards notebook_handlers (nbk st).
Proof.
  unfold all_notebooks, rl_notebooks. simpl. intros Hin.
  repeat (apply elem_of_cons in Hin as [->|Hin]).
  - apply DRD2_guards.
  - apply DockStream_guards.
  - apply Tanimoto_guards.
  - apply Selectivity_guards.
  - apply Exploration_guards.
  - apply Sampling_guards.
  - by apply elem_of_nil in Hin.
Qed.

(** ** The handler around [os.mkdir] *)

Lemma mkdir_guarded_bind {A B} (p : prog A) (f : A -> prog B) :
  mkdir_guarded p -> (forall a, mkdir_guarded (f a)) -> mkdir_guarded (bind p f).
Proof.
  intros Hp Hf. induction p as [a|x|X e k IH]; simpl; [apply Hf|done|].
  destruct Hp as [He Hr]. split; [|intros r; apply IH, Hr].
  destruct e; try done. destruct He as [He1 He2]. split.
  - by rewrite He1.
  - intros x Hx. by rewrite He2.
Qed.

Lemma mkdir_guarded_nb_bind {A B} (m : nb A) (f : A -> nb B) st :
  mkdir_guarded (m st) -> (forall a st', mkdir_guarded (f a st')) ->
  mkdir_guarded ((m ≫= f) st).
Proof.
  intros Hm Hf. unfold mbind, nb_bind. apply mkdir_guarded_bind; [done|].
  intros [a st']. apply Hf.
Qed.

Lemma mkdir_guarded_mret {A} (a : A) st : mkdir_guarded ((mret a : nb A) st).
Proof. done. Qed.

Lemma mkdir_guarded_new e st : mkdir_guarded (new e st).
Proof. done. Qed.

Lemma mkdir_guarded_getitem v k st : mkdir_guarded (getitem v k st).
Proof.
  unfold getitem. destruct v; try done.
  destruct (st !! l) as [[|d]|]; try done. by destruct (dict_getitem k d).
Qed.

Lemma mkdir_guarded_setitem v k x st : mkdir_guarded (setitem v k x st).
Proof. unfold setitem. by destruct (store_setitem st v k x). Qed.

Lemma mkdir_guarded_expanduser path st : mkdir_guarded (request (Expanduser path) st).
Proof. simpl. split; [done|]. by intros [x|v]. Qed.

Lemma mkdir_guarded_system cmd st : mkdir_guarded (request (System cmd) st).
Proof. simpl. split; [done|]. by intros [x|v]. Qed.

Lemma mkdir_guarded_print text st : mkdir_guarded (request (Print text) st).
Proof. simpl. split; [done|]. by intros [x|v]. Qed.

Lemma mkdir_guarded_get_ipynb_path st : mkdir_guarded (get_ipynb_path st).
Proof.
  unfold get_ipynb_path, nb_try. simpl. split; [done|].
  intros [x|v]; simpl; [|done]. destruct (issubclass x NameError); [|done].
  simpl. split; [done|]. by intros [y|v].
Qed.

Lemma mkdir_guarded_mkdir_unless_exists d st :
  mkdir_guarded (mkdir_unless_exists d st).
Proof.
  unfold mkdir_unless_exists, nb_try. simpl. split.
  - split; [done|]. intros x Hx.
    destruct (issubclass x FileExistsError) eqn:E; [|done].
    by apply issubclass_FileExistsError in E.
  - intros [x|[]]; simpl; [|done]. by destruct (issubclass x FileExistsError).
Qed.

Lemma mkdir_guarded_write_json path v n b st :
  mkdir_guarded (with_open path (fun f => json_dump v f n b) st).
Proof.
  unfold with_open, json_dump. simpl. split; [done|].
  intros [x|f]; simpl; [done|].
  destruct (snapshot st v); simpl.
  - split; [done|]. intros [x|[]]; simpl; (split; [done|]); by intros [y|[]].
  - split; [done|]. by intros [y|[]].
Qed.

Lemma mkdir_guarded_write path text st :
  mkdir_guarded (with_open path (fun f => request (FWrite f text)) st).
Proof.
  unfold with_open. simpl. split; [done|].
  intros [x|f]; simpl; [done|].
  split; [done|]. intros [x|[]]; simpl; (split; [done|]); by intros [y|[]].
Qed.

Lemma mkdir_guarded_print_all data st : mkdir_guarded (print_all data st).
Proof.
  revert st. induction data as [|element rest IH]; intros st; [done|].
  change (mkdir_guarded ((request (Print element) ≫= fun _ => print_all rest) st)).
  apply mkdir_guarded_nb_bind; [apply mkdir_guarded_print|]. intros _ st'. apply IH.
Qed.

(** From the tree to the runs. *)
Lemma mkdir_guarded_run {A} (p : prog A) tr1 ob d x tr2 o :
  mkdir_guarded p ->
  run p (tr1 ++ ob :: tr2) o ->
  obs_mkdir ob = Some (d, inl x) ->
  (x = FileExistsError -> run p (tr1 ++ Obs (Mkdir d) (inr tt) :: tr2) o)
  /\ (x <> FileExistsError -> tr2 = [] /\ o = inl x).
Proof.
  revert p. induction tr1 as [|ob1 tr1 IH]; intros p Hg H Hx.
  - destruct p as [a|y|X e k]; simpl in H; [by destruct H..|].
    destruct H as (r & tr' & [= -> ->] & H). destruct Hg as [Hg _].
    destruct e; try done. simpl in Hx. injection Hx as -> ->.
    destruct Hg as [Hg1 Hg2]. split.
    + intros ->. simpl. exists (inr tt), tr'. split; [done|]. by rewrite <- Hg1.
    + intros Hne. rewrite Hg2 in H by done. destruct H as [-> ->]. done.
  - destruct p as [a|y|X e k]; simpl in H; [by destruct H..|].
    destruct H as (r & tr' & [= -> <-] & H). destruct Hg as [_ Hg].
    destruct (IH (k r) (Hg r) H Hx) as [IH1 IH2]. split; [|done].
    intros Hfe. simpl. exists r, (tr1 ++ Obs (Mkdir d) (inr tt) :: tr2). auto.
Qed.

Ltac mkdir_step :=
  lazymatch goal with
  | |- mkdir_guarded ((let '(_, _) := ?x in _) _) => destruct x
  | |- mkdir_guarded ((_ ≫= _) _) => apply mkdir_guarded_nb_bind; [|intros ? ?]
  | |- mkdir_guarded (mkdir_unless_exists _ _) => apply mkdir_guarded_mkdir_unless_exists
  | |- mkdir_guarded (get_ipynb_path _) => apply mkdir_guarded_get_ipynb_path
  | |- mkdir_guarded (with_open _ (fun f => json_dump _ f _ _) _) =>
      apply mkdir_guarded_write_json
  | |- mkdir_guarded (with_open _ (fun f => request (FWrite f _)) _) =>
      apply mkdir_guarded_write
  | |- mkdir_guarded (request (Expanduser _) _) => apply mkdir_guarded_expanduser
  | |- mkdir_guarded (request (System _) _) => apply mkdir_guarded_system
  | |- mkdir_guarded (shell _ _) => apply mkdir_guarded_system
  | |- mkdir_guarded (new _ _) => apply mkdir_guarded_new
  | |- mkdir_guarded (getitem _ _ _) => apply mkdir_guarded_getitem
  | |- mkdir_guarded (setitem _ _ _ _) => apply mkdir_guarded_setitem
  | |- mkdir_guarded (print_all _ _) => apply mkdir_guarded_print_all
  | |- mkdir_guarded (mret _ _) => apply mkdir_guarded_mret
  end.

Lemma DRD2_mkdir st : mkdir_guarded (Notebook_DRD2.notebook st).
Proof.
  unfold Notebook_DRD2.notebook, Notebook_DRD2.build, Notebook_DRD2.cell_1,
    Notebook_DRD2.cell_3, Notebook_DRD2.cell_5, Notebook_DRD2.cell_7,
    Notebook_DRD2.cell_9, Notebook_DRD2.cell_11, Notebook_DRD2.cell_13,
    Notebook_DRD2.cell_15, Notebook_DRD2.cell_17,
    Notebook_DRD2.set_diversity_filter, Notebook_DRD2.set_inception,
    Notebook_DRD2.cell_19, Notebook_DRD2.cell_21, setup,
    write_configuration, run_reinvent, parse_output, save_output.
  lazy zeta. repeat mkdir_step.
Qed.

Lemma DockStream_mkdir st : mkdir_guarded (Notebook_DockStream.notebook st).
Proof.
  unfold Notebook_DockStream.notebook, Notebook_DockStream.build,
    Notebook_DockStream.cell_2, Notebook_DockStream.cell_4,
    Notebook_DockStream.cell_7, Notebook_DockStream.cell_9,
    Notebook_DockStream.cell_11, Notebook_DockStream.cell_13,
    Notebook_DockStream.cell_15, Notebook_DockStream.cell_17,
    Notebook_DockStream.cell_19, setup, write_configuration, run_reinvent,
    parse_output, save_output.
  lazy zeta. repeat mkdir_step.
Qed.

Lemma Tanimoto_mkdir st : mkdir_guarded (Notebook_Tanimoto.notebook st).
Proof.
  unfold Notebook_Tanimoto.notebook, Notebook_Tanimoto.build,
    Notebook_Tanimoto.cell_2, Notebook_Tanimoto.cell_5,
    Notebook_Tanimoto.cell_7, Notebook_Tanimoto.cell_9,
    Notebook_Tanimoto.cell_11, Notebook_Tanimoto.cell_13,
    Notebook_Tanimoto.cell_15, Notebook_Tanimoto.cell_17, setup,
    write_configuration, run_reinvent, parse_output, save_output.
  lazy zeta. repeat mkdir_step.
Qed.

Lemma Selectivity_mkdir st : mkdir_guarded (Notebook_Selectivity.notebook st).
Proof.
  unfold Notebook_Selectivity.notebook, Notebook_Selectivity.build,
    Notebook_Selectivity.cell_2, Notebook_Selectivity.cell_5,
    Notebook_Selectivity.cell_7, Notebook_Selectivity.cell_9,
    Notebook_Selectivity.cell_11, Notebook_Selectivity.cell_13,
    Notebook_Selectivity.cell_15, Notebook_Selectivity.cell_17, setup,
    write_configuration, run_reinvent, parse_output, save_output.
  lazy zeta. repeat mkdir_step.
Qed.

Lemma Exploration_mkdir st : mkdir_guarded (Notebook_Exploration.notebook st).
Proof.
  unfold Notebook_Exploration.notebook, Notebook_Exploration.build,
    Notebook_Exploration.cell_2, Notebook_Exploration.cell_5,
    Notebook_Exploration.cell_7, Notebook_Exploration.cell_9,
    Notebook_Exploration.cell_11, Notebook_Exploration.cell_13,
    Notebook_Exploration.cell_15, Notebook_Exploration.cell_17, setup,
    write_configuration, run_reinvent, parse_output, save_output.
  lazy zeta. repeat mkdir_step.
Qed.

Lemma Sampling_mkdir st : mkdir_guarded (Notebook_Sampling.notebook st).
Proof.
  unfold Notebook_Sampling.notebook, Notebook_Sampling.build,
    Notebook_Sampling.cell_1, Notebook_Sampling.cell_3,
    Notebook_Sampling.cell_4, Notebook_Sampling.cell_6, setup,
    write_configuration, run_reinvent, parse_output, save_output.
  lazy zeta. repeat mkdir_step.
Qed.

Lemma all_notebooks_mkdir nbk st :
  nbk ∈ all_notebooks -> mkdir_guarded (nbk st).
Proof.
  unfold all_notebooks, rl_notebooks. simpl. intros Hin.
  repeat (apply elem_of_cons in Hin as [->|Hin]).
  - apply DRD2_mkdir.
  - apply DockStream_mkdir.
  - apply Tanimoto_mkdir.
  - apply Selectivity_mkdir.
  - apply Exploration_mkdir.
  - apply Sampling_mkdir.
  - by apply elem_of_nil in Hin.
Qed.

Lemma world_mkdir_exists d w :
  World.is_dir w d = true -> World.answer (Mkdir d) w = (inl FileExistsError, w).
Proof. simpl. unfold World.mkdir. by intros ->. Qed.

(** ** Characters and strings *)

Lemma chars_str l : chars (str l) = l.
Proof. apply list_ascii_of_string_of_list_ascii. Qed.

Lemma str_chars s : str (chars s) = s.
Proof. apply string_of_list_ascii_of_string. Qed.

Lemma str_inj l1 l2 : str l1 = str l2 -> l1 = l2.
Proof. intros H. by rewrite <- (chars_str l1), H, chars_str. Qed.

Lemma length_chars s : length (chars s) = String.length s.
Proof. induction s as [|c s IH]; simpl; [done|]. by rewrite IH. Qed.

(** ** Prefixes and first occurrences *)

Lemma starts_take w s : starts w s = true <-> take (length w) s = w.
Proof.
  revert s. induction w as [|a w IH]; intros s; simpl; [done|].
  destruct s as [|b s]; simpl; [done|]. rewrite andb_true_iff, IH.
  split.
  - intros [E ->]. by apply Ascii.eqb_eq in E as ->.
  - intros [= -> H]. rewrite H. split; [apply Ascii.eqb_refl|done].
Qed.

Lemma starts_nil w : starts w [] = true -> w = [].
Proof. by destruct w. Qed.

Lemma find_Some w s k :
  find w s = Some k ->
  starts w (drop k s) = true
  /\ forall k', k' < k -> starts w (drop k' s) = false.
Proof.
  revert k. induction s as [|c s IH]; intros k; simpl.
  - destruct (starts w []) eqn:E; [|done]. intros [= <-]. split; [done|lia].
  - destruct (starts w (c :: s)) eqn:E.
    + intros [= <-]. split; [done|lia].
    + destruct (find w s) as [k0|]; [|done]. simpl. intros [= <-].
      destruct (IH k0 eq_refl) as [H1 H2]. split; [done|].
      intros [|k'] Hk; [done|]. simpl. apply H2. lia.
Qed.

Lemma find_None w s k : find w s = None -> starts w (drop k s) = false.
Proof.
  revert k. induction s as [|c s IH]; intros k; simpl.
  - destruct (starts w []) eqn:E; [done|]. intros _. by destruct k.
  - destruct (starts w (c :: s)) eqn:E; [done|].
    destruct (find w s) as [k0|] eqn:F; [done|]. intros _.
    destruct k as [|k]; [done|]. simpl. by apply IH.
Qed.

(** ** The matcher on literal words and on [.*?] *)

Lemma match_here_lits w p s :
  Re.match_here (map Re.Lit w ++ p) s
  = if starts w s
    then (fun n => length w + n) <$> Re.match_here p (drop (length w) s)
    else None.
Proof.
  revert s. induction w as [|a w IH]; intros s; simpl.
  - rewrite drop_0. by destruct (Re.match_here p s).
  - destruct s as [|b s]; [done|]. simpl.
    destruct (Ascii.eqb b a); [|done]. simpl. rewrite IH.
    destruct (starts w s); [|done].
    by destruct (Re.match_here p (drop (length w) s)).
Qed.

Lemma match_here_lazy_lits w s :
  Re.match_here (Re.LazyDotAll :: map Re.Lit w) s
  = (fun k => k + length w) <$> find w s.
Proof.
  assert (forall s, Re.match_here (map Re.Lit w) s
                    = if starts w s then Some (length w) else None) as Hw.
  { intros s0. rewrite <- (app_nil_r (map Re.Lit w)), match_here_lits.
    destruct (starts w s0); [|done]. simpl. f_equal. lia. }
  simpl. induction s as [|c s IH]; simpl.
  - rewrite Hw. by destruct (starts w []).
  - rewrite Hw. destruct (starts w (c :: s)); [done|].
    rewrite IH. by destruct (find w s).
Qed.

(** The pattern of the notebooks. *)
Lemma compile_epoch_pattern :
  Re.compile (chars "INFO.*?local")
  = map Re.Lit (chars "INFO") ++ Re.LazyDotAll :: map Re.Lit (chars "local").
Proof. reflexivity. Qed.

Lemma match_here_epoch s :
  Re.match_here (Re.compile (chars "INFO.*?local")) s
  = if starts (chars "INFO") s
    then (fun k => k + 9) <$> find (chars "local") (drop 4 s)
    else None.
Proof.
  rewrite compile_epoch_pattern, match_here_lits, match_here_lazy_lits.
  destruct (starts (chars "INFO") s); [|done]. simpl.
  destruct (find _ _); [|done]. simpl. f_equal. lia.
Qed.

(** ** The scan *)

Lemma match_here_le p s n : Re.match_here p s = Some n -> n <= length s.
Proof.
  revert s n. induction p as [|[a|] p IH]; intros s n; simpl.
  - intros [= <-]. lia.
  - destruct s as [|b s]; [done|]. destruct (Ascii.eqb b a); [|done].
    destruct (Re.match_here p s) as [m|] eqn:E; [|done]. simpl.
    intros [= <-]. apply IH in E. simpl. lia.
  - revert n. induction s as [|c s IHs]; intros n; simpl.
    + destruct (Re.match_here p []) as [m|] eqn:E; [|done].
      intros [= <-]. by apply IH in E.
    + destruct (Re.match_here p (c :: s)) as [m|] eqn:E.
      * intros [= <-]. by apply IH in E.
      * destruct (Re.lazy_star (Re.match_here p) s) as [m|] eqn:F; [|done].
        simpl. intros [= <-]. pose proof (IHs m eq_refl). lia.
Qed.

Lemma findall_from_skip p k s :
  k <= length s -> Re.findall_from p k s = Re.findall_from p 0 (drop k s).
Proof.
  revert s. induction k as [|k IH]; intros s Hk; [done|].
  destruct s as [|c s]; simpl in *; [lia|]. apply IH. lia.
Qed.

(** One step of the scan at a position where the pattern matches, and
    at one where it does not. *)
Lemma findall_from_match p s n :
  Re.match_here p s = Some n -> 0 < n ->
  Re.findall_from p 0 s = take n s :: Re.findall_from p 0 (drop n s).
Proof.
  intros Hm Hn. pose proof (match_here_le _ _ _ Hm) as Hle.
  destruct s as [|c s]; simpl in *; [lia|]. rewrite Hm.
  destruct n as [|n]; [lia|]. simpl. f_equal. apply findall_from_skip. lia.
Qed.

Lemma findall_from_no_match p c s :
  Re.match_here p (c :: s) = None ->
  Re.findall_from p 0 (c :: s) = Re.findall_from p 0 s.
Proof. simpl. by intros ->. Qed.

(** ** Occurrences in strings and in character lists *)

Lemma occurs_at_str w cs i :
  occurs_at w (str cs) i <-> starts (chars w) (drop i cs) = true.
Proof.
  unfold occurs_at, slice. rewrite chars_str, starts_take, length_chars.
  replace (i + String.length w - i) with (String.length w) by lia. split.
  - intros H. apply str_inj. by rewrite str_chars.
  - intros ->. apply str_chars.
Qed.

Lemma match_at_str cs i j :
  match_at (str cs) i j <->
  starts (chars "INFO") (drop i cs) = true
  /\ i + 4 <= j
  /\ starts (chars "local") (drop j cs) = true
  /\ forall j', i + 4 <= j' -> starts (chars "local") (drop j' cs) = true -> j <= j'.
Proof.
  unfold match_at. rewrite !occurs_at_str. split.
  - intros (H1 & H2 & H3 & H4). repeat split; try done.
    intros j' Hj' H. apply H4; [done|]. by apply occurs_at_str.
  - intros (H1 & H2 & H3 & H4). repeat split; try done.
    intros j' Hj' H. apply H4; [done|]. by apply occurs_at_str.
Qed.

Lemma match_at_cons c cs i j :
  match_at (str (c :: cs)) (S i) (S j) <-> match_at (str cs) i j.
Proof.
  rewrite !match_at_str. simpl. split.
  - intros (H1 & H2 & H3 & H4). repeat split; try done; [lia|].
    intros j' Hj' H. specialize (H4 (S j')). simpl in H4.
    specialize (H4 ltac:(lia) H). lia.
  - intros (H1 & H2 & H3 & H4). repeat split; try done; [lia|].
    intros [|j'] Hj' H; [lia|]. simpl in H. specialize (H4 j' ltac:(lia) H). lia.
Qed.

(** The matcher succeeds at the start of [cs] exactly when a match
    starts there, and then gives its length. *)
Lemma match_here_epoch_Some cs n :
  Re.match_here (Re.compile (chars "INFO.*?local")) cs = Some n ->
  exists j, n = j + 5 /\ match_at (str cs) 0 j.
Proof.
  rewrite match_here_epoch.
  destruct (starts (chars "INFO") cs) eqn:E; [|done].
  destruct (find (chars "local") (drop 4 cs)) as [k|] eqn:F; [|done].
  simpl. intros [= <-]. exists (4 + k). split; [lia|].
  apply find_Some in F as [F1 F2]. rewrite drop_drop in F1.
  apply match_at_str. rewrite drop_0. repeat split; [done|lia|done|].
  intros j' Hj' H. destruct (decide (j' < 4 + k)) as [Hlt|]; [|lia].
  specialize (F2 (j' - 4) ltac:(lia)). rewrite drop_drop in F2.
  replace (4 + (j' - 4)) with j' in F2 by lia. congruence.
Qed.

Lemma match_here_epoch_None cs j :
  Re.match_here (Re.compile (chars "INFO.*?local")) cs = None ->
  ~ match_at (str cs) 0 j.
Proof.
  rewrite match_here_epoch, match_at_str, drop_0.
  intros H (H1 & H2 & H3 & _). rewrite H1 in H.
  destruct (find (chars "local") (drop 4 cs)) as [k|] eqn:F; [done|].
  apply (find_None _ _ (j - 4)) in F. rewrite drop_drop in F.
  replace (4 + (j - 4)) with j in F by lia. congruence.
Qed.

(** A text without a match at its start has the epochs of its tail. *)
Lemma epochs_cons c cs l :
  (forall j, ~ match_at (str (c :: cs)) 0 j) ->
  epochs (str cs) l -> epochs (str (c :: cs)) l.
Proof.
  intros H0 H. inversion H as [s Hno|s i j rest Hm Hleft Hrest]; subst.
  - apply epochs_done. intros [|i] j Hm; [exact (H0 _ Hm)|].
    destruct j as [|j]; [apply (proj1 (match_at_str _ _ _)) in Hm; lia|].
    exact (Hno _ _ (proj1 (match_at_cons c cs i j) Hm)).
  - replace (slice (str cs) i (j + 5))
      with (slice (str (c :: cs)) (S i) (S j + 5))
      by (unfold slice; by rewrite !chars_str).
    apply epochs_next.
    + exact (proj2 (match_at_cons c cs i j) Hm).
    + intros [|i'] j' Hm'; [destruct (H0 _ Hm')|].
      destruct j' as [|j']; [apply (proj1 (match_at_str _ _ _)) in Hm'; lia|].
      pose proof (Hleft _ _ (proj1 (match_at_cons c cs i' j') Hm')). lia.
    + replace (slice_from (str (c :: cs)) (S j + 5))
        with (slice_from (str cs) (j + 5))
        by (unfold slice_from; by rewrite !chars_str).
      done.
Qed.

Lemma epochs_findall_from cs :
  epochs (str cs)
    (map str (Re.findall_from (Re.compile (chars "INFO.*?local")) 0 cs)).
Proof.
  remember (length cs) as m eqn:Hm. revert cs Hm.
  induction m as [m IH] using lt_wf_ind. intros cs ->.
  destruct (Re.match_here (Re.compile (chars "INFO.*?local")) cs) as [n|] eqn:E.
  - destruct (match_here_epoch_Some _ _ E) as (j & -> & Hj).
    pose proof (match_here_le _ _ _ E) as Hle.
    rewrite (findall_from_match _ _ _ E) by lia. simpl.
    replace (str (take (j + 5) cs)) with (slice (str cs) 0 (j + 5))
      by (unfold slice; by rewrite chars_str, drop_0, Nat.sub_0_r).
    apply epochs_next; [done|lia|].
    replace (slice_from (str cs) (j + 5)) with (str (drop (j + 5) cs))
      by (unfold slice_from; by rewrite chars_str).
    apply (IH (length (drop (j + 5) cs))); [|done].
    rewrite length_drop. lia.
  - destruct cs as [|c cs].
    + apply epochs_done. intros i j Hm.
      apply (proj1 (match_at_str [] i j)) in Hm as [Hm _]. by destruct i.
    + rewrite findall_from_no_match by done. apply epochs_cons.
      * intros j. by apply match_here_epoch_None.
      * apply (IH (length cs)); [simpl; lia|done].
Qed.

Lemma epochs_findall stdout : epochs stdout (Re.findall "INFO.*?local" stdout).
Proof.
  unfold Re.findall. rewrite <- (str_chars stdout) at 1. apply epochs_findall_from.
Qed.

(** The specification determines the list. *)
Lemma match_at_unique s i j j' : match_at s i j -> match_at s i j' -> j = j'.
Proof.
  intros (_ & H2 & H3 & H4) (_ & H2' & H3' & H4').
  specialize (H4 j' H2' H3'). specialize (H4' j H2 H3). lia.
Qed.

Lemma epochs_unique s l1 l2 : epochs s l1 -> epochs s l2 -> l1 = l2.
Proof.
  intros H1. revert l2.
  induction H1 as [s Hno|s i j rest Hm Hleft Hrest IH]; intros l2 H2.
  - inversion H2 as [|s' i' j' rest' Hm']; subst; [done|]. by apply Hno in Hm'.
  - inversion H2 as [s' Hno|s' i' j' rest' Hm' Hleft' Hrest']; subst.
    + by apply Hno in Hm.
    + assert (i' = i) as -> by (apply Hleft in Hm'; apply Hleft' in Hm; lia).
      assert (j' = j) as -> by (by eapply match_at_unique).
      f_equal. by apply IH.
Qed.

(** ** Selecting by index *)

Section Select.
Context {A : Type}.
Implicit Types l : list A.

Lemma py_in_spec i idxs : py_in i idxs = true <-> i ∈ idxs.
Proof.
  unfold py_in. rewrite existsb_exists. split.
  - intros (x & Hx & E). apply Nat.eqb_eq in E as ->. by apply list_elem_of_In.
  - intros Hi. exists i. split; [by apply list_elem_of_In|apply Nat.eqb_refl].
Qed.

Lemma omap_cons_eq {B} (f : nat -> option B) i idxs :
  omap f (i :: idxs)
  = match f i with Some y => y :: omap f idxs | None => omap f idxs end.
Proof. done. Qed.

Lemma at_index_above n x l idxs :
  Forall (fun i => n < i) idxs ->
  omap (at_index n (x :: l)) idxs = omap (at_index (S n) l) idxs
  /\ py_in n idxs = false.
Proof.
  induction 1 as [|i idxs Hi _ [IH1 IH2]]; [done|]. split.
  - rewrite !omap_cons_eq, IH1. unfold at_index.
    destruct (Nat.ltb_spec i n); [lia|]. destruct (Nat.ltb_spec i (S n)); [lia|].
    replace (i - n) with (S (i - S n)) by lia. done.
  - simpl. rewrite IH2. destruct (Nat.eqb_spec n i); [lia|done].
Qed.

Lemma at_index_step n x l idxs :
  StronglySorted lt idxs ->
  omap (at_index n (x :: l)) idxs
  = (if py_in n idxs then [x] else []) ++ omap (at_index (S n) l) idxs.
Proof.
  induction 1 as [|i idxs Hs IH Hi]; [done|].
  destruct (lt_eq_lt_dec i n) as [[Hlt| ->]|Hgt].
  - rewrite !omap_cons_eq, IH. unfold at_index. simpl.
    destruct (Nat.ltb_spec i n); [|lia]. destruct (Nat.ltb_spec i (S n)); [|lia].
    destruct (Nat.eqb_spec n i); [lia|done].
  - destruct (at_index_above n x l idxs Hi) as [E1 E2].
    rewrite !omap_cons_eq, E1. simpl. rewrite Nat.eqb_refl. unfold at_index.
    destruct (Nat.ltb_spec n n); [lia|]. destruct (Nat.ltb_spec n (S n)); [|lia].
    by rewrite Nat.sub_diag.
  - assert (Forall (fun k => n < k) (i :: idxs)) as Hall.
    { constructor; [done|]. eapply Forall_impl; [exact Hi|]. simpl. lia. }
    destruct (at_index_above n x l _ Hall) as [E1 E2]. by rewrite E1, E2.
Qed.

Lemma omap_at_index_nil n idxs : omap (at_index n (@nil A)) idxs = [].
Proof.
  induction idxs as [|i idxs IH]; [done|]. rewrite omap_cons_eq, IH.
  unfold at_index. destruct (Nat.ltb i n); [done|]. by destruct (i - n).
Qed.

Lemma filter_enumerate n l idxs :
  StronglySorted lt idxs ->
  map snd (List.filter (fun p => py_in (fst p) idxs) (enumerate n l))
  = omap (at_index n l) idxs.
Proof.
  intros Hs. revert n. induction l as [|x l IH]; intros n; simpl.
  - by rewrite omap_at_index_nil.
  - rewrite at_index_step by done. destruct (py_in n idxs); simpl; by rewrite IH.
Qed.

Lemma omap_at_index_0 l (idxs : list nat) :
  omap (at_index 0 l) idxs = omap (fun i => l !! i) idxs.
Proof.
  induction idxs as [|i idxs IH]; [done|]. rewrite !omap_cons_eq, IH.
  unfold at_index. simpl. by rewrite Nat.sub_0_r.
Qed.
End Select.

Lemma select_epochs_lookup (idxs : list nat) (l : list string) :
  StronglySorted lt idxs ->
  select_epochs idxs l = omap (fun i => l !! i) idxs.
Proof.
  intros Hs. unfold select_epochs. rewrite filter_enumerate by done.
  apply omap_at_index_0.
Qed.

Lemma length_omap_lookup {A} (l : list A) (idxs : list nat) :
  length (omap (fun i => l !! i) idxs)
  = length (List.filter (fun i => Nat.ltb i (length l)) idxs).
Proof.
  induction idxs as [|i idxs IH]; [done|]. rewrite omap_cons_eq. simpl.
  destruct (Nat.ltb_spec i (length l)) as [Hlt|Hge].
  - destruct (lookup_lt_is_Some_2 l i Hlt) as [x ->]. simpl. by rewrite IH.
  - by rewrite (lookup_ge_None_2 l i Hge).
Qed.

(** ** Lines *)

Lemma chars_app a b : chars (a +:+ b) = chars a ++ chars b.
Proof. induction a as [|c a IH]; simpl; [done|]. by rewrite IH. Qed.

Lemma splitlines_go_one_line cur s :
  Forall (fun c => Lines.is_linebreak c = false) s ->
  Lines.splitlines_go cur s = match cur ++ s with [] => [] | l => [l] end.
Proof.
  intros H. revert cur. induction H as [|c s Hc _ IH]; intros cur; simpl.
  - rewrite app_nil_r. by destruct cur.
  - rewrite Hc, IH, <- app_assoc. simpl. by destruct cur.
Qed.

Lemma splitlines_go_line cur x rest :
  Forall (fun c => Lines.is_linebreak c = false) x ->
  Lines.splitlines_go cur (x ++ Json.newline :: rest)
  = (cur ++ x) :: Lines.splitlines_go [] rest.
Proof.
  intros H. revert cur. induction H as [|c x Hc _ IH]; intros cur; simpl.
  - rewrite app_nil_r. by destruct rest.
  - by rewrite Hc, IH, <- app_assoc.
Qed.

Lemma drop_last_line_one_line b : one_line b -> drop_last_line b = "".
Proof.
  unfold one_line, drop_last_line, Lines.splitlines. intros H.
  rewrite splitlines_go_one_line by exact H. simpl. by destruct (chars b).
Qed.

Lemma splitlines_join lines last :
  Forall one_line (lines ++ [last]) -> last <> "" ->
  Lines.splitlines (str_join (String Json.newline "") (lines ++ [last]))
  = lines ++ [last].
Proof.
  intros H Hne. induction lines as [|x lines IH]; simpl.
  - simpl in H. apply (proj1 (Forall_singleton one_line last)) in H.
    unfold Lines.splitlines.
    rewrite splitlines_go_one_line by exact H. simpl.
    destruct (chars last) eqn:E.
    + destruct last; [by destruct Hne|discriminate E].
    + rewrite <- E. cbn [map]. by rewrite str_chars.
  - simpl in H. apply (proj1 (Forall_cons one_line x _)) in H as [Hx H].
    specialize (IH H).
    destruct (lines ++ [last]) as [|y rest] eqn:E; [by destruct lines|].
    change (str_join (String Json.newline "") (x :: y :: rest))
      with (x +:+ String Json.newline ""
              +:+ str_join (String Json.newline "") (y :: rest)).
    unfold Lines.splitlines in *. rewrite chars_app.
    change (chars (String Json.newline "" +:+ ?s)) with (Json.newline :: chars s).
    rewrite splitlines_go_line by exact Hx. cbn [map app].
    by rewrite str_chars, IH.
Qed.

Lemma drop_last_line_join lines last :
  Forall one_line (lines ++ [last]) -> last <> "" ->
  drop_last_line (str_join (String Json.newline "") (lines ++ [last]))
  = str_join (String Json.newline "") lines.
Proof.
  intros H Hne. unfold drop_last_line. rewrite splitlines_join by done.
  unfold all_but_last. by rewrite removelast_last.
Qed.

(** ** What a complete run prints *)

Lemma printed_prints shown :
  printed (map (fun element => Obs (Print element) (inr tt)) shown) = shown.
Proof.
  induction shown as [|x l IH]; [done|].
  change (x :: printed (map (fun element => Obs (Print element) (inr tt)) l)
          = x :: l).
  by rewrite IH.
Qed.

Lemma complete_run_printed name head j tr ns st :
  complete_run name head j tr ns st -> printed tr = default [] (data ns).
Proof.
  intros (Hpath & Hj & pre & f1 & f2 & ho & -> & Hc & Hpr & Ho).
  unfold printed in *. rewrite omap_app, Hpr. unfold tail_trace.
  rewrite !omap_app.
  fold (printed (map (fun element => Obs (Print element) (inr tt))
                   (default [] (data ns)))).
  rewrite printed_prints. simpl. by rewrite app_nil_r.
Qed.

Lemma selecting_notebooks_ok nbk idxs tr ns st :
  (nbk, idxs) ∈ selecting_notebooks ->
  run (nbk []) tr (inr (ns, st)) ->
  epochs_parsed (Some idxs) ns
  /\ printed tr = default [] (data ns)
  /\ StronglySorted lt idxs /\ length idxs = 3 /\ (0 ∉ idxs).
Proof.
  unfold selecting_notebooks. intros Hin H.
  repeat (apply elem_of_cons in Hin as [[= -> ->]|Hin]).
  - apply DRD2_ok in H as (j & Hc & He & _).
    split; [done|]. split; [by eapply complete_run_printed|].
    split; [repeat constructor; lia|]. split; [done|].
    intros Hx. apply list_elem_of_In in Hx. simpl in Hx. lia.
  - apply Tanimoto_ok in H as (j & Hc & He & _).
    split; [done|]. split; [by eapply complete_run_printed|].
    split; [repeat constructor; lia|]. split; [done|].
    intros Hx. apply list_elem_of_In in Hx. simpl in Hx. lia.
  - apply Selectivity_ok in H as (j & Hc & He & _).
    split; [done|]. split; [by eapply complete_run_printed|].
    split; [repeat constructor; lia|]. split; [done|].
    intros Hx. apply list_elem_of_In in Hx. simpl in Hx. lia.
  - apply Exploration_ok in H as (j & Hc & He & _).
    split; [done|]. split; [by eapply complete_run_printed|].
    split; [repeat constructor; lia|]. split; [done|].
    intros Hx. apply list_elem_of_In in Hx. simpl in Hx. lia.
  - by apply elem_of_nil in Hin.
Qed.

(** ** Setting one entry of a tree *)

Lemma json_set_frame path key v j q :
  diverges q (path ++ [key]) = true ->
  json_get_path q (json_set path key v j) = json_get_path q j.
Proof.
  revert q j. induction path as [|k path IH]; intros q j Hq.
  - destruct q as [|a q]; [done|]. simpl in Hq.
    destruct (String.eqb_spec a key) as [->|Hne]; [by destruct q|].
    destruct j; try done. simpl.
    rewrite dict_getitem_setitem_ne; [done|congruence].
  - destruct q as [|a q]; [done|]. simpl in Hq.
    destruct j as [| | | | | |d]; try done. simpl.
    destruct (dict_getitem k d) as [x|] eqn:E; [|done]. simpl.
    destruct (String.eqb_spec a k) as [->|Hne].
    + rewrite dict_getitem_setitem_eq, E. by apply IH.
    + rewrite dict_getitem_setitem_ne; [done|congruence].
Qed.

(** ** The steps of the DRD2 configuration *)

Lemma DRD2_build_upto_all p :
  pure_run (DRD2_steps.build_upto 4 p) [] = pure_run (Notebook_DRD2.build p) [].
Proof. vm_compute. reflexivity. Qed.

Ltac stage_step :=
  eexists _, _, _;
  split; [vm_compute; reflexivity|];
  split; [vm_compute; reflexivity|];
  split; [vm_compute; reflexivity|];
  split; vm_compute; reflexivity.

Lemma DRD2_stage_step p n path key :
  DRD2_steps.later_keys !! n = Some (path, key) ->
  exists a b v,
    DRD2_steps.stage n p = Some a
    /\ DRD2_steps.stage (S n) p = Some b
    /\ json_get_path (path ++ [key]) a = None
    /\ json_get_path (path ++ [key]) b = Some v
    /\ b = json_set path key v a.
Proof.
  intros H.
  destruct n as [|[|[|[|n]]]]; simpl in H; try discriminate H;
    injection H as <- <-; stage_step.
Qed.

Lemma DRD2_first_entries p :
  exists j0 j,
    DRD2_steps.stage 0 p = Some j0 /\ DRD2_steps.stage 4 p = Some j
    /\ Forall (fun q => is_Some (json_get_path q j0)
                        /\ json_get_path q j = json_get_path q j0)
         DRD2_steps.first_entries.
Proof.
  eexists _, _.
  split; [vm_compute; reflexivity|].
  split; [vm_compute; reflexivity|].
  repeat constructor; vm_compute; eexists; reflexivity.
Qed.

(** ** Induction on trees *)

Lemma json_tree_ind (P : json -> Prop) :
  P JNull -> (forall b, P (JBool b)) -> (forall z, P (JInt z)) ->
  (forall f, P (JFloat f)) -> (forall s, P (JStr s)) ->
  (forall l, Forall P l -> P (JList l)) ->
  (forall d, Forall (fun kv => P (snd kv)) d -> P (JDict d)) ->
  forall j, P j.
Proof.
  intros Hnull Hbool Hint Hfloat Hstr Hlist Hdict.
  fix IH 1. intros [ | b | z | f | s | l | d ].
  - exact Hnull.
  - apply Hbool.
  - apply Hint.
  - apply Hfloat.
  - apply Hstr.
  - apply Hlist. induction l as [|x l IHl]; constructor; [apply IH|exact IHl].
  - apply Hdict. induction d as [|[k x] d IHd]; constructor; [apply IH|exact IHd].
Qed.

(** ** The order of strings *)

Lemma ascii_compare_lt_trans a b c :
  Ascii.compare a b = Lt -> Ascii.compare b c = Lt -> Ascii.compare a c = Lt.
Proof.
  unfold Ascii.compare. rewrite !N.compare_lt_iff. lia.
Qed.

Lemma string_compare_refl s : String.compare s s = Eq.
Proof.
  induction s as [|a s IH]; [done|]. simpl.
  unfold Ascii.compare. by rewrite N.compare_refl.
Qed.

Lemma string_compare_lt_trans s t u :
  String.compare s t = Lt -> String.compare t u = Lt -> String.compare s u = Lt.
Proof.
  revert t u. induction s as [|a s IH]; intros [|b t] [|c u]; simpl; try done.
  destruct (Ascii.compare a b) eqn:E1; try done.
  - apply Ascii.compare_eq_iff in E1 as ->.
    destruct (Ascii.compare b c) eqn:E2; try done. apply IH.
  - destruct (Ascii.compare b c) eqn:E2; try done.
    + apply Ascii.compare_eq_iff in E2 as <-. by rewrite E1.
    + by rewrite (ascii_compare_lt_trans a b c).
Qed.

Lemma string_leb_trans s t u :
  String.leb s t = true -> String.leb t u = true -> String.leb s u = true.
Proof.
  unfold String.leb.
  destruct (String.compare s t) eqn:E1; try done.
  - apply String.compare_eq_iff in E1 as ->. done.
  - destruct (String.compare t u) eqn:E2; try done.
    + apply String.compare_eq_iff in E2 as <-. by rewrite E1.
    + by rewrite (string_compare_lt_trans s t u).
Qed.

Lemma string_leb_refl s : String.leb s s = true.
Proof. unfold String.leb. by rewrite string_compare_refl. Qed.

(** ** Sorting the items of a dictionary *)

Section SortedFacts.
Context {V : Type}.
Implicit Types l : list (string * V).

#[local] Instance key_le_trans : Transitive (@key_le V).
Proof. intros x y z. apply string_leb_trans. Qed.

Lemma insert_item_perm kv l : Json.insert_item kv l ≡ₚ kv :: l.
Proof.
  induction l as [|kv' l IH]; simpl; [done|].
  destruct (String.leb (fst kv) (fst kv')); [done|].
  rewrite IH. apply Permutation_swap.
Qed.

Lemma sorted_items_perm l : Json.sorted_items l ≡ₚ l.
Proof.
  induction l as [|kv l IH]; simpl; [done|].
  unfold Json.sorted_items in *. simpl. by rewrite insert_item_perm, IH.
Qed.

Lemma insert_item_sorted kv l :
  Sorted key_le l -> Sorted key_le (Json.insert_item kv l).
Proof.
  induction 1 as [|kv' l Hs IH Hhd]; simpl.
  - by repeat constructor.
  - destruct (String.leb (fst kv) (fst kv')) eqn:E.
    + constructor; [by constructor|]. by constructor.
    + constructor; [exact IH|].
      assert (key_le kv' kv) as Hle.
      { destruct (String.leb_total (fst kv) (fst kv')) as [H|H]; [congruence|done]. }
      destruct Hhd as [|kv'' l' Hle']; simpl; [by constructor|].
      destruct (String.leb (fst kv) (fst kv'')); by constructor.
Qed.

Lemma sorted_items_sorted l : Sorted key_le (Json.sorted_items l).
Proof.
  induction l as [|kv l IH]; [constructor|].
  apply insert_item_sorted, IH.
Qed.

Lemma NoDup_keys_eq l x y :
  NoDup (map fst l) -> x ∈ l -> y ∈ l -> fst x = fst y -> x = y.
Proof.
  induction l as [|z l IH]; simpl; intros Hnd Hx Hy E.
  - by apply elem_of_nil in Hx.
  - apply NoDup_cons in Hnd as [Hz Hnd].
    apply elem_of_cons in Hx as [->|Hx]; apply elem_of_cons in Hy as [->|Hy].
    + done.
    + destruct Hz. rewrite E. by apply list_elem_of_fmap_2.
    + destruct Hz. rewrite <- E. by apply list_elem_of_fmap_2.
    + by apply IH.
Qed.

(** With distinct keys the sorted list does not depend on the order of
    insertion. *)
Lemma sorted_items_unique l l' :
  NoDup (map fst l) -> l ≡ₚ l' -> Json.sorted_items l = Json.sorted_items l'.
Proof.
  intros Hnd Hp.
  apply (Sorted_unique_strong key_le); [|apply sorted_items_sorted..|].
  - intros x y Hx Hy H1 H2.
    apply (NoDup_keys_eq l); [done| | |by apply String.leb_antisym].
    + by rewrite <- (sorted_items_perm l).
    + by rewrite Hp, <- (sorted_items_perm l').
  - by rewrite !sorted_items_perm.
Qed.

Lemma sorted_items_nil l : Json.sorted_items l = [] -> l = [].
Proof.
  intros H. apply Permutation_nil. by rewrite <- H, sorted_items_perm.
Qed.

Lemma dict_getitem_elem_of k (v : V) l :
  dict_getitem k l = Some v -> (k, v) ∈ l.
Proof.
  induction l as [|[k' v'] l IH]; simpl; [done|].
  destruct (String.eqb_spec k' k) as [->|Hne].
  - intros [= ->]. apply list_elem_of_here.
  - intros H. apply list_elem_of_further, IH, H.
Qed.

Lemma elem_of_dict_getitem k (v : V) l :
  NoDup (map fst l) -> (k, v) ∈ l -> dict_getitem k l = Some v.
Proof.
  induction l as [|[k' v'] l IH]; simpl; intros Hnd Hin.
  - by apply elem_of_nil in Hin.
  - apply NoDup_cons in Hnd as [Hk Hnd].
    apply elem_of_cons in Hin as [[= -> ->]|Hin].
    + by rewrite String.eqb_refl.
    + destruct (String.eqb_spec k' k) as [->|Hne]; [|by apply IH].
      destruct Hk. by apply (list_elem_of_fmap_2 fst _ (k, v)).
Qed.

End SortedFacts.

Lemma insert_item_map {V W} (g : string * V -> string * W) kv l :
  (forall x, fst (g x) = fst x) ->
  Json.insert_item (g kv) (map g l) = map g (Json.insert_item kv l).
Proof.
  intros Hg. induction l as [|kv' l IH]; simpl; [done|].
  rewrite !Hg. destruct (String.leb (fst kv) (fst kv')); simpl; [done|].
  by rewrite IH.
Qed.

Lemma sorted_items_map {V W} (g : string * V -> string * W) l :
  (forall x, fst (g x) = fst x) ->
  Json.sorted_items (map g l) = map g (Json.sorted_items l).
Proof.
  intros Hg. induction l as [|kv l IH]; [done|].
  unfold Json.sorted_items in *. simpl. by rewrite IH, insert_item_map.
Qed.

(** ** The text of equal values *)

Lemma same_value_list_spec l l' :
  (fix items (l l' : list json) : bool :=
     match l, l' with
     | [], [] => true
     | x :: l, y :: l' => same_value x y && items l l'
     | _, _ => false
     end) l l' = true
  <-> Forall2 (fun x y => same_value x y = true) l l'.
Proof.
  revert l'. induction l as [|x l IH]; intros [|y l']; split; intros H;
    try discriminate H; try (by inversion H); try done.
  - apply andb_true_iff in H as [H1 H2].
    constructor; [done|]. by apply IH.
  - inversion H; subst. apply andb_true_iff. split; [done|]. by apply IH.
Qed.

Lemma same_value_dict_spec d d' :
  same_value (JDict d) (JDict d') = true
  <-> length d = length d'
      /\ Forall (fun kv => exists y, dict_getitem (fst kv) d' = Some y
                                     /\ same_value (snd kv) y = true) d.
Proof.
  simpl. rewrite andb_true_iff, Nat.eqb_eq, forallb_forall, Forall_forall.
  split; intros [Hl H]; (split; [done|]); intros kv Hin.
  - apply list_elem_of_In, H in Hin.
    destruct (dict_getitem (fst kv) d') as [y|]; [by exists y|done].
  - apply list_elem_of_In in Hin. destruct (H kv Hin) as (y & -> & Hy). done.
Qed.

Lemma distinct_keys_dict d :
  distinct_keys (JDict d) = true
  <-> NoDup (map fst d) /\ Forall (fun kv => distinct_keys (snd kv) = true) d.
Proof.
  simpl. rewrite andb_true_iff, bool_decide_eq_true, forallb_forall, Forall_forall.
  split; intros [H1 H2]; (split; [done|]); intros kv Hin.
  - by apply H2, list_elem_of_In.
  - by apply H2, list_elem_of_In.
Qed.

Lemma distinct_keys_list l :
  distinct_keys (JList l) = true
  <-> Forall (fun x => distinct_keys x = true) l.
Proof.
  simpl. rewrite forallb_forall, Forall_forall.
  split; intros H x Hin; by apply H, list_elem_of_In.
Qed.

(** Equal values with distinct keys are written alike when the keys
    are sorted. *)
Lemma encode_same_value indent a :
  forall b level,
    distinct_keys a = true -> distinct_keys b = true ->
    same_value a b = true ->
    Json.encode indent true level a = Json.encode indent true level b.
Proof.
  induction a as [ | x | x | f | s | l IH | d IH ] using json_tree_ind;
    intros b level Ha Hb E; destruct b as [ | y | y | g | t | l' | d' ];
    try discriminate E.
  - done.
  - simpl in E. apply Bool.eqb_prop in E. by subst.
  - simpl in E. apply Z.eqb_eq in E. by subst.
  - simpl in E. apply bool_decide_eq_true in E. by subst.
  - simpl in E. apply String.eqb_eq in E. by subst.
  - change (same_value (JList l) (JList l')) with
      ((fix items (l l' : list json) : bool :=
          match l, l' with
          | [], [] => true
          | x :: l, y :: l' => same_value x y && items l l'
          | _, _ => false
          end) l l') in E.
    apply same_value_list_spec in E.
    apply distinct_keys_list in Ha. apply distinct_keys_list in Hb.
    change (Json.iterencode_list indent level (map (Json.encode indent true (S level)) l)
            = Json.iterencode_list indent level (map (Json.encode indent true (S level)) l')).
    f_equal. clear -IH Ha Hb E.
    induction E as [|x y l l' Hxy E IHE]; [done|].
    apply Forall_cons in IH as [IHx IH]. apply Forall_cons in Ha as [Hx Ha].
    apply Forall_cons in Hb as [Hy Hb]. simpl. f_equal; [by apply IHx|by apply IHE].
  - apply same_value_dict_spec in E as [Hlen E].
    apply distinct_keys_dict in Ha as [Hnd Ha].
    apply distinct_keys_dict in Hb as [Hnd' Hb].
    change (Json.iterencode_dict indent true level
              (map (fun kv => (fst kv, Json.encode indent true (S level) (snd kv))) d)
            = Json.iterencode_dict indent true level
                (map (fun kv => (fst kv, Json.encode indent true (S level) (snd kv))) d')).
    set (enc := fun kv : string * json =>
                  (fst kv, Json.encode indent true (S level) (snd kv))).
    assert (map enc d ≡ₚ map enc d') as Hp.
    { apply submseteq_length_Permutation; [|by rewrite !length_map, Hlen].
      apply NoDup_submseteq.
      - apply (NoDup_fmap_1 fst). rewrite <- list_fmap_compose.
        exact Hnd.
      - intros x Hx. apply list_elem_of_fmap in Hx as (kv & -> & Hin).
        rewrite Forall_forall in IH, Ha, Hb, E.
        destruct (E kv Hin) as (y & Hy & Hs).
        apply dict_getitem_elem_of in Hy.
        apply list_elem_of_fmap. exists (fst kv, y). split; [|done].
        unfold enc. simpl. f_equal.
        apply (IH kv Hin); [by apply Ha|by apply (Hb (fst kv, y))|done]. }
    unfold Json.iterencode_dict.
    destruct (map enc d) as [|e1 r1] eqn:E1; destruct (map enc d') as [|e2 r2] eqn:E2.
    + done.
    + by apply Permutation_nil_cons in Hp.
    + symmetry in Hp. by apply Permutation_nil_cons in Hp.
    + rewrite (sorted_items_unique (e1 :: r1) (e2 :: r2)); [done| |done].
      rewrite <- E1. rewrite <- list_fmap_compose. exact Hnd.
Qed.

(** ** The tree with sorted keys *)

(** Writing with [sort_keys] is writing the sorted tree as it stands. *)
Lemma encode_sorted_tree indent j :
  forall level,
    Json.encode indent true level j
    = Json.encode indent false level (sorted_tree j).
Proof.
  induction j as [ | x | x | f | s | l IH | d IH ] using json_tree_ind;
    intros level; try done.
  - change (Json.iterencode_list indent level (map (Json.encode indent true (S level)) l)
            = Json.iterencode_list indent level
                (map (Json.encode indent false (S level)) (map sorted_tree l))).
    f_equal. rewrite map_map. apply map_ext_Forall.
    eapply Forall_impl; [exact IH|]. intros x Hx. apply Hx.
  - change (Json.iterencode_dict indent true level
              (map (fun kv => (fst kv, Json.encode indent true (S level) (snd kv))) d)
            = Json.iterencode_dict indent false level
                (map (fun kv => (fst kv, Json.encode indent false (S level) (snd kv)))
                   (Json.sorted_items
                      (map (fun kv => (fst kv, sorted_tree (snd kv))) d)))).
    rewrite <- (sorted_items_map
                  (fun kv => (fst kv, Json.encode indent false (S level) (snd kv))))
      by done.
    rewrite map_map. simpl.
    assert (map (fun kv => (fst kv, Json.encode indent true (S level) (snd kv))) d
            = map (fun kv => (fst kv, Json.encode indent false (S level)
                                        (sorted_tree (snd kv)))) d) as ->.
    { apply map_ext_Forall. eapply Forall_impl; [exact IH|].
      intros kv Hkv. simpl. by rewrite Hkv. }
    unfold Json.iterencode_dict.
    destruct (map _ d) as [|e r] eqn:E; [done|].
    destruct (Json.sorted_items (e :: r)) as [|e' r'] eqn:E'; [|done].
    by apply sorted_items_nil in E'.
Qed.

Lemma ascending_sorted {V} (l : list (string * V)) :
  Sorted key_le l -> ascending (map fst l) = true.
Proof.
  induction 1 as [|kv l Hs IH Hhd]; [done|].
  destruct Hhd as [|kv' l' Hle]; [done|].
  change (String.leb (fst kv) (fst kv') && ascending (map fst (kv' :: l')) = true).
  by rewrite Hle, IH.
Qed.

Lemma keys_sorted_sorted_tree j : keys_sorted (sorted_tree j) = true.
Proof.
  induction j as [ | x | x | f | s | l IH | d IH ] using json_tree_ind; try done.
  - simpl. apply forallb_forall. intros x Hx.
    apply in_map_iff in Hx as (y & <- & Hy).
    rewrite Forall_forall in IH. by apply IH, list_elem_of_In.
  - simpl. apply andb_true_iff. split.
    + apply ascending_sorted, sorted_items_sorted.
    + apply forallb_forall. intros kv Hkv. apply list_elem_of_In in Hkv.
      rewrite sorted_items_perm in Hkv.
      apply list_elem_of_fmap in Hkv as (kv' & -> & Hin).
      rewrite Forall_forall in IH. by apply IH.
Qed.

Lemma distinct_keys_sorted_tree j :
  distinct_keys j = true -> distinct_keys (sorted_tree j) = true.
Proof.
  induction j as [ | x | x | f | s | l IH | d IH ] using json_tree_ind; try done.
  - intros H. apply distinct_keys_list in H.
    apply distinct_keys_list. apply Forall_fmap.
    rewrite Forall_forall in IH, H. apply Forall_forall.
    intros x Hx. by apply IH, H.
  - intros H. apply distinct_keys_dict in H as [Hnd H].
    apply distinct_keys_dict. split.
    + rewrite sorted_items_perm. rewrite <- list_fmap_compose. exact Hnd.
    + rewrite sorted_items_perm. apply Forall_fmap.
      rewrite Forall_forall in IH, H. apply Forall_forall.
      intros kv Hkv. by apply IH, H.
Qed.

(** Sorting the keys does not change the value. *)
Lemma same_value_sorted_tree j :
  distinct_keys j = true -> same_value j (sorted_tree j) = true.
Proof.
  induction j as [ | x | x | f | s | l IH | d IH ] using json_tree_ind; try done.
  - intros _. by destruct x.
  - intros _. apply Z.eqb_refl.
  - intros _. simpl. by apply bool_decide_eq_true.
  - intros _. apply String.eqb_refl.
  - intros H. apply distinct_keys_list in H.
    change (same_value (JList l) (sorted_tree (JList l))) with
      ((fix items (l l' : list json) : bool :=
          match l, l' with
          | [], [] => true
          | x :: l, y :: l' => same_value x y && items l l'
          | _, _ => false
          end) l (map sorted_tree l)).
    apply same_value_list_spec. apply Forall2_fmap_r, Forall_Forall2_diag.
    rewrite Forall_forall in IH, H. apply Forall_forall.
    intros x Hx. by apply IH, H.
  - intros H. apply distinct_keys_dict in H as [Hnd H].
    change (sorted_tree (JDict d)) with
      (JDict (Json.sorted_items (map (fun kv => (fst kv, sorted_tree (snd kv))) d))).
    apply same_value_dict_spec. split.
    + by rewrite sorted_items_perm, length_map.
    + rewrite Forall_forall in IH, H. apply Forall_forall. intros kv Hkv.
      exists (sorted_tree (snd kv)). split; [|by apply IH, H].
      apply elem_of_dict_getitem.
      * rewrite sorted_items_perm. rewrite <- list_fmap_compose. exact Hnd.
      * rewrite sorted_items_perm.
        by apply (list_elem_of_fmap_2 (fun kv => (fst kv, sorted_tree (snd kv)))).
Qed.

(** ** Reading back what was written *)

Lemma string_body_escape_char c tail :
  Reader.string_body (chars (Json.escape_char c) ++ tail)
  = Reader.cons_char c (Reader.string_body tail).
Proof.
  destruct c as [[] [] [] [] [] [] [] []]; reflexivity.
Qed.

Lemma string_body_escape s rest :
  Reader.string_body (chars (Json.escape s) ++ Json.dquote :: rest)
  = Some (s, rest).
Proof.
  induction s as [|c s IH]; [done|].
  change (Json.escape (String c s)) with (Json.escape_char c +:+ Json.escape s).
  by rewrite chars_app, <- app_assoc, string_body_escape_char, IH.
Qed.

Lemma chars_encode_str s tail :
  chars (Json.encode_str s) ++ tail
  = Json.dquote :: chars (Json.escape s) ++ Json.dquote :: tail.
Proof. unfold Json.encode_str. simpl. by rewrite chars_app, <- app_assoc. Qed.

(** ** Numbers *)

Lemma ends_value_not_digit rest : ends_value rest -> not_digit rest.
Proof. destruct rest as [|c rest]; [done|]. by intros [->| ->]. Qed.

Lemma digits_string_of_uint d rest :
  not_digit rest ->
  Reader.digits (chars (NilEmpty.string_of_uint d) ++ rest) = (d, rest).
Proof.
  intros H. induction d as [|d IH|d IH|d IH|d IH|d IH|d IH|d IH|d IH|d IH|d IH];
    simpl; rewrite ?IH; try done.
  destruct rest as [|c rest]; [done|]. simpl in *. by rewrite H.
Qed.

Lemma int_part_string_of_uint d rest :
  nonzero_head d -> not_digit rest ->
  Reader.int_part (chars (NilEmpty.string_of_uint d) ++ rest) = Some (d, rest).
Proof.
  intros Hd H.
  destruct d as [|d|d|d|d|d|d|d|d|d|d]; try done;
    unfold Reader.int_part; simpl; by rewrite digits_string_of_uint.
Qed.

Lemma pos_to_uint_head p : nonzero_head (Pos.to_uint p).
Proof.
  pose proof (DecimalPos.Unsigned.to_of (Pos.to_uint p)) as H.
  rewrite DecimalPos.Unsigned.of_to in H. simpl in H.
  pose proof (DecimalPos.Unsigned.to_uint_nonzero p) as Hz.
  pose proof (DecimalPos.Unsigned.to_uint_nonnil p) as Hn.
  unfold Decimal.unorm in H.
  destruct (Decimal.nzhead (Pos.to_uint p)) eqn:E;
    try (rewrite H; exact I).
  - by destruct Hz.
  - by destruct (DecimalFacts.nzhead_nonzero _ _ E).
Qed.

Lemma nonzero_head_string d :
  nonzero_head d -> NilZero.string_of_uint d = NilEmpty.string_of_uint d.
Proof. by destruct d. Qed.

Lemma int_part_nat_repr n rest :
  ends_value rest ->
  Reader.int_part (chars (NilZero.string_of_uint (N.to_uint n)) ++ rest)
  = Some (N.to_uint n, rest).
Proof.
  intros H. destruct n as [|p].
  - done.
  - simpl. rewrite nonzero_head_string by apply pos_to_uint_head.
    apply int_part_string_of_uint; [apply pos_to_uint_head|].
    by apply ends_value_not_digit.
Qed.

Lemma unsigned_int neg s d rest :
  Reader.int_part s = Some (d, rest) -> ends_value rest ->
  Reader.unsigned neg s
  = Some (JInt (Z.of_int (if neg then Decimal.Neg d else Decimal.Pos d)), rest).
Proof.
  intros E H. unfold Reader.unsigned. rewrite E.
  destruct rest as [|c rest]; [done|]. by destruct H as [-> | ->].
Qed.

Lemma unsigned_float neg n frac rest :
  frac <> Decimal.Nil -> ends_value rest ->
  Reader.unsigned neg
    (chars (NilZero.string_of_uint (N.to_uint n)) ++ "."%char
       :: chars (NilEmpty.string_of_uint frac) ++ rest)
  = Some (JFloat (PyFloat neg n frac), rest).
Proof.
  intros Hf H. unfold Reader.unsigned.
  assert (Reader.int_part
            (chars (NilZero.string_of_uint (N.to_uint n)) ++ "."%char
               :: chars (NilEmpty.string_of_uint frac) ++ rest)
          = Some (N.to_uint n, "."%char :: chars (NilEmpty.string_of_uint frac) ++ rest))
    as ->.
  { destruct n as [|p]; [done|].
    simpl. rewrite nonzero_head_string by apply pos_to_uint_head.
    apply int_part_string_of_uint; [apply pos_to_uint_head|done]. }
  change (Ascii.eqb "." ".") with true. cbv iota.
  rewrite digits_string_of_uint by (by apply ends_value_not_digit).
  rewrite DecimalN.Unsigned.of_to.
  assert (Reader.is_exponent rest = false) as ->.
  { destruct rest as [|c rest]; [done|]. by destruct H as [-> | ->]. }
  by destruct frac.
Qed.

Lemma uint_head d rest :
  d <> Decimal.Nil ->
  exists c tl,
    chars (NilEmpty.string_of_uint d) ++ rest = c :: tl
    /\ is_Some (Reader.digit_of c).
Proof. intros H. destruct d; try done; eexists _, _; by split. Qed.

Lemma nat_repr_head n rest :
  exists c tl,
    chars (NilZero.string_of_uint (N.to_uint n)) ++ rest = c :: tl
    /\ is_Some (Reader.digit_of c).
Proof.
  destruct n as [|p]; [by eexists _, _|].
  simpl. rewrite nonzero_head_string by apply pos_to_uint_head.
  apply uint_head, DecimalPos.Unsigned.to_uint_nonnil.
Qed.

Lemma number_digit c tl :
  is_Some (Reader.digit_of c) -> Reader.number (c :: tl) = Reader.unsigned false (c :: tl).
Proof.
  intros [d Hd]. unfold Reader.number.
  destruct (Ascii.eqb_spec c "-") as [->|]; [discriminate Hd|done].
Qed.

Lemma number_int_repr z rest :
  ends_value rest ->
  Reader.number (chars (Json.int_repr z) ++ rest) = Some (JInt z, rest).
Proof.
  intros H. unfold Json.int_repr.
  rewrite <- (DecimalZ.of_to z) at 2.
  destruct z as [|p|p]; simpl Z.to_int; simpl NilZero.string_of_int.
  - change (Reader.number ("0"%char :: rest)
            = Some (JInt (Z.of_int (Decimal.Pos (Decimal.D0 Decimal.Nil))), rest)).
    rewrite number_digit by done.
    by apply (unsigned_int false _ (Decimal.D0 Decimal.Nil)).
  - rewrite nonzero_head_string by apply pos_to_uint_head.
    destruct (uint_head (Pos.to_uint p) rest) as (c & tl & E & Hc);
      [apply DecimalPos.Unsigned.to_uint_nonnil|].
    rewrite E, number_digit by done. rewrite <- E.
    apply (unsigned_int false); [|done].
    apply int_part_string_of_uint; [apply pos_to_uint_head|].
    by apply ends_value_not_digit.
  - rewrite nonzero_head_string by apply pos_to_uint_head.
    change (Reader.unsigned true (chars (NilEmpty.string_of_uint (Pos.to_uint p)) ++ rest)
            = Some (JInt (Z.of_int (Decimal.Neg (Pos.to_uint p))), rest)).
    apply (unsigned_int true); [|done].
    apply int_part_string_of_uint; [apply pos_to_uint_head|].
    by apply ends_value_not_digit.
Qed.

Lemma chars_float_repr f :
  chars (Json.float_repr f)
  = (if f_neg f then ["-"%char] else [])
    ++ chars (NilZero.string_of_uint (N.to_uint (f_int f)))
    ++ "."%char :: chars (NilEmpty.string_of_uint (f_frac f)).
Proof.
  unfold Json.float_repr. rewrite !chars_app. by destruct (f_neg f).
Qed.

Lemma number_float_repr f rest :
  proper_float f = true -> ends_value rest ->
  Reader.number (chars (Json.float_repr f) ++ rest) = Some (JFloat f, rest).
Proof.
  intros Hf H. rewrite chars_float_repr. destruct f as [neg n frac].
  assert (frac <> Decimal.Nil) as Hfrac by (by destruct frac).
  simpl f_neg. simpl f_int. simpl f_frac. destruct neg.
  - rewrite <- !app_assoc.
    change (Reader.unsigned true
              (chars (NilZero.string_of_uint (N.to_uint n))
               ++ ("."%char :: chars (NilEmpty.string_of_uint frac)) ++ rest)
            = Some (JFloat (PyFloat true n frac), rest)).
    by apply unsigned_float.
  - rewrite <- !app_assoc. rewrite app_nil_l.
    destruct (nat_repr_head n (("."%char :: chars (NilEmpty.string_of_uint frac)) ++ rest))
      as (c & tl & E & Hc).
    rewrite E, number_digit by done. rewrite <- E.
    by apply unsigned_float.
Qed.

(** ** The first character of a value *)

Lemma starts_value_spec c :
  starts_value c = true ->
  Reader.is_ws c = false /\ Ascii.eqb c "]" = false /\ Ascii.eqb c "}" = false.
Proof. destruct c as [[] [] [] [] [] [] [] []]; try discriminate; done. Qed.

Lemma digit_starts_value c : is_Some (Reader.digit_of c) -> starts_value c = true.
Proof.
  intros [d H]. unfold starts_value, starts_number. by rewrite H.
Qed.

Lemma value_number fuel c tl :
  starts_number c = true ->
  Reader.value (S fuel) (c :: tl) = Reader.number (c :: tl).
Proof. destruct c as [[] [] [] [] [] [] [] []]; try discriminate; done. Qed.

Lemma int_repr_head z rest :
  exists c tl, chars (Json.int_repr z) ++ rest = c :: tl /\ starts_number c = true.
Proof.
  unfold Json.int_repr. destruct z as [|p|p]; simpl Z.to_int; simpl NilZero.string_of_int.
  - by eexists _, _.
  - rewrite nonzero_head_string by apply pos_to_uint_head.
    destruct (uint_head (Pos.to_uint p) rest) as (c & tl & E & [d Hc]);
      [apply DecimalPos.Unsigned.to_uint_nonnil|].
    exists c, tl. split; [done|]. unfold starts_number. by rewrite Hc.
  - by eexists _, _.
Qed.

Lemma float_repr_head f rest :
  exists c tl, chars (Json.float_repr f) ++ rest = c :: tl /\ starts_number c = true.
Proof.
  rewrite chars_float_repr. destruct (f_neg f).
  - by eexists _, _.
  - rewrite app_nil_l, <- app_assoc.
    destruct (nat_repr_head (f_int f)
                (("."%char :: chars (NilEmpty.string_of_uint (f_frac f))) ++ rest))
      as (c & tl & E & [d Hc]).
    exists c, tl. split; [done|]. unfold starts_number. by rewrite Hc.
Qed.

Lemma starts_number_value c : starts_number c = true -> starts_value c = true.
Proof. intros H. unfold starts_value. by rewrite H. Qed.

Lemma encode_head indent b level j rest :
  exists c tl,
    chars (Json.encode indent b level j) ++ rest = c :: tl
    /\ starts_value c = true.
Proof.
  destruct j as [ | [] | z | f | s | l | d ].
  - by eexists _, _.
  - by eexists _, _.
  - by eexists _, _.
  - destruct (int_repr_head z rest) as (c & tl & E & Hc).
    exists c, tl. split; [exact E|by apply starts_number_value].
  - destruct (float_repr_head f rest) as (c & tl & E & Hc).
    exists c, tl. split; [exact E|by apply starts_number_value].
  - by eexists _, _.
  - destruct l; by eexists _, _.
  - destruct d; by eexists _, _.
Qed.

Lemma skip_ws_value c tl :
  starts_value c = true -> Reader.skip_ws (c :: tl) = c :: tl.
Proof. intros H. apply starts_value_spec in H as [H _]. simpl. by rewrite H. Qed.

Lemma skip_ws_spaces n s :
  Reader.skip_ws (chars (Json.spaces n) ++ s) = Reader.skip_ws s.
Proof. induction n as [|n IH]; [done|]. exact IH. Qed.

Lemma skip_ws_newline_indent indent level s :
  Reader.skip_ws (chars (Json.newline_indent indent level) ++ s) = Reader.skip_ws s.
Proof. unfold Json.newline_indent. simpl. apply skip_ws_spaces. Qed.

(** ** One step of the reader *)

Lemma value_string fuel s :
  Reader.value (S fuel) (Json.dquote :: s)
  = match Reader.string_body s with
    | Some (t, r) => Some (JStr t, r)
    | None => None
    end.
Proof. reflexivity. Qed.

Lemma value_list fuel c tl s :
  Reader.skip_ws s = c :: tl -> starts_value c = true ->
  Reader.value (S fuel) ("["%char :: s)
  = match Reader.items fuel (c :: tl) with
    | Some (l, r) => Some (JList l, r)
    | None => None
    end.
Proof.
  intros E H. apply starts_value_spec in H as (_ & H & _).
  change (Reader.value (S fuel) ("["%char :: s))
    with (match Reader.skip_ws s with
          | [] => None
          | c' :: r' =>
              if Ascii.eqb c' "]" then Some (JList [], r')
              else match Reader.items fuel (c' :: r') with
                   | Some (l, r'') => Some (JList l, r'')
                   | None => None
                   end
          end).
  by rewrite E, H.
Qed.

Lemma value_dict fuel tl s :
  Reader.skip_ws s = Json.dquote :: tl ->
  Reader.value (S fuel) ("{"%char :: s)
  = match Reader.members fuel (Json.dquote :: tl) with
    | Some (l, r) => Some (JDict (dict_display l), r)
    | None => None
    end.
Proof.
  intros E.
  change (Reader.value (S fuel) ("{"%char :: s))
    with (match Reader.skip_ws s with
          | [] => None
          | c' :: r' =>
              if Ascii.eqb c' "}" then Some (JDict [], r')
              else match Reader.members fuel (c' :: r') with
                   | Some (l, r'') => Some (JDict (dict_display l), r'')
                   | None => None
                   end
          end).
  by rewrite E.
Qed.

Lemma items_last fuel s x tl :
  Reader.value fuel s = Some (x, tl) ->
  forall rest, Reader.skip_ws tl = "]"%char :: rest ->
  Reader.items (S fuel) s = Some ([x], rest).
Proof.
  intros E rest Er.
  change (Reader.items (S fuel) s)
    with (match Reader.value fuel s with
          | Some (x, r) =>
              match Reader.skip_ws r with
              | [] => None
              | c :: r' =>
                  if Ascii.eqb c "]" then Some ([x], r')
                  else if Ascii.eqb c "," then
                    match Reader.items fuel (Reader.skip_ws r') with
                    | Some (l, r'') => Some (x :: l, r'')
                    | None => None
                    end
                  else None
              end
          | None => None
          end).
  by rewrite E, Er.
Qed.

Lemma items_next fuel s x tl l rest :
  Reader.value fuel s = Some (x, ","%char :: tl) ->
  Reader.items fuel (Reader.skip_ws tl) = Some (l, rest) ->
  Reader.items (S fuel) s = Some (x :: l, rest).
Proof.
  intros E El.
  change (Reader.items (S fuel) s)
    with (match Reader.value fuel s with
          | Some (x, r) =>
              match Reader.skip_ws r with
              | [] => None
              | c :: r' =>
                  if Ascii.eqb c "]" then Some ([x], r')
                  else if Ascii.eqb c "," then
                    match Reader.items fuel (Reader.skip_ws r') with
                    | Some (l, r'') => Some (x :: l, r'')
                    | None => None
                    end
                  else None
              end
          | None => None
          end).
  rewrite E. simpl Reader.skip_ws. cbv iota. simpl Ascii.eqb. cbv iota.
  by rewrite El.
Qed.

Lemma members_step fuel k s1 x s3 :
  Reader.value fuel (Reader.skip_ws s1) = Some (x, s3) ->
  forall tail, Reader.string_body tail = Some (k, ":"%char :: s1) ->
  Reader.members (S fuel) (Json.dquote :: tail)
  = match Reader.skip_ws s3 with
    | [] => None
    | c3 :: r4 =>
        if Ascii.eqb c3 "}" then Some ([(k, x)], r4)
        else if Ascii.eqb c3 "," then
          match Reader.members fuel (Reader.skip_ws r4) with
          | Some (l, r5) => Some ((k, x) :: l, r5)
          | None => None
          end
        else None
    end.
Proof.
  intros E tail Et.
  change (Reader.members (S fuel) (Json.dquote :: tail))
    with (match Reader.string_body tail with
          | Some (k, r1) =>
              match Reader.skip_ws r1 with
              | [] => None
              | c1 :: r2 =>
                  if Ascii.eqb c1 ":" then
                    match Reader.value fuel (Reader.skip_ws r2) with
                    | Some (x, r3) =>
                        match Reader.skip_ws r3 with
                        | [] => None
                        | c3 :: r4 =>
                            if Ascii.eqb c3 "}" then Some ([(k, x)], r4)
                            else if Ascii.eqb c3 "," then
                              match Reader.members fuel (Reader.skip_ws r4) with
                              | Some (l, r5) => Some ((k, x) :: l, r5)
                              | None => None
                              end
                            else None
                        end
                    | None => None
                    end
                  else None
              end
          | None => None
          end).
  rewrite Et. simpl Reader.skip_ws. cbv iota. simpl Ascii.eqb. cbv iota.
  by rewrite E.
Qed.

Lemma members_last fuel k s1 x s3 tail rest :
  Reader.string_body tail = Some (k, ":"%char :: s1) ->
  Reader.value fuel (Reader.skip_ws s1) = Some (x, s3) ->
  Reader.skip_ws s3 = "}"%char :: rest ->
  Reader.members (S fuel) (Json.dquote :: tail) = Some ([(k, x)], rest).
Proof.
  intros Et E Er. rewrite (members_step fuel k s1 x s3 E tail Et). by rewrite Er.
Qed.

Lemma members_next fuel k s1 x s3 tail l rest :
  Reader.string_body tail = Some (k, ":"%char :: s1) ->
  Reader.value fuel (Reader.skip_ws s1) = Some (x, ","%char :: s3) ->
  Reader.members fuel (Reader.skip_ws s3) = Some (l, rest) ->
  Reader.members (S fuel) (Json.dquote :: tail) = Some ((k, x) :: l, rest).
Proof.
  intros Et E El. rewrite (members_step fuel k s1 x _ E tail Et).
  simpl Reader.skip_ws. cbv iota. simpl Ascii.eqb. cbv iota. by rewrite El.
Qed.

(** ** Dictionaries from pairs *)

Lemma dict_setitem_fresh {V} k (v : V) d :
  k ∉ map fst d -> dict_setitem k v d = d ++ [(k, v)].
Proof.
  induction d as [|[k' v'] d IH]; simpl; intros H; [done|].
  apply not_elem_of_cons in H as [Hne H].
  destruct (String.eqb_spec k' k) as [->|_]; [done|]. by rewrite IH.
Qed.

Lemma dict_display_app {V} (acc l : list (string * V)) :
  NoDup (map fst (acc ++ l)) ->
  fold_left (fun d kv => dict_setitem (fst kv) (snd kv) d) l acc = acc ++ l.
Proof.
  revert acc. induction l as [|[k v] l IH]; intros acc H; simpl.
  - by rewrite app_nil_r.
  - rewrite dict_setitem_fresh.
    + rewrite IH; rewrite <- app_assoc; [done|exact H].
    + rewrite map_app in H. apply NoDup_app in H as (_ & H & _).
      intros Hin. apply (H k Hin). simpl. apply list_elem_of_here.
Qed.

Lemma dict_display_distinct {V} (l : list (string * V)) :
  NoDup (map fst l) -> dict_display l = l.
Proof. intros H. unfold dict_display. by rewrite dict_display_app. Qed.

(** ** Lists and dictionaries item by item *)

Lemma join_cons sep a b m :
  PyStr.str_join sep (a :: b :: m) = a +:+ sep +:+ PyStr.str_join sep (b :: m).
Proof. reflexivity. Qed.

Lemma join_head indent b level x l sep tail :
  exists c tl,
    chars (PyStr.str_join sep (map (Json.encode indent b level) (x :: l))) ++ tail
    = c :: tl
    /\ starts_value c = true.
Proof.
  destruct l as [|y l].
  - apply encode_head.
  - simpl map. rewrite join_cons, chars_app, <- app_assoc. apply encode_head.
Qed.

Lemma skip_ws_indent_value indent level c tl s :
  s = c :: tl -> starts_value c = true ->
  Reader.skip_ws (chars (Json.newline_indent indent level) ++ s) = s.
Proof.
  intros -> H. rewrite skip_ws_newline_indent. by apply skip_ws_value.
Qed.

Lemma ends_value_newline_indent indent level s :
  ends_value (chars (Json.newline_indent indent level) ++ s).
Proof. by right. Qed.

Lemma items_written indent level l :
  Forall (reads_back indent) l -> l <> [] ->
  forall fuel rest,
    list_sum (map (fun x => S (json_size x)) l) <= fuel ->
    Reader.items fuel
      (chars (PyStr.str_join ("," +:+ Json.newline_indent indent (S level))
                (map (Json.encode indent false (S level)) l))
       ++ chars (Json.newline_indent indent level) ++ "]"%char :: rest)
    = Some (l, rest).
Proof.
  induction l as [|x l IH]; [done|]. intros HF _ fuel rest Hfuel.
  apply Forall_cons in HF as [Hx HF]. simpl in Hfuel.
  destruct fuel as [|fuel]; [lia|].
  destruct l as [|y l].
  - simpl map. simpl PyStr.str_join.
    eapply items_last.
    + apply Hx; [simpl in Hfuel; lia|apply ends_value_newline_indent].
    + by rewrite skip_ws_newline_indent.
  - change (map (Json.encode indent false (S level)) (x :: y :: l))
      with (Json.encode indent false (S level) x
            :: Json.encode indent false (S level) y
            :: map (Json.encode indent false (S level)) l).
    rewrite join_cons.
    change (Json.encode indent false (S level) y
            :: map (Json.encode indent false (S level)) l)
      with (map (Json.encode indent false (S level)) (y :: l)).
    rewrite !chars_app, <- !app_assoc.
    change (chars ",") with [","%char]. cbn [app].
    eapply items_next.
    + apply Hx; [lia|by left].
    + destruct (join_head indent false (S level) y l
                  ("," +:+ Json.newline_indent indent (S level))
                  (chars (Json.newline_indent indent level) ++ "]"%char :: rest))
        as (c & tl & E & Hc).
      rewrite (skip_ws_indent_value _ _ c tl) by done.
      apply IH; [done|done|lia].
Qed.

Lemma members_written indent level (l : list (string * json)) :
  Forall (fun kv => reads_back indent (snd kv)) l -> l <> [] ->
  forall fuel rest,
    list_sum (map (fun kv => S (json_size (snd kv))) l) <= fuel ->
    Reader.members fuel
      (chars (PyStr.str_join ("," +:+ Json.newline_indent indent (S level))
                (map (fun kv => Json.encode_str (fst kv) +:+ ": " +:+ snd kv)
                   (map (fun kv => (fst kv, Json.encode indent false (S level) (snd kv)))
                      l)))
       ++ chars (Json.newline_indent indent level) ++ "}"%char :: rest)
    = Some (l, rest).
Proof.
  induction l as [|[k x] l IH]; [done|]. intros HF _ fuel rest Hfuel.
  apply Forall_cons in HF as [Hx HF]. simpl in Hfuel, Hx.
  destruct fuel as [|fuel]; [lia|].
  destruct l as [|[k' y] l].
  - simpl map. simpl PyStr.str_join.
    rewrite !chars_app, <- !app_assoc, chars_encode_str.
    change (chars ": ") with [":"%char; " "%char]. cbn [app].
    destruct (encode_head indent false (S level) x
                (chars (Json.newline_indent indent level) ++ "}"%char :: rest))
      as (c & tl & E & Hc).
    eapply members_last.
    + apply string_body_escape.
    + change (Reader.skip_ws (" "%char :: ?s)) with (Reader.skip_ws s).
      rewrite E, skip_ws_value by done. rewrite <- E.
      apply Hx; [lia|apply ends_value_newline_indent].
    + by rewrite skip_ws_newline_indent.
  - change (map (fun kv => Json.encode_str (fst kv) +:+ ": " +:+ snd kv)
              (map (fun kv => (fst kv, Json.encode indent false (S level) (snd kv)))
                 ((k, x) :: (k', y) :: l)))
      with ((Json.encode_str k +:+ ": " +:+ Json.encode indent false (S level) x)
            :: map (fun kv => Json.encode_str (fst kv) +:+ ": " +:+ snd kv)
                 (map (fun kv => (fst kv, Json.encode indent false (S level) (snd kv)))
                    ((k', y) :: l))).
    set (more := map (fun kv => Json.encode_str (fst kv) +:+ ": " +:+ snd kv)
                   (map (fun kv => (fst kv, Json.encode indent false (S level) (snd kv)))
                      ((k', y) :: l))) in *.
    assert (exists m, more = (Json.encode_str k' +:+ ": "
                              +:+ Json.encode indent false (S level) y) :: m)
      as [m Hm] by (by eexists).
    rewrite Hm at 1. rewrite join_cons. rewrite <- Hm.
    rewrite !chars_app, <- !app_assoc, chars_encode_str.
    change (chars ": ") with [":"%char; " "%char].
    change (chars ",") with [","%char]. cbn [app].
    destruct (encode_head indent false (S level) x
                (","%char :: chars (Json.newline_indent indent (S level))
                 ++ chars (PyStr.str_join ("," +:+ Json.newline_indent indent (S level)) more)
                 ++ chars (Json.newline_indent indent level) ++ "}"%char :: rest))
      as (c & tl & E & Hc).
    eapply members_next.
    + apply string_body_escape.
    + change (Reader.skip_ws (" "%char :: ?s)) with (Reader.skip_ws s).
      rewrite E, skip_ws_value by done. rewrite <- E.
      apply Hx; [lia|by left].
    + rewrite skip_ws_newline_indent.
      assert (exists tl', chars (PyStr.str_join ("," +:+ Json.newline_indent indent (S level)) more)
                          ++ chars (Json.newline_indent indent level) ++ "}"%char :: rest
                          = Json.dquote :: tl') as [tl' E'].
      { rewrite Hm. destruct m.
        - simpl PyStr.str_join. rewrite !chars_app, <- !app_assoc, chars_encode_str.
          by eexists.
        - rewrite join_cons, !chars_app, <- !app_assoc, chars_encode_str.
          by eexists. }
      rewrite E'. rewrite skip_ws_value by done. rewrite <- E'.
      unfold more. rewrite IH; [done|done|done|lia].
Qed.

(** ** Every value is read back *)

Lemma proper_floats_list l :
  proper_floats (JList l) = true <-> Forall (fun x => proper_floats x = true) l.
Proof.
  simpl. rewrite forallb_forall, Forall_forall.
  split; intros H x Hin; by apply H, list_elem_of_In.
Qed.

Lemma proper_floats_dict d :
  proper_floats (JDict d) = true
  <-> Forall (fun kv => proper_floats (snd kv) = true) d.
Proof.
  simpl. rewrite forallb_forall, Forall_forall.
  split; intros H x Hin; by apply H, list_elem_of_In.
Qed.

Lemma encode_reads_back indent j :
  distinct_keys j = true -> proper_floats j = true -> reads_back indent j.
Proof.
  induction j as [ | b | z | f | s | l IH | d IH ] using json_tree_ind;
    intros Hd Hp fuel level rest Hfuel Hrest;
    (destruct fuel as [|fuel]; [simpl in Hfuel; lia|]).
  - done.
  - by destruct b.
  - change (Json.encode indent false level (JInt z)) with (Json.int_repr z).
    destruct (int_repr_head z rest) as (c & tl & E & Hc).
    rewrite E, value_number by done. rewrite <- E. by apply number_int_repr.
  - change (Json.encode indent false level (JFloat f)) with (Json.float_repr f).
    destruct (float_repr_head f rest) as (c & tl & E & Hc).
    rewrite E, value_number by done. rewrite <- E. by apply number_float_repr.
  - change (Json.encode indent false level (JStr s)) with (Json.encode_str s).
    by rewrite chars_encode_str, value_string, string_body_escape.
  - destruct l as [|x l]; [done|].
    apply distinct_keys_list in Hd. apply proper_floats_list in Hp.
    assert (Forall (reads_back indent) (x :: l)) as HF.
    { rewrite Forall_forall in IH, Hd, Hp. apply Forall_forall.
      intros y Hy. by apply IH; [|apply Hd|apply Hp]. }
    change (Json.encode indent false level (JList (x :: l)))
      with ("[" +:+ Json.newline_indent indent (S level)
            +:+ PyStr.str_join ("," +:+ Json.newline_indent indent (S level))
                  (map (Json.encode indent false (S level)) (x :: l))
            +:+ Json.newline_indent indent level +:+ "]").
    rewrite !chars_app, <- !app_assoc.
    change (chars "[") with ["["%char]. change (chars "]") with ["]"%char].
    cbn [app].
    destruct (join_head indent false (S level) x l
                ("," +:+ Json.newline_indent indent (S level))
                (chars (Json.newline_indent indent level) ++ "]"%char :: rest))
      as (c & tl & E & Hc).
    rewrite (value_list fuel c tl); [|by rewrite skip_ws_newline_indent, E, skip_ws_value|done].
    rewrite <- E, items_written; [done|done|done|].
    simpl in Hfuel. simpl. lia.
  - destruct d as [|[k x] d]; [done|].
    apply distinct_keys_dict in Hd as [Hnd Hd]. apply proper_floats_dict in Hp.
    assert (Forall (fun kv => reads_back indent (snd kv)) ((k, x) :: d)) as HF.
    { rewrite Forall_forall in IH, Hd, Hp. apply Forall_forall.
      intros y Hy. by apply IH; [|apply Hd|apply Hp]. }
    change (Json.encode indent false level (JDict ((k, x) :: d)))
      with ("{" +:+ Json.newline_indent indent (S level)
            +:+ PyStr.str_join ("," +:+ Json.newline_indent indent (S level))
                  (map (fun kv => Json.encode_str (fst kv) +:+ ": " +:+ snd kv)
                     (map (fun kv => (fst kv, Json.encode indent false (S level) (snd kv)))
                        ((k, x) :: d)))
            +:+ Json.newline_indent indent level +:+ "}").
    rewrite !chars_app, <- !app_assoc.
    change (chars "{") with ["{"%char]. change (chars "}") with ["}"%char].
    cbn [app].
    assert (exists tl,
              chars (PyStr.str_join ("," +:+ Json.newline_indent indent (S level))
                       (map (fun kv => Json.encode_str (fst kv) +:+ ": " +:+ snd kv)
                          (map (fun kv => (fst kv, Json.encode indent false (S level) (snd kv)))
                             ((k, x) :: d))))
              ++ chars (Json.newline_indent indent level) ++ "}"%char :: rest
              = Json.dquote :: tl) as [tl E].
    { destruct d as [|[k' y] d].
      - simpl PyStr.str_join. rewrite !chars_app, <- !app_assoc, chars_encode_str.
        by eexists.
      - simpl map. rewrite join_cons, !chars_app, <- !app_assoc, chars_encode_str.
        by eexists. }
    rewrite (value_dict fuel tl); [|by rewrite skip_ws_newline_indent, E].
    rewrite <- E, members_written; [|done|done|simpl in Hfuel; simpl; lia].
    by rewrite dict_display_distinct.
Qed.

(** ** The text is long enough to be its own fuel *)

Lemma length_join_ge sep chunks :
  1 <= String.length sep ->
  list_sum (map (fun c => S (String.length c)) chunks)
  <= S (String.length (PyStr.str_join sep chunks)).
Proof.
  intros Hsep. induction chunks as [|a chunks IH]; [simpl; lia|].
  destruct chunks as [|b chunks]; [simpl; lia|].
  rewrite join_cons, <- !length_chars, !chars_app, !length_app, !length_chars.
  change (list_sum (map (fun c => S (String.length c)) (a :: b :: chunks)))
    with (S (String.length a)
          + list_sum (map (fun c => S (String.length c)) (b :: chunks))).
  lia.
Qed.

Lemma list_sum_le {A} (f g : A -> nat) l :
  Forall (fun x => f x <= g x) l -> list_sum (map f l) <= list_sum (map g l).
Proof. induction 1; simpl; lia. Qed.

Lemma list_sum_perm l l' : l ≡ₚ l' -> list_sum l = list_sum l'.
Proof. induction 1; simpl; lia. Qed.

Lemma json_size_length indent b j :
  forall level, json_size j <= String.length (Json.encode indent b level j).
Proof.
  induction j as [ | x | z | f | s | l IH | d IH ] using json_tree_ind;
    intros level.
  - simpl. lia.
  - destruct x; simpl; lia.
  - rewrite <- length_chars. change (Json.encode indent b level (JInt z)) with (Json.int_repr z).
    destruct (int_repr_head z []) as (c & tl & E & _). rewrite app_nil_r in E.
    rewrite E. simpl. lia.
  - rewrite <- length_chars. change (Json.encode indent b level (JFloat f)) with (Json.float_repr f).
    destruct (float_repr_head f []) as (c & tl & E & _). rewrite app_nil_r in E.
    rewrite E. simpl. lia.
  - simpl. lia.
  - destruct l as [|x l]; [simpl; lia|].
    change (Json.encode indent b level (JList (x :: l)))
      with ("[" +:+ Json.newline_indent indent (S level)
            +:+ PyStr.str_join ("," +:+ Json.newline_indent indent (S level))
                  (map (Json.encode indent b (S level)) (x :: l))
            +:+ Json.newline_indent indent level +:+ "]").
    rewrite <- !length_chars, !chars_app, !length_app, !length_chars.
    pose proof (length_join_ge ("," +:+ Json.newline_indent indent (S level))
                  (map (Json.encode indent b (S level)) (x :: l))) as Hj.
    rewrite map_map in Hj.
    assert (list_sum (map (fun y => S (json_size y)) (x :: l))
            <= list_sum (map (fun y => S (String.length (Json.encode indent b (S level) y)))
                          (x :: l))) as Hs.
    { apply list_sum_le. eapply Forall_impl; [exact IH|].
      intros y Hy. simpl. specialize (Hy (S level)). lia. }
    change (json_size (JList (x :: l)))
      with (S (list_sum (map (fun y => S (json_size y)) (x :: l)))).
    assert (1 <= String.length ("," +:+ Json.newline_indent indent (S level)))
      as Hsep by (simpl; lia).
    specialize (Hj Hsep).
    assert (1 <= String.length (Json.newline_indent indent (S level)))
      by (simpl; lia).
    change (String.length "[") with 1. lia.
  - destruct d as [|kv d]; [simpl; lia|].
    change (Json.encode indent b level (JDict (kv :: d)))
      with ("{" +:+ Json.newline_indent indent (S level)
            +:+ PyStr.str_join ("," +:+ Json.newline_indent indent (S level))
                  (map (fun kv => Json.encode_str (fst kv) +:+ ": " +:+ snd kv)
                     (if b
                      then Json.sorted_items
                             (map (fun kv => (fst kv, Json.encode indent b (S level) (snd kv)))
                                (kv :: d))
                      else map (fun kv => (fst kv, Json.encode indent b (S level) (snd kv)))
                             (kv :: d)))
            +:+ Json.newline_indent indent level +:+ "}").
    rewrite <- !length_chars, !chars_app, !length_app, !length_chars.
    set (enc := map (fun kv => (fst kv, Json.encode indent b (S level) (snd kv))) (kv :: d)).
    set (items := if b then Json.sorted_items enc else enc).
    pose proof (length_join_ge ("," +:+ Json.newline_indent indent (S level))
                  (map (fun kv => Json.encode_str (fst kv) +:+ ": " +:+ snd kv) items)) as Hj.
    rewrite map_map in Hj.
    assert (items ≡ₚ enc) as Hperm.
    { unfold items. destruct b; [apply sorted_items_perm|done]. }
    rewrite (list_sum_perm _ _ (Permutation_map _ Hperm)) in Hj.
    unfold enc in Hj. rewrite map_map in Hj. cbn [fst snd] in Hj.
    assert (list_sum (map (fun y => S (json_size (snd y))) (kv :: d))
            <= list_sum
                 (map (fun y => S (String.length
                                     (Json.encode_str (fst y) +:+ ": "
                                      +:+ Json.encode indent b (S level) (snd y))))
                    (kv :: d))) as Hs.
    { apply list_sum_le. eapply Forall_impl; [exact IH|].
      intros y Hy. simpl. specialize (Hy (S level)).
      rewrite <- !length_chars, !chars_app, !length_app, !length_chars. lia. }
    change (json_size (JDict (kv :: d)))
      with (S (list_sum (map (fun y => S (json_size (snd y))) (kv :: d)))).
    assert (1 <= String.length ("," +:+ Json.newline_indent indent (S level)))
      as Hsep by (simpl; lia).
    specialize (Hj Hsep).
    assert (1 <= String.length (Json.newline_indent indent (S level)))
      by (simpl; lia).
    change (String.length "{") with 1. lia.
Qed.

(** ** Reading back a written text *)

Lemma loads_dumps_unsorted indent j :
  distinct_keys j = true -> proper_floats j = true ->
  Reader.loads (Json.dumps indent false j) = Some j.
Proof.
  intros Hd Hp. unfold Reader.loads, Json.dumps.
  destruct (encode_head indent false 0 j []) as (c & tl & E & Hc).
  rewrite app_nil_r in E. rewrite E, skip_ws_value by done. rewrite <- E.
  rewrite <- (app_nil_r (chars _)).
  rewrite (encode_reads_back indent j Hd Hp); [done| |done].
  apply json_size_length.
Qed.

Lemma proper_floats_sorted_tree j :
  proper_floats j = true -> proper_floats (sorted_tree j) = true.
Proof.
  induction j as [ | x | x | f | s | l IH | d IH ] using json_tree_ind; try done.
  - intros H. apply proper_floats_list in H.
    apply proper_floats_list. apply Forall_fmap.
    rewrite Forall_forall in IH, H. apply Forall_forall.
    intros x Hx. by apply IH, H.
  - intros H. apply proper_floats_dict in H.
    apply proper_floats_dict.
    rewrite sorted_items_perm. apply Forall_fmap.
    rewrite Forall_forall in IH, H. apply Forall_forall.
    intros kv Hkv. by apply IH, H.
Qed.

(** What [json.dump] writes with sorted keys is read back as the tree
    with sorted keys, which is the same value. *)
Lemma loads_dumps indent j :
  distinct_keys j = true -> proper_floats j = true ->
  Reader.loads (Json.dumps indent true j) = Some (sorted_tree j).
Proof.
  intros Hd Hp. unfold Json.dumps. rewrite encode_sorted_tree.
  apply loads_dumps_unsorted.
  - by apply distinct_keys_sorted_tree.
  - by apply proper_floats_sorted_tree.
Qed.

(* ===================================================================== *)
(** * Further lemmas *)
(* ===================================================================== *)

(** ** The further sample sessions are runs *)

Lemma broken_run :
  run (Notebook_Tanimoto.notebook []) broken_trace (inl FileNotFoundError).
Proof.
  exact (exec_run (Notebook_Tanimoto.notebook []) broken_world
         <: run (Notebook_Tanimoto.notebook []) broken_trace (inl FileNotFoundError)).
Qed.

Lemma dock_run :
  run (Notebook_DockStream.notebook []) dock_trace (inr (dock_ns, dock_st)).
Proof.
  exact (exec_run (Notebook_DockStream.notebook []) demo_world
         <: run (Notebook_DockStream.notebook []) dock_trace (inr (dock_ns, dock_st))).
Qed.

Lemma sampling_run :
  run (Notebook_Sampling.notebook []) sampling_trace (inr (sampling_ns, sampling_st)).
Proof.
  exact (exec_run (Notebook_Sampling.notebook []) demo_world
         <: run (Notebook_Sampling.notebook []) sampling_trace
              (inr (sampling_ns, sampling_st))).
Qed.

Lemma again_run :
  run (Notebook_Tanimoto.notebook []) again_trace (inr (again_ns, again_st)).
Proof.
  exact (exec_run (Notebook_Tanimoto.notebook []) demo_world_again
         <: run (Notebook_Tanimoto.notebook []) again_trace
              (inr (again_ns, again_st))).
Qed.

(** ** Runs with any outcome *)

Lemma run_with_write path text st tr o :
  run (with_open path (fun f => request (FWrite f text)) st) tr o ->
  (exists x, tr = [Obs (OpenW path) (inl x)] /\ o = inl x)
  \/ (exists f rw rc,
        tr = [ Obs (OpenW path) (inr f); Obs (FWrite f text) rw;
               Obs (FClose f) rc ]
        /\ o = match rc, rw with
               | inl x, _ => inl x
               | inr _, inl x => inl x
               | inr _, inr _ => inr (tt, st)
               end).
Proof.
  unfold with_open, request, lift, perform. simpl.
  intros ([x|f] & t1 & -> & H); simpl in H.
  - left. exists x. by destruct H as [-> ->].
  - right. destruct H as (rw & t2 & -> & H). exists f, rw.
    destruct rw as [x|[]]; simpl in H; destruct H as (rc & t3 & -> & H);
      exists rc; (destruct rc as [x'|[]]; simpl in H; destruct H as [-> ->]; done).
Qed.

Lemma json_dump_request v f n b st j :
  snapshot st v = Some j ->
  json_dump v f n b st = request (FWrite f (Json.dumps n b j)) st.
Proof. unfold json_dump. by intros ->. Qed.

Lemma run_with_open_body {A} path (body body' : handle -> nb A) st tr o :
  (forall f, body f st = body' f st) ->
  run (with_open path body st) tr o -> run (with_open path body' st) tr o.
Proof.
  intros Hb. unfold with_open, perform. simpl.
  intros ([x|f] & t1 & -> & H); [by exists (inl x), t1|].
  exists (inr f), t1. split; [done|]. simpl in *. by rewrite <- Hb.
Qed.

(** ** Stages that keep things tidy *)

Lemma tidy_mono folder (S S' : list obs -> option exn -> Prop) :
  (forall tr o, S tr o -> S' tr o) -> tidy folder S' -> tidy folder S.
Proof.
  intros H (H1 & H2 & H3). split; [|split].
  - intros tr x Hs. apply H1, H, Hs.
  - intros tr o s Hs. apply (H2 tr o s), H, Hs.
  - intros tr o Hs. apply (H3 tr o), H, Hs.
Qed.

Lemma silent_mono (S S' : list obs -> option exn -> Prop) :
  (forall tr o, S tr o -> S' tr o) -> silent S' -> silent S.
Proof. intros H H' tr o Hs. apply (H' tr o), H, Hs. Qed.

Lemma answered_last pre {X} (e : eventE X) x :
  answered_with (pre ++ [Obs e (inl x)]) x.
Proof. exists pre, (Obs e (inl x)), []. by repeat split. Qed.

Lemma answered_app tr1 tr2 x : answered_with tr2 x -> answered_with (tr1 ++ tr2) x.
Proof.
  intros (pre & ob & post & -> & H). exists (tr1 ++ pre), ob, post.
  by rewrite <- app_assoc.
Qed.

(** [with open(path, 'w') as f: f.write(text)] *)
Lemma write_tidy folder path text st :
  in_folder folder path ->
  tidy folder (ends_as (with_open path (fun f => request (FWrite f text)) st) (tt, st))
  /\ silent (ends_as (with_open path (fun f => request (FWrite f text)) st) (tt, st)).
Proof.
  intros Hin. split; [split; [|split]|].
  - intros tr x H. apply run_with_write in H
      as [(x' & -> & [= <-])|(f & rw & rc & -> & Ho)].
    + apply (answered_last []).
    + destruct rc as [x'|[]].
      * injection Ho as <-.
        apply (answered_last [Obs (OpenW path) (inr f); Obs (FWrite f text) rw]).
      * destruct rw as [x'|[]]; [|done]. injection Ho as <-.
        exists [Obs (OpenW path) (inr f)], (Obs (FWrite f text) (inl x)),
          [Obs (FClose f) (inr tt)].
        by repeat constructor.
  - intros tr o s H Hc Hs. apply run_with_write in H
      as [(x' & -> & _)|(f & rw & rc & -> & Ho)]; [done|].
    destruct rc as [x'|[]].
    + by destruct Hc as [->|Hc].
    + destruct s as [op c]. simpl in Hs. subst op.
      destruct rw as [x'|[]]; simpl; by rewrite ?Nat.eqb_refl; simpl;
        rewrite ?Nat.eqb_refl.
  - intros tr o H. apply run_with_write in H
      as [(x' & -> & _)|(f & rw & rc & -> & _)]; by repeat constructor.
  - intros tr o H. apply run_with_write in H
      as [(x' & -> & _)|(f & rw & rc & -> & _)]; done.
Qed.

Lemma write_silent path text st :
  silent (ends_as (with_open path (fun f => request (FWrite f text)) st) (tt, st)).
Proof.
  intros tr o H. apply run_with_write in H
    as [(x' & -> & _)|(f & rw & rc & -> & _)]; done.
Qed.

Lemma shell_tidy folder cmd st out :
  tidy folder (ends_as (shell cmd st) (out, st)).
Proof.
  split; [|split].
  - intros tr x H. apply run_request in H as ([x'|v] & -> & [= <-]).
    apply (answered_last []).
  - intros tr o s H _ Hs. by apply run_request in H as (r & -> & _).
  - intros tr o H. apply run_request in H as (r & -> & _). constructor.
Qed.

Lemma print_all_tidy folder data st :
  tidy folder (ends_as (print_all data st) (tt, st))
  /\ silent (ends_as (print_all data st) (tt, st)).
Proof.
  assert (forall tr o, run (print_all data st) tr o ->
            Forall (fun ob => obs_print ob <> None) tr
            /\ forall x, o = inl x -> answered_with tr x) as H.
  { induction data as [|element rest IH]; intros tr o.
    - intros [-> ->]. split; [constructor|done].
    - intros H.
      change (run ((request (Print element) ≫= fun _ => print_all rest) st) tr o) in H.
      apply run_nb_bind in H as [(x & H & ->)|(a & st1 & tr1 & tr2 & -> & H1 & H2)].
      + apply run_request in H as ([x'|v] & -> & [= <-]).
        split; [by repeat constructor|]. intros y [= <-]. apply (answered_last []).
      + apply run_request_ok in H1 as [-> ->]. apply IH in H2 as [H2 H3].
        split; [by constructor|]. intros x Hx. by apply (answered_app [_]), H3. }
  assert (forall tr, Forall (fun ob => obs_print ob <> None) tr ->
            commands tr = [] /\ opens tr = []
            /\ forall s, fold_left fstep tr s = s) as Hp.
  { induction 1 as [|ob tr Hob _ (IH1 & IH2 & IH3)]; [done|].
    destruct ob as [X e r]. destruct e; try done. }
  split; [split; [|split]|].
  - intros tr x Hs. by apply (H tr (inl x)).
  - intros tr o s Hs _ Hop. apply H in Hs as [Hs _].
    destruct (Hp tr Hs) as (_ & _ & Hf). by rewrite Hf.
  - intros tr o Hs. apply H in Hs as [Hs _].
    destruct (Hp tr Hs) as (_ & -> & _). constructor.
  - intros tr o Hs. apply H in Hs as [Hs _]. by apply Hp.
Qed.

(** ** Preparation: requests that touch no file and run no command *)

Lemma quiet_prog_request {X} (e : eventE X) st :
  event_quiet e = true -> quiet_prog (request e st).
Proof.
  intros He tr o H. apply run_request in H as (r & -> & ->). split.
  - by repeat constructor.
  - intros x Hx. destruct r as [x'|v]; [|done]. injection Hx as ->.
    apply (answered_last []).
Qed.

Lemma quiet_prog_mret {A} (a : A) st : quiet_prog ((mret a : nb A) st).
Proof. intros tr o [-> ->]. split; [constructor|done]. Qed.

Lemma quiet_prog_bind {A B} (m : nb A) (f : A -> nb B) st :
  quiet_prog (m st) -> (forall a st', quiet_prog (f a st')) ->
  quiet_prog ((m ≫= f) st).
Proof.
  intros Hm Hf tr o H.
  apply run_nb_bind in H as [(x & H & ->)|(a & st1 & tr1 & tr2 & -> & H1 & H2)].
  - destruct (Hm _ _ H) as [Q1 Q2]. split; [done|].
    intros y [= <-]. by apply Q2.
  - destruct (Hm _ _ H1) as [Q1 _]. destruct (Hf _ _ _ _ H2) as [Q2 H3]. split.
    + by apply Forall_app.
    + intros x Hx. by apply answered_app, H3.
Qed.

Lemma quiet_prog_try {X} (e : eventE X) c (h : nb X) st :
  event_quiet e = true -> quiet_prog (h st) ->
  quiet_prog (nb_try (request e) c h st).
Proof.
  intros He Hh tr o. unfold nb_try, request, lift, perform. simpl.
  intros ([x|v] & tr' & -> & H); simpl in H.
  - destruct (issubclass x c).
    + destruct (Hh _ _ H) as [H1 H2]. split; [by constructor|].
      intros y Hy. by apply (answered_app [_]), H2.
    + destruct H as [-> ->]. split; [by repeat constructor|].
      intros y [= <-]. apply (answered_last []).
  - destruct H as [-> ->]. split; [by repeat constructor|done].
Qed.

Lemma quiet_prog_tidy {A} folder (q : prog A) a :
  quiet_prog q -> tidy folder (ends_as q a) /\ silent (ends_as q a).
Proof.
  intros H. split; [split; [|split]|].
  - intros tr x Hs. by apply (H tr (inl x)).
  - intros tr o s Hs _ Hop. apply H in Hs as [Hs _]. by rewrite quiet_fold.
  - intros tr o Hs. apply H in Hs as [Hs _].
    assert (opens tr = []) as ->; [|constructor].
    clear -Hs. induction Hs as [|ob tr Hob _ IH]; [done|].
    destruct ob as [X e r]. by destruct e.
  - intros tr o Hs. apply H in Hs as [Hs _]. by apply quiet_commands.
Qed.

Lemma setup_quiet text st : quiet_prog (setup text st).
Proof.
  unfold setup.
  repeat (apply quiet_prog_bind; [|intros ??]);
    try (by apply quiet_prog_request);
    try apply quiet_prog_mret;
    apply quiet_prog_try; try done;
    first [by apply quiet_prog_request|apply quiet_prog_mret].
Qed.

Lemma DockStream_cell_2_quiet st : quiet_prog (Notebook_DockStream.cell_2 st).
Proof.
  unfold Notebook_DockStream.cell_2.
  repeat (apply quiet_prog_bind; [|intros ??]);
    try (by apply quiet_prog_request);
    try apply quiet_prog_mret;
    apply quiet_prog_try; try done;
    first [by apply quiet_prog_request|apply quiet_prog_mret].
Qed.

(** ** Every run as a run of stages *)

Lemma seq_run_app_fail pre rest tr x :
  seq_run pre tr (Some x) -> seq_run (pre ++ rest) tr (Some x).
Proof.
  intros H. remember (Some x) as o eqn:E. revert E.
  induction H as [|S r t y Hs|S r t1 t2 o Hs H IH]; intros E; [done|..].
  - by apply seq_fail.
  - simpl. apply seq_step; [done|]. by apply IH.
Qed.

Lemma seq_run_app pre rest tr1 tr2 o :
  seq_run pre tr1 None -> seq_run rest tr2 o -> seq_run (pre ++ rest) (tr1 ++ tr2) o.
Proof.
  intros H. remember None as o' eqn:E. revert E.
  induction H as [|S r t y Hs|S r t1 t2 o' Hs H IH]; intros E H2; [done|done|].
  simpl. rewrite <- app_assoc. apply seq_step; [done|]. by apply IH.
Qed.

Lemma write_configuration_stage od conf name st j tr o :
  snapshot st conf = Some j ->
  ends_as (write_configuration od conf name st) (os_path_join od [name], st) tr o ->
  ends_as (with_open (os_path_join od [name])
           (fun f => request (FWrite f (Json.dumps 4 true j))) st) (tt, st) tr o.
Proof.
  intros Hj. unfold ends_as, write_configuration. intros H.
  apply run_nb_bind in H as [(x & H & E)|(u & s1 & t1 & t2 & -> & H1 & [-> H2])].
  - destruct o as [y|]; [|done]. injection E as ->.
    eapply run_with_open_body; [|exact H]. intros f. by apply json_dump_request.
  - destruct o as [y|]; [done|]. injection H2 as ->. rewrite app_nil_r.
    destruct u. eapply run_with_open_body; [|exact H1].
    intros f. by apply json_dump_request.
Qed.

Lemma finish_stages_tidy p conf st j name out shown head_cmd head_out :
  snapshot st conf = Some j -> name ∈ config_names ->
  Forall (tidy (output_dir p))
    (finish_stages p conf st name out shown head_cmd head_out).
Proof.
  intros Hj Hn. unfold finish_stages.
  repeat (apply Forall_cons; split); [| | | | |constructor].
  - eapply tidy_mono; [intros tr o; by apply write_configuration_stage|].
    apply write_tidy. exists name. split; [|done].
    unfold written_names. apply elem_of_app. by left.
  - apply shell_tidy.
  - apply (write_tidy (output_dir p) (os_path_join (output_dir p) ["run.err"])).
    exists "run.err". split; [|done].
    unfold written_names. apply elem_of_app. right. apply list_elem_of_here.
  - apply print_all_tidy.
  - apply shell_tidy.
Qed.

(** The cells from the writing of the configuration on, with or
    without the parsing of the log. *)
Lemma finish_rl_runs p conf name idxs head_cmd st tr o :
  run (finish_rl p conf name idxs head_cmd st) tr o ->
  exists out shown head_out,
    seq_run (finish_stages p conf st name out shown head_cmd head_out)
      tr (exn_of o).
Proof.
  unfold finish_rl, finish_stages. intros H.
  apply run_nb_bind in H as [(x & H & ->)|(path & q1 & t1 & r1 & -> & H1 & H)].
  { exists "", [], "". by apply seq_fail. }
  pose proof H1 as H1'. apply write_configuration_ok in H1' as (-> & -> & _).
  apply run_nb_bind in H as [(x & H & ->)|(out & q2 & t2 & r2 & -> & H2 & H)].
  { exists "", [], "". apply seq_step; [exact H1|]. by apply seq_fail. }
  pose proof H2 as H2'. apply run_request_ok in H2' as [_ ->].
  exists out.
  apply run_nb_bind in H as [(x & H & ->)|([l d] & q3 & t3 & r3 & -> & H3 & H)].
  { exists [], "". apply seq_step; [exact H1|]. apply seq_step; [exact H2|].
    apply seq_fail. unfold parse_output in H.
    apply run_nb_bind in H as [(y & H & E)|(u & q4 & t3 & t4 & _ & _ & [_ H4])];
      [|done]. by injection E as ->. }
  unfold parse_output in H3.
  apply run_nb_bind in H3 as [(y & _ & E)|(u & q5 & t3' & t4 & -> & H3 & [-> H4])];
    [done|].
  injection H4 as Hl Hd Hs. subst l d q3. rewrite app_nil_r. destruct u.
  pose proof H3 as H3'. apply save_output_ok in H3' as [-> _].
  exists (shown_data idxs (Re.findall "INFO.*?local" out)).
  apply run_nb_bind in H as [(x & H & ->)|(u & q6 & t5 & r4 & -> & H5 & H)].
  { exists "". apply seq_step; [exact H1|]. apply seq_step; [exact H2|].
    apply seq_step; [exact H3|]. by apply seq_fail. }
  destruct u. pose proof H5 as H5'. apply run_print_all_ok in H5' as [_ ->].
  apply run_nb_bind in H as [(x & H & ->)|(ho & q7 & t6 & r5 & -> & H6 & [-> ->])].
  { exists "". apply seq_step; [exact H1|]. apply seq_step; [exact H2|].
    apply seq_step; [exact H3|]. apply seq_step; [exact H5|]. by apply seq_fail. }
  pose proof H6 as H6'. apply run_request_ok in H6' as [_ ->].
  exists ho. apply seq_step; [exact H1|]. apply seq_step; [exact H2|].
  apply seq_step; [exact H3|]. apply seq_step; [exact H5|].
  apply seq_step; [exact H6|apply seq_done].
Qed.

Lemma finish_sampling_runs p conf name head_cmd st tr o :
  run (finish_sampling p conf name head_cmd st) tr o ->
  exists out shown head_out,
    seq_run (finish_stages p conf st name out shown head_cmd head_out)
      tr (exn_of o).
Proof.
  unfold finish_sampling, finish_stages. intros H.
  apply run_nb_bind in H as [(x & H & ->)|(path & q8 & t1 & r6 & -> & H1 & H)].
  { exists "", [], "". by apply seq_fail. }
  pose proof H1 as H1'. apply write_configuration_ok in H1' as (-> & -> & _).
  apply run_nb_bind in H as [(x & H & ->)|(out & q9 & t2 & r7 & -> & H2 & H)].
  { exists "", [], "". apply seq_step; [exact H1|]. by apply seq_fail. }
  pose proof H2 as H2'. apply run_request_ok in H2' as [_ ->].
  exists out, [].
  apply run_nb_bind in H as [(x & H & ->)|(u & q10 & t3 & r8 & -> & H3 & H)].
  { exists "". apply seq_step; [exact H1|]. apply seq_step; [exact H2|].
    by apply seq_fail. }
  destruct u. pose proof H3 as H3'. apply save_output_ok in H3' as [-> _].
  apply run_nb_bind in H as [(x & H & ->)|(ho & q11 & t6 & r9 & -> & H6 & [-> ->])].
  { exists "". apply seq_step; [exact H1|]. apply seq_step; [exact H2|].
    apply seq_step; [exact H3|].
    apply (seq_step _ _ [] _); [done|]. by apply seq_fail. }
  pose proof H6 as H6'. apply run_request_ok in H6' as [_ ->].
  exists ho. apply seq_step; [exact H1|]. apply seq_step; [exact H2|].
  apply seq_step; [exact H3|]. apply (seq_step _ _ [] (t6 ++ [])); [done|].
  apply seq_step; [exact H6|apply seq_done].
Qed.

Lemma stages_intro pre p conf st j name out shown head_cmd head_out tr
    (o : exn + namespace * store) :
  Forall (fun S => tidy (output_dir p) S /\ silent S) pre ->
  snapshot st conf = Some j -> distinct_keys j = true ->
  json_keys (sorted_tree j) = top_level_keys -> name ∈ config_names ->
  PyStr.startswith head_cmd "head -n " = true ->
  seq_run (pre ++ finish_stages p conf st name out shown head_cmd head_out)
    tr (exn_of o) ->
  (forall ns st', o = inr (ns, st') ->
     ns_paths ns = p /\ configuration ns = conf /\ st' = st) ->
  exists p name j stages,
    notebook_stages p name j stages /\ seq_run stages tr (exn_of o)
    /\ (forall ns st', o = inr (ns, st') ->
          ns_paths ns = p /\ snapshot st' (configuration ns) = Some j).
Proof.
  intros Hpre Hj Hd Hk Hn Hh H He. eexists p, name, j, _.
  split; [|split; [exact H|]].
  - by exists pre, conf, st, out, shown, head_cmd, head_out.
  - intros ns st' Ho. destruct (He ns st' Ho) as (-> & -> & ->). done.
Qed.

Lemma rl_notebook_runs text (build : paths -> nb pyval) name idxs
    (head : string -> string) tr o :
  (forall p, exists conf st j,
      pure_run (build p) [] = Some (conf, st) /\ snapshot st conf = Some j
      /\ distinct_keys j = true /\ json_keys (sorted_tree j) = top_level_keys) ->
  name ∈ config_names ->
  (forall od, PyStr.startswith (head od) "head -n " = true) ->
  run ((setup text ≫= fun p =>
        build p ≫= fun configuration =>
        finish_rl p configuration name idxs (head (output_dir p))) [])
      tr o ->
  exists p name j stages,
    notebook_stages p name j stages /\ seq_run stages tr (exn_of o)
    /\ (forall ns st', o = inr (ns, st') ->
          ns_paths ns = p /\ snapshot st' (configuration ns) = Some j).
Proof.
  intros Hb Hn Hh H.
  apply run_nb_bind in H as [(x & H & ->)|(p & q1 & t1 & r1 & -> & H1 & H)].
  - destruct (Hb (Paths "" "" "" "")) as (conf & st & j & _ & Hj & Hd & Hk).
    apply (stages_intro [ends_as (setup text []) (Paths "" "" "" "", [])]
             (Paths "" "" "" "") conf st j name "" [] (head "") ""); try done;
      try apply Hh.
    + constructor; [|constructor]. apply quiet_prog_tidy, setup_quiet.
    + apply (seq_run_app_fail [_]). by apply seq_fail.
  - pose proof H1 as H1'. apply setup_ok in H1' as [-> _].
    destruct (Hb p) as (conf & st & j & Hr & Hj & Hd & Hk).
    apply run_nb_bind in H as [(x & H & ->)|(c & q2 & t2 & r2 & -> & H2 & H)].
    { by destruct (run_pure _ _ _ _ _ Hr H). }
    destruct (run_pure _ _ _ _ _ Hr H2) as [-> [= -> ->]].
    pose proof H as Hfin.
    apply finish_rl_runs in H as (out & shown & ho & H).
    apply (stages_intro [ends_as (setup text []) (p, [])]
             p conf st j name out shown (head (output_dir p)) ho); try done;
      try apply Hh.
    + constructor; [|constructor]. apply quiet_prog_tidy, setup_quiet.
    + apply (seq_run_app [_]); [|exact H].
      rewrite <- (app_nil_r t1). apply seq_step; [exact H1|apply seq_done].
    + intros ns st' ->. by apply finish_rl_ok in Hfin as (-> & -> & -> & _).
Qed.

Lemma sampling_notebook_runs text (build : paths -> nb pyval) name
    (head : string -> string) tr o :
  (forall p, exists conf st j,
      pure_run (build p) [] = Some (conf, st) /\ snapshot st conf = Some j
      /\ distinct_keys j = true /\ json_keys (sorted_tree j) = top_level_keys) ->
  name ∈ config_names ->
  (forall od, PyStr.startswith (head od) "head -n " = true) ->
  run ((setup text ≫= fun p =>
        build p ≫= fun configuration =>
        finish_sampling p configuration name (head (output_dir p))) [])
      tr o ->
  exists p name j stages,
    notebook_stages p name j stages /\ seq_run stages tr (exn_of o)
    /\ (forall ns st', o = inr (ns, st') ->
          ns_paths ns = p /\ snapshot st' (configuration ns) = Some j).
Proof.
  intros Hb Hn Hh H.
  apply run_nb_bind in H as [(x & H & ->)|(p & q1 & t1 & r1 & -> & H1 & H)].
  - destruct (Hb (Paths "" "" "" "")) as (conf & st & j & _ & Hj & Hd & Hk).
    apply (stages_intro [ends_as (setup text []) (Paths "" "" "" "", [])]
             (Paths "" "" "" "") conf st j name "" [] (head "") ""); try done;
      try apply Hh.
    + constructor; [|constructor]. apply quiet_prog_tidy, setup_quiet.
    + apply (seq_run_app_fail [_]). by apply seq_fail.
  - pose proof H1 as H1'. apply setup_ok in H1' as [-> _].
    destruct (Hb p) as (conf & st & j & Hr & Hj & Hd & Hk).
    apply run_nb_bind in H as [(x & H & ->)|(c & q2 & t2 & r2 & -> & H2 & H)].
    { by destruct (run_pure _ _ _ _ _ Hr H). }
    destruct (run_pure _ _ _ _ _ Hr H2) as [-> [= -> ->]].
    pose proof H as Hfin.
    apply finish_sampling_runs in H as (out & shown & ho & H).
    apply (stages_intro [ends_as (setup text []) (p, [])]
             p conf st j name out shown (head (output_dir p)) ho); try done;
      try apply Hh.
    + constructor; [|constructor]. apply quiet_prog_tidy, setup_quiet.
    + apply (seq_run_app [_]); [|exact H].
      rewrite <- (app_nil_r t1). apply seq_step; [exact H1|apply seq_done].
    + intros ns st' ->. by apply finish_sampling_ok in Hfin as (-> & -> & -> & _).
Qed.

(** ** The DockStream notebook *)

Lemma DockStream_cell_2_paths st tr p q st' :
  run (Notebook_DockStream.cell_2 st) tr (inr ((p, q), st')) ->
  Notebook_DockStream.docking_configuration_path q
  = os_path_join (output_dir p) ["Glide_DockStream_Conf.json"].
Proof.
  unfold Notebook_DockStream.cell_2. intros H.
  repeat (apply run_nb_bind_ok in H as (? & ? & ? & ? & _ & _ & H)).
  destruct H as [_ H]. injection H as Hp Hq _. by subst p q.
Qed.

Lemma DockStream_ed_dict g dp ds :
  exists v st jd,
    eval (Notebook_DockStream.ed_dict_display g dp ds) [] = (v, st)
    /\ snapshot st v = Some jd
    /\ distinct_keys jd = true /\ proper_floats jd = true
    /\ keys_sorted jd = false
    /\ json_keys jd = ["docking"].
Proof.
  eexists _, _, _.
  split; [vm_compute; reflexivity|].
  split; [vm_compute; reflexivity|].
  split; [vm_compute; reflexivity|].
  split; [vm_compute; reflexivity|].
  split; vm_compute; reflexivity.
Qed.

Lemma DockStream_cell_4_stage g dp ds path v st jd tr o :
  eval (Notebook_DockStream.ed_dict_display g dp ds) [] = (v, st) ->
  snapshot st v = Some jd ->
  ends_as (Notebook_DockStream.cell_4 g dp ds path []) (tt, st) tr o ->
  ends_as (with_open path (fun f => request (FWrite f (Json.dumps 2 false jd))) st)
    (tt, st) tr o.
Proof.
  intros He Hj. unfold ends_as, Notebook_DockStream.cell_4. intros H.
  apply run_nb_bind in H as [(x & [_ H] & _)|(ed & q1 & t1 & r1 & -> & H1 & H)];
    [done|].
  apply run_new_ok in H1 as [-> H1]. rewrite He in H1. injection H1 as <- <-.
  change ([] ++ r1) with r1.
  eapply (run_with_open_body _ (fun f => json_dump v f 2 false)); [|exact H].
  intros f. by apply json_dump_request.
Qed.

Lemma DockStream_runs tr o :
  run (Notebook_DockStream.notebook []) tr o ->
  exists p name j stages,
    notebook_stages p name j stages /\ seq_run stages tr (exn_of o)
    /\ (forall ns st', o = inr (ns, st') ->
          ns_paths ns = p /\ snapshot st' (configuration ns) = Some j).
Proof.
  unfold Notebook_DockStream.notebook. intros H.
  assert ("RL_DockStream_config.json" ∈ config_names) as Hn.
  { unfold config_names. apply list_elem_of_further, list_elem_of_here. }
  assert (forall p q,
            Notebook_DockStream.docking_configuration_path q
            = os_path_join (output_dir p) ["Glide_DockStream_Conf.json"] ->
            exists v st4 jd,
              eval (Notebook_DockStream.ed_dict_display
                      (Notebook_DockStream.grid_file_path q)
                      (Notebook_DockStream.output_ligands_docked_poses_path q)
                      (Notebook_DockStream.output_ligands_docking_scores_path q)) []
              = (v, st4)
              /\ snapshot st4 v = Some jd
              /\ Forall (fun S => tidy (output_dir p) S /\ silent S)
                   [ ends_as (Notebook_DockStream.cell_2 []) ((p, q), []);
                     ends_as (Notebook_DockStream.cell_4
                              (Notebook_DockStream.grid_file_path q)
                              (Notebook_DockStream.output_ligands_docked_poses_path q)
                              (Notebook_DockStream.output_ligands_docking_scores_path q)
                              (Notebook_DockStream.docking_configuration_path q) [])
                       (tt, st4) ]) as Hpre.
  { intros p q Hq.
    destruct (DockStream_ed_dict
                (Notebook_DockStream.grid_file_path q)
                (Notebook_DockStream.output_ligands_docked_poses_path q)
                (Notebook_DockStream.output_ligands_docking_scores_path q))
      as (v & st4 & jd & He & Hj & _).
    exists v, st4, jd. split; [done|]. split; [done|].
    constructor; [apply quiet_prog_tidy, DockStream_cell_2_quiet|].
    constructor; [|constructor].
    assert (in_folder (output_dir p) (Notebook_DockStream.docking_configuration_path q))
      as Hin.
    { exists "Glide_DockStream_Conf.json". split; [|done].
      unfold written_names. apply elem_of_app. right.
      apply list_elem_of_further, list_elem_of_here. }
    destruct (write_tidy (output_dir p)
                (Notebook_DockStream.docking_configuration_path q)
                (Json.dumps 2 false jd) st4 Hin) as [T1 T2].
    split.
    - eapply tidy_mono; [|exact T1].
      intros t o'. exact (DockStream_cell_4_stage _ _ _ _ v st4 jd t o' He Hj).
    - eapply silent_mono; [|exact T2].
      intros t o'. exact (DockStream_cell_4_stage _ _ _ _ v st4 jd t o' He Hj). }
  apply run_nb_bind in H as [(x & H & ->)|([p q] & q1 & t1 & r1 & -> & H1 & H)].
  - set (p0 := Paths "" "" "" "").
    set (q0 := Notebook_DockStream.DockPaths "" "" "" "" ""
                 (os_path_join "" ["Glide_DockStream_Conf.json"])).
    destruct (Hpre p0 q0 eq_refl) as (v & st4 & jd & He & Hj4 & Hp).
    destruct (DockStream_build p0 q0) as (conf & st & j & _ & Hj & _ & Hd & Hk & _).
    eapply (stages_intro _ p0 conf st j _ "" [] (head_memory "15" "") ""); try done.
    apply seq_run_app_fail. by apply seq_fail.
  - pose proof H1 as H1'. apply DockStream_cell_2_ok in H1' as [-> _].
    pose proof (DockStream_cell_2_paths _ _ _ _ _ H1) as Hq.
    destruct (Hpre p q Hq) as (v & st4 & jd & He & Hj4 & Hp).
    destruct (DockStream_build p q) as (conf & st & j & Hr & Hj & _ & Hd & Hk & _).
    rewrite He in Hr. cbn [snd] in Hr.
    apply run_nb_bind in H as [(x & H & ->)|(u & q2 & t2 & r2 & -> & H2 & H)].
    { eapply (stages_intro _ p conf st j _ "" [] (head_memory "15" "") ""); try done.
      apply seq_run_app_fail. apply seq_step; [exact H1|].
      apply seq_fail.
      exact H. }
    pose proof H2 as H2'. apply DockStream_cell_4_ok in H2' as (-> & _).
    rewrite He in H2. cbn [snd] in H2. rewrite He in H. cbn [snd] in H. destruct u.
    apply run_nb_bind in H as [(x & H & ->)|(c & q3 & t3 & r3 & -> & H3 & H)].
    { by destruct (run_pure _ _ _ _ _ Hr H). }
    destruct (run_pure _ _ _ _ _ Hr H3) as [-> [= -> ->]].
    pose proof H as Hfin.
    apply (finish_rl_runs p conf "RL_DockStream_config.json" None
             (head_memory "15" (output_dir p))) in H as (out & shown & ho & H).
    change ([] ++ r3) with r3. rewrite (app_assoc t1 t2).
    eapply (stages_intro _ p conf st j _ out shown
              (head_memory "15" (output_dir p)) ho); try done.
    + apply (seq_run_app [_; _]); [|exact H].
      apply seq_step; [exact H1|].
      rewrite <- (app_nil_r t2). apply seq_step; [exact H2|apply seq_done].
    + intros ns st' ->. by apply finish_rl_ok in Hfin as (-> & -> & -> & _).
Qed.

(** ** All notebooks *)

Lemma all_notebooks_runs nbk tr o :
  nbk ∈ all_notebooks -> run (nbk []) tr o ->
  exists p name j stages,
    notebook_stages p name j stages /\ seq_run stages tr (exn_of o)
    /\ (forall ns st', o = inr (ns, st') ->
          ns_paths ns = p /\ snapshot st' (configuration ns) = Some j).
Proof.
  unfold all_notebooks, rl_notebooks. simpl. intros Hin H.
  repeat (apply elem_of_cons in Hin as [->|Hin]).
  - apply (rl_notebook_runs _ Notebook_DRD2.build "DRD2_config.json" _
             (fun od => "head -n 3 " +:+ od +:+ "/results/scaffold_memory.csv"))
      in H; [exact H| |apply list_elem_of_here|done].
    intros p. destruct (DRD2_build p) as (c & s & j & ? & ? & _ & ? & ? & _).
    exists c, s, j. repeat split; assumption.
  - exact (DockStream_runs _ _ H).
  - apply (rl_notebook_runs _ Notebook_Tanimoto.build "RL_config.json" _
             (head_memory "15")) in H;
      [exact H| |do 2 apply list_elem_of_further; apply list_elem_of_here|done].
    intros p. destruct (Tanimoto_build p) as (c & s & j & ? & ? & _ & ? & ? & _).
    exists c, s, j. repeat split; assumption.
  - apply (rl_notebook_runs _ Notebook_Selectivity.build "RL_config.json" _
             (head_memory "15")) in H;
      [exact H| |do 2 apply list_elem_of_further; apply list_elem_of_here|done].
    intros p. destruct (Selectivity_build p) as (c & s & j & ? & ? & _ & ? & ? & _).
    exists c, s, j. repeat split; assumption.
  - apply (rl_notebook_runs _ Notebook_Exploration.build "RL_config.json" _
             (head_memory "15")) in H;
      [exact H| |do 2 apply list_elem_of_further; apply list_elem_of_here|done].
    intros p. destruct (Exploration_build p) as (c & s & j & ? & ? & _ & ? & ? & _).
    exists c, s, j. repeat split; assumption.
  - apply (sampling_notebook_runs _ Notebook_Sampling.build "sampling_config.json"
             (fun od => "head -n 15 " +:+ od +:+ "/sampled/sampled.smi")) in H;
      [exact H| |do 3 apply list_elem_of_further; apply list_elem_of_here|done].
    intros p. destruct (Sampling_build p) as (c & s & j & ? & ? & _ & ? & ? & _).
    exists c, s, j. repeat split; assumption.
  - by apply elem_of_nil in Hin.
Qed.

Lemma closes_ok_app tr1 tr2 : closes_ok (tr1 ++ tr2) <-> closes_ok tr1 /\ closes_ok tr2.
Proof. unfold closes_ok. rewrite forallb_app. apply andb_true_iff. Qed.

Lemma tidy_seq_run folder stages tr o :
  Forall (tidy folder) stages -> seq_run stages tr o ->
  (forall x, o = Some x -> answered_with tr x)
  /\ (forall s, o = None \/ closes_ok tr -> opened s = [] ->
        opened (fold_left fstep tr s) = [])
  /\ Forall (in_folder folder) (opens tr).
Proof.
  intros HF H. induction H as [|S r t y Hs|S r t1 t2 o Hs H IH].
  - split; [done|]. split; [done|constructor].
  - apply Forall_cons in HF as [(T1 & T2 & T3) _].
    split; [intros x [= <-]; by apply T1|].
    split; [|by apply (T3 t (Some y))].
    intros s [Hc|Hc] Hop; [done|]. apply (T2 t (Some y)); auto.
  - apply Forall_cons in HF as [(T1 & T2 & T3) HF].
    destruct (IH HF) as (I1 & I2 & I3).
    split; [intros x Hx; by apply answered_app, I1|].
    split.
    + intros s Hc Hop. rewrite fold_left_app. apply I2.
      * destruct Hc as [Hc|Hc]; [by left|]. right.
        by apply closes_ok_app in Hc as [_ Hc].
      * apply (T2 t1 None); auto.
    + unfold opens. rewrite omap_app. apply Forall_app. split; [|exact I3].
      by apply (T3 t1 None).
Qed.

Lemma notebook_stages_tidy p name j stages :
  notebook_stages p name j stages -> Forall (tidy (output_dir p)) stages.
Proof.
  intros (pre & conf & st & out & shown & hc & ho
          & -> & Hpre & Hj & _ & _ & Hn & _).
  apply Forall_app. split.
  - eapply Forall_impl; [exact Hpre|]. by intros S [H _].
  - by eapply finish_stages_tidy.
Qed.

(** ** The first command of a run *)

Lemma first_command a a' c c' (r r' : exn + string) b b' :
  commands a = [] -> commands a' = [] ->
  a ++ Obs (System c) r :: b = a' ++ Obs (System c') r' :: b' ->
  a = a' /\ c = c'.
Proof.
  revert a'. induction a as [|y a IH]; intros [|y' a'] Ha Ha' E; simpl in E.
  - split; [done|]. apply (f_equal (fun l => commands (take 1 l))) in E.
    by injection E.
  - injection E as E _. subst y'. discriminate Ha'.
  - injection E as E _. subst y. discriminate Ha.
  - injection E as -> E.
    assert (obs_command y' = None) as Hy.
    { unfold commands in Ha. simpl in Ha. by destruct (obs_command y'). }
    unfold commands in Ha, Ha'. simpl in Ha, Ha'. rewrite Hy in Ha, Ha'.
    destruct (IH a' Ha Ha' E) as [-> ->]. done.
Qed.

Lemma pre_stages_silent folder pre fin tr o :
  Forall (fun S => tidy folder S /\ silent S) pre ->
  seq_run (pre ++ fin) tr o ->
  (commands tr = [] /\ o <> None)
  \/ exists t1 t2,
       tr = t1 ++ t2 /\ commands t1 = []
       /\ (forall s, opened s = [] -> opened (fold_left fstep t1 s) = [])
       /\ seq_run fin t2 o.
Proof.
  intros HF. revert tr. induction HF as [|S pre [(T1 & T2 & T3) Hs] HF IH];
    intros tr H.
  - right. by exists [], tr.
  - simpl in H. inversion H as [|S' r t y H1|S' r t1 t2 o' H1 H2]; subst.
    + left. split; [by apply (Hs tr (Some y))|done].
    + apply IH in H2 as [[H2 Hno]|(u1 & u2 & -> & Hc & Ho & H2)].
      * left. split; [|exact Hno]. unfold commands in *. rewrite omap_app, H2.
        fold (commands t1). by rewrite (Hs t1 None).
      * right. exists (t1 ++ u1), u2. split; [by rewrite app_assoc|].
        split; [|split; [|done]].
        -- unfold commands in *. rewrite omap_app, Hc.
           fold (commands t1). by rewrite (Hs t1 None).
        -- intros s Hop. rewrite fold_left_app. apply Ho.
           apply (T2 t1 None); auto.
Qed.

Lemma finish_stages_launch p conf st j name out shown head_cmd head_out tr o :
  snapshot st conf = Some j ->
  seq_run (finish_stages p conf st name out shown head_cmd head_out) tr o ->
  commands tr = []
  \/ exists f r rest,
       tr = [ Obs (OpenW (os_path_join (output_dir p) [name])) (inr f);
              Obs (FWrite f (Json.dumps 4 true j)) (inr tt);
              Obs (FClose f) (inr tt) ]
            ++ Obs (System (reinvent_command p (os_path_join (output_dir p) [name]))) r
               :: rest.
Proof.
  intros Hj H. unfold finish_stages in H.
  inversion H as [|S' r t y H1|S' r t1 t2 o' H1 H2]; subst.
  - left. apply (write_configuration_stage _ _ _ _ j) in H1; [|done].
    by apply write_silent in H1.
  - right. apply write_configuration_ok in H1 as (_ & _ & f & j' & Hj' & ->).
    rewrite Hj in Hj'. injection Hj' as <-. exists f.
    inversion H2 as [|S' r' t y H3|S' r' t3 t4 o'' H3 H4]; subst.
    + apply run_request in H3 as (r0 & -> & _). by exists r0, [].
    + apply run_request in H3 as (r0 & -> & _). by exists r0, t4.
Qed.
(** ** The commands of a run *)

Lemma finish_stages_commands p conf st j name out shown head_cmd head_out tr o :
  snapshot st conf = Some j ->
  seq_run (finish_stages p conf st name out shown head_cmd head_out) tr o ->
  (o = None ->
   commands tr = [reinvent_command p (os_path_join (output_dir p) [name]); head_cmd])
  /\ (commands tr = []
      \/ commands tr = [reinvent_command p (os_path_join (output_dir p) [name])]
      \/ commands tr
         = [reinvent_command p (os_path_join (output_dir p) [name]); head_cmd]).
Proof.
  intros Hj H. unfold finish_stages in H.
  inversion H as [|S1 r1 t y H1|S1 r1 t1 u1 o1 H1 H2]; subst.
  { split; [done|]. left.
    apply (write_configuration_stage _ _ _ _ j) in H1; [|done].
    by apply write_silent in H1. }
  assert (commands t1 = []) as C1.
  { apply (write_configuration_stage _ _ _ _ j) in H1; [|done].
    by apply write_silent in H1. }
  inversion H2 as [|S2 r2 t y H3|S2 r2 t2 u2 o2 H3 H4]; subst.
  { apply run_request in H3 as (r0 & -> & _). split; [done|]. right. left.
    unfold commands in *. by rewrite omap_app, C1. }
  apply run_request in H3 as (r0 & -> & _).
  inversion H4 as [|S3 r3 t y H5|S3 r3 t3 u3 o3 H5 H6]; subst.
  { apply write_silent in H5. split; [done|]. right. left.
    unfold commands in *. rewrite !omap_app, C1, H5. done. }
  apply write_silent in H5.
  inversion H6 as [|S4 r4 t y H7|S4 r4 t4 u4 o4 H7 H8]; subst.
  { apply (proj2 (print_all_tidy "" shown st)) in H7.
    split; [done|]. right. left.
    unfold commands in *. rewrite !omap_app, C1, H5, H7. done. }
  apply (proj2 (print_all_tidy "" shown st)) in H7.
  assert (commands u4 = [head_cmd]) as C5.
  { inversion H8 as [|S5 r5 t y H9|S5 r5 t5 u5 o5 H9 H10]; subst.
    - by apply run_request in H9 as (r9 & -> & _).
    - apply run_request in H9 as (r9 & -> & _).
      inversion H10; subst. done. }
  assert (commands (t1 ++ [Obs (System (reinvent_command p
                                           (os_path_join (output_dir p) [name]))) r0]
                      ++ t3 ++ t4 ++ u4)
          = [reinvent_command p (os_path_join (output_dir p) [name]); head_cmd])
    as C.
  { unfold commands in *. rewrite !omap_app, C1, H5, H7, C5. done. }
  split; [done|]. right. right. exact C.
Qed.

Lemma config_names_plain name :
  name ∈ config_names -> PyStr.startswith name "/" = false /\ name <> "run.err".
Proof.
  unfold config_names. intros H.
  repeat (apply elem_of_cons in H as [->|H]); try (by split).
  by apply elem_of_nil in H.
Qed.

Lemma map_snd_enumerate {A} n (l : list A) : map snd (enumerate n l) = l.
Proof. revert n. induction l as [|x l IH]; intros n; simpl; [done|]. by rewrite IH. Qed.

Lemma select_from_sublist idxs (l : list string) n :
  sublist (map snd (List.filter (fun p => py_in (fst p) idxs) (enumerate n l))) l.
Proof.
  revert n. induction l as [|x l IH]; intros n; simpl; [constructor|].
  destruct (py_in n idxs); simpl.
  - apply sublist_skip, IH.
  - apply sublist_cons, IH.
Qed.

Lemma select_from_ext idxs idxs' (l : list string) n :
  (forall i, n <= i < n + length l -> py_in i idxs = py_in i idxs') ->
  map snd (List.filter (fun p => py_in (fst p) idxs) (enumerate n l))
  = map snd (List.filter (fun p => py_in (fst p) idxs') (enumerate n l)).
Proof.
  revert n. induction l as [|x l IH]; intros n H; simpl; [done|].
  rewrite <- (H n) by (simpl; lia).
  assert (Hrest := IH (S n) (fun i Hi => H i ltac:(simpl; lia))).
  destruct (py_in n idxs); simpl; by rewrite Hrest.
Qed.

Lemma select_from_elem idxs (l : list string) n x :
  x ∈ map snd (List.filter (fun p => py_in (fst p) idxs) (enumerate n l))
  <-> exists i, i ∈ idxs /\ n <= i /\ l !! (i - n) = Some x.
Proof.
  revert n. induction l as [|y l IH]; intros n; simpl.
  - split; [by intros ?%elem_of_nil|]. by intros (i & _ & _ & ?).
  - assert ((exists i, i ∈ idxs /\ S n <= i /\ l !! (i - S n) = Some x)
            <-> (exists i, i ∈ idxs /\ n <= i /\ i <> n
                           /\ (y :: l) !! (i - n) = Some x)) as E.
    { split; intros (i & Hi & Hn & H).
      - exists i. split; [done|]. split; [lia|]. split; [lia|].
        replace (i - n) with (S (i - S n)) by lia. done.
      - destruct H as [Hne H]. exists i. split; [done|]. split; [lia|].
        replace (i - n) with (S (i - S n)) in H by lia. done. }
    destruct (py_in n idxs) eqn:Hp; simpl.
    + rewrite elem_of_cons, IH, E. apply py_in_spec in Hp. split.
      * intros [->|(i & Hi & Hn & _ & H)].
        -- exists n. split; [done|]. split; [done|]. by rewrite Nat.sub_diag.
        -- by exists i.
      * intros (i & Hi & Hn & H). destruct (decide (i = n)) as [->|Hne].
        -- left. rewrite Nat.sub_diag in H. by injection H.
        -- right. by exists i.
    + rewrite IH, E. split.
      * intros (i & Hi & Hn & _ & H). by exists i.
      * intros (i & Hi & Hn & H). exists i. split; [done|]. split; [done|].
        split; [|done]. intros ->. apply py_in_spec in Hi. congruence.
Qed.

(** ** Plain text *)

Lemma plain_text_app a b : plain_text a -> plain_text b -> plain_text (a +:+ b).
Proof. unfold plain_text. rewrite chars_app. apply Forall_app_2. Qed.

Lemma plain_text_cons c s :
  plain_ascii c = true -> plain_text s -> plain_text (String c s).
Proof. intros Hc Hs. by constructor. Qed.

Lemma plain_text_nil : plain_text "".
Proof. constructor. Qed.

Lemma plain_escape_char_check c :
  forallb plain_ascii (chars (Json.escape_char c)) = true.
Proof. destruct c as [[] [] [] [] [] [] [] []]; vm_compute; reflexivity. Qed.

Lemma plain_escape_char c : plain_text (Json.escape_char c).
Proof.
  unfold plain_text. apply Forall_forall. intros x Hx.
  apply list_elem_of_In in Hx.
  exact (proj1 (forallb_forall _ _) (plain_escape_char_check c) x Hx).
Qed.

Lemma plain_escape s : plain_text (Json.escape s).
Proof.
  induction s as [|c s IH]; simpl; [constructor|].
  apply plain_text_app; [apply plain_escape_char|exact IH].
Qed.

Lemma plain_encode_str s : plain_text (Json.encode_str s).
Proof.
  unfold Json.encode_str. apply plain_text_cons; [done|].
  apply plain_text_app; [apply plain_escape|]. by repeat constructor.
Qed.

Lemma plain_uint_empty d : plain_text (NilEmpty.string_of_uint d).
Proof. induction d; simpl; try constructor; done. Qed.

Lemma plain_uint_zero d : plain_text (NilZero.string_of_uint d).
Proof.
  destruct d; try apply plain_uint_empty. by repeat constructor.
Qed.

Lemma plain_int_repr z : plain_text (Json.int_repr z).
Proof.
  unfold Json.int_repr, NilZero.string_of_int.
  destruct (Z.to_int z) as [d|d].
  - apply plain_uint_zero.
  - apply plain_text_cons; [done|]. apply plain_uint_zero.
Qed.

Lemma plain_float_repr f : plain_text (Json.float_repr f).
Proof.
  unfold Json.float_repr.
  apply plain_text_app; [destruct (f_neg f); by repeat constructor|].
  apply plain_text_app; [apply plain_uint_zero|].
  apply plain_text_cons; [done|]. apply plain_uint_empty.
Qed.

Lemma plain_spaces n : plain_text (Json.spaces n).
Proof. induction n; simpl; [constructor|by apply plain_text_cons]. Qed.

Lemma plain_newline_indent indent level :
  plain_text (Json.newline_indent indent level).
Proof. apply plain_text_cons; [done|apply plain_spaces]. Qed.

Lemma plain_join sep chunks :
  plain_text sep -> Forall plain_text chunks ->
  plain_text (PyStr.str_join sep chunks).
Proof.
  intros Hsep. induction 1 as [|a chunks Ha H IH]; [constructor|].
  destruct chunks as [|b chunks]; [exact Ha|].
  rewrite join_cons. apply plain_text_app; [exact Ha|].
  by apply plain_text_app.
Qed.

Lemma plain_iterencode_list indent level chunks :
  Forall plain_text chunks ->
  plain_text (Json.iterencode_list indent level chunks).
Proof.
  intros H. unfold Json.iterencode_list.
  destruct chunks as [|a chunks]; [by repeat constructor|].
  apply plain_text_cons; [done|].
  apply plain_text_app; [apply plain_newline_indent|].
  apply plain_text_app.
  - apply plain_join; [|exact H].
    apply plain_text_cons; [done|apply plain_newline_indent].
  - apply plain_text_app; [apply plain_newline_indent|by repeat constructor].
Qed.

Lemma plain_iterencode_dict indent sort level (items : list (string * string)) :
  Forall (fun kv => plain_text (snd kv)) items ->
  plain_text (Json.iterencode_dict indent sort level items).
Proof.
  intros H. unfold Json.iterencode_dict.
  destruct items as [|a items]; [by repeat constructor|].
  apply plain_text_cons; [done|].
  apply plain_text_app; [apply plain_newline_indent|].
  apply plain_text_app.
  - apply plain_join.
    { apply plain_text_cons; [done|apply plain_newline_indent]. }
    apply Forall_map.
    assert (Forall (fun kv : string * string => plain_text (snd kv))
              (if sort then Json.sorted_items (a :: items) else a :: items)) as H'.
    { destruct sort; [|exact H]. by rewrite sorted_items_perm. }
    eapply Forall_impl; [exact H'|]. intros kv Hkv. simpl.
    apply plain_text_app; [apply plain_encode_str|].
    apply plain_text_app; [by repeat constructor|exact Hkv].
  - apply plain_text_app; [apply plain_newline_indent|by repeat constructor].
Qed.

Lemma plain_encode indent sort j :
  forall level, plain_text (Json.encode indent sort level j).
Proof.
  induction j as [ |b|z|f|s|l IH|d IH] using json_tree_ind; intros level.
  - by repeat constructor.
  - destruct b; by repeat constructor.
  - apply plain_int_repr.
  - apply plain_float_repr.
  - apply plain_encode_str.
  - simpl. apply plain_iterencode_list. apply Forall_map.
    eapply Forall_impl; [exact IH|]. intros x Hx. apply Hx.
  - simpl. apply plain_iterencode_dict. apply Forall_map.
    eapply Forall_impl; [exact IH|]. intros x Hx. apply Hx.
Qed.

(** ** The lines of a text *)

Lemma splitlines_go_lines s :
  forall cur,
    Forall (fun c => Lines.is_linebreak c = false) cur ->
    Forall (Forall (fun c => Lines.is_linebreak c = false))
      (Lines.splitlines_go cur s).
Proof.
  induction s as [s IH] using (induction_ltof1 _ (@length ascii)).
  unfold ltof in IH. intros cur Hcur.
  destruct s as [|c s]; simpl.
  - destruct cur as [|a cur]; [constructor|].
    constructor; [exact Hcur|constructor].
  - destruct (Lines.is_linebreak c) eqn:Hc.
    + constructor; [exact Hcur|].
      destruct s as [|c' s]; [constructor|].
      destruct (Ascii.eqb c "013" && Ascii.eqb c' "010")%bool.
      * apply IH; [simpl; lia|constructor].
      * apply IH; [simpl; lia|constructor].
    + apply IH; [simpl; lia|]. apply Forall_app_2; [exact Hcur|].
      by repeat constructor.
Qed.

Lemma Forall_removelast {A} (P : A -> Prop) l :
  Forall P l -> Forall P (removelast l).
Proof.
  induction 1 as [|x l Hx H IH]; simpl; [constructor|].
  destruct l; [constructor|]. by constructor.
Qed.

Lemma join_chars (P : ascii -> Prop) sep lines :
  Forall P (chars sep) -> Forall (fun l => Forall P (chars l)) lines ->
  Forall P (chars (PyStr.str_join sep lines)).
Proof.
  intros Hsep. induction 1 as [|a lines Ha H IH]; [constructor|].
  destruct lines as [|b lines]; [exact Ha|].
  rewrite join_cons, !chars_app. apply Forall_app_2; [exact Ha|].
  by apply Forall_app_2.
Qed.

(** ** Trees with the same sorted form *)

Lemma dict_getitem_NoDup {V} k (v : V) l :
  NoDup (map fst l) -> (k, v) ∈ l -> dict_getitem k l = Some v.
Proof.
  induction l as [|[k' v'] l IH]; simpl; intros Hnd Hin.
  - by apply elem_of_nil in Hin.
  - apply NoDup_cons in Hnd as [Hk Hnd].
    apply elem_of_cons in Hin as [[= -> ->]|Hin].
    + by rewrite String.eqb_refl.
    + destruct (String.eqb_spec k' k) as [->|Hne]; [|by apply IH].
      destruct Hk. apply list_elem_of_fmap. by exists (k, v).
Qed.

Lemma sorted_tree_same_value a :
  forall b,
    distinct_keys a = true -> distinct_keys b = true ->
    sorted_tree a = sorted_tree b -> same_value a b = true.
Proof.
  induction a as [ |x|x|x|x|l IH|d IH] using json_tree_ind;
    intros b Ha Hb E.
  - destruct b; simpl in E; try discriminate E. done.
  - destruct b; simpl in E; try discriminate E. injection E as <-.
    simpl. by destruct x.
  - destruct b; simpl in E; try discriminate E. injection E as <-.
    simpl. apply Z.eqb_refl.
  - destruct b; simpl in E; try discriminate E. injection E as <-.
    simpl. by apply bool_decide_eq_true.
  - destruct b; simpl in E; try discriminate E. injection E as <-.
    simpl. apply String.eqb_refl.
  - destruct b as [| | | | |l'|]; simpl in E; try discriminate E.
    injection E as E.
    apply distinct_keys_list in Ha. apply distinct_keys_list in Hb.
    apply same_value_list_spec.
    revert l' Hb E. induction IH as [|x l Hx _ IHl]; intros l' Hb E.
    + destruct l'; [constructor|discriminate E].
    + destruct l' as [|y l']; [discriminate E|]. simpl in E.
      injection E as E1 E2.
      apply Forall_cons in Ha as [Hax Ha]. apply Forall_cons in Hb as [Hby Hb].
      constructor; [by apply Hx|by apply IHl].
  - destruct b as [| | | | | |d']; simpl in E; try discriminate E.
    injection E as E.
    apply distinct_keys_dict in Ha as [Hnd Ha].
    apply distinct_keys_dict in Hb as [Hnd' Hb].
    assert (map (fun kv : string * json => (fst kv, sorted_tree (snd kv))) d
            ≡ₚ map (fun kv : string * json => (fst kv, sorted_tree (snd kv))) d')
      as Hp.
    { by rewrite <- (sorted_items_perm (map _ d)), E, sorted_items_perm. }
    apply same_value_dict_spec. split.
    { apply Permutation_length in Hp. by rewrite !length_map in Hp. }
    rewrite Forall_forall in IH, Ha, Hb. apply Forall_forall.
    intros [k v] Hin. simpl.
    assert ((k, sorted_tree v)
            ∈ map (fun kv : string * json => (fst kv, sorted_tree (snd kv))) d')
      as Hin'.
    { rewrite <- Hp. apply list_elem_of_fmap. by exists (k, v). }
    apply list_elem_of_fmap in Hin' as ([k' v'] & [= <- Ev] & Hin').
    exists v'. split; [by apply dict_getitem_NoDup|].
    apply (IH _ Hin); [apply (Ha _ Hin)|apply (Hb _ Hin')|exact Ev].
Qed.

(** ** Joining plain components *)

Lemma endswith_sep_app a b : b <> "" -> endswith_sep (a +:+ b) = endswith_sep b.
Proof.
  intros Hb. induction a as [|c a IH]; [done|].
  change (endswith_sep (String c (a +:+ b)) = endswith_sep b).
  rewrite <- IH. simpl. destruct (a +:+ b) eqn:E; [|done].
  destruct a; [by destruct Hb|discriminate E].
Qed.

Lemma join_step_plain a b :
  a <> "" -> endswith_sep a = false -> PyStr.startswith b "/" = false ->
  join_step a b = a +:+ "/" +:+ b.
Proof.
  intros Ha He Hb. unfold join_step. rewrite Hb, He.
  destruct (String.eqb_spec a ""); [done|]. reflexivity.
Qed.

Lemma append_assoc (a b c : string) : (a +:+ b) +:+ c = a +:+ (b +:+ c).
Proof.
  induction a as [|x a IH]; [done|].
  change (String x ((a +:+ b) +:+ c) = String x (a +:+ b +:+ c)).
  by rewrite IH.
Qed.

Lemma append_nil_r (a : string) : a +:+ "" = a.
Proof.
  induction a as [|x a IH]; [done|].
  change (String x (a +:+ "") = String x a). by rewrite IH.
Qed.

(** ** The entries that name the result files *)

Ltac run_entry :=
  eexists _, _, _;
  split; [vm_compute; reflexivity|];
  split; vm_compute; reflexivity.

Lemma DRD2_result_folder p :
  exists conf st j,
    pure_run (Notebook_DRD2.build p) [] = Some (conf, st)
    /\ snapshot st conf = Some j
    /\ json_get_path ["logging"; "result_folder"] j
       = Some (JStr (os_path_join (output_dir p) ["results"])).
Proof. run_entry. Qed.

Lemma Tanimoto_result_folder p :
  exists conf st j,
    pure_run (Notebook_Tanimoto.build p) [] = Some (conf, st)
    /\ snapshot st conf = Some j
    /\ json_get_path ["logging"; "result_folder"] j
       = Some (JStr (os_path_join (output_dir p) ["results"])).
Proof. run_entry. Qed.

Lemma Selectivity_result_folder p :
  exists conf st j,
    pure_run (Notebook_Selectivity.build p) [] = Some (conf, st)
    /\ snapshot st conf = Some j
    /\ json_get_path ["logging"; "result_folder"] j
       = Some (JStr (os_path_join (output_dir p) ["results"])).
Proof. run_entry. Qed.

Lemma Exploration_result_folder p :
  exists conf st j,
    pure_run (Notebook_Exploration.build p) [] = Some (conf, st)
    /\ snapshot st conf = Some j
    /\ json_get_path ["logging"; "result_folder"] j
       = Some (JStr (os_path_join (output_dir p) ["results"])).
Proof. run_entry. Qed.

Lemma Sampling_output_path p :
  exists conf st j,
    pure_run (Notebook_Sampling.build p) [] = Some (conf, st)
    /\ snapshot st conf = Some j
    /\ json_get_path ["parameters"; "output_smiles_path"] j
       = Some (JStr (os_path_join (output_dir p) ["sampled"; "sampled.smi"])).
Proof. run_entry. Qed.

Lemma DockStream_entries p q :
  exists conf st j,
    pure_run (Notebook_DockStream.build p q)
      (eval (Notebook_DockStream.ed_dict_display
               (Notebook_DockStream.grid_file_path q)
               (Notebook_DockStream.output_ligands_docked_poses_path q)
               (Notebook_DockStream.output_ligands_docking_scores_path q)) []).2
    = Some (conf, st)
    /\ snapshot st conf = Some j
    /\ json_get_path ["logging"; "result_folder"] j
       = Some (JStr (os_path_join (output_dir p) ["results"]))
    /\ json_at dockstream_configuration_path j
       = Some (JStr (Notebook_DockStream.docking_configuration_path q)).
Proof.
  eexists _, _, _.
  split; [vm_compute; reflexivity|].
  split; [vm_compute; reflexivity|].
  split; vm_compute; reflexivity.
Qed.

(** The complete runs of the DockStream notebook, with its first file. *)
Lemma DockStream_files tr ns st :
  run (Notebook_DockStream.notebook []) tr (inr (ns, st)) ->
  exists q v st0 jd j,
    eval (Notebook_DockStream.ed_dict_display
            (Notebook_DockStream.grid_file_path q)
            (Notebook_DockStream.output_ligands_docked_poses_path q)
            (Notebook_DockStream.output_ligands_docking_scores_path q)) []
    = (v, st0)
    /\ snapshot st0 v = Some jd
    /\ pure_run (Notebook_DockStream.build (ns_paths ns) q) st0
       = Some (configuration ns, st)
    /\ Notebook_DockStream.docking_configuration_path q
       = os_path_join (output_dir (ns_paths ns)) ["Glide_DockStream_Conf.json"]
    /\ file_content tr (Notebook_DockStream.docking_configuration_path q)
       = Some (Json.dumps 2 false jd)
    /\ complete_run "RL_DockStream_config.json" (head_memory "15") j tr ns st.
Proof.
  unfold Notebook_DockStream.notebook. intros H.
  apply run_nb_bind_ok in H as ([p q] & s1 & t1 & t & -> & H1 & H).
  assert (Hq := DockStream_cell_2_paths _ _ _ _ _ H1).
  apply DockStream_cell_2_ok in H1 as [-> Q].
  apply run_nb_bind_ok in H as (u & s1 & t2 & t3 & -> & H1 & H).
  unfold Notebook_DockStream.cell_4 in H1.
  apply run_nb_bind_ok in H1 as (ed & s2 & t6 & t7 & -> & H0 & H1).
  apply run_new_ok in H0 as [-> He].
  apply run_with_open_ok in H1 as (f & t8 & -> & H1).
  apply run_json_dump_ok in H1 as (jd & Hjd & -> & ->).
  apply run_nb_bind_ok in H as (conf & s1 & t4 & t5 & -> & H1 & H).
  destruct (DockStream_build p q) as (c & s & j & Hb & Hj & Hs & Hd & Hk & Hfl).
  rewrite He in Hb. simpl in Hb.
  destruct (run_pure _ _ _ _ _ Hb H1) as [-> Heq]. injection Heq as -> ->.
  apply (finish_rl_ok p c "RL_DockStream_config.json" None
           (head_memory "15" (output_dir p))) in H
    as (-> & Hp & Hc & Hpath & Hl & Hda & f1 & f2 & ho & j' & Hj' & ->).
  rewrite Hj in Hj'. injection Hj' as <-. subst p c.
  exists q, ed, s2, jd, j.
  split; [exact He|]. split; [exact Hjd|]. split; [exact Hb|].
  split; [exact Hq|].
  set (pre := t1 ++ [ Obs (OpenW (Notebook_DockStream.docking_configuration_path q)) (inr f);
                      Obs (FWrite f (Json.dumps 2 false jd)) (inr tt);
                      Obs (FClose f) (inr tt) ]).
  assert (fold_left fstep pre (FState [] [])
          = FState [] [(Notebook_DockStream.docking_configuration_path q,
                        Json.dumps 2 false jd)]) as Hpre.
  { unfold pre. rewrite fold_left_app, (quiet_fold t1) by exact Q.
    by rewrite fstate_session. }
  match goal with
  | |- context [file_content ?t _] =>
      assert (t = pre ++ tail_trace (ns_paths ns) (configuration_JSON_path ns)
                      (Json.dumps 4 true j) (captured_err_stream ns) f1 f2
                      (default [] (data ns))
                      (head_memory "15" (output_dir (ns_paths ns))) ho) as ->
  end.
  { unfold pre. rewrite <- !app_assoc. reflexivity. }
  split.
  - unfold file_content, fstate_after. rewrite fold_left_app, Hpre.
    rewrite fstate_tail by done. cbn [contents].
    rewrite !dict_getitem_setitem_ne.
    + apply (dict_getitem_setitem_eq _ _ []).
    + rewrite Hpath, Hq. intros E. apply os_path_join_inj in E; done.
    + rewrite Hq. intros E. apply os_path_join_inj in E; done.
  - split; [exact Hpath|]. split; [exact Hj|].
    exists pre, f1, f2, ho.
    split; [reflexivity|].
    split; [|split].
    + unfold pre, commands. rewrite omap_app. fold (commands t1).
      rewrite quiet_commands by exact Q. reflexivity.
    + unfold pre, printed. rewrite omap_app. fold (printed t1).
      rewrite quiet_printed by exact Q. reflexivity.
    + unfold fstate_after. by rewrite Hpre.
Qed.

Lemma complete_run_last name head j tr ns st :
  complete_run name head j tr ns st ->
  exists out,
    last tr = Some (Obs (System (head (output_dir (ns_paths ns)))) (inr out)).
Proof.
  intros (_ & _ & pre & f1 & f2 & ho & -> & _). exists ho.
  unfold tail_trace. rewrite !app_assoc. apply last_snoc.
Qed.

Lemma results_path od file :
  od <> "" -> endswith_sep od = false ->
  od +:+ "/results/" +:+ file = os_path_join od ["results"] +:+ "/" +:+ file.
Proof.
  intros Ho He. unfold os_path_join. simpl.
  rewrite join_step_plain by done. by rewrite !append_assoc.
Qed.

Lemma sampled_path od :
  od <> "" -> endswith_sep od = false ->
  od +:+ "/sampled/sampled.smi" = os_path_join od ["sampled"; "sampled.smi"].
Proof.
  intros Ho He. unfold os_path_join. simpl.
  rewrite (join_step_plain od) by done.
  rewrite join_step_plain; [by rewrite !append_assoc| | |done].
  - by destruct od.
  - by rewrite endswith_sep_app.
Qed.

Lemma head_results n file od (out : string) :
  od <> "" -> endswith_sep od = false ->
  Some (Obs (System ("head -n " +:+ n +:+ " " +:+ od +:+ "/results/" +:+ file))
            (inr out))
  = Some (Obs (System ("head -n " +:+ n +:+ " "
                       +:+ os_path_join od ["results"] +:+ "/" +:+ file))
              (inr out)).
Proof. intros Ho He. by rewrite results_path. Qed.

Lemma head_sampled n od (out : string) :
  od <> "" -> endswith_sep od = false ->
  Some (Obs (System ("head -n " +:+ n +:+ " " +:+ od +:+ "/sampled/sampled.smi"))
            (inr out))
  = Some (Obs (System ("head -n " +:+ n +:+ " "
                       +:+ os_path_join od ["sampled"; "sampled.smi"] +:+ ""))
              (inr out)).
Proof. intros Ho He. by rewrite append_nil_r, sampled_path. Qed.

Ltac growth_step :=
  eexists _, _, _;
  split; [vm_compute; reflexivity|];
  split; [vm_compute; reflexivity|];
  split; [vm_compute; reflexivity|];
  split; vm_compute; reflexivity.

Ltac growth_steps H :=
  match type of H with
  | _ !! ?n = Some _ =>
      destruct n as [|[|[|[|[|[|n]]]]]]; simpl in H; try discriminate H;
      injection H as <- <-; growth_step
  end.

Lemma DockStream_adds p q n path key :
  g_keys (DockStream_growth p q) !! n = Some (path, key) ->
  adds_entry (DockStream_growth p q) n path key.
Proof. intros H. growth_steps H. Qed.

Lemma Tanimoto_adds p n path key :
  g_keys (Tanimoto_growth p) !! n = Some (path, key) ->
  adds_entry (Tanimoto_growth p) n path key.
Proof. intros H. growth_steps H. Qed.

Lemma Selectivity_adds p n path key :
  g_keys (Selectivity_growth p) !! n = Some (path, key) ->
  adds_entry (Selectivity_growth p) n path key.
Proof. intros H. growth_steps H. Qed.

Lemma Exploration_adds p n path key :
  g_keys (Exploration_growth p) !! n = Some (path, key) ->
  adds_entry (Exploration_growth p) n path key.
Proof. intros H. growth_steps H. Qed.

Lemma Sampling_adds p n path key :
  g_keys (Sampling_growth p) !! n = Some (path, key) ->
  adds_entry (Sampling_growth p) n path key.
Proof. intros H. growth_steps H. Qed.

Lemma growths_complete p q g :
  g ∈ in_place_growths p q ->
  pure_run (grown (length (g_keys g)) g) (g_store g)
  = pure_run (g_build g) (g_store g).
Proof.
  unfold in_place_growths. intros H.
  repeat (apply elem_of_cons in H as [->|H]);
    try (vm_compute; reflexivity).
  by apply elem_of_nil in H.
Qed.

Lemma growths_first p q g :
  g ∈ in_place_growths p q ->
  exists j0 j,
    growth_stage 0 g = Some j0
    /\ growth_stage (length (g_keys g)) g = Some j
    /\ Forall (fun q => is_Some (json_get_path q j0)
                        /\ json_get_path q j = json_get_path q j0)
         [ ["version"]; ["run_type"] ].
Proof.
  unfold in_place_growths. intros H.
  repeat (apply elem_of_cons in H as [->|H]);
    try (eexists _, _;
         split; [vm_compute; reflexivity|];
         split; [vm_compute; reflexivity|];
         repeat constructor; vm_compute; eexists; reflexivity).
  by apply elem_of_nil in H.
Qed.

(** ** Displays allocate, and touch nothing that is there *)

Lemma pyexp_tree_ind (P : pyexp -> Prop) :
  P ENone -> (forall b, P (EBool b)) -> (forall z, P (EInt z)) ->
  (forall f, P (EFloat f)) -> (forall s, P (EStr s)) -> (forall v, P (EVar v)) ->
  (forall l, Forall P l -> P (EList l)) ->
  (forall d, Forall (fun kv => P (snd kv)) d -> P (EDict d)) ->
  forall e, P e.
Proof.
  intros Hnone Hbool Hint Hfloat Hstr Hvar Hlist Hdict.
  fix IH 1. intros [ | b | z | f | s | v | l | d ].
  - exact Hnone.
  - apply Hbool.
  - apply Hint.
  - apply Hfloat.
  - apply Hstr.
  - apply Hvar.
  - apply Hlist. induction l as [|x l IHl]; constructor; [apply IH|exact IHl].
  - apply Hdict. induction d as [|[k x] d IHd]; constructor; [apply IH|exact IHd].
Qed.

Lemma eval_extends e : forall st, exists ext, (eval e st).2 = st ++ ext.
Proof.
  induction e as [ |b|z|f|s|v|l IH|d IH] using pyexp_tree_ind; intros st;
    try (exists []; simpl; by rewrite app_nil_r).
  - simpl.
    assert (exists ext,
              ((fix go (es : list pyexp) (st : store) : list pyval * store :=
                  match es with
                  | [] => ([], st)
                  | e :: es' =>
                      let '(v, st1) := eval e st in
                      let '(vs, st2) := go es' st1 in (v :: vs, st2)
                  end) l st).2 = st ++ ext) as [ext Hext].
    { revert st. induction IH as [|e l He _ IHl]; intros st.
      - exists []. simpl. by rewrite app_nil_r.
      - destruct (He st) as [e1 H1]. destruct (eval e st) as [v st1].
        simpl in H1. subst st1.
        destruct (IHl (st ++ e1)) as [e2 H2].
        match goal with
        | H : (?g l (st ++ e1)).2 = _ |- _ => destruct (g l (st ++ e1)) as [vs st2]
        end.
        simpl in H2. subst st2. exists (e1 ++ e2). simpl. by rewrite app_assoc. }
    match goal with
    | H : (?g l st).2 = _ |- _ => destruct (g l st) as [vs st1]
    end.
    simpl in Hext. subst st1. unfold alloc. simpl.
    eexists. by rewrite <- app_assoc.
  - simpl.
    assert (exists ext,
              ((fix go (es : list (string * pyexp)) (st : store)
                  : list (string * pyval) * store :=
                  match es with
                  | [] => ([], st)
                  | (k, e) :: es' =>
                      let '(v, st1) := eval e st in
                      let '(kvs, st2) := go es' st1 in ((k, v) :: kvs, st2)
                  end) d st).2 = st ++ ext) as [ext Hext].
    { revert st. induction IH as [|[k e] d He _ IHd]; intros st.
      - exists []. simpl. by rewrite app_nil_r.
      - simpl in He. destruct (He st) as [e1 H1]. destruct (eval e st) as [v st1].
        simpl in H1. subst st1.
        destruct (IHd (st ++ e1)) as [e2 H2].
        match goal with
        | H : (?g d (st ++ e1)).2 = _ |- _ => destruct (g d (st ++ e1)) as [vs st2]
        end.
        simpl in H2. subst st2. exists (e1 ++ e2). simpl. by rewrite app_assoc. }
    match goal with
    | H : (?g d st).2 = _ |- _ => destruct (g d st) as [vs st1]
    end.
    simpl in Hext. subst st1. unfold alloc. simpl.
    eexists. by rewrite <- app_assoc.
Qed.


(** ** The contract of the cells that fill [parameters] *)

Lemma fills_parameters_intro e key (cell : pyval -> nb unit) :
  key <> "parameters" ->
  (forall configuration st,
     cell configuration st
     = (x ← new e;
        d ← getitem configuration "parameters";
        setitem d key x;;
        mret tt) st) ->
  fills_parameters key cell.
Proof.
  intros Hk Hc conf st. rewrite Hc. clear Hc.
  unfold mbind, nb_bind, new. cbn [bind].
  destruct (eval_extends e st) as [ext Hext].
  destruct (eval e st) as [x st1]. simpl in Hext. subst st1.
  split; [|split; [|split]].
  - intros Hno. destruct conf as [| | | | |l]; try reflexivity.
    destruct Hno as [items Hl]. unfold getitem.
    by rewrite (lookup_app_l_Some _ _ _ _ Hl).
  - intros d (l & -> & Hl) Hd. unfold getitem.
    by rewrite (lookup_app_l_Some _ _ _ _ Hl), Hd.
  - intros d v (l & -> & Hl) Hd Hno. unfold getitem.
    rewrite (lookup_app_l_Some _ _ _ _ Hl), Hd. cbn [bind].
    unfold mret, nb_ret, setitem, store_setitem.
    destruct v as [| | | | |lp]; try reflexivity.
    destruct Hno as [items Hlp].
    by rewrite (lookup_app_l_Some _ _ _ _ Hlp).
  - intros d v dp (l & -> & Hl) Hd (lp & -> & Hlp). unfold getitem.
    rewrite (lookup_app_l_Some _ _ _ _ Hl), Hd. cbn [bind].
    unfold mret, nb_ret, setitem, store_setitem.
    rewrite (lookup_app_l_Some _ _ _ _ Hlp). cbn [bind].
    assert (lp < length (st ++ ext)) as Hlt.
    { apply lookup_lt_is_Some. rewrite (lookup_app_l_Some _ _ _ _ Hlp). eauto. }
    eexists x, _. split; [reflexivity|].
    assert (forall o, (<[lp := o]> (st ++ ext) : list pyobj) !! lp = Some o) as Heq.
    { intros o. by apply list_lookup_insert_eq. }
    assert (forall o l', lp <> l' ->
              (<[lp := o]> (st ++ ext) : list pyobj) !! l' = (st ++ ext) !! l') as Hother.
    { intros o l' Hne. by apply list_lookup_insert_ne. }
    unfold store_getitem. split; [|split; [|split]].
    + destruct (decide (l = lp)) as [->|Hne].
      * rewrite Heq. rewrite Hl in Hlp. injection Hlp as ->.
        by rewrite dict_getitem_setitem_ne.
      * rewrite Hother by congruence.
        by rewrite (lookup_app_l_Some _ _ _ _ Hl).
    + rewrite Heq. apply dict_getitem_setitem_eq.
    + intros k Hne. rewrite Heq.
      apply dict_getitem_setitem_ne. congruence.
    + intros l' o Hne Ho. rewrite Hother by congruence.
      by apply lookup_app_l_Some.
Qed.

Lemma setup_asks text st tr p st' :
  run (setup text st) tr (inr (p, st')) -> setup_trace text p tr.
Proof.
  unfold setup. intros H.
  apply run_nb_bind_ok in H as (rd & s1 & t1 & t & -> & H1 & H).
  apply run_request_ok in H1 as [-> ->].
  apply run_nb_bind_ok in H as (re & s1 & t1 & t2 & -> & H1 & H).
  apply run_request_ok in H1 as [-> ->].
  apply run_nb_bind_ok in H as (od & s1 & t1 & t3 & -> & H1 & H).
  apply run_request_ok in H1 as [-> ->].
  apply run_nb_bind_ok in H as (ip & s1 & t1 & t4 & -> & H1 & H).
  apply run_nb_bind_ok in H as (u & s2 & t5 & t6 & -> & H2 & H).
  destruct H as [-> H]. injection H as Hp _. subst p.
  exists t1, t5. split; [by rewrite app_nil_r|]. simpl. split.
  - unfold get_ipynb_path in H1. apply run_nb_try_request_ok in H1
      as [[-> ->]|(x & tr' & -> & Hx & H1)].
    + by left.
    + apply run_request_ok in H1 as [-> ->]. right. by exists x.
  - unfold mkdir_unless_exists in H2. apply run_nb_try_request_ok in H2
      as [[-> ->]|(x & tr' & -> & Hx & [-> H2])].
    + left. by destruct u.
    + right. by rewrite (issubclass_FileExistsError _ Hx).
Qed.

Lemma tail_trace_first p path text out f1 f2 shown hc ho :
  exists rest,
    tail_trace p path text out f1 f2 shown hc ho = Obs (OpenW path) (inr f1) :: rest.
Proof. unfold tail_trace. simpl. eauto. Qed.

Lemma rl_notebook_setup text (build : paths -> nb pyval) name idxs
    (head : string -> string) tr ns st :
  (forall p, is_Some (pure_run (build p) [])) ->
  run ((setup text ≫= fun p =>
        build p ≫= fun configuration =>
        finish_rl p configuration name idxs (head (output_dir p))) [])
      tr (inr (ns, st)) ->
  exists pre f rest,
    tr = pre ++ Obs (OpenW (configuration_JSON_path ns)) (inr f) :: rest
    /\ setup_trace text (ns_paths ns) pre.
Proof.
  intros Hb H.
  apply run_nb_bind_ok in H as (p & s1 & t1 & t & -> & H1 & H).
  assert (Hs := setup_asks _ _ _ _ _ H1).
  apply setup_ok in H1 as [-> Q].
  apply run_nb_bind_ok in H as (conf & s1 & t2 & t3 & -> & H1 & H).
  destruct (Hb p) as [r Hr].
  destruct (run_pure _ _ _ _ _ Hr H1) as [-> Heq]. injection Heq as <-.
  apply finish_rl_ok in H as (-> & Hp & Hc & Hpath & Hl & Hd & f1 & f2 & ho & j & Hj & ->).
  subst p. destruct (tail_trace_first (ns_paths ns) (configuration_JSON_path ns)
                       (Json.dumps 4 true j) (captured_err_stream ns) f1 f2
                       (default [] (data ns)) (head (output_dir (ns_paths ns))) ho)
    as [rest ->].
  by exists t1, f1, rest.
Qed.

Lemma sampling_notebook_setup text (build : paths -> nb pyval) name
    (head : string -> string) tr ns st :
  (forall p, is_Some (pure_run (build p) [])) ->
  run ((setup text ≫= fun p =>
        build p ≫= fun configuration =>
        finish_sampling p configuration name (head (output_dir p))) [])
      tr (inr (ns, st)) ->
  exists pre f rest,
    tr = pre ++ Obs (OpenW (configuration_JSON_path ns)) (inr f) :: rest
    /\ setup_trace text (ns_paths ns) pre.
Proof.
  intros Hb H.
  apply run_nb_bind_ok in H as (p & s1 & t1 & t & -> & H1 & H).
  assert (Hs := setup_asks _ _ _ _ _ H1).
  apply setup_ok in H1 as [-> Q].
  apply run_nb_bind_ok in H as (conf & s1 & t2 & t3 & -> & H1 & H).
  destruct (Hb p) as [r Hr].
  destruct (run_pure _ _ _ _ _ Hr H1) as [-> Heq]. injection Heq as <-.
  apply finish_sampling_ok in H as (-> & Hp & Hc & Hpath & Hl & Hd & f1 & f2 & ho & j & Hj & ->).
  subst p. destruct (tail_trace_first (ns_paths ns) (configuration_JSON_path ns)
                       (Json.dumps 4 true j) (captured_err_stream ns) f1 f2
                       (default [] (data ns)) (head (output_dir (ns_paths ns))) ho)
    as [rest ->].
  by exists t1, f1, rest.
Qed.

Lemma setup_notebooks_build nbk text tr ns st :
  (nbk, text) ∈ setup_notebooks ->
  run (nbk []) tr (inr (ns, st)) ->
  exists (build : paths -> nb pyval) name head j,
    pure_run (build (ns_paths ns)) [] = Some (configuration ns, st)
    /\ complete_run name head j tr ns st
    /\ PyStr.startswith name "/" = false /\ name <> "run.err"
    /\ forall tr' ns' st',
         run (nbk []) tr' (inr (ns', st')) ->
         exists j',
           pure_run (build (ns_paths ns')) [] = Some (configuration ns', st')
           /\ complete_run name head j' tr' ns' st'.
Proof.
  unfold setup_notebooks. intros Hin H.
  repeat (apply elem_of_cons in Hin as [[= -> ->]|Hin]).
  - apply DRD2_ok in H as (j & Hc & _ & Hb & _).
    eexists Notebook_DRD2.build, _, _, j.
    split; [exact Hb|]. split; [exact Hc|]. split; [done|]. split; [done|].
    intros tr' ns' st' H'. apply DRD2_ok in H' as (j' & Hc' & _ & Hb' & _).
    exists j'. by split.
  - apply Tanimoto_ok in H as (j & Hc & _ & Hb & _).
    eexists Notebook_Tanimoto.build, _, _, j.
    split; [exact Hb|]. split; [exact Hc|]. split; [done|]. split; [done|].
    intros tr' ns' st' H'. apply Tanimoto_ok in H' as (j' & Hc' & _ & Hb' & _).
    exists j'. by split.
  - apply Selectivity_ok in H as (j & Hc & _ & Hb & _).
    eexists Notebook_Selectivity.build, _, _, j.
    split; [exact Hb|]. split; [exact Hc|]. split; [done|]. split; [done|].
    intros tr' ns' st' H'. apply Selectivity_ok in H' as (j' & Hc' & _ & Hb' & _).
    exists j'. by split.
  - apply Exploration_ok in H as (j & Hc & _ & Hb & _).
    eexists Notebook_Exploration.build, _, _, j.
    split; [exact Hb|]. split; [exact Hc|]. split; [done|]. split; [done|].
    intros tr' ns' st' H'. apply Exploration_ok in H' as (j' & Hc' & _ & Hb' & _).
    exists j'. by split.
  - apply Sampling_ok in H as (j & Hc & _ & _ & Hb & _).
    eexists Notebook_Sampling.build, _, _, j.
    split; [exact Hb|]. split; [exact Hc|]. split; [done|]. split; [done|].
    intros tr' ns' st' H'. apply Sampling_ok in H' as (j' & Hc' & _ & _ & Hb' & _).
    exists j'. by split.
  - by apply elem_of_nil in Hin.
Qed.

Lemma get_ipynb_path_asks st tr ip st' :
  run (get_ipynb_path st) tr (inr (ip, st')) -> ipynb_answers ip tr.
Proof.
  unfold get_ipynb_path. intros H. apply run_nb_try_request_ok in H
    as [[-> ->]|(x & tr' & -> & Hx & H)].
  - by left.
  - apply run_request_ok in H as [-> ->]. right. by exists x.
Qed.

Lemma mkdir_unless_exists_asks d st tr u st' :
  run (mkdir_unless_exists d st) tr (inr (u, st')) -> mkdir_answers d tr.
Proof.
  unfold mkdir_unless_exists. intros H. apply run_nb_try_request_ok in H
    as [[-> ->]|(x & tr' & -> & Hx & [-> H])].
  - left. by destruct u.
  - right. by rewrite (issubclass_FileExistsError _ Hx).
Qed.

Lemma DockStream_cell_2_asks st tr p q st' :
  run (Notebook_DockStream.cell_2 st) tr (inr ((p, q), st')) ->
  DockStream_setup_trace p q tr.
Proof.
  unfold Notebook_DockStream.cell_2. intros H.
  apply run_nb_bind_ok in H as (rd & s1 & t1 & t & -> & H1 & H).
  apply run_request_ok in H1 as [-> ->].
  apply run_nb_bind_ok in H as (re & s1 & t1 & t2 & -> & H1 & H).
  apply run_request_ok in H1 as [-> ->].
  apply run_nb_bind_ok in H as (dd & s1 & t1 & t3 & -> & H1 & H).
  apply run_request_ok in H1 as [-> ->].
  apply run_nb_bind_ok in H as (de & s1 & t1 & t4 & -> & H1 & H).
  apply run_request_ok in H1 as [-> ->].
  apply run_nb_bind_ok in H as (od & s1 & t1 & t5 & -> & H1 & H).
  apply run_request_ok in H1 as [-> ->].
  apply run_nb_bind_ok in H as (ip & s1 & a1 & t6 & -> & H1 & H).
  apply get_ipynb_path_asks in H1.
  apply run_nb_bind_ok in H as (u & s2 & a2 & t8 & -> & H2 & H).
  apply mkdir_unless_exists_asks in H2.
  apply run_nb_bind_ok in H as (gf & s3 & t9 & t10 & -> & H3 & H).
  apply run_request_ok in H3 as [-> ->].
  apply run_nb_bind_ok in H as (dp & s3 & t9 & t11 & -> & H3 & H).
  apply run_request_ok in H3 as [-> ->].
  apply run_nb_bind_ok in H as (ds & s3 & t9 & t12 & -> & H3 & H).
  apply run_request_ok in H3 as [-> ->].
  apply run_nb_bind_ok in H as (u1 & s3 & a3 & t14 & -> & H3 & H).
  apply mkdir_unless_exists_asks in H3.
  apply run_nb_bind_ok in H as (u2 & s4 & a4 & t16 & -> & H4 & H).
  apply mkdir_unless_exists_asks in H4.
  destruct H as [-> H]. injection H as Hp Hq _. subst p q.
  exists dd, a1, a2, a3, a4. simpl.
  split; [|by repeat split].
  by rewrite app_nil_r.
Qed.

Lemma DockStream_result_paths g dp ds :
  exists v st jd,
    eval (Notebook_DockStream.ed_dict_display g dp ds) [] = (v, st)
    /\ snapshot st v = Some jd
    /\ json_at poses_path jd = Some (JStr (os_path_join dp ["docked_poses.sdf"]))
    /\ json_at scores_path jd = Some (JStr (os_path_join ds ["docking_scores.csv"])).
Proof.
  eexists _, _, _.
  split; [vm_compute; reflexivity|].
  split; [vm_compute; reflexivity|].
  split; vm_compute; reflexivity.
Qed.

Lemma DockStream_first_cell tr ns st :
  run (Notebook_DockStream.notebook []) tr (inr (ns, st)) ->
  exists q pre f jd rest,
    tr = pre ++ [ Obs (OpenW (Notebook_DockStream.docking_configuration_path q)) (inr f);
                  Obs (FWrite f (Json.dumps 2 false jd)) (inr tt) ] ++ rest
    /\ DockStream_setup_trace (ns_paths ns) q pre
    /\ json_at poses_path jd
       = Some (JStr (os_path_join
                       (Notebook_DockStream.output_ligands_docked_poses_path q)
                       ["docked_poses.sdf"]))
    /\ json_at scores_path jd
       = Some (JStr (os_path_join
                       (Notebook_DockStream.output_ligands_docking_scores_path q)
                       ["docking_scores.csv"])).
Proof.
  unfold Notebook_DockStream.notebook. intros H.
  apply run_nb_bind_ok in H as ([p q] & s1 & t1 & t & -> & H1 & H).
  assert (Hs := DockStream_cell_2_asks _ _ _ _ _ H1).
  apply DockStream_cell_2_ok in H1 as [-> Q].
  apply run_nb_bind_ok in H as (u & s1 & t2 & t3 & -> & H1 & H).
  unfold Notebook_DockStream.cell_4 in H1.
  apply run_nb_bind_ok in H1 as (ed & s2 & t6 & t7 & -> & H0 & H1).
  apply run_new_ok in H0 as [-> He].
  apply run_with_open_ok in H1 as (f & t8 & -> & H1).
  apply run_json_dump_ok in H1 as (jd & Hjd & -> & ->).
  apply run_nb_bind_ok in H as (conf & s1 & t4 & t5 & -> & H1 & H).
  destruct (DockStream_build p q) as (c & s & j & Hb & Hj & _).
  rewrite He in Hb. simpl in Hb.
  destruct (run_pure _ _ _ _ _ Hb H1) as [-> Heq]. injection Heq as -> ->.
  apply (finish_rl_ok p c "RL_DockStream_config.json" None
           (head_memory "15" (output_dir p))) in H
    as (-> & Hp & _).
  subst p.
  destruct (DockStream_result_paths (Notebook_DockStream.grid_file_path q)
              (Notebook_DockStream.output_ligands_docked_poses_path q)
              (Notebook_DockStream.output_ligands_docking_scores_path q))
    as (v' & st' & jd' & He' & Hjd' & Hposes & Hscores).
  rewrite He in He'. injection He' as <- <-.
  rewrite Hjd in Hjd'. injection Hjd' as <-.
  eexists q, t1, f, jd, _. split; [|by repeat split].
  simpl. rewrite <- ?app_assoc. simpl. reflexivity.
Qed.

(** ** The words of the REINVENT command line *)

Lemma blank_run :
  run (Notebook_Tanimoto.notebook []) blank_trace (inr (blank_ns, blank_st)).
Proof.
  exact (exec_run (Notebook_Tanimoto.notebook []) blank_world
         <: run (Notebook_Tanimoto.notebook []) blank_trace
              (inr (blank_ns, blank_st))).
Qed.

(** ** Words *)

Lemma shell_plain_not_blank c : shell_plain c = true -> is_blank c = false.
Proof.
  destruct c as [[] [] [] [] [] [] [] []]; vm_compute; intros H;
    (reflexivity || discriminate H).
Qed.

Lemma shell_words_go_last cur w :
  Forall (fun c => is_blank c = false) w -> cur ++ w <> [] ->
  shell_words_go cur w = [cur ++ w].
Proof.
  intros H. revert cur. induction H as [|c w Hc _ IH]; intros cur Hne; simpl.
  - rewrite app_nil_r in *. by destruct cur.
  - rewrite Hc, IH, <- app_assoc; [done|]. rewrite <- app_assoc. simpl.
    by destruct cur.
Qed.

Lemma shell_words_go_word cur w rest :
  Forall (fun c => is_blank c = false) w -> cur ++ w <> [] ->
  shell_words_go cur (w ++ " "%char :: rest)
  = (cur ++ w) :: shell_words_go [] rest.
Proof.
  intros H. revert cur. induction H as [|c w Hc _ IH]; intros cur Hne; simpl.
  - rewrite app_nil_r in *. by destruct cur.
  - rewrite Hc, IH, <- app_assoc; [done|]. rewrite <- app_assoc. simpl.
    by destruct cur.
Qed.

Lemma str_app a b : str (a ++ b) = str a +:+ str b.
Proof.
  induction a as [|c a IH]; [done|].
  change (String c (str (a ++ b)) = String c (str a +:+ str b)). by rewrite IH.
Qed.

Lemma all_plain_no_blank s :
  all_plain s -> Forall (fun c => is_blank c = false) (chars s).
Proof.
  intros H. eapply Forall_impl; [exact H|]. apply shell_plain_not_blank.
Qed.

Lemma shell_words_go_three a la b lb c :
  Forall (fun x => is_blank x = false) (a ++ la) ->
  Forall (fun x => is_blank x = false) (b ++ lb) ->
  Forall (fun x => is_blank x = false) c ->
  a ++ la <> [] -> b ++ lb <> [] -> c <> [] ->
  shell_words_go [] (a ++ la ++ " "%char :: b ++ lb ++ " "%char :: c)
  = [a ++ la; b ++ lb; c].
Proof.
  intros Ha Hb Hc Na Nb Nc.
  rewrite (app_assoc a), shell_words_go_word by done.
  rewrite (app_assoc b), shell_words_go_word by done.
  by rewrite shell_words_go_last.
Qed.

Lemma reinvent_command_words p path :
  all_plain (reinvent_env p) -> all_plain (reinvent_dir p) -> all_plain path ->
  path <> "" ->
  shell_words (reinvent_command p path)
  = [ reinvent_env p +:+ "/bin/python"; reinvent_dir p +:+ "/input.py"; path ].
Proof.
  intros He Hd Hp Hne. unfold shell_words, reinvent_command.
  rewrite !chars_app.
  assert (chars (reinvent_env p) ++ chars "/bin/python "
            ++ chars (reinvent_dir p) ++ chars "/input.py " ++ chars path
          = chars (reinvent_env p) ++ chars "/bin/python"
              ++ " "%char :: chars (reinvent_dir p) ++ chars "/input.py"
              ++ " "%char :: chars path) as -> by reflexivity.
  rewrite shell_words_go_three.
  - cbn [map]. by rewrite !str_app, !str_chars.
  - apply Forall_app. split; [by apply all_plain_no_blank|by repeat constructor].
  - apply Forall_app. split; [by apply all_plain_no_blank|by repeat constructor].
  - by apply all_plain_no_blank.
  - by destruct (chars (reinvent_env p)).
  - by destruct (chars (reinvent_dir p)).
  - destruct path; [by destruct Hne|done].
Qed.

Lemma append_empty a b : a +:+ b = "" -> b = "".
Proof. destruct a; [done|]. intros H. discriminate H. Qed.

Lemma os_path_join_nonempty a name : name <> "" -> os_path_join a [name] <> "".
Proof.
  intros Hne E. unfold os_path_join, join_step in E. simpl in E.
  destruct (startswith name "/"); [done|].
  destruct (String.eqb a "" || endswith_sep a)%bool.
  - by apply append_empty in E.
  - apply append_empty in E. discriminate E.
Qed.

(** ** The last line of a block *)

Lemma splitlines_go_newline cur s :
  s <> [] ->
  Lines.splitlines_go cur (Json.newline :: s) = cur :: Lines.splitlines_go [] s.
Proof. destruct s; [done|reflexivity]. Qed.

Lemma splitlines_go_char cur c s :
  Lines.is_linebreak c = false ->
  Lines.splitlines_go cur (c :: s) = Lines.splitlines_go (cur ++ [c]) s.
Proof. intros H. simpl. by rewrite H. Qed.

Lemma drop_last_line_go cur body last :
  Forall (fun c => Lines.is_linebreak c = true -> c = Json.newline) body ->
  Forall (fun c => Lines.is_linebreak c = false) last -> last <> [] ->
  exists x rest,
    removelast (map str (Lines.splitlines_go cur (body ++ Json.newline :: last)))
    = x :: rest
    /\ PyStr.str_join (String Json.newline "") (x :: rest) = str (cur ++ body).
Proof.
  intros Hb Hl Hne. revert cur. induction Hb as [|c body Hc _ IH]; intros cur.
  - cbn [app]. rewrite splitlines_go_newline by exact Hne.
    rewrite splitlines_go_one_line by exact Hl. cbn [app].
    destruct last as [|c' last']; [done|].
    exists (str cur), []. split; [done|]. by rewrite app_nil_r.
  - cbn [app]. destruct (Lines.is_linebreak c) eqn:E.
    + rewrite (Hc eq_refl). rewrite splitlines_go_newline by (by destruct body).
      destruct (IH []) as (x & rest & Hr & Hj).
      exists (str cur), (x :: rest). split.
      * cbn [map]. cbn [map] in Hr.
        destruct (map str (Lines.splitlines_go [] (body ++ Json.newline :: last)))
          as [|y ys]; [discriminate Hr|].
        change (removelast (str cur :: y :: ys)) with (str cur :: removelast (y :: ys)).
        by rewrite Hr.
      * rewrite join_cons, Hj. cbn [app]. rewrite (str_app cur). reflexivity.
    + rewrite splitlines_go_char by exact E.
      destruct (IH (cur ++ [c])) as (x & rest & -> & Hj).
      exists x, rest. split; [done|]. by rewrite Hj, <- app_assoc.
Qed.

Lemma drop_last_line_body body last :
  Forall (fun c => Lines.is_linebreak c = true -> c = Json.newline) (chars body) ->
  one_line last -> last <> "" ->
  drop_last_line (body +:+ String Json.newline last) = body.
Proof.
  intros Hb Hl Hne. unfold drop_last_line, all_but_last, Lines.splitlines.
  rewrite chars_app.
  change (chars (String Json.newline last)) with (Json.newline :: chars last).
  destruct (drop_last_line_go [] (chars body) (chars last) Hb Hl)
    as (x & rest & -> & Hj).
  { destruct last; [by destruct Hne|done]. }
  rewrite Hj. cbn [app]. apply str_chars.
Qed.

(** ** The text of a configuration *)

Lemma top_level_text j :
  distinct_keys j = true ->
  json_keys (sorted_tree j) = top_level_keys ->
  exists l p r v,
    json_get "logging" j = Some l /\ json_get "parameters" j = Some p
    /\ json_get "run_type" j = Some r /\ json_get "version" j = Some v
    /\ Json.dumps 4 true j
       = "{"
         +:+ String Json.newline "    " +:+ String Json.dquote "logging"
         +:+ String Json.dquote ": " +:+ Json.encode 4 true 1 l +:+ ","
         +:+ String Json.newline "    " +:+ String Json.dquote "parameters"
         +:+ String Json.dquote ": " +:+ Json.encode 4 true 1 p +:+ ","
         +:+ String Json.newline "    " +:+ String Json.dquote "run_type"
         +:+ String Json.dquote ": " +:+ Json.encode 4 true 1 r +:+ ","
         +:+ String Json.newline "    " +:+ String Json.dquote "version"
         +:+ String Json.dquote ": " +:+ Json.encode 4 true 1 v
         +:+ String Json.newline "}".
Proof.
  intros Hd Hk. destruct j as [| | | | | |d]; try discriminate Hk.
  apply distinct_keys_dict in Hd as [Hnd _].
  simpl in Hk. unfold dict_keys in Hk.
  rewrite (sorted_items_map (fun kv : string * json => (fst kv, sorted_tree (snd kv))))
    in Hk by done.
  rewrite map_map in Hk. simpl in Hk.
  assert (Hp := sorted_items_perm d).
  destruct (Json.sorted_items d) as [|[k1 l] [|[k2 p] [|[k3 r] [|[k4 v] [|]]]]] eqn:Es;
    try discriminate Hk.
  injection Hk as -> -> -> ->.
  assert (forall k x, (k, x) ∈ Json.sorted_items d -> dict_getitem k d = Some x)
    as Hget.
  { intros k x Hin. apply elem_of_dict_getitem; [exact Hnd|].
    by rewrite <- (sorted_items_perm d). }
  rewrite Es in Hget.
  exists l, p, r, v.
  split; [apply Hget; repeat constructor|].
  split; [apply Hget; repeat constructor|].
  split; [apply Hget; repeat constructor|].
  split; [apply Hget; repeat constructor|].
  unfold Json.dumps. cbn [Json.encode]. unfold Json.iterencode_dict.
  assert (map (fun kv : string * json => (fst kv, Json.encode 4 true 1 (snd kv))) d
          <> []) as Hne.
  { destruct d; [discriminate Es|discriminate]. }
  destruct (map (fun kv : string * json => (fst kv, Json.encode 4 true 1 (snd kv))) d)
    as [|e es] eqn:Em; [done|].
  rewrite <- Em.
  rewrite (sorted_items_map
             (fun kv : string * json => (fst kv, Json.encode 4 true 1 (snd kv))))
    by done.
  rewrite Es. cbn [map fst snd PyStr.str_join].
  rewrite !append_assoc. reflexivity.
Qed.

Lemma all_plain_check s : forallb shell_plain (chars s) = true -> all_plain s.
Proof.
  intros Hs. apply Forall_forall. intros c Hc.
  rewrite forallb_forall in Hs. by apply Hs, list_elem_of_In.
Qed.

Lemma config_names_nonempty name : name ∈ config_names -> name <> "".
Proof.
  unfold config_names. intros H.
  repeat (apply elem_of_cons in H as [->|H]); try done.
  by apply elem_of_nil in H.
Qed.

(** ** The DockStream dictionary and the answers it is made of *)

Lemma DockStream_files_asked tr ns st :
  run (Notebook_DockStream.notebook []) tr (inr (ns, st)) ->
  exists q v st0 jd j pre rest,
    tr = pre ++ rest
    /\ DockStream_setup_trace (ns_paths ns) q pre
    /\
    eval (Notebook_DockStream.ed_dict_display
            (Notebook_DockStream.grid_file_path q)
            (Notebook_DockStream.output_ligands_docked_poses_path q)
            (Notebook_DockStream.output_ligands_docking_scores_path q)) []
    = (v, st0)
    /\ snapshot st0 v = Some jd
    /\ pure_run (Notebook_DockStream.build (ns_paths ns) q) st0
       = Some (configuration ns, st)
    /\ Notebook_DockStream.docking_configuration_path q
       = os_path_join (output_dir (ns_paths ns)) ["Glide_DockStream_Conf.json"]
    /\ file_content tr (Notebook_DockStream.docking_configuration_path q)
       = Some (Json.dumps 2 false jd)
    /\ complete_run "RL_DockStream_config.json" (head_memory "15") j tr ns st.
Proof.
  unfold Notebook_DockStream.notebook. intros H.
  apply run_nb_bind_ok in H as ([p q] & s1 & t1 & t & -> & H1 & H).
  assert (Hq := DockStream_cell_2_paths _ _ _ _ _ H1).
  assert (Hasks := DockStream_cell_2_asks _ _ _ _ _ H1).
  apply DockStream_cell_2_ok in H1 as [-> Q].
  apply run_nb_bind_ok in H as (u & s1 & t2 & t3 & -> & H1 & H).
  unfold Notebook_DockStream.cell_4 in H1.
  apply run_nb_bind_ok in H1 as (ed & s2 & t6 & t7 & -> & H0 & H1).
  apply run_new_ok in H0 as [-> He].
  apply run_with_open_ok in H1 as (f & t8 & -> & H1).
  apply run_json_dump_ok in H1 as (jd & Hjd & -> & ->).
  apply run_nb_bind_ok in H as (conf & s1 & t4 & t5 & -> & H1 & H).
  destruct (DockStream_build p q) as (c & s & j & Hb & Hj & Hs & Hd & Hk & Hfl).
  rewrite He in Hb. simpl in Hb.
  destruct (run_pure _ _ _ _ _ Hb H1) as [-> Heq]. injection Heq as -> ->.
  apply (finish_rl_ok p c "RL_DockStream_config.json" None
           (head_memory "15" (output_dir p))) in H
    as (-> & Hp & Hc & Hpath & Hl & Hda & f1 & f2 & ho & j' & Hj' & ->).
  rewrite Hj in Hj'. injection Hj' as <-. subst p c.
  exists q, ed, s2, jd, j, t1. eexists.
  split; [reflexivity|]. split; [exact Hasks|].
  split; [exact He|]. split; [exact Hjd|]. split; [exact Hb|].
  split; [exact Hq|].
  set (pre := t1 ++ [ Obs (OpenW (Notebook_DockStream.docking_configuration_path q)) (inr f);
                      Obs (FWrite f (Json.dumps 2 false jd)) (inr tt);
                      Obs (FClose f) (inr tt) ]).
  assert (fold_left fstep pre (FState [] [])
          = FState [] [(Notebook_DockStream.docking_configuration_path q,
                        Json.dumps 2 false jd)]) as Hpre.
  { unfold pre. rewrite fold_left_app, (quiet_fold t1) by exact Q.
    by rewrite fstate_session. }
  match goal with
  | |- context [file_content ?t _] =>
      assert (t = pre ++ tail_trace (ns_paths ns) (configuration_JSON_path ns)
                      (Json.dumps 4 true j) (captured_err_stream ns) f1 f2
                      (default [] (data ns))
                      (head_memory "15" (output_dir (ns_paths ns))) ho) as ->
  end.
  { unfold pre. rewrite <- !app_assoc. reflexivity. }
  split.
  - unfold file_content, fstate_after. rewrite fold_left_app, Hpre.
    rewrite fstate_tail by done. cbn [contents].
    rewrite !dict_getitem_setitem_ne.
    + apply (dict_getitem_setitem_eq _ _ []).
    + rewrite Hpath, Hq. intros E. apply os_path_join_inj in E; done.
    + rewrite Hq. intros E. apply os_path_join_inj in E; done.
  - split; [exact Hpath|]. split; [exact Hj|].
    exists pre, f1, f2, ho.
    split; [reflexivity|].
    split; [|split].
    + unfold pre, commands. rewrite omap_app. fold (commands t1).
      rewrite quiet_commands by exact Q. reflexivity.
    + unfold pre, printed. rewrite omap_app. fold (printed t1).
      rewrite quiet_printed by exact Q. reflexivity.
    + unfold fstate_after. by rewrite Hpre.
Qed.

(** ** The order of the last cells *)

Lemma finish_stages_shape p conf st j name out shown head_cmd head_out tr o :
  snapshot st conf = Some j ->
  seq_run (finish_stages p conf st name out shown head_cmd head_out) tr o ->
  commands tr = []
  \/ commands tr = [reinvent_command p (os_path_join (output_dir p) [name])]
  \/ exists f1 f2 r,
       tr = [ Obs (OpenW (os_path_join (output_dir p) [name])) (inr f1);
              Obs (FWrite f1 (Json.dumps 4 true j)) (inr tt);
              Obs (FClose f1) (inr tt) ]
            ++ Obs (System (reinvent_command p (os_path_join (output_dir p) [name])))
                   (inr out)
            :: Obs (OpenW (os_path_join (output_dir p) ["run.err"])) (inr f2)
            :: Obs (FWrite f2 out) (inr tt)
            :: Obs (FClose f2) (inr tt)
            :: map (fun element => Obs (Print element) (inr tt)) shown
            ++ [Obs (System head_cmd) r]
       /\ o = match r with inl x => Some x | inr _ => None end.
Proof.
  intros Hj H. unfold finish_stages in H.
  inversion H as [|S1 r1 t y H1|S1 r1 t1 u1 o1 H1 H2]; subst.
  { left. apply (write_configuration_stage _ _ _ _ j) in H1; [|done].
    by apply write_silent in H1. }
  apply write_configuration_ok in H1 as (_ & _ & f1 & j' & Hj' & ->).
  rewrite Hj in Hj'. injection Hj' as <-.
  inversion H2 as [|S2 r2 t y H3|S2 r2 t2 u2 o2 H3 H4]; subst.
  { apply run_request in H3 as (r0 & -> & _). right. left. reflexivity. }
  apply run_request_ok in H3 as [-> _].
  inversion H4 as [|S3 r3 t y H5|S3 r3 t3 u3 o3 H5 H6]; subst.
  { apply write_silent in H5. right. left.
    unfold commands in *. rewrite !omap_app, H5. done. }
  apply save_output_ok in H5 as (_ & f2 & ->).
  inversion H6 as [|S4 r4 t y H7|S4 r4 t4 u4 o4 H7 H8]; subst.
  { apply (proj2 (print_all_tidy "" shown st)) in H7. right. left.
    unfold commands in *. rewrite !omap_app, H7. done. }
  apply run_print_all_ok in H7 as [-> _].
  right. right. exists f1, f2.
  inversion H8 as [|S5 r5 t y H9|S5 r5 t5 u5 o5 H9 H10]; subst.
  - apply run_request in H9 as (r9 & -> & E). exists r9.
    split; [reflexivity|]. destruct r9 as [x|v]; [by injection E as ->|done].
  - apply run_request in H9 as (r9 & -> & E). inversion H10; subst.
    exists r9. split; [by rewrite app_nil_r|]. by destruct r9.
Qed.

(* ===================================================================== *)
(** * The claims *)
(* ===================================================================== *)

(** C1. In every complete run of a reinforcement-learning notebook, the
    configuration dictionary [j] whose serialisation is the content of
    the configuration file has the top-level fields "version",
    "run_type" and "logging" and a "parameters" block with the
    sub-blocks "scoring_function", "diversity_filter", "inception" and
    "reinforcement_learning". *)
Theorem C1_rl_configuration_fields nbk tr ns st :
  nbk ∈ rl_notebooks ->
  run (nbk []) tr (inr (ns, st)) ->
  exists j,
    snapshot st (configuration ns) = Some j
    /\ file_content tr (configuration_JSON_path ns) = Some (Json.dumps 4 true j)
    /\ has_rl_fields j.
Proof.
  intros Hin H.
  destruct (rl_notebooks_ok _ _ _ _ Hin H)
    as (name & head & idxs & j & Hc & Hn & _ & Hs).
  exists j. split; [apply Hc|].
  destruct (config_names_ok _ Hn) as [Hsl Hne].
  split; [by eapply complete_run_files|by apply rl_schema_spec].
Qed.

Lemma C1_rl_configuration_fields_witness :
  exists j,
    snapshot demo_st (configuration demo_ns) = Some j
    /\ file_content demo_trace (configuration_JSON_path demo_ns)
       = Some (Json.dumps 4 true j)
    /\ has_rl_fields j.
Proof.
  apply (C1_rl_configuration_fields Notebook_Tanimoto.notebook).
  - unfold rl_notebooks. do 2 apply list_elem_of_further.
    apply list_elem_of_here.
  - exact demo_run.
Defined.




(** The paths of the sample session are plain, and the line has the
    three words. *)
Example demo_command_words :
  all_plain (reinvent_env (ns_paths demo_ns))
  /\ all_plain (reinvent_dir (ns_paths demo_ns))
  /\ all_plain (configuration_JSON_path demo_ns)
  /\ map shell_words (take 1 (commands demo_trace))
     = [ [ "/home/u/miniconda3/envs/reinvent.v3.0/bin/python";
           "/home/u/Desktop/Reinvent/input.py";
           "/home/u/Desktop/REINVENT_RL_Tanimoto_Similarity_demo/RL_config.json" ] ].
Proof.
  split; [apply all_plain_check; vm_compute; reflexivity|].
  split; [apply all_plain_check; vm_compute; reflexivity|].
  split; [apply all_plain_check; vm_compute; reflexivity|].
  vm_compute. reflexivity.
Qed.

(** C3. In every run of every notebook, at every [os.mkdir]: if the
    answer is [FileExistsError], the run goes on exactly as it does
    after a successful [os.mkdir], with no request in between (the
    handler is [pass]); any other exception ends the run at once with
    that exception.  In the reference world an existing directory makes
    [os.mkdir] raise [FileExistsError] and leaves the world as it was. *)
Theorem C3_mkdir_existing_directory nbk tr1 d x tr2 o :
  nbk ∈ all_notebooks ->
  run (nbk []) (tr1 ++ Obs (Mkdir d) (inl x) :: tr2) o ->
  (x = FileExistsError ->
   run (nbk []) (tr1 ++ Obs (Mkdir d) (inr tt) :: tr2) o)
  /\ (x <> FileExistsError -> tr2 = [] /\ o = inl x)
  /\ (forall w, World.is_dir w d = true ->
                World.answer (Mkdir d) w = (inl FileExistsError, w)).
Proof.
  intros Hin H.
  destruct (mkdir_guarded_run (nbk []) tr1 _ d x tr2 o
              (all_notebooks_mkdir nbk [] Hin) H eq_refl) as [H1 H2].
  split; [exact H1|]. split; [exact H2|]. intros w. apply world_mkdir_exists.
Qed.

Lemma C3_mkdir_existing_directory_witness :
  let d := "/home/u/Desktop/REINVENT_Use-Case-DRD2_demo" in
  (FileExistsError = FileExistsError ->
   run (Notebook_DRD2.notebook [])
     (take 4 drd2_trace ++ Obs (Mkdir d) (inr tt) :: drop 5 drd2_trace)
     (inr (drd2_ns, drd2_st)))
  /\ (FileExistsError <> FileExistsError ->
      drop 5 drd2_trace = [] /\ inr (drd2_ns, drd2_st) = inl FileExistsError)
  /\ (forall w, World.is_dir w d = true ->
                World.answer (Mkdir d) w = (inl FileExistsError, w)).
Proof.
  apply (C3_mkdir_existing_directory Notebook_DRD2.notebook
           (take 4 drd2_trace) _ FileExistsError (drop 5 drd2_trace)).
  - unfold all_notebooks, rl_notebooks. apply list_elem_of_here.
  - exact drd2_run.
Defined.

(** C4, as stated, fails: in the sample session of the Tanimoto
    notebook the evaluation of [ipynb_path] is answered with
    [NameError], that request is no [os.mkdir], and the run completes. *)
Lemma C4_only_mkdir_guarded_counterexample :
  let ob := Obs (NameLookup "ipynb_path") (inl NameError) in
  run (Notebook_Tanimoto.notebook [])
    (take 3 demo_trace ++ ob :: drop 4 demo_trace) (inr (demo_ns, demo_st))
  /\ obs_exn ob = Some NameError
  /\ ~ (mkdir_handler ob NameError
        \/ (exists y, inr (demo_ns, demo_st) = (inl y : exn + namespace * store))).
Proof.
  split; [exact demo_run|]. split; [reflexivity|].
  intros [H|[y H]]; discriminate H.
Qed.

(** C4, amended. In every run of every notebook, a request answered
    with an exception [x] is followed by the end of the run with an
    exception, after at most the closing of the file a [with] statement
    holds, unless the request is an [os.mkdir] and [x] is
    [FileExistsError], or it is the evaluation of [ipynb_path] and [x]
    is a [NameError]. *)
Theorem C4_only_two_handlers nbk tr1 ob tr2 o x :
  nbk ∈ all_notebooks ->
  run (nbk []) (tr1 ++ ob :: tr2) o ->
  obs_exn ob = Some x ->
  (obs_is_mkdir ob = true /\ x = FileExistsError)
  \/ (obs_is_lookup "ipynb_path" ob = true /\ issubclass x NameError = true)
  \/ ((exists y, o = inl y) /\ Forall (fun ob => obs_is_close ob = true) tr2).
Proof.
  intros Hin H Hx.
  destruct (guards_run notebook_handlers (nbk []) tr1 ob tr2 o x
              (all_notebooks_guards nbk [] Hin) H Hx) as [[?|?]|?]; auto.
Qed.

Lemma C4_only_two_handlers_witness :
  let ob := Obs (NameLookup "ipynb_path") (inl NameError) in
  (obs_is_mkdir ob = true /\ NameError = FileExistsError)
  \/ (obs_is_lookup "ipynb_path" ob = true /\ issubclass NameError NameError = true)
  \/ ((exists y, inr (demo_ns, demo_st) = (inl y : exn + namespace * store))
      /\ Forall (fun ob => obs_is_close ob = true) (drop 4 demo_trace)).
Proof.
  apply (C4_only_two_handlers Notebook_Tanimoto.notebook (take 3 demo_trace)).
  - unfold all_notebooks, rl_notebooks. simpl. do 2 apply list_elem_of_further.
    apply list_elem_of_here.
  - exact demo_run.
  - reflexivity.
Defined.



Example demo_epochs :
  list_epochs demo_ns
  = Some [ "INFO step 0
score 0.1
local"; "INFO step 1
score 0.2
local" ].
Proof. reflexivity. Qed.



(** C7. In every complete run of the DRD2 use-case the configuration
    grows in four assignments after the display of cell 15, and the
    tree that is serialised is the one after the fourth.  Each
    assignment adds a key that was absent (diversity_filter, inception
    and reinforcement_learning under parameters, logging at top level)
    and the tree after it is the tree before it with that one entry
    set; setting one entry leaves every entry on a parting key path as
    it was.  So version, run_type and parameters.scoring_function are
    in the serialised tree what cell 15 stored. *)
Theorem C7_incremental_build_preserves tr ns st :
  run (Notebook_DRD2.notebook []) tr (inr (ns, st)) ->
  exists j0 j,
    DRD2_steps.stage 0 (ns_paths ns) = Some j0
    /\ DRD2_steps.stage 4 (ns_paths ns) = Some j
    /\ snapshot st (configuration ns) = Some j
    /\ file_content tr (configuration_JSON_path ns) = Some (Json.dumps 4 true j)
    /\ (forall n path key,
          DRD2_steps.later_keys !! n = Some (path, key) ->
          exists a b v,
            DRD2_steps.stage n (ns_paths ns) = Some a
            /\ DRD2_steps.stage (S n) (ns_paths ns) = Some b
            /\ json_get_path (path ++ [key]) a = None
            /\ json_get_path (path ++ [key]) b = Some v
            /\ b = json_set path key v a)
    /\ (forall path key v a q,
          diverges q (path ++ [key]) = true ->
          json_get_path q (json_set path key v a) = json_get_path q a)
    /\ Forall (fun q => is_Some (json_get_path q j0)
                        /\ json_get_path q j = json_get_path q j0)
         DRD2_steps.first_entries.
Proof.
  intros H. apply DRD2_ok in H as (j & Hc & _ & Hb & _).
  destruct (DRD2_first_entries (ns_paths ns)) as (j0 & j4 & H0 & H4 & Hf).
  assert (j4 = j) as ->.
  { unfold DRD2_steps.stage in H4. rewrite DRD2_build_upto_all, Hb in H4.
    destruct Hc as (_ & Hj & _). rewrite Hj in H4. by injection H4. }
  exists j0, j. split; [exact H0|]. split; [exact H4|].
  split; [by destruct Hc as (_ & Hj & _)|].
  split; [by apply (complete_run_files _ _ _ _ _ _ Hc)|].
  split; [intros n path key; apply DRD2_stage_step|].
  split; [intros path key v a q; apply json_set_frame|exact Hf].
Qed.

Lemma C7_incremental_build_preserves_witness :
  exists j0 j,
    DRD2_steps.stage 0 (ns_paths drd2_ns) = Some j0
    /\ DRD2_steps.stage 4 (ns_paths drd2_ns) = Some j
    /\ snapshot drd2_st (configuration drd2_ns) = Some j
    /\ file_content drd2_trace (configuration_JSON_path drd2_ns)
       = Some (Json.dumps 4 true j)
    /\ (forall n path key,
          DRD2_steps.later_keys !! n = Some (path, key) ->
          exists a b v,
            DRD2_steps.stage n (ns_paths drd2_ns) = Some a
            /\ DRD2_steps.stage (S n) (ns_paths drd2_ns) = Some b
            /\ json_get_path (path ++ [key]) a = None
            /\ json_get_path (path ++ [key]) b = Some v
            /\ b = json_set path key v a)
    /\ (forall path key v a q,
          diverges q (path ++ [key]) = true ->
          json_get_path q (json_set path key v a) = json_get_path q a)
    /\ Forall (fun q => is_Some (json_get_path q j0)
                        /\ json_get_path q j = json_get_path q j0)
         DRD2_steps.first_entries.
Proof.
  apply (C7_incremental_build_preserves drd2_trace drd2_ns drd2_st).
  exact drd2_run.
Defined.

(** C8. Every notebook writes its REINVENT configuration with
    [json.dump(..., indent=4, sort_keys=True)]: in every complete run
    the file holds that text of the configuration.  Two complete runs,
    of the same or of two notebooks, whose configurations are the same
    value (the same entries, in whatever order they were inserted)
    leave the same bytes in their configuration files, and so do any
    two equal trees with distinct keys.  The text is the one that
    writing the tree with every dictionary's items in the order of
    their keys gives without sorting: that tree is the same value, all
    its key lists ascend, and its top-level keys are logging,
    parameters, run_type, version in this order.  The text of the file
    is an opening brace, then the four members, each on a line of its
    own behind four blanks, the key in quotes, a colon, a blank and the
    text of the value found under that key, in the order logging,
    parameters, run_type, version, with commas between them, and a
    closing brace on the last line; a reader of JSON finds in it the
    configuration with all keys in sorted order, as in every text
    written with [sort_keys]. *)
Theorem C8_sorted_deterministic_dump nbk nbk' tr tr' ns ns' st st' :
  nbk ∈ all_notebooks -> nbk' ∈ all_notebooks ->
  run (nbk []) tr (inr (ns, st)) ->
  run (nbk' []) tr' (inr (ns', st')) ->
  exists j j',
    snapshot st (configuration ns) = Some j
    /\ snapshot st' (configuration ns') = Some j'
    /\ file_content tr (configuration_JSON_path ns) = Some (Json.dumps 4 true j)
    /\ file_content tr' (configuration_JSON_path ns')
       = Some (Json.dumps 4 true j')
    /\ (same_value j j' = true ->
        file_content tr (configuration_JSON_path ns)
        = file_content tr' (configuration_JSON_path ns'))
    /\ Json.dumps 4 true j = Json.dumps 4 false (sorted_tree j)
    /\ same_value j (sorted_tree j) = true
    /\ keys_sorted (sorted_tree j) = true
    /\ json_keys (sorted_tree j) = ["logging"; "parameters"; "run_type"; "version"]
    /\ (forall a b,
          distinct_keys a = true -> distinct_keys b = true ->
          same_value a b = true ->
          Json.dumps 4 true a = Json.dumps 4 true b)
    /\ (exists l p r v,
          json_get "logging" j = Some l /\ json_get "parameters" j = Some p
          /\ json_get "run_type" j = Some r /\ json_get "version" j = Some v
          /\ file_content tr (configuration_JSON_path ns)
             = Some ("{"
                     +:+ String Json.newline "    " +:+ String Json.dquote "logging"
                     +:+ String Json.dquote ": " +:+ Json.encode 4 true 1 l +:+ ","
                     +:+ String Json.newline "    " +:+ String Json.dquote "parameters"
                     +:+ String Json.dquote ": " +:+ Json.encode 4 true 1 p +:+ ","
                     +:+ String Json.newline "    " +:+ String Json.dquote "run_type"
                     +:+ String Json.dquote ": " +:+ Json.encode 4 true 1 r +:+ ","
                     +:+ String Json.newline "    " +:+ String Json.dquote "version"
                     +:+ String Json.dquote ": " +:+ Json.encode 4 true 1 v
                     +:+ String Json.newline "}"))
    /\ (exists text,
          file_content tr (configuration_JSON_path ns) = Some text
          /\ Reader.loads text = Some (sorted_tree j))
    /\ (forall a,
          distinct_keys a = true -> proper_floats a = true ->
          Reader.loads (Json.dumps 4 true a) = Some (sorted_tree a)
          /\ keys_sorted (sorted_tree a) = true).
Proof.
  intros Hin Hin' H H'.
  destruct (all_notebooks_ok _ _ _ _ Hin H)
    as (name & head & j & Hc & Hn & _ & Hd & Hk & Hfl).
  destruct (all_notebooks_ok _ _ _ _ Hin' H')
    as (name' & head' & j' & Hc' & Hn' & _ & Hd' & _).
  apply config_names_ok in Hn as [Hn1 Hn2].
  apply config_names_ok in Hn' as [Hn1' Hn2'].
  destruct (complete_run_files _ _ _ _ _ _ Hc Hn1 Hn2) as [Hf _].
  destruct (complete_run_files _ _ _ _ _ _ Hc' Hn1' Hn2') as [Hf' _].
  exists j, j'.
  split; [by destruct Hc as (_ & Hj & _)|].
  split; [by destruct Hc' as (_ & Hj & _)|].
  split; [exact Hf|]. split; [exact Hf'|].
  split.
  { intros E. rewrite Hf, Hf'. f_equal. by apply encode_same_value. }
  split; [apply encode_sorted_tree|].
  split; [by apply same_value_sorted_tree|].
  split; [apply keys_sorted_sorted_tree|].
  split; [exact Hk|].
  split; [intros a b Ha Hb E; by apply encode_same_value|].
  split.
  { destruct (top_level_text j Hd Hk) as (l & p & r & v & Hl & Hp & Hr & Hv & Ht).
    exists l, p, r, v. rewrite Hf, Ht. done. }
  split.
  { exists (Json.dumps 4 true j). split; [exact Hf|]. by apply loads_dumps. }
  intros a Ha Hp. split; [by apply loads_dumps|apply keys_sorted_sorted_tree].
Qed.

Lemma C8_sorted_deterministic_dump_witness :
  exists j j',
    snapshot demo_st (configuration demo_ns) = Some j
    /\ snapshot drd2_st (configuration drd2_ns) = Some j'
    /\ file_content demo_trace (configuration_JSON_path demo_ns)
       = Some (Json.dumps 4 true j)
    /\ file_content drd2_trace (configuration_JSON_path drd2_ns)
       = Some (Json.dumps 4 true j')
    /\ (same_value j j' = true ->
        file_content demo_trace (configuration_JSON_path demo_ns)
        = file_content drd2_trace (configuration_JSON_path drd2_ns))
    /\ Json.dumps 4 true j = Json.dumps 4 false (sorted_tree j)
    /\ same_value j (sorted_tree j) = true
    /\ keys_sorted (sorted_tree j) = true
    /\ json_keys (sorted_tree j) = ["logging"; "parameters"; "run_type"; "version"]
    /\ (forall a b,
          distinct_keys a = true -> distinct_keys b = true ->
          same_value a b = true ->
          Json.dumps 4 true a = Json.dumps 4 true b)
    /\ (exists l p r v,
          json_get "logging" j = Some l /\ json_get "parameters" j = Some p
          /\ json_get "run_type" j = Some r /\ json_get "version" j = Some v
          /\ file_content demo_trace (configuration_JSON_path demo_ns)
             = Some ("{"
                     +:+ String Json.newline "    " +:+ String Json.dquote "logging"
                     +:+ String Json.dquote ": " +:+ Json.encode 4 true 1 l +:+ ","
                     +:+ String Json.newline "    " +:+ String Json.dquote "parameters"
                     +:+ String Json.dquote ": " +:+ Json.encode 4 true 1 p +:+ ","
                     +:+ String Json.newline "    " +:+ String Json.dquote "run_type"
                     +:+ String Json.dquote ": " +:+ Json.encode 4 true 1 r +:+ ","
                     +:+ String Json.newline "    " +:+ String Json.dquote "version"
                     +:+ String Json.dquote ": " +:+ Json.encode 4 true 1 v
                     +:+ String Json.newline "}"))
    /\ (exists text,
          file_content demo_trace (configuration_JSON_path demo_ns) = Some text
          /\ Reader.loads text = Some (sorted_tree j))
    /\ (forall a,
          distinct_keys a = true -> proper_floats a = true ->
          Reader.loads (Json.dumps 4 true a) = Some (sorted_tree a)
          /\ keys_sorted (sorted_tree a) = true).
Proof.
  apply (C8_sorted_deterministic_dump
           Notebook_Tanimoto.notebook Notebook_DRD2.notebook
           demo_trace drd2_trace demo_ns drd2_ns demo_st drd2_st).
  - unfold all_notebooks, rl_notebooks. do 2 apply list_elem_of_further.
    apply list_elem_of_here.
  - unfold all_notebooks, rl_notebooks. apply list_elem_of_here.
  - exact demo_run.
  - exact drd2_run.
Defined.

(** The same entries inserted in two orders are written alike, and
    differently without [sort_keys]. *)
Example dump_insertion_order :
  let a := JDict [("version", JInt 3); ("run_type", JStr "sampling")] in
  let b := JDict [("run_type", JStr "sampling"); ("version", JInt 3)] in
  same_value a b = true
  /\ Json.dumps 4 true a = Json.dumps 4 true b
  /\ Json.dumps 4 false a <> Json.dumps 4 false b.
Proof. repeat split; try reflexivity. discriminate. Qed.

(** C5. In every complete run of every notebook the configuration is
    written to the file of its name in the output directory, and what
    the file holds in the end is the text that [json.dump] with
    indent 4 and sorted keys gives for the dictionary as it is in
    memory then.  Reading that text back with [json.load] succeeds and
    gives a value that is the same as the dictionary: the same entries,
    with the keys in sorted order.  This holds for every tree with
    distinct keys whose floats are written with a fraction; [True] and
    [False] are written [true] and [false] and read back as themselves. *)
Theorem C5_written_configuration_reads_back nbk tr ns st :
  nbk ∈ all_notebooks ->
  run (nbk []) tr (inr (ns, st)) ->
  exists name j text j',
    name ∈ config_names
    /\ configuration_JSON_path ns = os_path_join (output_dir (ns_paths ns)) [name]
    /\ snapshot st (configuration ns) = Some j
    /\ file_content tr (configuration_JSON_path ns) = Some text
    /\ text = Json.dumps 4 true j
    /\ Reader.loads text = Some j'
    /\ same_value j j' = true
    /\ j' = sorted_tree j
    /\ (forall a,
          distinct_keys a = true -> proper_floats a = true ->
          Reader.loads (Json.dumps 4 true a) = Some (sorted_tree a)
          /\ same_value a (sorted_tree a) = true)
    /\ (forall b,
          Json.dumps 4 true (JBool b) = (if b then "true" else "false")
          /\ Reader.loads (Json.dumps 4 true (JBool b)) = Some (JBool b)).
Proof.
  intros Hin H.
  destruct (all_notebooks_ok _ _ _ _ Hin H)
    as (name & head & j & Hc & Hn & _ & Hd & _ & Hfl).
  destruct (config_names_ok _ Hn) as [Hn1 Hn2].
  destruct (complete_run_files _ _ _ _ _ _ Hc Hn1 Hn2) as [Hf _].
  exists name, j, (Json.dumps 4 true j), (sorted_tree j).
  split; [exact Hn|].
  split; [by destruct Hc as (Hpath & _)|].
  split; [by destruct Hc as (_ & Hj & _)|].
  split; [exact Hf|]. split; [done|].
  split; [by apply loads_dumps|].
  split; [by apply same_value_sorted_tree|].
  split; [done|].
  split.
  - intros a Ha Hp. split; [by apply loads_dumps|by apply same_value_sorted_tree].
  - intros b. by destruct b.
Qed.

Lemma C5_written_configuration_reads_back_witness :
  exists name j text j',
    name ∈ config_names
    /\ configuration_JSON_path demo_ns
       = os_path_join (output_dir (ns_paths demo_ns)) [name]
    /\ snapshot demo_st (configuration demo_ns) = Some j
    /\ file_content demo_trace (configuration_JSON_path demo_ns) = Some text
    /\ text = Json.dumps 4 true j
    /\ Reader.loads text = Some j'
    /\ same_value j j' = true
    /\ j' = sorted_tree j
    /\ (forall a,
          distinct_keys a = true -> proper_floats a = true ->
          Reader.loads (Json.dumps 4 true a) = Some (sorted_tree a)
          /\ same_value a (sorted_tree a) = true)
    /\ (forall b,
          Json.dumps 4 true (JBool b) = (if b then "true" else "false")
          /\ Reader.loads (Json.dumps 4 true (JBool b)) = Some (JBool b)).
Proof.
  apply (C5_written_configuration_reads_back Notebook_Tanimoto.notebook
           demo_trace demo_ns demo_st).
  - unfold all_notebooks, rl_notebooks. do 2 apply list_elem_of_further.
    apply list_elem_of_here.
  - exact demo_run.
Defined.

(** The configuration file of the sample session, read back. *)
Example demo_configuration_read_back :
  (file_content demo_trace (configuration_JSON_path demo_ns) ≫= Reader.loads)
  = sorted_tree <$> snapshot demo_st (configuration demo_ns).
Proof. vm_compute. reflexivity. Qed.

(* ===================================================================== *)
(** * Further properties of the code *)
(* ===================================================================== *)

(** X1. A run of a notebook ends with an exception only when a request
    to the outside (the kernel's names, the file system, the shell,
    the cell output) was answered with that exception, and after that
    answer the run asks for nothing but the closing of files.  The
    notebooks' own handling of dictionaries and [json.dump] raises
    nothing: no [KeyError], [TypeError] or [ValueError] of their own. *)
Theorem failure_is_an_answer nbk tr x (o : exn + namespace * store) :
  nbk ∈ all_notebooks -> run (nbk []) tr o -> o = inl x ->
  exists pre ob post,
    tr = pre ++ ob :: post /\ obs_exn ob = Some x
    /\ Forall (fun ob => obs_is_close ob = true) post.
Proof.
  intros Hin H ->.
  destruct (all_notebooks_runs _ _ _ Hin H) as (p & name & j & stages & Hs & Hr & _).
  apply notebook_stages_tidy in Hs.
  destruct (tidy_seq_run _ _ _ _ Hs Hr) as (H1 & _). by apply H1.
Qed.

Lemma failure_is_an_answer_witness :
  exists pre ob post,
    broken_trace = pre ++ ob :: post /\ obs_exn ob = Some FileNotFoundError
    /\ Forall (fun ob => obs_is_close ob = true) post.
Proof.
  apply (failure_is_an_answer Notebook_Tanimoto.notebook broken_trace
           FileNotFoundError (inl FileNotFoundError)).
  - unfold all_notebooks, rl_notebooks. do 2 apply list_elem_of_further.
    apply list_elem_of_here.
  - exact broken_run.
  - reflexivity.
Defined.

(** X2. Whatever the answers and however a run of a notebook ends, it
    leaves no file open, unless closing a file itself failed: the
    [with] statements close the configuration file and [run.err] also
    when writing them raises. *)
Theorem no_file_left_open nbk tr (o : exn + namespace * store) :
  nbk ∈ all_notebooks -> run (nbk []) tr o -> closes_ok tr ->
  opened (fstate_after tr) = [].
Proof.
  intros Hin H Hc.
  destruct (all_notebooks_runs _ _ _ Hin H) as (p & name & j & stages & Hs & Hr & _).
  apply notebook_stages_tidy in Hs.
  destruct (tidy_seq_run _ _ _ _ Hs Hr) as (_ & H2 & _).
  apply H2; [by right|done].
Qed.

Lemma no_file_left_open_witness : opened (fstate_after demo_trace) = [].
Proof.
  apply (no_file_left_open Notebook_Tanimoto.notebook demo_trace
           (inr (demo_ns, demo_st))).
  - unfold all_notebooks, rl_notebooks. do 2 apply list_elem_of_further.
    apply list_elem_of_here.
  - exact demo_run.
  - reflexivity.
Defined.

(** X3. In every run of a notebook, complete or not, every file opened
    for writing is a file of the output folder: the configuration
    file, [run.err], or the DockStream configuration.  After a
    complete run the folder is the one [output_dir] names. *)
Theorem writes_stay_in_output_folder nbk tr (o : exn + namespace * store) :
  nbk ∈ all_notebooks -> run (nbk []) tr o ->
  exists folder,
    Forall (fun path => exists name,
              name ∈ written_names /\ path = os_path_join folder [name])
      (opens tr)
    /\ (forall ns st, o = inr (ns, st) -> folder = output_dir (ns_paths ns)).
Proof.
  intros Hin H.
  destruct (all_notebooks_runs _ _ _ Hin H) as (p & name & j & stages & Hs & Hr & He).
  apply notebook_stages_tidy in Hs.
  destruct (tidy_seq_run _ _ _ _ Hs Hr) as (_ & _ & H3).
  exists (output_dir p). split; [exact H3|].
  intros ns st Ho. by destruct (He ns st Ho) as [-> _].
Qed.

Lemma writes_stay_in_output_folder_witness :
  exists folder,
    Forall (fun path => exists name,
              name ∈ written_names /\ path = os_path_join folder [name])
      (opens demo_trace)
    /\ (forall ns st, (inr (demo_ns, demo_st) : exn + namespace * store) = inr (ns, st) ->
          folder = output_dir (ns_paths ns)).
Proof.
  apply (writes_stay_in_output_folder Notebook_Tanimoto.notebook demo_trace
           (inr (demo_ns, demo_st))).
  - unfold all_notebooks, rl_notebooks. do 2 apply list_elem_of_further.
    apply list_elem_of_here.
  - exact demo_run.
Defined.

(** X4. In every run of a notebook, complete or not, the first command
    given to the shell is the REINVENT command line for the
    configuration file of the output folder, and it is given only when
    that file holds the whole serialised configuration and is closed.
    A run that fails before gives the shell nothing. *)
Theorem launch_only_after_configuration nbk tr (o : exn + namespace * store)
    pre cmd (r : exn + string) post :
  nbk ∈ all_notebooks -> run (nbk []) tr o ->
  tr = pre ++ Obs (System cmd) r :: post -> commands pre = [] ->
  exists p name j,
    name ∈ config_names
    /\ cmd = reinvent_command p (os_path_join (output_dir p) [name])
    /\ file_content pre (os_path_join (output_dir p) [name])
       = Some (Json.dumps 4 true j)
    /\ distinct_keys j = true
    /\ json_keys (sorted_tree j) = top_level_keys
    /\ opened (fstate_after pre) = []
    /\ (forall ns st, o = inr (ns, st) ->
          ns_paths ns = p /\ snapshot st (configuration ns) = Some j).
Proof.
  intros Hin H Etr Hpre.
  destruct (all_notebooks_runs _ _ _ Hin H) as (p & name & j & stages & Hs & Hr & He).
  destruct Hs as (ps & conf & st & out & shown & hc & ho
                  & -> & Hps & Hj & Hd & Hk & Hn & Hh).
  exists p, name, j. split; [done|].
  assert (commands tr <> []) as Hne.
  { rewrite Etr. unfold commands. rewrite omap_app. simpl.
    by destruct (omap obs_command pre). }
  destruct (pre_stages_silent (output_dir p) _ _ _ _ Hps Hr)
    as [[Hr' _]|(t1 & t2 & Et & Hc & Ho & Hr')]; [done|].
  destruct (finish_stages_launch _ _ _ j _ _ _ _ _ _ _ Hj Hr')
    as [Hr2|(f & r' & rest & ->)].
  { destruct Hne. unfold commands in *. by rewrite Et, omap_app, Hc, Hr2. }
  rewrite Et in Etr. rewrite app_assoc in Etr.
  symmetry in Etr.
  apply first_command in Etr as [-> ->]; [|done|].
  2:{ unfold commands in *. by rewrite omap_app, Hc. }
  split; [done|].
  unfold file_content, fstate_after. rewrite fold_left_app.
  rewrite (fstate_session _ _ _ _ (Ho (FState [] []) eq_refl)). simpl.
  split; [apply dict_getitem_setitem_eq|].
  split; [exact Hd|]. split; [exact Hk|]. split; [reflexivity|exact He].
Qed.

Lemma launch_only_after_configuration_witness :
  exists pre cmd r post,
    demo_trace = pre ++ Obs (System cmd) r :: post /\ commands pre = []
    /\ exists p name j,
         name ∈ config_names
         /\ cmd = reinvent_command p (os_path_join (output_dir p) [name])
         /\ file_content pre (os_path_join (output_dir p) [name])
            = Some (Json.dumps 4 true j)
         /\ distinct_keys j = true
         /\ json_keys (sorted_tree j) = top_level_keys
         /\ opened (fstate_after pre) = []
         /\ (forall ns st, (inr (demo_ns, demo_st) : exn + namespace * store) = inr (ns, st) ->
               ns_paths ns = p /\ snapshot st (configuration ns) = Some j).
Proof.
  exists (take 9 demo_trace),
    (reinvent_command (ns_paths demo_ns) (configuration_JSON_path demo_ns)),
    (inr demo_stdout), (drop 10 demo_trace).
  split; [reflexivity|]. split; [reflexivity|].
  apply (launch_only_after_configuration Notebook_Tanimoto.notebook demo_trace
           (inr (demo_ns, demo_st)) (take 9 demo_trace) _ (inr demo_stdout)
           (drop 10 demo_trace)).
  - unfold all_notebooks, rl_notebooks. do 2 apply list_elem_of_further.
    apply list_elem_of_here.
  - exact demo_run.
  - reflexivity.
  - reflexivity.
Defined.

(** X5. In every complete run of every notebook the file [run.err] of
    the output folder holds in the end exactly the text that the
    REINVENT command gave on its standard output, the one kept in
    [captured_err_stream]; it is another file than the configuration
    file, which still holds the serialised configuration. *)
Theorem run_err_holds_stdout nbk tr ns st :
  nbk ∈ all_notebooks -> run (nbk []) tr (inr (ns, st)) ->
  Obs (System (reinvent_command (ns_paths ns) (configuration_JSON_path ns)))
      (inr (captured_err_stream ns)) ∈ tr
  /\ file_content tr (os_path_join (output_dir (ns_paths ns)) ["run.err"])
     = Some (captured_err_stream ns)
  /\ configuration_JSON_path ns
     <> os_path_join (output_dir (ns_paths ns)) ["run.err"]
  /\ exists j,
       snapshot st (configuration ns) = Some j
       /\ file_content tr (configuration_JSON_path ns)
          = Some (Json.dumps 4 true j).
Proof.
  intros Hin H.
  destruct (all_notebooks_ok _ _ _ _ Hin H) as (name & head & j & Hc & Hn & _).
  destruct (config_names_plain _ Hn) as [Hs Hne].
  destruct (complete_run_files _ _ _ _ _ _ Hc Hs Hne) as [Hf Hr].
  destruct Hc as (Hpath & Hj & pre & f1 & f2 & ho & -> & _).
  split.
  { apply elem_of_app. right. unfold tail_trace. simpl.
    do 3 apply list_elem_of_further. apply list_elem_of_here. }
  split; [exact Hr|]. split.
  { rewrite Hpath. intros E. apply os_path_join_inj in E; done. }
  by exists j.
Qed.

Lemma run_err_holds_stdout_witness :
  Obs (System (reinvent_command (ns_paths sampling_ns)
                 (configuration_JSON_path sampling_ns)))
      (inr (captured_err_stream sampling_ns)) ∈ sampling_trace
  /\ file_content sampling_trace
       (os_path_join (output_dir (ns_paths sampling_ns)) ["run.err"])
     = Some (captured_err_stream sampling_ns)
  /\ configuration_JSON_path sampling_ns
     <> os_path_join (output_dir (ns_paths sampling_ns)) ["run.err"]
  /\ exists j,
       snapshot sampling_st (configuration sampling_ns) = Some j
       /\ file_content sampling_trace (configuration_JSON_path sampling_ns)
          = Some (Json.dumps 4 true j).
Proof.
  apply (run_err_holds_stdout Notebook_Sampling.notebook sampling_trace
           sampling_ns sampling_st).
  - unfold all_notebooks, rl_notebooks. do 5 apply list_elem_of_further.
    apply list_elem_of_here.
  - exact sampling_run.
Defined.

(** X6. The DockStream notebook has no [if idx in idxs] in its
    comprehension: in every complete run it keeps every epoch that
    [findall] found, and prints each of them without its last line, in
    the order of the log. *)
Theorem DockStream_shows_every_epoch tr ns st :
  run (Notebook_DockStream.notebook []) tr (inr (ns, st)) ->
  exists l,
    l = Re.findall "INFO.*?local" (captured_err_stream ns)
    /\ list_epochs ns = Some l
    /\ data ns = Some (map drop_last_line l)
    /\ printed tr = map drop_last_line l
    /\ length (printed tr) = length l.
Proof.
  intros H. apply DockStream_ok in H as (j & Hc & [Hl Hd] & _).
  exists (Re.findall "INFO.*?local" (captured_err_stream ns)).
  split; [done|]. split; [exact Hl|].
  unfold shown_data in Hd. rewrite map_snd_enumerate in Hd.
  split; [exact Hd|].
  rewrite (complete_run_printed _ _ _ _ _ _ Hc), Hd. simpl.
  split; [done|]. by rewrite length_map.
Qed.

Lemma DockStream_shows_every_epoch_witness :
  exists l,
    l = Re.findall "INFO.*?local" (captured_err_stream dock_ns)
    /\ list_epochs dock_ns = Some l
    /\ data dock_ns = Some (map drop_last_line l)
    /\ printed dock_trace = map drop_last_line l
    /\ length (printed dock_trace) = length l.
Proof.
  apply (DockStream_shows_every_epoch dock_trace dock_ns dock_st).
  exact dock_run.
Defined.

(** X7. The comprehension [[epoch for idx, epoch in
    enumerate(list_epochs) if idx in idxs]] uses [idxs] as a set: what
    it keeps is a sublist of [list_epochs] in the order of the log,
    holding the epochs whose index is listed; the order of [idxs], an
    index listed twice and an index beyond the last epoch (no
    [IndexError]) make no difference. *)
Theorem select_epochs_by_membership idxs idxs' (l : list string) :
  (forall i, i < length l -> (i ∈ idxs <-> i ∈ idxs')) ->
  select_epochs idxs l = select_epochs idxs' l
  /\ sublist (select_epochs idxs l) l
  /\ (forall x, x ∈ select_epochs idxs l
                <-> exists i, i ∈ idxs /\ l !! i = Some x).
Proof.
  intros H. unfold select_epochs. split; [|split].
  - apply select_from_ext. intros i Hi.
    apply eq_true_iff_eq. rewrite !py_in_spec. apply H. lia.
  - apply select_from_sublist.
  - intros x. rewrite select_from_elem. split.
    + intros (i & Hi & _ & Hx). exists i. by rewrite Nat.sub_0_r in Hx.
    + intros (i & Hi & Hx). exists i. rewrite Nat.sub_0_r.
      split; [done|]. split; [lia|done].
Qed.

Lemma select_epochs_by_membership_witness :
  select_epochs [299; 1; 1; 0] ["a"; "b"; "c"] = select_epochs [0; 1] ["a"; "b"; "c"]
  /\ sublist (select_epochs [299; 1; 1; 0] ["a"; "b"; "c"]) ["a"; "b"; "c"]
  /\ (forall x, x ∈ select_epochs [299; 1; 1; 0] ["a"; "b"; "c"]
                <-> exists i, i ∈ [299; 1; 1; 0] /\ ["a"; "b"; "c"] !! i = Some x).
Proof.
  apply (select_epochs_by_membership [299; 1; 1; 0] [0; 1] ["a"; "b"; "c"]).
  intros i Hi. simpl in Hi. rewrite <- !py_in_spec.
  destruct i as [|[|[|i]]]; [reflexivity..|lia].
Defined.


(** X9. Each printed block has the newline as its only line boundary:
    whatever boundaries [splitlines] found in an epoch (carriage
    return, CR LF, form feed, ...), the lines are joined with newlines,
    and no line holds a boundary.  The empty text stays empty. *)
Theorem drop_last_line_newlines element :
  Forall (fun c => other_linebreak c = false) (chars (drop_last_line element))
  /\ drop_last_line "" = "".
Proof.
  split; [|reflexivity].
  unfold drop_last_line, all_but_last, Lines.splitlines.
  apply join_chars; [by repeat constructor|].
  apply Forall_removelast, Forall_map.
  eapply Forall_impl; [apply splitlines_go_lines; constructor|].
  intros line Hline. simpl. rewrite chars_str.
  eapply Forall_impl; [exact Hline|]. intros c Hc.
  unfold other_linebreak. by rewrite Hc.
Qed.



(** X11. The file that the last cell of a notebook shows with [head]
    is the one the configuration names: for the reinforcement-learning
    notebooks [memory.csv] (in the DRD2 use-case [scaffold_memory.csv])
    in the folder of the entry [logging.result_folder], for the
    sampling notebook the file of the entry
    [parameters.output_smiles_path].  The command is built from
    [output_dir] with a slash and the entry with [os.path.join]; the
    two agree as texts when [output_dir] is not empty and does not end
    with a slash. *)
Theorem shown_file_of_configuration nbk q suffix n tr ns st :
  (nbk, (q, suffix, n)) ∈ shown_files ->
  run (nbk []) tr (inr (ns, st)) ->
  output_dir (ns_paths ns) <> "" ->
  endswith_sep (output_dir (ns_paths ns)) = false ->
  exists j path out,
    snapshot st (configuration ns) = Some j
    /\ json_get_path q j = Some (JStr path)
    /\ last tr
       = Some (Obs (System ("head -n " +:+ n +:+ " " +:+ path +:+ suffix))
                   (inr out)).
Proof.
  unfold shown_files. intros Hin H Ho He.
  repeat (apply elem_of_cons in Hin as [[= -> -> -> ->]|Hin]).
  - apply DRD2_ok in H as (j & Hc & _ & Hb & _).
    destruct (DRD2_result_folder (ns_paths ns)) as (c & s & j' & Hb' & Hj' & Hf).
    rewrite Hb in Hb'. injection Hb' as <- <-.
    destruct (complete_run_last _ _ _ _ _ _ Hc) as [out Hl].
    exists j', (os_path_join (output_dir (ns_paths ns)) ["results"]), out.
    split; [exact Hj'|]. split; [exact Hf|].
    rewrite Hl. exact (head_results "3" "scaffold_memory.csv" _ out Ho He).
  - apply DockStream_files in H as (q & v & st0 & jd & j & He' & _ & Hb & _ & _ & Hc).
    destruct (DockStream_entries (ns_paths ns) q) as (c & s & j' & Hb' & Hj' & Hf & _).
    rewrite He' in Hb'. simpl in Hb'.
    rewrite Hb in Hb'. injection Hb' as <- <-.
    destruct (complete_run_last _ _ _ _ _ _ Hc) as [out Hl].
    exists j', (os_path_join (output_dir (ns_paths ns)) ["results"]), out.
    split; [exact Hj'|]. split; [exact Hf|].
    rewrite Hl. exact (head_results "15" "memory.csv" _ out Ho He).
  - apply Tanimoto_ok in H as (j & Hc & _ & Hb & _).
    destruct (Tanimoto_result_folder (ns_paths ns)) as (c & s & j' & Hb' & Hj' & Hf).
    rewrite Hb in Hb'. injection Hb' as <- <-.
    destruct (complete_run_last _ _ _ _ _ _ Hc) as [out Hl].
    exists j', (os_path_join (output_dir (ns_paths ns)) ["results"]), out.
    split; [exact Hj'|]. split; [exact Hf|].
    rewrite Hl. exact (head_results "15" "memory.csv" _ out Ho He).
  - apply Selectivity_ok in H as (j & Hc & _ & Hb & _).
    destruct (Selectivity_result_folder (ns_paths ns)) as (c & s & j' & Hb' & Hj' & Hf).
    rewrite Hb in Hb'. injection Hb' as <- <-.
    destruct (complete_run_last _ _ _ _ _ _ Hc) as [out Hl].
    exists j', (os_path_join (output_dir (ns_paths ns)) ["results"]), out.
    split; [exact Hj'|]. split; [exact Hf|].
    rewrite Hl. exact (head_results "15" "memory.csv" _ out Ho He).
  - apply Exploration_ok in H as (j & Hc & _ & Hb & _).
    destruct (Exploration_result_folder (ns_paths ns)) as (c & s & j' & Hb' & Hj' & Hf).
    rewrite Hb in Hb'. injection Hb' as <- <-.
    destruct (complete_run_last _ _ _ _ _ _ Hc) as [out Hl].
    exists j', (os_path_join (output_dir (ns_paths ns)) ["results"]), out.
    split; [exact Hj'|]. split; [exact Hf|].
    rewrite Hl. exact (head_results "15" "memory.csv" _ out Ho He).
  - apply Sampling_ok in H as (j & Hc & _ & _ & Hb & _).
    destruct (Sampling_output_path (ns_paths ns)) as (c & s & j' & Hb' & Hj' & Hf).
    rewrite Hb in Hb'. injection Hb' as <- <-.
    destruct (complete_run_last _ _ _ _ _ _ Hc) as [out Hl].
    exists j', (os_path_join (output_dir (ns_paths ns)) ["sampled"; "sampled.smi"]), out.
    split; [exact Hj'|]. split; [exact Hf|].
    rewrite Hl. exact (head_sampled "15" _ out Ho He).
  - by apply elem_of_nil in Hin.
Qed.

Lemma shown_file_of_configuration_witness :
  exists j path out,
    snapshot sampling_st (configuration sampling_ns) = Some j
    /\ json_get_path ["parameters"; "output_smiles_path"] j = Some (JStr path)
    /\ last sampling_trace
       = Some (Obs (System ("head -n " +:+ "15" +:+ " " +:+ path +:+ ""))
                   (inr out)).
Proof.
  apply (shown_file_of_configuration Notebook_Sampling.notebook
           ["parameters"; "output_smiles_path"] "" "15"
           sampling_trace sampling_ns sampling_st).
  - unfold shown_files. do 5 apply list_elem_of_further. apply list_elem_of_here.
  - exact sampling_run.
  - discriminate.
  - reflexivity.
Defined.

(** X12. In every complete run of the DockStream notebook the file
    [Glide_DockStream_Conf.json] of the output folder holds the
    dictionary [ed_dict] of the notebook, built from the answers that
    the run got for the grid file and the two result folders, as
    [json.dump] writes it with indent 2 and without [sort_keys]: the
    keys stay in the order of the display (which is not the sorted
    one), under the one top-level key [docking], and the text reads
    back as the very same tree.  The REINVENT configuration written
    afterwards names that file in the [configuration_path] of its
    DockStream scoring component, and the two files are different
    files. *)
Theorem DockStream_configuration_file tr ns st :
  run (Notebook_DockStream.notebook []) tr (inr (ns, st)) ->
  exists path jd j g dp ds v st0 asked rest,
    path = os_path_join (output_dir (ns_paths ns)) ["Glide_DockStream_Conf.json"]
    /\ tr = asked
            ++ [ Obs (Expanduser "~/Desktop/ReinventCommunity/notebooks/data/DockStream/1UYD_grid.zip")
                     (inr g);
                 Obs (Expanduser "~/Desktop/REINVENT_RL_DockStream_demo/docked_poses")
                     (inr dp);
                 Obs (Expanduser "~/Desktop/REINVENT_RL_DockStream_demo/docking_scores")
                     (inr ds) ]
            ++ rest
    /\ Forall (fun ob => obs_quiet ob = true) asked
    /\ eval (Notebook_DockStream.ed_dict_display g dp ds) [] = (v, st0)
    /\ snapshot st0 v = Some jd
    /\ file_content tr path = Some (Json.dumps 2 false jd)
    /\ json_keys jd = ["docking"]
    /\ keys_sorted jd = false
    /\ Reader.loads (Json.dumps 2 false jd) = Some jd
    /\ snapshot st (configuration ns) = Some j
    /\ json_at dockstream_configuration_path j = Some (JStr path)
    /\ file_content tr (configuration_JSON_path ns) = Some (Json.dumps 4 true j)
    /\ path <> configuration_JSON_path ns.
Proof.
  intros H.
  apply DockStream_files_asked in H
    as (q & v & st0 & jd & j & pre & rest & -> & Hs & He & Hjd & Hb & Hq & Hf & Hc).
  destruct (DockStream_ed_dict (Notebook_DockStream.grid_file_path q)
              (Notebook_DockStream.output_ligands_docked_poses_path q)
              (Notebook_DockStream.output_ligands_docking_scores_path q))
    as (v' & st' & jd' & He' & Hjd' & Hd & Hfl & Hks & Hkeys).
  rewrite He in He'. injection He' as <- <-.
  rewrite Hjd in Hjd'. injection Hjd' as <-.
  destruct (DockStream_entries (ns_paths ns) q) as (c & s & j' & Hb' & Hj' & _ & Hp).
  rewrite He in Hb'. simpl in Hb'. rewrite Hb in Hb'. injection Hb' as <- <-.
  assert (j' = j) as ->.
  { destruct Hc as (_ & Hj & _). rewrite Hj in Hj'. by injection Hj'. }
  destruct Hs as (dd & t1 & t2 & t3 & t4 & -> & H1 & H2 & H3 & H4 & _ & _).
  exists (Notebook_DockStream.docking_configuration_path q), jd, j.
  exists (Notebook_DockStream.grid_file_path q),
    (Notebook_DockStream.output_ligands_docked_poses_path q),
    (Notebook_DockStream.output_ligands_docking_scores_path q), v, st0.
  exists ([ Obs (Expanduser "~/Desktop/Reinvent") (inr (reinvent_dir (ns_paths ns)));
            Obs (Expanduser "~/miniconda3/envs/reinvent.v3.0")
                (inr (reinvent_env (ns_paths ns)));
            Obs (Expanduser "~/Desktop/ProjectData/DockStream") (inr dd);
            Obs (Expanduser "~/miniconda3/envs/DockStream/bin/python")
                (inr (Notebook_DockStream.dockstream_env q));
            Obs (Expanduser "~/Desktop/REINVENT_RL_DockStream_demo")
                (inr (output_dir (ns_paths ns))) ] ++ t1 ++ t2),
    (t3 ++ t4 ++ rest).
  split; [exact Hq|].
  split; [by rewrite <- ?app_assoc|].
  split.
  { apply Forall_app. split; [repeat constructor|].
    apply Forall_app. split.
    - destruct H1 as [->|(x & _ & ->)]; by repeat constructor.
    - destruct H2 as [->| ->]; by repeat constructor. }
  split; [exact He|]. split; [exact Hjd|].
  split; [exact Hf|]. split; [exact Hkeys|].
  split; [exact Hks|]. split; [by apply loads_dumps_unsorted|].
  split; [exact Hj'|]. split; [exact Hp|].
  assert (PyStr.startswith "RL_DockStream_config.json" "/" = false) as Hst by done.
  assert ("RL_DockStream_config.json" <> "run.err") as Hne by done.
  destruct (complete_run_files _ _ _ _ _ _ Hc Hst Hne) as [Hconf _].
  split; [exact Hconf|].
  destruct Hc as (Hpath & _). rewrite Hq, Hpath.
  intros E. apply os_path_join_inj in E; done.
Qed.

Lemma DockStream_configuration_file_witness :
  exists path jd j g dp ds v st0 asked rest,
    path = os_path_join (output_dir (ns_paths dock_ns)) ["Glide_DockStream_Conf.json"]
    /\ dock_trace
       = asked
         ++ [ Obs (Expanduser "~/Desktop/ReinventCommunity/notebooks/data/DockStream/1UYD_grid.zip")
                  (inr g);
              Obs (Expanduser "~/Desktop/REINVENT_RL_DockStream_demo/docked_poses")
                  (inr dp);
              Obs (Expanduser "~/Desktop/REINVENT_RL_DockStream_demo/docking_scores")
                  (inr ds) ]
         ++ rest
    /\ Forall (fun ob => obs_quiet ob = true) asked
    /\ eval (Notebook_DockStream.ed_dict_display g dp ds) [] = (v, st0)
    /\ snapshot st0 v = Some jd
    /\ file_content dock_trace path = Some (Json.dumps 2 false jd)
    /\ json_keys jd = ["docking"]
    /\ keys_sorted jd = false
    /\ Reader.loads (Json.dumps 2 false jd) = Some jd
    /\ snapshot dock_st (configuration dock_ns) = Some j
    /\ json_at dockstream_configuration_path j = Some (JStr path)
    /\ file_content dock_trace (configuration_JSON_path dock_ns)
       = Some (Json.dumps 4 true j)
    /\ path <> configuration_JSON_path dock_ns.
Proof.
  apply (DockStream_configuration_file dock_trace dock_ns dock_st).
  exact dock_run.
Defined.

(** X13. The five notebooks that build their configuration in place
    (DockStream, Tanimoto, selectivity, exploration, sampling) grow it
    one entry per cell: the cells after the first display run to the
    very construction of the notebook; each of them adds one key that
    was absent ([logging] and [parameters] at top level, then the four
    blocks under [parameters]) and leaves the tree otherwise as it was;
    [version] and [run_type] are in the end what the first display
    stored.  No cell overwrites an entry of an earlier one. *)
Theorem cells_add_one_entry p q g :
  g ∈ in_place_growths p q ->
  pure_run (grown (length (g_keys g)) g) (g_store g)
  = pure_run (g_build g) (g_store g)
  /\ (forall n path key,
        g_keys g !! n = Some (path, key) ->
        exists a b v,
          growth_stage n g = Some a
          /\ growth_stage (S n) g = Some b
          /\ json_get_path (path ++ [key]) a = None
          /\ json_get_path (path ++ [key]) b = Some v
          /\ b = json_set path key v a)
  /\ (exists j0 j,
        growth_stage 0 g = Some j0
        /\ growth_stage (length (g_keys g)) g = Some j
        /\ Forall (fun q => is_Some (json_get_path q j0)
                            /\ json_get_path q j = json_get_path q j0)
             [ ["version"]; ["run_type"] ]).
Proof.
  intros H. split; [by eapply growths_complete|].
  split; [|by eapply growths_first].
  unfold in_place_growths in H.
  repeat (apply elem_of_cons in H as [->|H]).
  - apply DockStream_adds.
  - apply Tanimoto_adds.
  - apply Selectivity_adds.
  - apply Exploration_adds.
  - apply Sampling_adds.
  - by apply elem_of_nil in H.
Qed.

Lemma cells_add_one_entry_witness :
  pure_run (grown (length (g_keys (Tanimoto_growth (ns_paths demo_ns))))
              (Tanimoto_growth (ns_paths demo_ns)))
    (g_store (Tanimoto_growth (ns_paths demo_ns)))
  = pure_run (g_build (Tanimoto_growth (ns_paths demo_ns)))
      (g_store (Tanimoto_growth (ns_paths demo_ns)))
  /\ (forall n path key,
        g_keys (Tanimoto_growth (ns_paths demo_ns)) !! n = Some (path, key) ->
        exists a b v,
          growth_stage n (Tanimoto_growth (ns_paths demo_ns)) = Some a
          /\ growth_stage (S n) (Tanimoto_growth (ns_paths demo_ns)) = Some b
          /\ json_get_path (path ++ [key]) a = None
          /\ json_get_path (path ++ [key]) b = Some v
          /\ b = json_set path key v a)
  /\ (exists j0 j,
        growth_stage 0 (Tanimoto_growth (ns_paths demo_ns)) = Some j0
        /\ growth_stage (length (g_keys (Tanimoto_growth (ns_paths demo_ns))))
             (Tanimoto_growth (ns_paths demo_ns)) = Some j
        /\ Forall (fun q => is_Some (json_get_path q j0)
                            /\ json_get_path q j = json_get_path q j0)
             [ ["version"]; ["run_type"] ]).
Proof.
  apply (cells_add_one_entry (ns_paths demo_ns)
           (Notebook_DockStream.DockPaths "" "" "" "" "" "")
           (Tanimoto_growth (ns_paths demo_ns))).
  unfold in_place_growths. apply list_elem_of_further, list_elem_of_here.
Defined.



(** X15. In every complete run of a notebook whose first cell is the
    common one, the run begins with exactly these requests: the
    expansions of [~/Desktop/Reinvent], of the environment path and of
    the notebook's [output_dir] text, whose answers are the three
    paths used from then on; the lookup of [ipynb_path], answered by
    the kernel or, after a [NameError], by [os.getcwd()]; and
    [os.mkdir(output_dir)], answered normally or with
    [FileExistsError].  The next request opens the configuration file:
    the folder is made or found before anything is written. *)
Theorem first_cell_requests nbk text tr ns st :
  (nbk, text) ∈ setup_notebooks ->
  run (nbk []) tr (inr (ns, st)) ->
  exists t1 t2 f rest,
    tr = [ Obs (Expanduser "~/Desktop/Reinvent") (inr (reinvent_dir (ns_paths ns)));
           Obs (Expanduser "~/miniconda3/envs/reinvent.v3.0")
               (inr (reinvent_env (ns_paths ns)));
           Obs (Expanduser text) (inr (output_dir (ns_paths ns))) ]
         ++ t1 ++ t2
         ++ Obs (OpenW (configuration_JSON_path ns)) (inr f) :: rest
    /\ (t1 = [Obs (NameLookup "ipynb_path") (inr (ipynb_path (ns_paths ns)))]
        \/ exists x, issubclass x NameError = true
                     /\ t1 = [Obs (NameLookup "ipynb_path") (inl x);
                              Obs Getcwd (inr (ipynb_path (ns_paths ns)))])
    /\ (t2 = [Obs (Mkdir (output_dir (ns_paths ns))) (inr tt)]
        \/ t2 = [Obs (Mkdir (output_dir (ns_paths ns))) (inl FileExistsError)]).
Proof.
  unfold setup_notebooks. intros Hin H.
  assert (exists pre f rest,
            tr = pre ++ Obs (OpenW (configuration_JSON_path ns)) (inr f) :: rest
            /\ setup_trace text (ns_paths ns) pre)
    as (pre & f & rest & -> & t1 & t2 & -> & H1 & H2).
  { repeat (apply elem_of_cons in Hin as [[= -> ->]|Hin]).
    - apply (rl_notebook_setup _ Notebook_DRD2.build _ _
               (fun od => "head -n 3 " +:+ od +:+ "/results/scaffold_memory.csv"))
        in H; [exact H|].
      intros p. destruct (DRD2_build p) as (c & s & j & -> & _). eauto.
    - apply (rl_notebook_setup _ Notebook_Tanimoto.build _ _ (head_memory "15"))
        in H; [exact H|].
      intros p. destruct (Tanimoto_build p) as (c & s & j & -> & _). eauto.
    - apply (rl_notebook_setup _ Notebook_Selectivity.build _ _ (head_memory "15"))
        in H; [exact H|].
      intros p. destruct (Selectivity_build p) as (c & s & j & -> & _). eauto.
    - apply (rl_notebook_setup _ Notebook_Exploration.build _ _ (head_memory "15"))
        in H; [exact H|].
      intros p. destruct (Exploration_build p) as (c & s & j & -> & _). eauto.
    - apply (sampling_notebook_setup _ Notebook_Sampling.build _
               (fun od => "head -n 15 " +:+ od +:+ "/sampled/sampled.smi"))
        in H; [exact H|].
      intros p. destruct (Sampling_build p) as (c & s & j & -> & _). eauto.
    - by apply elem_of_nil in Hin. }
  exists t1, t2, f, rest. split; [|by split].
  by rewrite <- !app_assoc.
Qed.

Lemma first_cell_requests_witness :
  exists t1 t2 f rest,
    demo_trace
    = [ Obs (Expanduser "~/Desktop/Reinvent") (inr (reinvent_dir (ns_paths demo_ns)));
        Obs (Expanduser "~/miniconda3/envs/reinvent.v3.0")
            (inr (reinvent_env (ns_paths demo_ns)));
        Obs (Expanduser "~/Desktop/REINVENT_RL_Tanimoto_Similarity_demo")
            (inr (output_dir (ns_paths demo_ns))) ]
      ++ t1 ++ t2
      ++ Obs (OpenW (configuration_JSON_path demo_ns)) (inr f) :: rest
    /\ (t1 = [Obs (NameLookup "ipynb_path") (inr (ipynb_path (ns_paths demo_ns)))]
        \/ exists x, issubclass x NameError = true
                     /\ t1 = [Obs (NameLookup "ipynb_path") (inl x);
                              Obs Getcwd (inr (ipynb_path (ns_paths demo_ns)))])
    /\ (t2 = [Obs (Mkdir (output_dir (ns_paths demo_ns))) (inr tt)]
        \/ t2 = [Obs (Mkdir (output_dir (ns_paths demo_ns))) (inl FileExistsError)]).
Proof.
  apply (first_cell_requests Notebook_Tanimoto.notebook
           "~/Desktop/REINVENT_RL_Tanimoto_Similarity_demo"
           demo_trace demo_ns demo_st).
  - unfold setup_notebooks. apply list_elem_of_further, list_elem_of_here.
  - exact demo_run.
Defined.

(** X16. The sampling notebook parses nothing: in every complete run it
    prints nothing and never assigns [list_epochs] or [data]; it only
    keeps the captured output in [run.err] and gives the shell its two
    commands, REINVENT and the [head] of the sampled SMILES. *)
Theorem Sampling_shows_no_epochs tr ns st :
  run (Notebook_Sampling.notebook []) tr (inr (ns, st)) ->
  printed tr = []
  /\ list_epochs ns = None /\ data ns = None
  /\ commands tr
     = [ reinvent_command (ns_paths ns) (configuration_JSON_path ns);
         "head -n 15 " +:+ output_dir (ns_paths ns) +:+ "/sampled/sampled.smi" ]
  /\ file_content tr (os_path_join (output_dir (ns_paths ns)) ["run.err"])
     = Some (captured_err_stream ns).
Proof.
  intros H. apply Sampling_ok in H as (j & Hc & Hl & Hd & _).
  split. { rewrite (complete_run_printed _ _ _ _ _ _ Hc), Hd. done. }
  split; [exact Hl|]. split; [exact Hd|].
  split; [exact (complete_run_commands _ _ _ _ _ _ Hc)|].
  by apply (complete_run_files _ _ _ _ _ _ Hc).
Qed.

Lemma Sampling_shows_no_epochs_witness :
  printed sampling_trace = []
  /\ list_epochs sampling_ns = None /\ data sampling_ns = None
  /\ commands sampling_trace
     = [ reinvent_command (ns_paths sampling_ns) (configuration_JSON_path sampling_ns);
         "head -n 15 " +:+ output_dir (ns_paths sampling_ns) +:+ "/sampled/sampled.smi" ]
  /\ file_content sampling_trace
       (os_path_join (output_dir (ns_paths sampling_ns)) ["run.err"])
     = Some (captured_err_stream sampling_ns).
Proof.
  apply (Sampling_shows_no_epochs sampling_trace sampling_ns sampling_st).
  exact sampling_run.
Defined.

(** X17. What a notebook with the common first cell writes as its
    configuration depends on the four paths only: two complete runs of
    it that got the same paths (on a fresh or a used kernel, with the
    output folder there or not, whatever REINVENT printed) build the
    same dictionary, in the same objects, and leave the same text in
    the same configuration file. *)
Theorem same_paths_same_configuration nbk text tr tr' ns ns' st st' :
  (nbk, text) ∈ setup_notebooks ->
  run (nbk []) tr (inr (ns, st)) ->
  run (nbk []) tr' (inr (ns', st')) ->
  ns_paths ns = ns_paths ns' ->
  configuration ns = configuration ns' /\ st = st'
  /\ configuration_JSON_path ns = configuration_JSON_path ns'
  /\ exists text,
       file_content tr (configuration_JSON_path ns) = Some text
       /\ file_content tr' (configuration_JSON_path ns') = Some text.
Proof.
  intros Hin H H' Hp.
  destruct (setup_notebooks_build _ _ _ _ _ Hin H)
    as (build & name & head & j & Hb & Hc & Hs & Hne & Hall).
  destruct (Hall _ _ _ H') as (j' & Hb' & Hc').
  rewrite <- Hp, Hb in Hb'. injection Hb' as Econf Est.
  destruct (complete_run_files _ _ _ _ _ _ Hc Hs Hne) as [Hf _].
  destruct (complete_run_files _ _ _ _ _ _ Hc' Hs Hne) as [Hf' _].
  destruct Hc as (Hpath & Hj & _). destruct Hc' as (Hpath' & Hj' & _).
  split; [exact Econf|]. split; [exact Est|].
  split; [by rewrite Hpath, Hpath', Hp|].
  exists (Json.dumps 4 true j). split; [exact Hf|].
  rewrite Hf'. rewrite <- Econf, <- Est, Hj in Hj'. by injection Hj' as <-.
Qed.

Lemma same_paths_same_configuration_witness :
  configuration demo_ns = configuration again_ns /\ demo_st = again_st
  /\ configuration_JSON_path demo_ns = configuration_JSON_path again_ns
  /\ exists text,
       file_content demo_trace (configuration_JSON_path demo_ns) = Some text
       /\ file_content again_trace (configuration_JSON_path again_ns) = Some text.
Proof.
  apply (same_paths_same_configuration Notebook_Tanimoto.notebook
           "~/Desktop/REINVENT_RL_Tanimoto_Similarity_demo"
           demo_trace again_trace demo_ns again_ns demo_st again_st).
  - unfold setup_notebooks. apply list_elem_of_further, list_elem_of_here.
  - exact demo_run.
  - exact again_run.
  - reflexivity.
Defined.

(** X18. In every complete run of the DockStream notebook the first
    cell asks, in this order, for the expansions of its five texts,
    for [ipynb_path] (from the kernel, or after a [NameError] from
    [os.getcwd()]), for [os.mkdir(output_dir)], for the expansions of
    the grid file and of the two result folders, and for the
    [os.mkdir] of these two folders, each answered normally or with
    [FileExistsError]; the next request opens
    [Glide_DockStream_Conf.json] in the output folder.  The DockStream
    dictionary written there names its two result files inside the
    two folders that were just made: [docked_poses.sdf] and
    [docking_scores.csv]. *)
Theorem DockStream_first_cell_requests tr ns st :
  run (Notebook_DockStream.notebook []) tr (inr (ns, st)) ->
  exists q dockstream_dir t1 t2 t3 t4 f jd rest,
    tr = [ Obs (Expanduser "~/Desktop/Reinvent") (inr (reinvent_dir (ns_paths ns)));
           Obs (Expanduser "~/miniconda3/envs/reinvent.v3.0")
               (inr (reinvent_env (ns_paths ns)));
           Obs (Expanduser "~/Desktop/ProjectData/DockStream") (inr dockstream_dir);
           Obs (Expanduser "~/miniconda3/envs/DockStream/bin/python")
               (inr (Notebook_DockStream.dockstream_env q));
           Obs (Expanduser "~/Desktop/REINVENT_RL_DockStream_demo")
               (inr (output_dir (ns_paths ns))) ]
         ++ t1 ++ t2
         ++ [ Obs (Expanduser "~/Desktop/ReinventCommunity/notebooks/data/DockStream/1UYD_grid.zip")
                  (inr (Notebook_DockStream.grid_file_path q));
              Obs (Expanduser "~/Desktop/REINVENT_RL_DockStream_demo/docked_poses")
                  (inr (Notebook_DockStream.output_ligands_docked_poses_path q));
              Obs (Expanduser "~/Desktop/REINVENT_RL_DockStream_demo/docking_scores")
                  (inr (Notebook_DockStream.output_ligands_docking_scores_path q)) ]
         ++ t3 ++ t4
         ++ [ Obs (OpenW (os_path_join (output_dir (ns_paths ns))
                            ["Glide_DockStream_Conf.json"])) (inr f);
              Obs (FWrite f (Json.dumps 2 false jd)) (inr tt) ]
         ++ rest
    /\ (t1 = [Obs (NameLookup "ipynb_path") (inr (ipynb_path (ns_paths ns)))]
        \/ exists x, issubclass x NameError = true
                     /\ t1 = [Obs (NameLookup "ipynb_path") (inl x);
                              Obs Getcwd (inr (ipynb_path (ns_paths ns)))])
    /\ (t2 = [Obs (Mkdir (output_dir (ns_paths ns))) (inr tt)]
        \/ t2 = [Obs (Mkdir (output_dir (ns_paths ns))) (inl FileExistsError)])
    /\ (t3 = [Obs (Mkdir (Notebook_DockStream.output_ligands_docked_poses_path q))
                  (inr tt)]
        \/ t3 = [Obs (Mkdir (Notebook_DockStream.output_ligands_docked_poses_path q))
                     (inl FileExistsError)])
    /\ (t4 = [Obs (Mkdir (Notebook_DockStream.output_ligands_docking_scores_path q))
                  (inr tt)]
        \/ t4 = [Obs (Mkdir (Notebook_DockStream.output_ligands_docking_scores_path q))
                     (inl FileExistsError)])
    /\ json_at poses_path jd
       = Some (JStr (os_path_join
                       (Notebook_DockStream.output_ligands_docked_poses_path q)
                       ["docked_poses.sdf"]))
    /\ json_at scores_path jd
       = Some (JStr (os_path_join
                       (Notebook_DockStream.output_ligands_docking_scores_path q)
                       ["docking_scores.csv"])).
Proof.
  intros H.
  apply DockStream_first_cell in H
    as (q & pre & f & jd & rest & -> & Hs & Hposes & Hscores).
  destruct Hs as (dd & t1 & t2 & t3 & t4 & -> & H1 & H2 & H3 & H4 & _ & Hq).
  exists q, dd, t1, t2, t3, t4, f, jd, rest.
  split; [|by repeat split].
  rewrite Hq, <- ?app_assoc. simpl. rewrite <- ?app_assoc. reflexivity.
Qed.

Lemma DockStream_first_cell_requests_witness :
  exists q dockstream_dir t1 t2 t3 t4 f jd rest,
    dock_trace
    = [ Obs (Expanduser "~/Desktop/Reinvent") (inr (reinvent_dir (ns_paths dock_ns)));
        Obs (Expanduser "~/miniconda3/envs/reinvent.v3.0")
            (inr (reinvent_env (ns_paths dock_ns)));
        Obs (Expanduser "~/Desktop/ProjectData/DockStream") (inr dockstream_dir);
        Obs (Expanduser "~/miniconda3/envs/DockStream/bin/python")
            (inr (Notebook_DockStream.dockstream_env q));
        Obs (Expanduser "~/Desktop/REINVENT_RL_DockStream_demo")
            (inr (output_dir (ns_paths dock_ns))) ]
      ++ t1 ++ t2
      ++ [ Obs (Expanduser "~/Desktop/ReinventCommunity/notebooks/data/DockStream/1UYD_grid.zip")
               (inr (Notebook_DockStream.grid_file_path q));
           Obs (Expanduser "~/Desktop/REINVENT_RL_DockStream_demo/docked_poses")
               (inr (Notebook_DockStream.output_ligands_docked_poses_path q));
           Obs (Expanduser "~/Desktop/REINVENT_RL_DockStream_demo/docking_scores")
               (inr (Notebook_DockStream.output_ligands_docking_scores_path q)) ]
      ++ t3 ++ t4
      ++ [ Obs (OpenW (os_path_join (output_dir (ns_paths dock_ns))
                         ["Glide_DockStream_Conf.json"])) (inr f);
           Obs (FWrite f (Json.dumps 2 false jd)) (inr tt) ]
      ++ rest
    /\ (t1 = [Obs (NameLookup "ipynb_path") (inr (ipynb_path (ns_paths dock_ns)))]
        \/ exists x, issubclass x NameError = true
                     /\ t1 = [Obs (NameLookup "ipynb_path") (inl x);
                              Obs Getcwd (inr (ipynb_path (ns_paths dock_ns)))])
    /\ (t2 = [Obs (Mkdir (output_dir (ns_paths dock_ns))) (inr tt)]
        \/ t2 = [Obs (Mkdir (output_dir (ns_paths dock_ns))) (inl FileExistsError)])
    /\ (t3 = [Obs (Mkdir (Notebook_DockStream.output_ligands_docked_poses_path q))
                  (inr tt)]
        \/ t3 = [Obs (Mkdir (Notebook_DockStream.output_ligands_docked_poses_path q))
                     (inl FileExistsError)])
    /\ (t4 = [Obs (Mkdir (Notebook_DockStream.output_ligands_docking_scores_path q))
                  (inr tt)]
        \/ t4 = [Obs (Mkdir (Notebook_DockStream.output_ligands_docking_scores_path q))
                     (inl FileExistsError)])
    /\ json_at poses_path jd
       = Some (JStr (os_path_join
                       (Notebook_DockStream.output_ligands_docked_poses_path q)
                       ["docked_poses.sdf"]))
    /\ json_at scores_path jd
       = Some (JStr (os_path_join
                       (Notebook_DockStream.output_ligands_docking_scores_path q)
                       ["docking_scores.csv"])).
Proof.
  apply (DockStream_first_cell_requests dock_trace dock_ns dock_st).
  exact dock_run.
Defined.

(** X19. In every run of a notebook, complete or not, the shell is
    given at most two commands: first the REINVENT command line for
    the configuration file of the output folder, and then one [head].
    A run with both commands has this order: nothing is given to the
    shell before the REINVENT command line; REINVENT answers with its
    output; [run.err] of the output folder is opened, gets that
    output and is closed; the blocks are printed, each print
    answered; and [head] is the last request of the run.  So REINVENT
    is launched at most once, also in a run that fails; a complete run
    gives both commands. *)
Theorem at_most_one_launch nbk tr (o : exn + namespace * store) :
  nbk ∈ all_notebooks -> run (nbk []) tr o ->
  exists p name head_cmd,
    name ∈ config_names
    /\ PyStr.startswith head_cmd "head -n " = true
    /\ (commands tr = []
        \/ commands tr = [reinvent_command p (os_path_join (output_dir p) [name])]
        \/ (commands tr
            = [reinvent_command p (os_path_join (output_dir p) [name]); head_cmd]
            /\ exists pre out f shown r,
                 tr = pre
                      ++ Obs (System (reinvent_command p
                                        (os_path_join (output_dir p) [name])))
                             (inr out)
                      :: Obs (OpenW (os_path_join (output_dir p) ["run.err"])) (inr f)
                      :: Obs (FWrite f out) (inr tt)
                      :: Obs (FClose f) (inr tt)
                      :: map (fun element => Obs (Print element) (inr tt)) shown
                      ++ [Obs (System head_cmd) r]
                 /\ commands pre = []
                 /\ exn_of o = match r with inl x => Some x | inr _ => None end))
    /\ (forall ns st, o = inr (ns, st) ->
          ns_paths ns = p
          /\ commands tr
             = [reinvent_command p (os_path_join (output_dir p) [name]); head_cmd]).
Proof.
  intros Hin H.
  destruct (all_notebooks_runs _ _ _ Hin H) as (p & name & j & stages & Hs & Hr & He).
  destruct Hs as (ps & conf & st & out & shown & hc & ho
                  & -> & Hps & Hj & Hd & Hk & Hn & Hh).
  exists p, name, hc. split; [exact Hn|]. split; [exact Hh|].
  destruct (pre_stages_silent (output_dir p) _ _ _ _ Hps Hr)
    as [[Hc Hno]|(t1 & t2 & -> & Hc & _ & Hr')].
  - split; [by left|]. intros ns st' ->. by destruct Hno.
  - destruct (finish_stages_commands _ _ _ j _ _ _ _ _ _ _ Hj Hr') as [Hall Hany].
    assert (commands (t1 ++ t2) = commands t2) as E.
    { unfold commands in *. by rewrite omap_app, Hc. }
    rewrite E. split.
    + destruct (finish_stages_shape _ _ _ j _ _ _ _ _ _ _ Hj Hr')
        as [H0|[H1|(f1 & f2 & r & -> & Ho)]]; [by left|by right; left|].
      right. right. split.
      { unfold commands. simpl. rewrite omap_app.
        fold (commands (map (fun element => Obs (Print element) (inr tt)) shown)).
        by rewrite commands_prints. }
      exists (t1 ++ [ Obs (OpenW (os_path_join (output_dir p) [name])) (inr f1);
                      Obs (FWrite f1 (Json.dumps 4 true j)) (inr tt);
                      Obs (FClose f1) (inr tt) ]), out, f2, shown, r.
      split; [by rewrite <- app_assoc|].
      split; [|exact Ho].
      unfold commands in *. by rewrite omap_app, Hc.
    + intros ns st' ->. destruct (He ns st' eq_refl) as [Hp _].
      split; [exact Hp|]. by apply Hall.
Qed.

Lemma at_most_one_launch_witness :
  exists p name head_cmd,
    name ∈ config_names
    /\ PyStr.startswith head_cmd "head -n " = true
    /\ (commands demo_trace = []
        \/ commands demo_trace
           = [reinvent_command p (os_path_join (output_dir p) [name])]
        \/ (commands demo_trace
            = [reinvent_command p (os_path_join (output_dir p) [name]); head_cmd]
            /\ exists pre out f shown r,
                 demo_trace
                 = pre
                   ++ Obs (System (reinvent_command p
                                     (os_path_join (output_dir p) [name])))
                          (inr out)
                   :: Obs (OpenW (os_path_join (output_dir p) ["run.err"])) (inr f)
                   :: Obs (FWrite f out) (inr tt)
                   :: Obs (FClose f) (inr tt)
                   :: map (fun element => Obs (Print element) (inr tt)) shown
                   ++ [Obs (System head_cmd) r]
                 /\ commands pre = []
                 /\ exn_of (inr (demo_ns, demo_st) : exn + namespace * store)
                    = match r with inl x => Some x | inr _ => None end))
    /\ (forall ns st,
          (inr (demo_ns, demo_st) : exn + namespace * store) = inr (ns, st) ->
          ns_paths ns = p
          /\ commands demo_trace
             = [reinvent_command p (os_path_join (output_dir p) [name]); head_cmd]).
Proof.
  apply (at_most_one_launch Notebook_Tanimoto.notebook demo_trace
           (inr (demo_ns, demo_st))).
  - unfold all_notebooks, rl_notebooks. do 2 apply list_elem_of_further.
    apply list_elem_of_here.
  - exact demo_run.
Defined.
